(** * cc-profile: capture, correlation and span assembly

  A shallow embedding of the tracing core of cc-profile:
  - [hooks/orchestrator.cjs]      the hook orchestrator,
  - [src/spawn-preload.cjs]       the spawn and fetch interceptors and the
                                  tool-use correlator,
  - [src/otel-tracer.ts]          the tracer singleton,
  - [src/otlp-json-exporter.ts]   the JSONL exporter,
  - [src/otlp-html-generator.ts]  the report materializer,
  - [src/otlp-parser.ts]          the part of the viewer's parser that
                                  decides the empty state.

  JavaScript values are modelled by the type [JS.value]; strings are
  sequences of 8-bit code units (they coincide with JavaScript strings on
  ASCII text); numbers are exact rationals standing for the doubles of the
  runtime.  Effects (file system, child processes, console, random
  identifiers) are threaded explicitly. *)

From Stdlib Require Import ZArith QArith Qround Qabs List String Ascii Bool Lia.
From Stdlib Require Import DecimalString Lqa.
Import ListNotations.

Set Warnings "-register-all,-abstract-large-number".

Local Open Scope string_scope.
Local Open Scope Z_scope.

(* ================================================================== *)
(** * Strings of the runtime *)
(* ================================================================== *)

Module Str.

Definition dq : string := String "034"%char EmptyString.
Definition nl : string := String "010"%char EmptyString.
Definition bslash : string := String "092"%char EmptyString.

Definition of_list (l : list ascii) : string := string_of_list_ascii l.
Definition to_list (s : string) : list ascii := list_ascii_of_string s.

Definition eqb_ascii (a b : ascii) : bool := Ascii.eqb a b.

(** [String.prototype.startsWith] *)
Definition startsWith (s p : string) : bool := String.prefix p s.

(** [String.prototype.includes] *)
Fixpoint includes (s p : string) : bool :=
  String.prefix p s ||
  match s with
  | EmptyString => false
  | String _ s' => includes s' p
  end.

Fixpoint drop (n : nat) (s : string) : string :=
  match n, s with
  | O, _ => s
  | S n', String _ s' => drop n' s'
  | S _, EmptyString => EmptyString
  end.

Fixpoint take (n : nat) (s : string) : string :=
  match n, s with
  | S n', String c s' => String c (take n' s')
  | _, _ => EmptyString
  end.

(** [s.substring(n)] for a non-negative [n] *)
Definition substring_from (n : nat) (s : string) : string := drop n s.

(** [s.substring(0, n)] for a non-negative [n] *)
Definition substring_to (n : nat) (s : string) : string := take n s.

(** [s.slice(0, -n)] for a positive [n] *)
Definition slice_drop_last (n : nat) (s : string) : string :=
  take (String.length s - n) s.

(** White space removed by [String.prototype.trim] (ASCII part). *)
Definition is_ws (c : ascii) : bool :=
  let n := nat_of_ascii c in
  (Nat.eqb n 9 || Nat.eqb n 10 || Nat.eqb n 11 || Nat.eqb n 12
   || Nat.eqb n 13 || Nat.eqb n 32)%bool.

Fixpoint trimStart (s : string) : string :=
  match s with
  | String c s' => if is_ws c then trimStart s' else s
  | EmptyString => EmptyString
  end.

Fixpoint drop_ws_list (l : list ascii) : list ascii :=
  match l with
  | c :: l' => if is_ws c then drop_ws_list l' else l
  | [] => []
  end.

Definition trimEnd (s : string) : string :=
  of_list (rev (drop_ws_list (rev (to_list s)))).

(** [String.prototype.trim] *)
Definition trim (s : string) : string := trimEnd (trimStart s).

Definition is_empty (s : string) : bool :=
  match s with EmptyString => true | _ => false end.

(** [s.split(sep)] for a non-empty string separator.  [skip] counts the
    characters of a separator still to be passed over, [cur] is the piece
    being read, in reverse. *)
Fixpoint split_go (sep s : string) (skip : nat) (cur : list ascii)
  : list string :=
  match s with
  | EmptyString => [of_list (rev cur)]
  | String c s' =>
      match skip with
      | S k => split_go sep s' k cur
      | O =>
          if String.prefix sep s
          then of_list (rev cur) :: split_go sep s' (String.length sep - 1) []
          else split_go sep s' 0 (c :: cur)
      end
  end.

Definition split (s sep : string) : list string := split_go sep s 0 [].

Fixpoint join (sep : string) (l : list string) : string :=
  match l with
  | [] => EmptyString
  | [x] => x
  | x :: l' => x ++ sep ++ join sep l'
  end.

(** Position of the first occurrence of [p] in [s]: the text before it and
    the text after it. *)
Fixpoint find_first (p s : string) (skipped : list ascii)
  : option (string * string) :=
  if String.prefix p s
  then Some (of_list (rev skipped), drop (String.length p) s)
  else match s with
       | EmptyString => None
       | String c s' => find_first p s' (c :: skipped)
       end.

(** Expansion of the replacement text of [String.prototype.replace]
    (GetSubstitution, no capture groups): [$$], [$&], [$`] and [$']. *)
Fixpoint expand (repl matched before after : string) : string :=
  match repl with
  | EmptyString => EmptyString
  | String c r =>
      if eqb_ascii c "$"%char then
        match r with
        | String d r' =>
            if eqb_ascii d "$"%char then String "$"%char (expand r' matched before after)
            else if eqb_ascii d "&"%char then matched ++ expand r' matched before after
            else if eqb_ascii d "`"%char then before ++ expand r' matched before after
            else if eqb_ascii d "'"%char then after ++ expand r' matched before after
            else String c (expand r matched before after)
        | EmptyString => String c EmptyString
        end
      else String c (expand r matched before after)
  end.

(** [s.replace(p, repl)] with a string pattern: the first occurrence only. *)
Definition replace_first (s p repl : string) : string :=
  match find_first p s [] with
  | Some (before, after) => before ++ expand repl p before after ++ after
  | None => s
  end.

(** [s.replace(/p/g, repl)] for a pattern [p] that is a literal,
    non-empty text: every occurrence, left to right, not overlapping.
    [before] is the text already passed, in reverse. *)
Fixpoint replace_all_go (p repl : string) (s : string) (skip : nat)
         (before : list ascii) : string :=
  match s with
  | EmptyString => EmptyString
  | String c s' =>
      match skip with
      | S k => replace_all_go p repl s' k (c :: before)
      | O =>
          if String.prefix p s
          then expand repl p (of_list (rev before)) (drop (String.length p) s)
               ++ replace_all_go p repl s' (String.length p - 1) (c :: before)
          else String c (replace_all_go p repl s' 0 (c :: before))
      end
  end.

Definition replace_all (s p repl : string) : string :=
  replace_all_go p repl s 0 [].

End Str.


(* ================================================================== *)
(** * Values and primitives of the JavaScript runtime *)
(* ================================================================== *)

Module JS.

(** Values.  An object is the list of its own properties in property
    order.  [VNum] carries an exact rational, [VNaN] is the number NaN. *)
Inductive value : Type :=
| VUndef
| VNull
| VBool (b : bool)
| VNum (q : Q)
| VNaN
| VStr (s : string)
| VArr (l : list value)
| VObj (o : list (string * value)).

Definition props := list (string * value).

(** Completion of an operation that can throw. *)
Inductive result (A : Type) : Type :=
| Ok (a : A)
| Throw (e : string).
Arguments Ok {A} a.
Arguments Throw {A} e.

Definition bind {A B} (r : result A) (k : A -> result B) : result B :=
  match r with
  | Ok a => k a
  | Throw e => Throw e
  end.

Declare Scope js_scope.
Delimit Scope js_scope with js.
Notation "x <- r ;; k" := (bind r (fun x => k))
  (at level 100, r at next level, right associativity) : js_scope.

Definition num (z : Z) : value := VNum (inject_Z z).
Definition str (s : string) : value := VStr s.

(** ToBoolean *)
Definition truthy (v : value) : bool :=
  match v with
  | VUndef | VNull | VNaN => false
  | VBool b => b
  | VNum q => negb (Qeq_bool q 0)
  | VStr s => negb (Str.is_empty s)
  | VArr _ | VObj _ => true
  end.

Definition nullish (v : value) : bool :=
  match v with
  | VUndef | VNull => true
  | _ => false
  end.

(** [a || b], [a && b] and [a ?? b] on values already computed *)
Definition or_else (a b : value) : value := if truthy a then a else b.
Definition and_then (a b : value) : value := if truthy a then b else a.
Definition coalesce (a b : value) : value := if nullish a then b else a.

(** [a === b] for two values that are not the same object: arrays and
    objects are compared by identity, so two distinct ones differ. *)
Definition strict_eq (a b : value) : bool :=
  match a, b with
  | VUndef, VUndef => true
  | VNull, VNull => true
  | VBool x, VBool y => Bool.eqb x y
  | VNum x, VNum y => Qeq_bool x y
  | VStr x, VStr y => String.eqb x y
  | _, _ => false
  end.

Definition is_string (v : value) : bool :=
  match v with VStr _ => true | _ => false end.

Definition isArray (v : value) : bool :=
  match v with VArr _ => true | _ => false end.

(** ** Numbers as text *)

Definition Z_to_string (z : Z) : string := NilZero.string_of_int (Z.to_int z).

(** Decimal digits of [r / d] for [0 <= r < d], at most [fuel] of them. *)
Fixpoint frac_digits (fuel : nat) (r d : Z) : string :=
  match fuel with
  | O => EmptyString
  | S f =>
      if r =? 0 then EmptyString
      else Z_to_string ((r * 10) / d) ++ frac_digits f ((r * 10) mod d) d
  end.

(** Number::toString in decimal notation (the runtime switches to the
    exponent notation below 1e-6 and from 1e21 on, and prints at most 17
    significant digits). *)
Definition Number_toString (q : Q) : string :=
  let r := Qred q in
  let n := Qnum r in
  let d := Zpos (Qden r) in
  if d =? 1 then Z_to_string n
  else (if n <? 0 then "-" else EmptyString)
       ++ Z_to_string (Z.abs n / d) ++ "."
       ++ frac_digits 20 (Z.abs n mod d) d.

(** ** Property keys *)

Definition digit_of (c : ascii) : option Z :=
  let n := Z.of_nat (nat_of_ascii c) in
  if (48 <=? n) && (n <=? 57) then Some (n - 48) else None.

Fixpoint read_digits (l : list ascii) (acc : Z) (cnt : nat)
  : Z * nat * list ascii :=
  match l with
  | c :: l' =>
      match digit_of c with
      | Some d => read_digits l' (acc * 10 + d) (S cnt)
      | None => (acc, cnt, l)
      end
  | [] => (acc, cnt, [])
  end.

(** An array index is the canonical decimal text of an integer below
    [2^32 - 1]; such keys come first in property order, ascending. *)
Definition array_index (k : string) : option Z :=
  match Str.to_list k with
  | [] => None
  | c :: rest =>
      match read_digits (c :: rest) 0 0 with
      | (n, _, []) =>
          if String.eqb (Z_to_string n) k && (n <? 4294967295)
          then Some n else None
      | _ => None
      end
  end.

Fixpoint lookup (o : props) (k : string) : option value :=
  match o with
  | [] => None
  | (k', v) :: o' => if String.eqb k' k then Some v else lookup o' k
  end.

Fixpoint update (o : props) (k : string) (v : value) : props :=
  match o with
  | [] => []
  | (k', v') :: o' =>
      if String.eqb k' k then (k', v) :: o' else (k', v') :: update o' k v
  end.

(** Where a new index key [n] goes: before the first key that is not an
    index or is a larger index. *)
Fixpoint insert_index (o : props) (n : Z) (k : string) (v : value) : props :=
  match o with
  | [] => [(k, v)]
  | (k', v') :: o' =>
      match array_index k' with
      | Some m => if m <? n then (k', v') :: insert_index o' n k v
                  else (k, v) :: o
      | None => (k, v) :: o
      end
  end.

(** Setting an own property: an existing key keeps its place. *)
Definition obj_set (o : props) (k : string) (v : value) : props :=
  match lookup o k with
  | Some _ => update o k v
  | None =>
      match array_index k with
      | Some n => insert_index o n k v
      | None => (o ++ [(k, v)])%list
      end
  end.

Definition chars_of (s : string) : list value :=
  map (fun c => VStr (String c EmptyString)) (Str.to_list s).

Fixpoint indexed (i : Z) (l : list value) : props :=
  match l with
  | [] => []
  | v :: l' => (Z_to_string i, v) :: indexed (i + 1) l'
  end.

(** Own enumerable properties, as copied by an object spread. *)
Definition own_props (v : value) : props :=
  match v with
  | VObj o => o
  | VArr l => indexed 0 l
  | VStr s => indexed 0 (chars_of s)
  | _ => []
  end.

(** [{...target, ...src}] continued: the properties of [src] are set on
    [target] one after the other. *)
Definition spread (target : props) (src : value) : props :=
  fold_left (fun o kv => obj_set o (fst kv) (snd kv)) (own_props src) target.

(** Object literal [{ k1: v1, ..., kn: vn }] continued on [target]. *)
Definition set_all (target : props) (kvs : props) : props :=
  fold_left (fun o kv => obj_set o (fst kv) (snd kv)) kvs target.

(** Elements produced by iterating a value ([...x] in a call or an array
    literal); values that are not iterable throw. *)
Definition iterate (v : value) : result (list value) :=
  match v with
  | VArr l => Ok l
  | VStr s => Ok (chars_of s)
  | _ => Throw "TypeError: not iterable"
  end.

(** An element of an array or of a text, by its index key *)
Definition element (l : list value) (k : string) : value :=
  match array_index k with
  | Some n => nth (Z.to_nat n) l VUndef
  | None => VUndef
  end.

(** Property read [v.k] / [v[k]].  Only own data properties, the length
    and the indices of arrays and texts are modelled; the keys read by the
    program are not names of inherited properties. *)
Definition get (v : value) (k : string) : result value :=
  match v with
  | VUndef | VNull => Throw "TypeError: cannot read properties"
  | VObj o => Ok (match lookup o k with Some x => x | None => VUndef end)
  | VArr l =>
      if String.eqb k "length" then Ok (num (Z.of_nat (List.length l)))
      else Ok (element l k)
  | VStr s =>
      if String.eqb k "length" then Ok (num (Z.of_nat (String.length s)))
      else Ok (element (chars_of s) k)
  | VBool _ | VNum _ | VNaN => Ok VUndef
  end.

(** A property of an object given by its properties *)
Definition prop_of (o : props) (k : string) : value :=
  match lookup o k with Some x => x | None => VUndef end.

(** Optional chaining [v?.k] *)
Definition get_opt (v : value) (k : string) : value :=
  match get v k with
  | Ok x => x
  | Throw _ => VUndef
  end.

(** ToString.  Array elements that are null or undefined print as the
    empty text inside a join. *)
Fixpoint ToString (v : value) : string :=
  match v with
  | VUndef => "undefined"
  | VNull => "null"
  | VBool b => if b then "true" else "false"
  | VNum q => Number_toString q
  | VNaN => "NaN"
  | VStr s => s
  | VArr l =>
      Str.join "," (map (fun x => if nullish x then EmptyString else ToString x) l)
  | VObj _ => "[object Object]"
  end.

(** [Array.prototype.join] *)
Definition array_join (l : list value) (sep : string) : string :=
  Str.join sep (map (fun x => if nullish x then EmptyString else ToString x) l).

End JS.


(* ================================================================== *)
(** * JSON.stringify and JSON.parse *)
(* ================================================================== *)

Module JSON.
Import JS.

Definition hex_digit (n : Z) : string :=
  String (ascii_of_nat (Z.to_nat (if n <? 10 then 48 + n else 87 + n))) EmptyString.

(** QuoteJSONString, one code unit *)
Definition quote_char (c : ascii) : string :=
  let n := Z.of_nat (nat_of_ascii c) in
  if n =? 34 then Str.bslash ++ Str.dq
  else if n =? 92 then Str.bslash ++ Str.bslash
  else if n =? 8 then Str.bslash ++ "b"
  else if n =? 12 then Str.bslash ++ "f"
  else if n =? 10 then Str.bslash ++ "n"
  else if n =? 13 then Str.bslash ++ "r"
  else if n =? 9 then Str.bslash ++ "t"
  else if n <? 32 then Str.bslash ++ "u00" ++ hex_digit (n / 16) ++ hex_digit (n mod 16)
  else String c EmptyString.

Fixpoint quote_body (s : string) : string :=
  match s with
  | EmptyString => EmptyString
  | String c s' => quote_char c ++ quote_body s'
  end.

Definition quote (s : string) : string := Str.dq ++ quote_body s ++ Str.dq.

(** [JSON.stringify(v)] without indentation; [None] is the value
    undefined that the runtime returns for undefined. *)
Fixpoint stringify (v : value) : option string :=
  match v with
  | VUndef => None
  | VNull => Some "null"
  | VBool b => Some (if b then "true" else "false")
  | VNum q => Some (Number_toString q)
  | VNaN => Some "null"
  | VStr s => Some (quote s)
  | VArr l =>
      Some ("[" ++ Str.join ","
              (map (fun x => match stringify x with
                             | Some t => t
                             | None => "null"
                             end) l) ++ "]")
  | VObj o =>
      Some ("{" ++ Str.join ","
              (flat_map (fun kv => match stringify (snd kv) with
                                   | Some t => [quote (fst kv) ++ ":" ++ t]
                                   | None => []
                                   end) o) ++ "}")
  end.

(** The text written for a value that is not undefined. *)
Definition stringify_text (v : value) : string :=
  match stringify v with
  | Some t => t
  | None => "undefined"
  end.

(** [JSON.stringify(a) === JSON.stringify(b)] *)
Definition same_text (a b : value) : bool :=
  match stringify a, stringify b with
  | Some x, Some y => String.eqb x y
  | None, None => true
  | _, _ => false
  end.

(** ** Reading *)

Definition is_json_ws (c : ascii) : bool :=
  let n := nat_of_ascii c in
  (Nat.eqb n 32 || Nat.eqb n 9 || Nat.eqb n 10 || Nat.eqb n 13)%bool.

Fixpoint skip_ws (l : list ascii) : list ascii :=
  match l with
  | c :: l' => if is_json_ws c then skip_ws l' else l
  | [] => []
  end.

Definition hex_of (c : ascii) : option Z :=
  let n := Z.of_nat (nat_of_ascii c) in
  if (48 <=? n) && (n <=? 57) then Some (n - 48)
  else if (97 <=? n) && (n <=? 102) then Some (n - 87)
  else if (65 <=? n) && (n <=? 70) then Some (n - 55)
  else None.

Definition byte (n : Z) : ascii := ascii_of_nat (Z.to_nat n).

(** UTF-8 code units of a code point of the basic plane *)
Definition utf8 (n : Z) : list ascii :=
  if n <? 128 then [byte n]
  else if n <? 2048 then [byte (192 + n / 64); byte (128 + n mod 64)]
  else [byte (224 + n / 4096); byte (128 + (n / 64) mod 64); byte (128 + n mod 64)].

(** The characters of a string literal after its opening quote. *)
Fixpoint parse_string (l : list ascii) (acc : list ascii)
  : option (string * list ascii) :=
  match l with
  | [] => None
  | c :: l' =>
      let n := Z.of_nat (nat_of_ascii c) in
      if n =? 34 then Some (Str.of_list (rev acc), l')
      else if n <? 32 then None
      else if n =? 92 then
        match l' with
        | e :: l'' =>
            let m := Z.of_nat (nat_of_ascii e) in
            if m =? 34 then parse_string l'' (byte 34 :: acc)
            else if m =? 92 then parse_string l'' (byte 92 :: acc)
            else if m =? 47 then parse_string l'' (byte 47 :: acc)
            else if m =? 98 then parse_string l'' (byte 8 :: acc)
            else if m =? 102 then parse_string l'' (byte 12 :: acc)
            else if m =? 110 then parse_string l'' (byte 10 :: acc)
            else if m =? 114 then parse_string l'' (byte 13 :: acc)
            else if m =? 116 then parse_string l'' (byte 9 :: acc)
            else if m =? 117 then
              match l'' with
              | h1 :: h2 :: h3 :: h4 :: l3 =>
                  match hex_of h1, hex_of h2, hex_of h3, hex_of h4 with
                  | Some a, Some b, Some c', Some d =>
                      parse_string l3
                        (rev (utf8 (((a * 16 + b) * 16 + c') * 16 + d)) ++ acc)%list
                  | _, _, _, _ => None
                  end
              | _ => None
              end
            else None
        | [] => None
        end
      else parse_string l' (c :: acc)
  end.

Definition is_digit (c : ascii) : bool :=
  match digit_of c with Some _ => true | None => false end.

(** A number literal: sign, integer part, fraction, exponent. *)
Definition parse_number (l : list ascii) : option (Q * list ascii) :=
  let (neg, l1) :=
    match l with
    | c :: r => if Str.eqb_ascii c "-"%char then (true, r) else (false, l)
    | [] => (false, l)
    end in
  let int_part :=
    match l1 with
    | c :: r =>
        if Str.eqb_ascii c "0"%char then Some (0, r)
        else if is_digit c then
               match read_digits l1 0 0 with
               | (n, _, r') => Some (n, r')
               end
             else None
    | [] => None
    end in
  match int_part with
  | None => None
  | Some (ip, l2) =>
      let frac :=
        match l2 with
        | c :: r =>
            if Str.eqb_ascii c "."%char then
              match read_digits r 0 0 with
              | (_, O, _) => None
              | (f, cnt, r') => Some (f, cnt, r')
              end
            else Some (0, O, l2)
        | [] => Some (0, O, l2)
        end in
      match frac with
      | None => None
      | Some (f, cnt, l3) =>
          let expo :=
            match l3 with
            | c :: r =>
                if Str.eqb_ascii c "e"%char || Str.eqb_ascii c "E"%char then
                  let (eneg, r1) :=
                    match r with
                    | s :: r' =>
                        if Str.eqb_ascii s "-"%char then (true, r')
                        else if Str.eqb_ascii s "+"%char then (false, r')
                        else (false, r)
                    | [] => (false, r)
                    end in
                  match read_digits r1 0 0 with
                  | (_, O, _) => None
                  | (e, _, r') => Some ((if eneg then - e else e), r')
                  end
                else Some (0, l3)
            | [] => Some (0, l3)
            end in
          match expo with
          | None => None
          | Some (e, l4) =>
              let mant := ip * 10 ^ (Z.of_nat cnt) + f in
              let scale := e - Z.of_nat cnt in
              let q := if 0 <=? scale
                       then inject_Z (mant * 10 ^ scale)
                       else Qmake mant (Z.to_pos (10 ^ (- scale))) in
              Some (Qred (if neg then Qopp q else q), l4)
          end
      end
  end.

Definition expect (w : string) (l : list ascii) : option (list ascii) :=
  if String.prefix w (Str.of_list l)
  then Some (skipn (String.length w) l) else None.

(** Recursive descent; [fuel] bounds the number of values and members
    read, the length of the text is always enough. *)
Fixpoint parse_value (fuel : nat) (l : list ascii)
  : option (value * list ascii) :=
  match fuel with
  | O => None
  | S f =>
      match skip_ws l with
      | [] => None
      | c :: r =>
          let n := Z.of_nat (nat_of_ascii c) in
          if n =? 123 then
            match skip_ws r with
            | c' :: r' =>
                if Z.of_nat (nat_of_ascii c') =? 125 then Some (VObj [], r')
                else parse_members f (c' :: r') []
            | [] => None
            end
          else if n =? 91 then
            match skip_ws r with
            | c' :: r' =>
                if Z.of_nat (nat_of_ascii c') =? 93 then Some (VArr [], r')
                else parse_elements f (c' :: r') []
            | [] => None
            end
          else if n =? 34 then
            match parse_string r [] with
            | Some (s, r') => Some (VStr s, r')
            | None => None
            end
          else if n =? 116 then
            match expect "true" (c :: r) with
            | Some r' => Some (VBool true, r')
            | None => None
            end
          else if n =? 102 then
            match expect "false" (c :: r) with
            | Some r' => Some (VBool false, r')
            | None => None
            end
          else if n =? 110 then
            match expect "null" (c :: r) with
            | Some r' => Some (VNull, r')
            | None => None
            end
          else
            match parse_number (c :: r) with
            | Some (q, r') => Some (VNum q, r')
            | None => None
            end
      end
  end
with parse_members (fuel : nat) (l : list ascii) (acc : props)
  : option (value * list ascii) :=
  match fuel with
  | O => None
  | S f =>
      match skip_ws l with
      | c :: r =>
          if Z.of_nat (nat_of_ascii c) =? 34 then
            match parse_string r [] with
            | Some (k, r1) =>
                match skip_ws r1 with
                | c1 :: r2 =>
                    if Z.of_nat (nat_of_ascii c1) =? 58 then
                      match parse_value f r2 with
                      | Some (v, r3) =>
                          match skip_ws r3 with
                          | c3 :: r4 =>
                              let m := Z.of_nat (nat_of_ascii c3) in
                              if m =? 44 then parse_members f r4 (obj_set acc k v)
                              else if m =? 125 then Some (VObj (obj_set acc k v), r4)
                              else None
                          | [] => None
                          end
                      | None => None
                      end
                    else None
                | [] => None
                end
            | None => None
            end
          else None
      | [] => None
      end
  end
with parse_elements (fuel : nat) (l : list ascii) (acc : list value)
  : option (value * list ascii) :=
  match fuel with
  | O => None
  | S f =>
      match parse_value f l with
      | Some (v, r) =>
          match skip_ws r with
          | c :: r' =>
              let m := Z.of_nat (nat_of_ascii c) in
              if m =? 44 then parse_elements f r' (acc ++ [v])%list
              else if m =? 93 then Some (VArr (acc ++ [v])%list, r')
              else None
          | [] => None
          end
      | None => None
      end
  end.

(** [JSON.parse(text)]; [None] when the runtime throws a SyntaxError. *)
Definition parse (text : string) : option value :=
  let l := Str.to_list text in
  match parse_value (S (List.length l)) l with
  | Some (v, r) =>
      match skip_ws r with
      | [] => Some v
      | _ => None
      end
  | None => None
  end.

End JSON.

(* ================================================================== *)
(** * Stateful computations that can throw *)
(* ================================================================== *)

Module Eff.
Import JS.

(** A computation over a state [S]: the final state, and a value or the
    exception thrown.  What was written to the state before an exception
    stays written. *)
Definition Comp (S A : Type) : Type := S -> result A * S.

Definition ret {S A} (a : A) : Comp S A := fun st => (Ok a, st).
Definition throw {S A} (e : string) : Comp S A := fun st => (Throw e, st).
Definition mbind {S A B} (m : Comp S A) (k : A -> Comp S B) : Comp S B :=
  fun st => match m st with
            | (Ok a, st') => k a st'
            | (Throw e, st') => (Throw e, st')
            end.
(** [try { m } catch (e) { handler e }] *)
Definition try_catch {S A} (m : Comp S A) (handler : string -> Comp S A) : Comp S A :=
  fun st => match m st with
            | (Ok a, st') => (Ok a, st')
            | (Throw e, st') => handler e st'
            end.
Definition of_result {S A} (r : result A) : Comp S A := fun st => (r, st).
Definition get_state {S} : Comp S S := fun st => (Ok st, st).
Definition modify {S} (f : S -> S) : Comp S unit := fun st => (Ok tt, f st).

(** Running a computation of a component inside a larger state *)
Definition zoom {S T A} (proj : S -> T) (inj : S -> T -> S) (m : Comp T A) : Comp S A :=
  fun st => match m (proj st) with
            | (r, t') => (r, inj st t')
            end.

Declare Scope eff_scope.
Delimit Scope eff_scope with eff.
Notation "x <- m ;; k" := (mbind m (fun x => k))
  (at level 100, m at next level, right associativity) : eff_scope.
Notation "m ;;; k" := (mbind m (fun _ => k))
  (at level 100, right associativity) : eff_scope.

End Eff.

(* ================================================================== *)
(** * The tracer singleton ([otel-tracer.ts]) *)
(* ================================================================== *)

Module Otel.
Import JS.

Inductive SpanKind := INTERNAL | SERVER | CLIENT | PRODUCER | CONSUMER.

(** [SpanStatusCode]: UNSET = 0, OK = 1, ERROR = 2 *)
Inductive SpanStatusCode := UNSET | OK | ERROR.

Definition status_of_code (n : Z) : SpanStatusCode :=
  if n =? 1 then OK else if n =? 2 then ERROR else UNSET.

(** A span of the SDK.  Identifiers are the numbers that their
    hexadecimal texts denote. *)
Record Span := mkSpan {
  traceId : Z;
  spanId : Z;
  parentSpanId : option Z;
  name : string;
  kind : SpanKind;
  attributes : props;
  status : SpanStatusCode;
  statusMessage : value;
  exceptions : list string;
  ended : bool
}.

Record CCProfileConfig := mkConfig {
  runId : string;
  sessionId : string;
  outputDir : string;
  serviceName : option string;
  serviceVersion : option string;
  parentSessionId : option string
}.

(** The module-level variables of [otel-tracer.ts] in one process,
    together with what the process draws from its surroundings: [rand] is
    the sequence of random identifiers that its SDK generates, [dir_ok]
    tells whether a directory can be created, [exported] lists the spans
    handed to the exporter, in order. *)
Record State := mkState {
  rand : nat -> Z;
  drawn : nat;
  dir_ok : string -> bool;
  tracerInstance : bool;
  rootSpan : option Span;
  currentConfig : option CCProfileConfig;
  exporterConfig : option CCProfileConfig;
  exported : list Span
}.

Definition fresh_process (rnd : nat -> Z) (ok : string -> bool) : State :=
  {| rand := rnd; drawn := O; dir_ok := ok; tracerInstance := false;
     rootSpan := None; currentConfig := None; exporterConfig := None;
     exported := [] |}.

(** Computations of the process *)
Definition M (A : Type) : Type := Eff.Comp State A.
Import Eff.
Local Open Scope eff_scope.

(** ** The SDK *)

Definition is_primitive (v : value) : bool :=
  match v with
  | VStr _ | VNum _ | VNaN | VBool _ => true
  | _ => false
  end.

Definition same_kind (a b : value) : bool :=
  match a, b with
  | VStr _, VStr _ | VBool _, VBool _ => true
  | (VNum _ | VNaN), (VNum _ | VNaN) => true
  | _, _ => false
  end.

(** Elements of an attribute array: primitives of one kind, null and
    undefined allowed among them. *)
Fixpoint homogeneous (kind : option value) (l : list value) : bool :=
  match l with
  | [] => true
  | x :: l' =>
      if nullish x then homogeneous kind l'
      else if is_primitive x then
             match kind with
             | None => homogeneous (Some x) l'
             | Some k => same_kind k x && homogeneous kind l'
             end
           else false
  end.

(** [isAttributeValue] of the SDK, on a value that is not nullish *)
Definition isAttributeValue (v : value) : bool :=
  match v with
  | VArr l => homogeneous None l
  | _ => is_primitive v
  end.

(** [Span.setAttribute]: nothing after the end, nothing for a nullish
    value, an empty key or a value of no attribute type.  (The limit of
    128 attributes of the SDK is not reached by the spans of the program,
    which receive fewer than twenty keys.) *)
Definition setAttribute (sp : Span) (k : string) (v : value) : Span :=
  if ended sp || nullish v || Str.is_empty k || negb (isAttributeValue v)
  then sp
  else mkSpan (traceId sp) (spanId sp) (parentSpanId sp) (name sp) (kind sp)
         (obj_set (attributes sp) k v)
         (status sp) (statusMessage sp) (exceptions sp) (ended sp).

(** [Span.setAttributes] *)
Definition setAttributes (sp : Span) (kvs : props) : Span :=
  fold_left (fun s kv => setAttribute s (fst kv) (snd kv)) kvs sp.

(** [Span.setStatus] *)
Definition setStatus (sp : Span) (code : SpanStatusCode) (msg : value) : Span :=
  if ended sp then sp
  else mkSpan (traceId sp) (spanId sp) (parentSpanId sp) (name sp) (kind sp)
         (attributes sp) code msg (exceptions sp) (ended sp).

(** [Span.recordException] *)
Definition recordException (sp : Span) (message : string) : Span :=
  if ended sp then sp
  else mkSpan (traceId sp) (spanId sp) (parentSpanId sp) (name sp) (kind sp)
         (attributes sp) (status sp) (statusMessage sp)
         (exceptions sp ++ [message])%list (ended sp).

Definition mark_ended (sp : Span) : Span :=
  mkSpan (traceId sp) (spanId sp) (parentSpanId sp) (name sp) (kind sp)
    (attributes sp) (status sp) (statusMessage sp) (exceptions sp) true.

Definition with_drawn (st : State) (n : nat) : State :=
  mkState (rand st) n (dir_ok st) (tracerInstance st) (rootSpan st)
    (currentConfig st) (exporterConfig st) (exported st).

Definition with_exported (st : State) (l : list Span) : State :=
  mkState (rand st) (drawn st) (dir_ok st) (tracerInstance st) (rootSpan st)
    (currentConfig st) (exporterConfig st) l.

Definition with_root (st : State) (r : option Span) : State :=
  mkState (rand st) (drawn st) (dir_ok st) (tracerInstance st) r
    (currentConfig st) (exporterConfig st) (exported st).

(** [Span.end]: the simple span processor passes the span to the exporter
    at once; a second end does nothing. *)
Definition end_span (sp : Span) : M Span :=
  fun st =>
    if ended sp then (Ok sp, st)
    else let sp' := mark_ended sp in
         (Ok sp', with_exported st (exported st ++ [sp'])%list).

(** The context that [context.active()] returns: no context manager is
    ever registered, so it is the root context, which holds no span. *)
Definition context_active : option Span := None.

(** [trace.setSpan(ctx, span)] *)
Definition setSpan (ctx : option Span) (sp : Span) : option Span := Some sp.

(** [Tracer.startSpan(name, options, ctx)] of the SDK: a span identifier
    is drawn; the trace identifier is that of the span in [ctx], or a
    newly drawn one when [ctx] holds none.  An absent [ctx] is the active
    context. *)
Definition sdk_startSpan (nm : string) (k : SpanKind) (attrs : props)
           (ctx : option (option Span)) : M Span :=
  fun st =>
    let parent := match ctx with Some c => c | None => context_active end in
    let sid := rand st (drawn st) in
    let blank tid par n :=
      (Ok (setAttributes
             (mkSpan tid sid par nm k [] UNSET VUndef [] false) attrs),
       with_drawn st n) in
    match parent with
    | Some p => blank (traceId p) (Some (spanId p)) (S (drawn st))
    | None => blank (rand st (S (drawn st))) None (S (S (drawn st)))
    end.

(** ** [otel-tracer.ts] *)

Definition opt_str (o : option string) : value :=
  match o with Some s => VStr s | None => VUndef end.

(** [initializeTracer] *)
Definition initializeTracer (config : CCProfileConfig) : M unit :=
  fun st =>
    let st1 := mkState (rand st) (drawn st) (dir_ok st) (tracerInstance st)
                 (rootSpan st) (Some config) (exporterConfig st) (exported st) in
    if negb (dir_ok st (outputDir config))
    then (Throw "mkdir failed", st1)
    else
      let st2 := mkState (rand st) (drawn st) (dir_ok st) true
                   (rootSpan st) (Some config) (Some config) (exported st) in
      let rootAttributes :=
        set_all []
          ([("session.id", VStr (sessionId config));
            ("run.id", VStr (runId config))]
           ++ (if truthy (opt_str (parentSessionId config))
               then [("parent.session.id", opt_str (parentSessionId config))]
               else []))%list in
      match sdk_startSpan "Claude Code Session" INTERNAL rootAttributes None st2 with
      | (Ok r, st3) => (Ok tt, with_root st3 (Some r))
      | (Throw e, st3) => (Throw e, st3)
      end.

(** [getTracer] *)
Definition getTracer : M unit :=
  fun st => if tracerInstance st then (Ok tt, st)
            else (Throw "Tracer not initialized. Call initializeTracer first.", st).

(** [getRootSpan] *)
Definition getRootSpan : M Span :=
  fun st => match rootSpan st with
            | Some r => (Ok r, st)
            | None => (Throw "Root span not initialized. Call initializeTracer first.", st)
            end.

(** [updateTracerConfig] *)
Definition updateTracerConfig (config : CCProfileConfig) : M unit :=
  fun st =>
    match currentConfig st with
    | None => (Throw "Cannot update tracer config: tracer not initialized", st)
    | Some _ =>
        let ex := match exporterConfig st with
                  | Some _ => Some config
                  | None => None
                  end in
        if (match exporterConfig st with Some _ => true | None => false end)
           && negb (dir_ok st (outputDir config))
        then (Throw "mkdir failed",
              mkState (rand st) (drawn st) (dir_ok st) (tracerInstance st)
                (rootSpan st) (Some config) ex (exported st))
        else
          let root' :=
            match rootSpan st with
            | Some r =>
                Some (setAttributes r
                        ([("session.id", VStr (sessionId config));
                          ("run.id", VStr (runId config))]
                         ++ (if truthy (opt_str (parentSessionId config))
                             then [("parent.session.id",
                                    opt_str (parentSessionId config))]
                             else []))%list)
            | None => None
            end in
          (Ok tt, mkState (rand st) (drawn st) (dir_ok st) (tracerInstance st)
                    root' (Some config) ex (exported st))
    end.

(** [startSpan]: a child of the root span *)
Definition startSpan (nm : string) (k : SpanKind) (attrs : props) : M Span :=
  getTracer ;;;
  root <- getRootSpan ;;
  sdk_startSpan nm k attrs (Some (setSpan context_active root)).

(** [startApiCallSpan] *)
Definition startApiCallSpan (url : string) (method : value) : M Span :=
  let method := match method with VUndef => VStr "POST" | m => m end in
  startSpan ("API " ++ ToString method ++ " " ++ url) CLIENT
    (set_all [] [("http.method", method); ("http.url", VStr url)]).

Definition ctx_of_parent (parentSpan : option Span) : option (option Span) :=
  match parentSpan with
  | Some p => Some (setSpan context_active p)
  | None => None
  end.

(** [startToolSpan] *)
Definition startToolSpan (toolName : string) (parentSpan : option Span) : M Span :=
  getTracer ;;;
  sdk_startSpan ("Tool: " ++ toolName) INTERNAL
    (set_all [] [("tool.name", VStr toolName)]) (ctx_of_parent parentSpan).

(** The attribute text of a tool input or output: a string as it is,
    anything else through [JSON.stringify]. *)
Definition text_or_json (v : value) : value :=
  match v with
  | VStr s => VStr s
  | _ => match JSON.stringify v with
         | Some t => VStr t
         | None => VUndef
         end
  end.

(** [startEnhancedToolSpan] *)
Definition startEnhancedToolSpan (toolName input mcpServer : value)
           (parentSpan : option Span) : M Span :=
  getTracer ;;;
  sdk_startSpan ("Tool: " ++ ToString toolName) INTERNAL
    (set_all []
       ([("tool.name", toolName)]
        ++ (if truthy input then [("tool.input", text_or_json input)] else [])
        ++ (if truthy mcpServer then [("mcp.server", mcpServer)] else []))%list)
    (ctx_of_parent parentSpan).

(** [startHookEventSpan] *)
Definition startHookEventSpan (eventName toolName : value) : M Span :=
  startSpan
    (if truthy toolName
     then "Hook: " ++ ToString eventName ++ "[" ++ ToString toolName ++ "]"
     else "Hook: " ++ ToString eventName)
    INTERNAL
    (spread (set_all [] [("hook.event", eventName)])
            (and_then toolName (VObj [("tool.name", toolName)]))).

(** [startHookExecutionSpan] *)
Definition startHookExecutionSpan (command : string) (parentSpan : Span)
           (isExclusive : bool) : M Span :=
  getTracer ;;;
  sdk_startSpan ("Hook Execution: " ++ command) INTERNAL
    (set_all [] [("hook.command", VStr command);
                 ("hook.exclusive", VBool isExclusive)])
    (Some (setSpan context_active parentSpan)).

(** [recordError] *)
Definition recordError (sp : Span) (message : string) : Span :=
  setStatus (recordException sp message) ERROR (VStr message).

(** [shutdown], up to the generation of the report: the root span ends. *)
Definition shutdown : M unit :=
  fun st =>
    match rootSpan st with
    | Some r =>
        match end_span r st with
        | (Ok r', st') => (Ok tt, with_root st' (Some r'))
        | (Throw e, st') => (Throw e, st')
        end
    | None => (Ok tt, st)
    end.

End Otel.

(* ================================================================== *)
(** * Arithmetic of the runtime *)
(* ================================================================== *)

Module Arith.
Import JS.

(** StringToNumber on the decimal literals of the JSON grammar; the other
    numeric texts of the runtime (a leading plus sign or zero, the
    hexadecimal forms, Infinity) are not modelled and give NaN here. *)
Definition StringToNumber (s : string) : value :=
  let t := Str.trim s in
  if Str.is_empty t then VNum 0
  else match JSON.parse_number (Str.to_list t) with
       | Some (q, []) => VNum q
       | _ => VNaN
       end.

(** ToPrimitive: arrays and objects become their text. *)
Definition ToPrimitive (v : value) : value :=
  match v with
  | VArr _ | VObj _ => VStr (ToString v)
  | _ => v
  end.

(** ToNumber *)
Definition ToNumber (v : value) : value :=
  match ToPrimitive v with
  | VNum q => VNum q
  | VBool b => VNum (if b then 1 else 0)
  | VNull => VNum 0
  | VStr s => StringToNumber s
  | _ => VNaN
  end.

Definition lift2 (f : Q -> Q -> Q) (a b : value) : value :=
  match ToNumber a, ToNumber b with
  | VNum x, VNum y => VNum (Qred (f x y))
  | _, _ => VNaN
  end.

(** [a * b], [a - b] *)
Definition mul : value -> value -> value := lift2 Qmult.
Definition sub : value -> value -> value := lift2 Qminus.

(** [a / b] for a divisor that is a non-zero constant of the program *)
Definition div_const (a : value) (d : Q) : value :=
  match ToNumber a with
  | VNum x => VNum (Qred (x / d))
  | _ => VNaN
  end.

(** [a + b]: concatenation as soon as one side is a text *)
Definition add (a b : value) : value :=
  let pa := ToPrimitive a in
  let pb := ToPrimitive b in
  if is_string pa || is_string pb then VStr (ToString pa ++ ToString pb)
  else lift2 Qplus pa pb.

(** [parseFloat(x.toFixed(6))]: the nearest multiple of 10^-6, a tie
    going away from zero; from 10^21 on [toFixed] prints the number
    itself. *)
Definition round6 (q : Q) : Q :=
  if Qle_bool (1000000000000000000000 # 1) (Qabs q) then q
  else
    let m := Qfloor (Qabs q * 1000000 + (1 # 2)) in
    Qred (Qmake (if Qle_bool 0 q then m else - m) 1000000).

Definition toFixed6_parsed (v : value) : value :=
  match v with
  | VNum q => VNum (round6 q)
  | _ => VNaN
  end.

(** [Math.ceil(Math.max(a, b))] on two numbers *)
Definition ceil_max (a b : Q) : value :=
  VNum (inject_Z (Qceiling (if Qle_bool a b then b else a))).

End Arith.

(* ================================================================== *)
(** * Files *)
(* ================================================================== *)

Module Fs.
Import JS.

(** The part of the file system that the program touches: the text of
    each file, and for each path whether it may be read and whether it may
    be written or created. *)
Record FS := mkFS {
  files : list (string * string);
  dirs : list string;
  can_read : string -> bool;
  can_write : string -> bool
}.

Fixpoint find (l : list (string * string)) (p : string) : option string :=
  match l with
  | [] => None
  | (p', c) :: l' => if String.eqb p' p then Some c else find l' p
  end.

Fixpoint store (l : list (string * string)) (p c : string)
  : list (string * string) :=
  match l with
  | [] => [(p, c)]
  | (p', c') :: l' =>
      if String.eqb p' p then (p', c) :: l' else (p', c') :: store l' p c
  end.

(** [fs.existsSync] *)
Definition existsSync (fs : FS) (p : string) : bool :=
  match find (files fs) p with Some _ => true | None => false end.

(** [fs.readFileSync(p, "utf8")] *)
Definition readFileSync (fs : FS) (p : string) : result string :=
  match find (files fs) p with
  | Some c => if can_read fs p then Ok c else Throw "EACCES"
  | None => Throw "ENOENT"
  end.

(** [fs.appendFileSync(p, data)] *)
Definition appendFileSync (p data : string) : Eff.Comp FS unit :=
  fun fs =>
    if can_write fs p then
      let old := match find (files fs) p with Some c => c | None => EmptyString end in
      (Ok tt, mkFS (store (files fs) p (old ++ data)) (dirs fs) (can_read fs)
                (can_write fs))
    else (Throw "EACCES", fs).

(** [fs.writeFileSync(p, data)] *)
Definition writeFileSync (p data : string) : Eff.Comp FS unit :=
  fun fs =>
    if can_write fs p
    then (Ok tt, mkFS (store (files fs) p data) (dirs fs) (can_read fs) (can_write fs))
    else (Throw "EACCES", fs).

(** [fs.existsSync] on a directory *)
Definition dir_exists (fs : FS) (d : string) : bool :=
  existsb (String.eqb d) (dirs fs).

(** [fs.mkdirSync(d, { recursive: true })] *)
Definition mkdirSync (d : string) : Eff.Comp FS unit :=
  fun fs =>
    if dir_exists fs d then (Ok tt, fs)
    else if can_write fs d
         then (Ok tt, mkFS (files fs) (d :: dirs fs) (can_read fs) (can_write fs))
         else (Throw "EACCES", fs).

Definition slash : ascii := "/"%char.

Fixpoint drop_slashes (l : list ascii) : list ascii :=
  match l with
  | c :: l' => if Ascii.eqb c slash then drop_slashes l' else l
  | [] => []
  end.

Fixpoint drop_name (l : list ascii) : list ascii :=
  match l with
  | c :: l' => if Ascii.eqb c slash then l else drop_name l'
  | [] => []
  end.

Fixpoint take_name (l : list ascii) : list ascii :=
  match l with
  | c :: l' => if Ascii.eqb c slash then [] else c :: take_name l'
  | [] => []
  end.

(** [path.dirname] (POSIX): the scan runs from the end of the path down
    to its second character. *)
Definition dirname (p : string) : string :=
  match Str.to_list p with
  | [] => "."
  | c0 :: rest =>
      let hasRoot := Ascii.eqb c0 slash in
      match drop_name (drop_slashes (rev rest)) with
      | [] => if hasRoot then "/" else "."
      | _ :: before =>
          if hasRoot && match before with [] => true | _ => false end
          then "//"
          else Str.of_list (c0 :: rev before)
      end
  end.

(** [path.basename] (POSIX) *)
Definition basename (p : string) : string :=
  Str.of_list (rev (take_name (drop_slashes (rev (Str.to_list p))))).

(** [path.join(dir, name)] for a directory and a plain file name *)
Definition join (dir name : string) : string :=
  if Str.is_empty dir then name
  else if String.eqb (Str.drop (String.length dir - 1) dir) "/" then dir ++ name
  else dir ++ "/" ++ name.

End Fs.

(* ================================================================== *)
(** * The preload module ([spawn-preload.cjs]) *)
(* ================================================================== *)

Module Preload.
Import JS Eff.
Local Open Scope eff_scope.

(** The state of the host process as the preload module sees it.
    [apiHost] is [new URL(baseUrl).hostname] for the configured base URL,
    which throws when that text is no URL; [env] is [process.env]. *)
Record World := mkWorld {
  fs : Fs.FS;
  otel : Otel.State;
  otelInitialized : bool;
  stderr : list string;
  env : props;
  outputDir : string;
  apiHost : result string
}.

Definition set_fs (w : World) (f : Fs.FS) : World :=
  mkWorld f (otel w) (otelInitialized w) (stderr w) (env w) (outputDir w) (apiHost w).
Definition set_otel (w : World) (o : Otel.State) : World :=
  mkWorld (fs w) o (otelInitialized w) (stderr w) (env w) (outputDir w) (apiHost w).
Definition set_initialized (w : World) : World :=
  mkWorld (fs w) (otel w) true (stderr w) (env w) (outputDir w) (apiHost w).

Definition on_fs {A} (m : Comp Fs.FS A) : Comp World A := zoom fs set_fs m.
Definition on_otel {A} (m : Otel.M A) : Comp World A := zoom otel set_otel m.

(** [console.error] *)
Definition console_error (msg : string) : Comp World unit :=
  modify (fun w => mkWorld (fs w) (otel w) (otelInitialized w)
                     (stderr w ++ [msg])%list (env w) (outputDir w) (apiHost w)).

Definition logFile (w : World) : string := Fs.join (outputDir w) "events.jsonl".

Definition append_log (line : string) : Comp World unit :=
  w <- get_state ;;
  on_fs (Fs.appendFileSync (logFile w) (line ++ Str.nl)).

Definition env_or (w : World) (k dflt : string) : value :=
  or_else (match lookup (env w) k with Some v => v | None => VUndef end) (VStr dflt).

(** ** The tool-use correlator *)

(** The last [n] elements: [l.slice(-n)] *)
Definition last_n {A} (n : nat) (l : list A) : list A :=
  skipn (List.length l - n) l.

(** The non-blank lines of the log *)
Definition log_lines (fileContent : string) : list string :=
  filter (fun line => negb (Str.is_empty (Str.trim line)))
         (Str.split (Str.trim fileContent) Str.nl).

(** The body of the search loop on one line: the identifier to return,
    nothing when the line is not the request looked for; an exception is
    caught by the loop, which goes on. *)
Definition try_line (toolName toolInput : value) (line : string)
  : result (option value) :=
  (event <- match JSON.parse line with
            | Some v => Ok v
            | None => Throw "SyntaxError"
            end ;;
   eventType <- get event "eventType" ;;
   if strict_eq eventType (VStr "tool_use_request") then
     name <- get event "toolName" ;;
     if strict_eq name toolName then
       input <- get event "toolInput" ;;
       if JSON.same_text input toolInput then
         id <- get event "toolUseId" ;;
         Ok (Some id)
       else Ok None
     else Ok None
   else Ok None)%js.

(** The loop, from the last line to the first *)
Fixpoint search_back (toolName toolInput : value) (newest_first : list string)
  : value :=
  match newest_first with
  | [] => VNull
  | line :: older =>
      match try_line toolName toolInput line with
      | Ok (Some id) => id
      | _ => search_back toolName toolInput older
      end
  end.

(** [findRecentToolUseId] *)
Definition findRecentToolUseId (toolName toolInput : value) (logFile : string)
           (fs : Fs.FS) : value :=
  if negb (Fs.existsSync fs logFile) then VNull
  else match Fs.readFileSync fs logFile with
       | Throw _ => VNull
       | Ok fileContent =>
           let lines := log_lines fileContent in
           let recentLines := last_n 50 lines in
           search_back toolName toolInput (rev recentLines)
       end.

(** The record written for a finished tool execution *)
Record ToolExecutionEvent := mkToolExecution {
  te_timestamp : string;
  te_toolUseId : value;
  te_toolName : value;
  te_toolInput : value;
  te_toolResponse : value;
  te_sessionId : value;
  te_startTime : Z;
  te_endTime : Z;
  te_duration : Z;
  te_error : option string
}.

Definition tool_execution_json (e : ToolExecutionEvent) : value :=
  VObj (set_all []
    ([("eventType", VStr "tool_execution_complete");
      ("timestamp", VStr (te_timestamp e));
      ("toolUseId", te_toolUseId e);
      ("toolName", te_toolName e);
      ("toolInput", te_toolInput e);
      ("toolResponse", te_toolResponse e);
      ("sessionId", te_sessionId e);
      ("startTime", num (te_startTime e));
      ("endTime", num (te_endTime e));
      ("duration", num (te_duration e))]
     ++ match te_error e with
        | Some m => [("error", VStr m)]
        | None => []
        end)%list).

(** [createToolExecutionSpan]: the span that was ended, if any.  Every
    exception is swallowed. *)
Definition createToolExecutionSpan (e : ToolExecutionEvent)
  : Comp World (option Otel.Span) :=
  try_catch
    (on_otel
       (span <- Otel.startEnhancedToolSpan (te_toolName e) (te_toolInput e)
                  VNull None ;;
        let span1 :=
          Otel.setAttributes span
            [("tool.name", te_toolName e);
             ("tool.input", Otel.text_or_json (te_toolInput e));
             ("tool.output", Otel.text_or_json (te_toolResponse e));
             ("tool.duration.ms", num (te_duration e));
             ("session.id", te_sessionId e)] in
        let span2 :=
          if truthy (te_toolUseId e)
          then Otel.setAttributes span1 [("tool.use_id", te_toolUseId e)]
          else span1 in
        let span3 :=
          match te_error e with
          | Some m =>
              if Str.is_empty m then Otel.setStatus span2 Otel.OK VUndef
              else Otel.recordException
                     (Otel.setStatus span2 Otel.ERROR (VStr m)) m
          | None => Otel.setStatus span2 Otel.OK VUndef
          end in
        ended <- Otel.end_span span3 ;;
        ret (Some ended)))
    (fun _ => ret None).

(** ** The fetch interceptor *)

(** What the original [fetch] resolves with: the status, and the text of
    the body, reading which can fail. *)
Record Response := mkResponse {
  status : Z;
  body : result string
}.

(** [Response.ok]: the status is in the range 200 to 299. *)
Definition ok (r : Response) : bool :=
  (200 <=? status r) && (status r <=? 299).

(** [isAnthropicAPI] *)
Definition isAnthropicAPI (url : string) : Comp World bool :=
  w <- get_state ;;
  h <- of_result (apiHost w) ;;
  ret (Str.includes url h).

(** Rates per million tokens *)
Record Rates := mkRates {
  rate_input : Q;
  rate_output : Q;
  rate_cacheRead : Q;
  rate_cacheWrite : Q
}.

Definition default_model : string := "claude-3-5-sonnet-20241022".

(** [modelPricing] *)
Definition modelPricing : list (string * Rates) :=
  [("claude-3-5-sonnet-20241022", mkRates 3 15 (3 # 10) (375 # 100));
   ("claude-sonnet-4-20250514", mkRates 3 15 (3 # 10) (375 # 100));
   ("claude-3-5-haiku-20241022", mkRates 1 5 (1 # 10) (125 # 100));
   ("claude-3-opus-20240229", mkRates 15 75 (15 # 10) (1875 # 100))].

Fixpoint pricing_lookup (t : list (string * Rates)) (k : string) : option Rates :=
  match t with
  | [] => None
  | (k', r) :: t' => if String.eqb k' k then Some r else pricing_lookup t' k
  end.

Definition fallback_rates : Rates := mkRates 3 15 (3 # 10) (375 # 100).

(** [modelPricing[model] || modelPricing["claude-3-5-sonnet-20241022"]];
    the table is read on its own four keys. *)
Definition pricing_for (model : value) : Rates :=
  match pricing_lookup modelPricing (ToString model) with
  | Some r => r
  | None =>
      match pricing_lookup modelPricing default_model with
      | Some r => r
      | None => fallback_rates
      end
  end.

(** Number of pieces of [text.split(/\s+/)]: one more than the number of
    runs of white space. *)
Fixpoint ws_runs (s : string) (in_run : bool) : Z :=
  match s with
  | EmptyString => 0
  | String c s' =>
      if Str.is_ws c
      then (if in_run then 0 else 1) + ws_runs s' true
      else ws_runs s' false
  end.

(** [estimateTokenCount] *)
Definition estimateTokenCount (text : string) : value :=
  if Str.is_empty text then num 0
  else
    let characters := inject_Z (Z.of_nat (String.length text)) in
    let words := inject_Z (ws_runs text false + 1) in
    Arith.ceil_max (characters / (37 # 10)) (words * (3 # 4)).

(** [calculateModelCost] *)
Definition calculateModelCost (model usage estimatedInputTokens : value) : value :=
  let pricing := pricing_for model in
  let inputTokens := or_else (get_opt usage "input_tokens") estimatedInputTokens in
  let outputTokens := or_else (get_opt usage "output_tokens") (num 0) in
  let cacheReadTokens := or_else (get_opt usage "cache_read_input_tokens") (num 0) in
  let cacheCreationTokens :=
    or_else (get_opt usage "cache_creation_input_tokens") (num 0) in
  let inputCost :=
    Arith.div_const (Arith.mul inputTokens (VNum (rate_input pricing))) 1000000 in
  let outputCost :=
    Arith.div_const (Arith.mul outputTokens (VNum (rate_output pricing))) 1000000 in
  let cacheReadCost :=
    Arith.div_const (Arith.mul cacheReadTokens (VNum (rate_cacheRead pricing))) 1000000 in
  let cacheWriteCost :=
    Arith.div_const (Arith.mul cacheCreationTokens (VNum (rate_cacheWrite pricing)))
      1000000 in
  Arith.add (Arith.add (Arith.add inputCost outputCost) cacheReadCost) cacheWriteCost.

(** [truncateContent] on a text *)
Definition truncateContent (content : string) (maxLength : nat) : value :=
  if Str.is_empty content then VNull
  else if (String.length content <=? maxLength)%nat then VStr content
  else VStr (Str.substring_to maxLength content ++ "... [TRUNCATED]").

(** The request content: [messages] and [system] of a POST body *)
Definition request_content (method : value) (init_body : value) : value :=
  if truthy init_body && strict_eq method (VStr "POST") then
    match (match init_body with
           | VStr t => Some t
           | _ => JSON.stringify init_body
           end) with
    | Some requestBody =>
        match JSON.parse requestBody with
        | Some requestData =>
            match get requestData "messages", get requestData "system" with
            | Ok m, Ok sy => VObj (set_all [] [("messages", m); ("system", sy)])
            | _, _ => VNull
            end
        | None => VNull
        end
    | None => VNull
    end
  else VNull.

(** [initializeOTELTracer] *)
Definition initializeOTELTracer : Comp World unit :=
  w <- get_state ;;
  if otelInitialized w then ret tt
  else
    try_catch
      (on_otel
         (Otel.initializeTracer
            (Otel.mkConfig
               (ToString (env_or w "CC_PROFILE_RUN_ID" "unknown"))
               (ToString (env_or w "CC_PROFILE_SESSION_ID" "unknown"))
               (outputDir w) (Some "claude-code") (Some "1.0.0") None)) ;;;
       modify set_initialized)
      (fun _ => ret tt).

(** Merging the usage of a later event into the usage held so far *)
Definition merge_usage (currentUsage newUsage : value) : value :=
  VObj (set_all (spread (spread [] currentUsage) newUsage)
          [("input_tokens",
            coalesce (get_opt newUsage "input_tokens")
                     (get_opt currentUsage "input_tokens"));
           ("cache_creation_input_tokens",
            coalesce (get_opt newUsage "cache_creation_input_tokens")
                     (get_opt currentUsage "cache_creation_input_tokens"));
           ("cache_read_input_tokens",
            coalesce (get_opt newUsage "cache_read_input_tokens")
                     (get_opt currentUsage "cache_read_input_tokens"))]).

(** One [data: ] line of an event stream: [responseData] and
    [fullContent] after the body of the loop.  A line that is not JSON,
    or that holds null, changes nothing. *)
Definition sse_line (acc : value * string) (line : string) : value * string :=
  let (responseData, fullContent) := acc in
  let jsonStr := Str.substring_from 6 line in
  if String.eqb jsonStr "[DONE]" then acc
  else
    match JSON.parse jsonStr with
    | None => acc
    | Some data =>
        match get data "type" with
        | Throw _ => acc
        | Ok type =>
            let text := get_opt (get_opt data "delta") "text" in
            let fullContent' :=
              if strict_eq type (VStr "content_block_delta") && truthy text
              then fullContent ++ ToString text
              else fullContent in
            let usage := get_opt data "usage" in
            if truthy usage then
              if negb (truthy responseData)
                 || negb (truthy (get_opt responseData "usage"))
              then (data, fullContent')
              else
                (VObj (set_all (spread (spread [] responseData) data)
                         [("usage",
                           merge_usage (get_opt responseData "usage") usage)]),
                 fullContent')
            else (responseData, fullContent')
        end
    end.

Definition is_sse (responseBody : string) : bool :=
  Str.startsWith responseBody "event:" || Str.includes responseBody "data:".

Definition data_lines (responseBody : string) : list string :=
  filter (fun line => Str.startsWith line "data: ") (Str.split responseBody Str.nl).

(** The event-stream branch: [responseData] and [responseContent] *)
Definition parse_sse (responseBody : string) : value * value :=
  let (responseData, fullContent) :=
    fold_left sse_line (data_lines responseBody) (VNull, EmptyString) in
  (responseData,
   if Str.is_empty fullContent then VNull
   else VObj [("text", VStr fullContent)]).

(** Keeping the blocks whose type is [wanted]; reading the type of a
    block that is null throws. *)
Fixpoint blocks_of_type (wanted : string) (blocks : list value)
  : result (list value) :=
  match blocks with
  | [] => Ok []
  | b :: rest =>
      (ty <- get b "type" ;;
       rest' <- blocks_of_type wanted rest ;;
       Ok (if strict_eq ty (VStr wanted) then b :: rest' else rest'))%js
  end.

(** The plain JSON branch *)
Definition parse_plain (responseBody : string) : result (value * value) :=
  match JSON.parse responseBody with
  | None => Throw "SyntaxError"
  | Some responseData =>
      (content <- get responseData "content" ;;
       if truthy content && isArray content then
         match content with
         | VArr blocks =>
             texts <- blocks_of_type "text" blocks ;;
             let textContent :=
               array_join (map (fun b => get_opt b "text") texts) Str.nl in
             Ok (responseData,
                 if Str.is_empty textContent then VNull
                 else VObj [("text", VStr textContent)])
         | _ => Ok (responseData, VNull)
         end
       else Ok (responseData, VNull))%js
  end.

(** The record written for each [tool_use] block of a response *)
Definition tool_use_event (iso_now : string) (block : value) : value :=
  VObj (set_all []
          [("eventType", VStr "tool_use_request");
           ("timestamp", VStr iso_now);
           ("toolUseId", get_opt block "id");
           ("toolName", get_opt block "name");
           ("toolInput", get_opt block "input");
           ("sessionId", VStr "unknown")]).

Fixpoint record_tool_uses (iso_now : string) (blocks : list value)
  : Comp World unit :=
  match blocks with
  | [] => ret tt
  | b :: rest =>
      ty <- of_result (get b "type") ;;
      (if strict_eq ty (VStr "tool_use")
       then append_log (JSON.stringify_text (tool_use_event iso_now b))
       else ret tt) ;;;
      record_tool_uses iso_now rest
  end.

(** The enhanced attributes drawn from a response with usage *)
Definition enhanced_data (requestContent responseData responseContent : value)
           (durationMs : Z) : props :=
  let usage := get_opt responseData "usage" in
  let model := or_else (get_opt responseData "model") (VStr default_model) in
  let inputTokens0 := get_opt usage "input_tokens" in
  let estimated := negb (truthy inputTokens0) && truthy requestContent in
  let inputTokens :=
    if estimated
    then estimateTokenCount (JSON.stringify_text requestContent)
    else inputTokens0 in
  let tokenSource := if estimated then "estimated" else "api" in
  let finalInputTokens := or_else inputTokens (num 0) in
  let cost := calculateModelCost model usage finalInputTokens in
  set_all []
    [("model", model);
     ("requestType", VStr "completion");
     ("tokensInput", finalInputTokens);
     ("tokensOutput", or_else (get_opt usage "output_tokens") (num 0));
     ("tokensCacheRead", or_else (get_opt usage "cache_read_input_tokens") (num 0));
     ("tokensCacheCreation",
      or_else (get_opt usage "cache_creation_input_tokens") (num 0));
     ("tokensTotal",
      Arith.add finalInputTokens (or_else (get_opt usage "output_tokens") (num 0)));
     ("costUsd", Arith.toFixed6_parsed cost);
     ("costCalculation", VStr "interceptor_estimated");
     ("inputTokenSource", VStr tokenSource);
     ("requestDurationMs", num durationMs);
     ("promptText",
      if truthy requestContent
      then truncateContent (JSON.stringify_text requestContent) 10000
      else VNull);
     ("responseText",
      if truthy responseContent
      then truncateContent (ToString (get_opt responseContent "text")) 10000
      else VNull);
     ("fullUsage", usage)].

(** The inner [try] block of the interceptor: reading the body and
    computing the enhanced data. *)
Definition read_response (requestContent : value) (response : Response)
           (iso_now : string) (durationMs : Z) : Comp World props :=
  responseBody <- of_result (body response) ;;
  parsed <- (if is_sse responseBody
             then ret (parse_sse responseBody)
             else of_result (parse_plain responseBody)) ;;
  let responseData := fst parsed in
  let responseContent := snd parsed in
  (if truthy responseData then
     content <- of_result (get responseData "content") ;;
     match content with
     | VArr blocks => record_tool_uses iso_now blocks
     | _ => ret tt
     end
   else ret tt) ;;;
  if truthy responseData && truthy (get_opt responseData "usage")
  then ret (enhanced_data requestContent responseData responseContent durationMs)
  else ret [].

Definition prop (o : props) (k : string) : value := prop_of o k.

(** Completing the span of a request that got a response *)
Definition complete_span (span : Otel.Span) (response : Response)
           (enhancedData : props) (duration : Z) : Otel.M Otel.Span :=
  let span1 :=
    Otel.setAttributes span
      [("http.status_code", num (status response));
       ("ai.duration.ms", num duration)] in
  let span2 :=
    if truthy (prop enhancedData "model") then
      let s1 :=
        Otel.setAttributes span1
          [("ai.model", prop enhancedData "model");
           ("ai.tokens.input", or_else (prop enhancedData "tokensInput") (num 0));
           ("ai.tokens.output", or_else (prop enhancedData "tokensOutput") (num 0));
           ("ai.cache.read", or_else (prop enhancedData "tokensCacheRead") (num 0));
           ("ai.cache.write",
            or_else (prop enhancedData "tokensCacheCreation") (num 0));
           ("ai.cost.usd", or_else (prop enhancedData "costUsd") (num 0))] in
      let s2 :=
        if truthy (prop enhancedData "promptText")
        then Otel.setAttributes s1 [("ai.prompt", prop enhancedData "promptText")]
        else s1 in
      if truthy (prop enhancedData "responseText")
      then Otel.setAttributes s2 [("ai.response", prop enhancedData "responseText")]
      else s2
    else span1 in
  Otel.end_span (Otel.setStatus span2 (Otel.status_of_code (if ok response then 1 else 2))
                   VUndef).

(** The span of a request, when tracing works *)
Definition open_api_span (url : string) (method : value)
  : Comp World (option Otel.Span) :=
  try_catch
    (initializeOTELTracer ;;;
     sp <- on_otel (Otel.startApiCallSpan url method) ;;
     ret (Some (Otel.setAttributes sp
                  [("http.url", VStr url);
                   ("http.method", method);
                   ("ai.provider", VStr "anthropic")])))
    (fun _ => ret None).

(** The record of a request in the events log *)
Definition fetch_data (url : string) (method : value) (response : Response)
           (requestTimestamp responseTimestamp : Z) (iso_now : string)
           (enhancedData : props) : value :=
  VObj (spread
          (set_all []
             [("eventType", VStr "api");
              ("timestamp", VStr iso_now);
              ("method", method);
              ("url", VStr url);
              ("status", num (status response));
              ("startTime", num requestTimestamp);
              ("endTime", num responseTimestamp);
              ("durationMs", num (responseTimestamp - requestTimestamp))])
          (VObj enhancedData)).

(** The enhanced data of a response; when reading them fails, the failure
    is reported and they are empty. *)
Definition read_enhanced (requestContent : value) (response : Response)
           (iso_now : string) (duration : Z) : Comp World props :=
  try_catch
    (read_response requestContent response iso_now duration)
    (fun e =>
       console_error
         ("Interceptor: Failed to parse API response for enhanced data: " ++ e) ;;;
       ret []).

(** The [try] block around the request *)
Definition respond (url : string) (init requestContent : value)
           (span : option Otel.Span) (network : result Response)
           (requestTimestamp responseTimestamp : Z) (iso_now : string)
  : Comp World Response :=
  response <- of_result network ;;
  let duration := responseTimestamp - requestTimestamp in
  enhancedData <- read_enhanced requestContent response iso_now duration ;;
  init_method <- of_result (get init "method") ;;
  append_log
    (JSON.stringify_text
       (fetch_data url (or_else init_method (VStr "GET")) response requestTimestamp
          responseTimestamp iso_now enhancedData)) ;;;
  match span with
  | Some sp => on_otel (complete_span sp response enhancedData duration) ;;; ret tt
  | None => ret tt
  end ;;;
  ret response.

(** Its [catch] block *)
Definition fail_request (span : option Otel.Span) (e : string) : Comp World Response :=
  match span with
  | Some sp =>
      on_otel (Otel.end_span
                 (Otel.setStatus (Otel.recordException sp e) Otel.ERROR (VStr e))) ;;;
      throw e
  | None => throw e
  end.

(** The parameter [init = {}]: the default stands in for a second
    argument that is left out or undefined, not for [null]. *)
Definition init_or_default (init : value) : value :=
  match init with
  | VUndef => VObj []
  | _ => init
  end.

(** One call of the host to [fetch] with a text as its first argument and
    [init] as its second.  [network] is what the original [fetch] does
    with the request; [requestTimestamp], [responseTimestamp] and
    [iso_now] are the readings of the clock. *)
Definition intercepted_fetch (url : string) (init : value)
           (network : result Response)
           (requestTimestamp responseTimestamp : Z) (iso_now : string)
  : Comp World Response :=
  let init := init_or_default init in
  let method := or_else (get_opt init "method") (VStr "GET") in
  anthropic <- isAnthropicAPI url ;;
  if negb anthropic then of_result network
  else
    let requestContent := request_content method (get_opt init "body") in
    span <- open_api_span url method ;;
    try_catch
      (respond url init requestContent span network requestTimestamp
         responseTimestamp iso_now)
      (fail_request span).

(** ** The spawn interceptor *)

(** A call of [write] on a stream: the chunk, the encoding and the
    callback (a callback is known by a number). *)
Record WriteCall := mkWrite {
  chunk : value;
  encoding : value;
  callback : option nat
}.

(** What the interceptor keeps for a child it watches: the texts
    captured so far and the [hookData] object. *)
Record Capture := mkCapture {
  cap_stdout : string;
  cap_stderr : string;
  cap_stdinData : string;
  cap_hookData : props
}.

(** A [ChildProcess] object: the arguments it was spawned with, the
    streams it has, the writes that reached its standard input, and the
    capture installed on it, if any. *)
Record Child := mkChild {
  pid : nat;
  file : value;
  argv : list value;
  opts : value;
  has_stdin : bool;
  has_stdout : bool;
  has_stderr : bool;
  stdin_received : list WriteCall;
  capture : option Capture
}.

(** The host process: the state of the preload module, the children
    spawned so far, and the platform, which decides the streams of a new
    child and what a write on its input returns. *)
Record Host := mkHost {
  world : World;
  children : list Child;
  stdio_of : value -> list value -> value -> bool * bool * bool;
  write_returns : nat -> WriteCall -> bool
}.

Definition set_world (h : Host) (w : World) : Host :=
  mkHost w (children h) (stdio_of h) (write_returns h).
Definition set_children (h : Host) (l : list Child) : Host :=
  mkHost (world h) l (stdio_of h) (write_returns h).
Definition on_world {A} (m : Comp World A) : Comp Host A := zoom world set_world m.

Definition is_object (v : value) : bool :=
  match v with VObj _ => true | _ => false end.

(** [normalizeSpawnArguments] of the platform: the arguments may be left
    out, and an object in their place is the options. *)
Definition normalizeSpawnArguments (file args options : value)
  : result (list value * value) :=
  match file with
  | VStr f =>
      if Str.is_empty f then Throw "ERR_INVALID_ARG_VALUE"
      else
        let continue_with (a : list value) (o : value) :=
          match o with
          | VUndef => Ok (a, VObj [])
          | VObj _ => Ok (a, o)
          | _ => Throw "ERR_INVALID_ARG_TYPE"
          end in
        match args with
        | VArr l => continue_with l options
        | VUndef | VNull => continue_with [] options
        | VObj _ => continue_with [] args
        | _ => Throw "ERR_INVALID_ARG_TYPE"
        end
  | _ => Throw "ERR_INVALID_ARG_TYPE"
  end.

(** [originalSpawn]: the spawn primitive of the platform *)
Definition originalSpawn (command args options : value) : Comp Host nat :=
  normalized <- of_result (normalizeSpawnArguments command args options) ;;
  h <- get_state ;;
  let id := List.length (children h) in
  let '(i, o, e) := stdio_of h command (fst normalized) (snd normalized) in
  modify (fun h => set_children h
            (children h ++ [mkChild id command (fst normalized) (snd normalized)
                              i o e [] None])%list) ;;;
  ret id.

(** [args.some(arg => typeof arg === 'string' && arg.includes(text))];
    a value that is not an array has no method [some]. *)
Definition some_includes (args : value) (text : string) : result bool :=
  match args with
  | VArr l =>
      Ok (existsb (fun arg => match arg with
                              | VStr a => Str.includes a text
                              | _ => false
                              end) l)
  | _ => Throw "TypeError: args.some is not a function"
  end.

(** [isClaudeHook] *)
Definition isClaudeHook (command args options : value) (w : World) : result value :=
  (let env := or_else (get_opt options "env") (VObj (env w)) in
   hasClaudeProjectDir <- get env "CLAUDE_PROJECT_DIR" ;;
   let isShellMode := VBool (strict_eq (get_opt options "shell") (VBool true)) in
   let isOfficialHook := and_then hasClaudeProjectDir isShellMode in
   rest <- iterate args ;;
   let commandStr := array_join (command :: rest) " " in
   let isOrchestratorHook :=
     VBool (Str.includes commandStr "cc-profile"
            || Str.includes commandStr "INTERCEPTOR TEST") in
   Ok (or_else isOfficialHook isOrchestratorHook))%js.

Definition update_child (l : list Child) (id : nat) (f : Child -> Child) : list Child :=
  map (fun c => if Nat.eqb (pid c) id then f c else c) l.

Definition find_child (l : list Child) (id : nat) : option Child :=
  List.find (fun c => Nat.eqb (pid c) id) l.

Definition set_capture (c : Child) (k : option Capture) : Child :=
  mkChild (pid c) (file c) (argv c) (opts c) (has_stdin c) (has_stdout c)
    (has_stderr c) (stdin_received c) k.

Definition receive (c : Child) (wc : WriteCall) : Child :=
  mkChild (pid c) (file c) (argv c) (opts c) (has_stdin c) (has_stdout c)
    (has_stderr c) (stdin_received c ++ [wc])%list (capture c).

(** [interceptedSpawn]; [now] and [iso_now] are the readings of the
    clock.  The value returned is the child, known by its number. *)
Definition interceptedSpawn (command args0 options0 : value) (now : Z)
           (iso_now : string) : Comp Host nat :=
  let args := match args0 with VUndef => VArr [] | a => a end in
  let options := match options0 with VUndef => VObj [] | o => o end in
  h <- get_state ;;
  env_opt <- of_result (get options "env") ;;
  let env := or_else env_opt (VObj (env (world h))) in
  hasEchoInArgs <- of_result (some_includes args "INTERCEPTOR TEST") ;;
  hook <- of_result (isClaudeHook command args options (world h)) ;;
  if truthy hook || hasEchoInArgs then
    child <- originalSpawn command args options ;;
    let hookData :=
      set_all []
        [("timestamp", VStr iso_now);
         ("command", command);
         ("args", args);
         ("env", VObj (set_all []
                         [("CLAUDE_PROJECT_DIR", get_opt env "CLAUDE_PROJECT_DIR");
                          ("cwd", or_else (get_opt env "cwd") (get_opt options "cwd"))]));
         ("options", VObj (set_all []
                             [("shell", get_opt options "shell");
                              ("stdio", get_opt options "stdio")]));
         ("startTime", num now);
         ("stdinData", VNull);
         ("hookEventData", VNull)] in
    modify (fun h => set_children h
              (update_child (children h) child
                 (fun c => set_capture c
                    (Some (mkCapture EmptyString EmptyString EmptyString hookData))))) ;;;
    ret child
  else originalSpawn command args options.

(** [originalWrite]: the write of the underlying stream *)
Definition originalWrite (id : nat) (wc : WriteCall) : Comp Host bool :=
  h <- get_state ;;
  modify (fun h => set_children h (update_child (children h) id (fun c => receive c wc))) ;;;
  ret (write_returns h id wc).

(** What the replaced [write] captures of a chunk *)
Definition capture_chunk (k : Capture) (c : value) : Capture :=
  if truthy c then
    let stdinData := cap_stdinData k ++ ToString c in
    let trimmed := Str.trim stdinData in
    let hookData :=
      if Str.is_empty trimmed then cap_hookData k
      else match JSON.parse trimmed with
           | Some hookEventData =>
               match get hookEventData "session_id",
                     get hookEventData "hook_event_name" with
               | Ok sid, Ok name =>
                   if truthy sid && truthy name
                   then obj_set (cap_hookData k) "hookEventData" hookEventData
                   else cap_hookData k
               | _, _ => cap_hookData k
               end
           | None => cap_hookData k
           end in
    mkCapture (cap_stdout k) (cap_stderr k) stdinData hookData
  else k.

(** [child.stdin.write(chunk, encoding, callback)] as the host calls it
    on a child that has a standard input *)
Definition stdin_write (id : nat) (wc : WriteCall) : Comp Host bool :=
  modify (fun h => set_children h
            (update_child (children h) id
               (fun c => match capture c with
                         | Some k => set_capture c (Some (capture_chunk k (chunk wc)))
                         | None => c
                         end))) ;;;
  originalWrite id wc.

(** The [data] listeners on the output streams *)
Definition on_stdout_data (id : nat) (data : string) : Comp Host unit :=
  modify (fun h => set_children h
            (update_child (children h) id
               (fun c => match capture c with
                         | Some k =>
                             if has_stdout c
                             then set_capture c
                                    (Some (mkCapture (cap_stdout k ++ data) (cap_stderr k)
                                             (cap_stdinData k) (cap_hookData k)))
                             else c
                         | None => c
                         end))).

Definition on_stderr_data (id : nat) (data : string) : Comp Host unit :=
  modify (fun h => set_children h
            (update_child (children h) id
               (fun c => match capture c with
                         | Some k =>
                             if has_stderr c
                             then set_capture c
                                    (Some (mkCapture (cap_stdout k) (cap_stderr k ++ data)
                                             (cap_stdinData k) (cap_hookData k)))
                             else c
                         | None => c
                         end))).

(** [createHookSpan] *)
Definition createHookSpan (hookData : props) : Comp World (option Otel.Span) :=
  try_catch
    (let hookEventData := prop hookData "hookEventData" in
     let eventName :=
       if truthy hookEventData
       then or_else (get_opt hookEventData "hook_event_name") (VStr "hook_execution")
       else VStr "hook_execution" in
     let toolName :=
       if truthy hookEventData then get_opt hookEventData "tool_name" else VNull in
     on_otel
       (span <- Otel.startHookEventSpan eventName toolName ;;
        rest <- of_result (iterate (prop hookData "args")) ;;
        shell <- of_result (get (prop hookData "options") "shell") ;;
        let span1 :=
          Otel.setAttributes span
            [("hook.event", eventName);
             ("hook.command", VStr (array_join (prop hookData "command" :: rest) " "));
             ("hook.duration.ms", prop hookData "duration");
             ("hook.exit_code", or_else (prop hookData "exitCode") (num 0));
             ("process.shell", or_else shell (VBool false))] in
        let span2 :=
          if truthy toolName
          then Otel.setAttributes span1 [("tool.name", toolName)]
          else span1 in
        let dir := get_opt (prop hookData "env") "CLAUDE_PROJECT_DIR" in
        let span3 :=
          if truthy (prop hookData "env") && truthy dir
          then Otel.setAttributes span2 [("hook.project_dir", dir)]
          else span2 in
        let span4 :=
          if truthy (prop hookData "stdout")
          then Otel.setAttributes span3
                 [("hook.stdout_length",
                   get_opt (prop hookData "stdout") "length")]
          else span3 in
        let span5 :=
          if truthy (prop hookData "stderr")
          then Otel.setAttributes span4
                 [("hook.stderr_length",
                   get_opt (prop hookData "stderr") "length")]
          else span4 in
        let failed :=
          truthy (prop hookData "error")
          || (truthy (prop hookData "exitCode")
              && negb (strict_eq (prop hookData "exitCode") (num 0))) in
        let span6 :=
          if failed then
            let msg := or_else (prop hookData "error")
                         (VStr ("Exit code: " ++ ToString (prop hookData "exitCode"))) in
            let s := Otel.setStatus span5 Otel.ERROR msg in
            if truthy (prop hookData "error")
            then Otel.recordException s (ToString (prop hookData "error"))
            else s
          else Otel.setStatus span5 Otel.OK VUndef in
        ended <- Otel.end_span span6 ;;
        ret (Some ended)))
    (fun _ => ret None).

(** A time or a duration held by [hookData] *)
Definition int_prop (hookData : props) (k : string) : Z :=
  match prop hookData k with VNum q => Qfloor q | _ => 0 end.

(** What both the [close] and the [error] listener do once [hookData] is
    completed: a PostToolUse event is correlated and becomes a tool
    execution, anything else a hook record. *)
Definition finish_hook (hookData : props) (error : option string) (iso_now : string)
  : Comp World (option Otel.Span) :=
  w <- get_state ;;
  let event := prop hookData "hookEventData" in
  if truthy event
     && strict_eq (get_opt event "hook_event_name") (VStr "PostToolUse")
  then
    let toolUseId :=
      findRecentToolUseId (get_opt event "tool_name") (get_opt event "tool_input")
        (logFile w) (fs w) in
    let toolExecutionEvent :=
      mkToolExecution iso_now toolUseId (get_opt event "tool_name")
        (get_opt event "tool_input") (get_opt event "tool_response")
        (get_opt event "session_id")
        (int_prop hookData "startTime") (int_prop hookData "endTime")
        (int_prop hookData "duration")
        error in
    append_log (JSON.stringify_text (tool_execution_json toolExecutionEvent)) ;;;
    createToolExecutionSpan toolExecutionEvent
  else
    append_log (JSON.stringify_text
                  (VObj (set_all (spread [] (VObj hookData))
                           [("eventType", VStr "hook")]))) ;;;
    createHookSpan hookData.

(** The [close] listener *)
Definition on_close (id : nat) (code : value) (now : Z) (iso_now : string)
  : Comp Host (option Otel.Span) :=
  h <- get_state ;;
  match find_child (children h) id with
  | Some c =>
      match capture c with
      | Some k =>
          let hookData :=
            set_all (cap_hookData k)
              [("endTime", num now);
               ("duration", num (now - int_prop (cap_hookData k) "startTime"));
               ("exitCode", or_else code (num 0));
               ("stdout", VStr (cap_stdout k));
               ("stderr", VStr (cap_stderr k));
               ("stdinData", VStr (cap_stdinData k))] in
          modify (fun h => set_children h
                    (update_child (children h) id
                       (fun c => set_capture c
                          (Some (mkCapture (cap_stdout k) (cap_stderr k)
                                   (cap_stdinData k) hookData))))) ;;;
          on_world (finish_hook hookData None iso_now)
      | None => ret None
      end
  | None => ret None
  end.

(** The [error] listener *)
Definition on_error (id : nat) (message : string) (now : Z) (iso_now : string)
  : Comp Host (option Otel.Span) :=
  h <- get_state ;;
  match find_child (children h) id with
  | Some c =>
      match capture c with
      | Some k =>
          let hookData :=
            set_all (cap_hookData k)
              [("error", VStr message);
               ("endTime", num now);
               ("duration", num (now - int_prop (cap_hookData k) "startTime"))] in
          modify (fun h => set_children h
                    (update_child (children h) id
                       (fun c => set_capture c
                          (Some (mkCapture (cap_stdout k) (cap_stderr k)
                                   (cap_stdinData k) hookData))))) ;;;
          on_world (finish_hook hookData (Some message) iso_now)
      | None => ret None
      end
  | None => ret None
  end.

End Preload.

(* ================================================================== *)
(** * The JSONL exporter ([otlp-json-exporter.ts]) *)
(* ================================================================== *)

Module Exporter.
Import JS Eff.
Local Open Scope eff_scope.

Inductive ExportResultCode := SUCCESS | FAILED.

Record Config := mkConfig {
  outputDir : string;
  runId : string;
  sessionId : string;
  parentSessionId : option string
}.

(** The fields of the exporter *)
Definition outputPath (c : Config) : string := Fs.join (outputDir c) "trace.otlp.jsonl".

(** What the exporter acts on: the files and the error stream. *)
Record Env := mkEnv {
  fs : Fs.FS;
  stderr : list string
}.

Definition on_fs {A} (m : Comp Fs.FS A) : Comp Env A :=
  zoom fs (fun e f => mkEnv f (stderr e)) m.

Definition console_error (msg : string) : Comp Env unit :=
  modify (fun e => mkEnv (fs e) (stderr e ++ [msg])%list).

(** The session attributes are assigned on the attribute object itself. *)
Definition stamp (c : Config) (sp : Otel.Span) : Otel.Span :=
  let a1 := obj_set (Otel.attributes sp) "session.id" (VStr (sessionId c)) in
  let a2 := match parentSessionId c with
            | Some p => if Str.is_empty p then a1
                        else obj_set a1 "parent.session.id" (VStr p)
            | None => a1
            end in
  Otel.mkSpan (Otel.traceId sp) (Otel.spanId sp) (Otel.parentSpanId sp)
    (Otel.name sp) (Otel.kind sp) a2 (Otel.status sp) (Otel.statusMessage sp)
    (Otel.exceptions sp) (Otel.ended sp).

Section WithSerializer.

(** [JsonTraceSerializer.serializeRequest] of the OpenTelemetry
    transformer followed by the decoding of its bytes: the OTLP text of
    a batch, or an exception. *)
Variable serializeRequest : list Otel.Span -> result string.

(** The [try] block of [export] *)
Definition write_batch (c : Config) (spans : list Otel.Span) : Comp Env unit :=
  let spansWithSession := map (stamp c) spans in
  otlpText <- of_result (serializeRequest spansWithSession) ;;
  otlpJson <- of_result (match JSON.parse otlpText with
                         | Some v => Ok v
                         | None => Throw "SyntaxError"
                         end) ;;
  on_fs (Fs.appendFileSync (outputPath c) (JSON.stringify_text otlpJson ++ Str.nl)).

(** [export]: the code passed to the result callback *)
Definition export (c : Config) (spans : list Otel.Span) : Comp Env ExportResultCode :=
  try_catch (write_batch c spans)
    (fun e => console_error ("OTLP Exporter: Error writing spans: " ++ e)) ;;;
  ret SUCCESS.

End WithSerializer.

End Exporter.

(* ================================================================== *)
(** * The viewer's span list ([otlp-parser.ts], [otlp-frontend-init.ts]) *)
(* ================================================================== *)

Module Viewer.
Import JS.

(** A span of the viewer with its children *)
Inductive D3Span : Type :=
| D3 (id : string) (name : string) (type : string) (status : string)
     (children : list D3Span).

(** [createEmptyRoot] *)
Definition createEmptyRoot : D3Span :=
  D3 "root" "Claude Code Session" "other" "unknown" [].

(** [OTLPParser.flattenSpans]: the root, then each child in turn *)
Fixpoint flattenSpans (root : D3Span) : list D3Span :=
  match root with
  | D3 _ _ _ _ children => root :: flat_map flattenSpans children
  end.

(** The test of the viewer before it draws: on an empty list of spans it
    shows the message that no trace spans were found. *)
Definition shows_empty_state (parsedSpans : list D3Span) : bool :=
  Nat.eqb (List.length parsedSpans) 0.

(** The spans that [OTLPParser.parse] reads from the trace data: those of
    every scope of every resource. *)
Definition all_spans (traceData : value) : result (list value) :=
  (resourceSpans <- get traceData "resourceSpans" ;;
   rs <- iterate resourceSpans ;;
   fold_left
     (fun acc resourceSpan =>
        done <- acc ;;
        scopeSpans <- get resourceSpan "scopeSpans" ;;
        ss <- iterate scopeSpans ;;
        fold_left
          (fun acc' scopeSpan =>
             done' <- acc' ;;
             spans <- get scopeSpan "spans" ;;
             l <- iterate spans ;;
             Ok (done' ++ l)%list)
          ss (Ok done))
     rs (Ok []))%js.

End Viewer.

(* ================================================================== *)
(** * The report materializer ([otlp-html-generator.ts]) *)
(* ================================================================== *)

Module Report.
Import JS Eff.
Local Open Scope eff_scope.

(** The fields that the constructor computes from the place of the
    module: the bundle, the template of the package and the template of
    the sources. *)
Record Install := mkInstall {
  bundle_file : string;
  package_template : string;
  source_template : string
}.

Record Generator := mkGenerator {
  templatePath : string;
  bundlePath : string
}.

(** The constructor *)
Definition new_generator (i : Install) (fs : Fs.FS) : Generator :=
  mkGenerator
    (if Fs.existsSync fs (package_template i)
     then package_template i else source_template i)
    (bundle_file i).

Record Env := mkEnv {
  fs : Fs.FS;
  warnings : list string
}.

Definition on_fs {A} (m : Comp Fs.FS A) : Comp Env A :=
  zoom fs (fun e f => mkEnv f (warnings e)) m.

(** [console.warn], which writes to the standard error *)
Definition console_warn (msg : string) : Comp Env unit :=
  modify (fun e => mkEnv (fs e) (warnings e ++ [msg])%list).

Definition bundle_marker : string := "__OTLP_BUNDLE_REPLACEMENT__".
Definition data_marker : string := "__OTLP_DATA_REPLACEMENT__".
Definition title_marker : string := "__OTLP_TITLE_REPLACEMENT__".

(** [ensureFrontendBuilt] *)
Definition ensureFrontendBuilt (g : Generator) (fs : Fs.FS) : result unit :=
  if negb (Fs.existsSync fs (bundlePath g))
  then Throw "Frontend bundle not found"
  else if negb (Fs.existsSync fs (templatePath g))
       then Throw "Template file not found"
       else Ok tt.

(** [getDefaultOTLPTemplate] *)
Definition getDefaultOTLPTemplate : string :=
  ("<!DOCTYPE html>
<html lang="
    ++ Str.dq ++ "en"
    ++ Str.dq ++ ">
<head>
    <meta charset="
    ++ Str.dq ++ "UTF-8"
    ++ Str.dq ++ ">
    <meta name="
    ++ Str.dq ++ "viewport"
    ++ Str.dq ++ " content="
    ++ Str.dq ++ "width=device-width, initial-scale=1.0"
    ++ Str.dq ++ ">
    <title>cc-profile - __OTLP_TITLE_REPLACEMENT__</title>
    <style>
        body {
            font-family: -apple-system, BlinkMacSystemFont, 'Segoe UI', system-ui, sans-serif;
            margin: 0;
            padding: 0;
            background: #fafafa;
        }
        .header {
            background: white;
            border-bottom: 1px solid #e5e7eb;
            padding: 16px 24px;
            box-shadow: 0 1px 3px rgba(0, 0, 0, 0.1);
        }
        .header h1 {
            margin: 0;
            font-size: 24px;
            font-weight: 600;
            color: #111827;
        }
        .metrics-bar {
            display: flex;
            gap: 24px;
            margin-top: 12px;
            font-size: 14px;
            color: #6b7280;
        }
        .metric {
            display: flex;
            align-items: center;
            gap: 4px;
        }
        .metric-value {
            font-weight: 600;
            color: #111827;
        }
        .metric.error-metric {
            color: #dc2626;
        }
        .metric.error-metric .metric-value {
            color: #dc2626;
            font-weight: 700;
        }
        .error-badge {
            background: #dc2626;
            color: white;
            padding: 2px 8px;
            border-radius: 12px;
            font-size: 12px;
            font-weight: 600;
            min-width: 20px;
            text-align: center;
        }
        .error-badge.zero-errors {
            background: #10b981;
        }
        .main-container {
            display: flex;
            height: calc(100vh - 120px);
        }
        .timeline-panel {
            flex: 0 0 70%;
            background: white;
            margin: 16px 0 16px 16px;
            border-radius: 8px;
            box-shadow: 0 1px 3px rgba(0, 0, 0, 0.1);
            overflow: hidden;
            display: flex;
            flex-direction: column;
        }
        .details-panel {
            flex: 0 0 30%;
            background: white;
            margin: 16px 16px 16px 8px;
            border-radius: 8px;
            box-shadow: 0 1px 3px rgba(0, 0, 0, 0.1);
            padding: 16px;
            overflow-y: auto;
        }
        .panel-header {
            padding: 16px;
            border-bottom: 1px solid #e5e7eb;
            font-weight: 600;
            color: #111827;
        }
        #trace-viewer, #flame-viewer {
            flex: 1;
            overflow: hidden;
        }
        .no-selection {
            color: #6b7280;
            text-align: center;
            margin-top: 40px;
        }
        .legend {
            display: flex;
            gap: 16px;
            padding: 12px 16px;
            background: #f9fafb;
            border-bottom: 1px solid #e5e7eb;
            font-size: 12px;
        }
        .legend-item {
            display: flex;
            align-items: center;
            gap: 6px;
        }
        .legend-color {
            width: 12px;
            height: 12px;
            border-radius: 2px;
        }
        .view-tabs {
            display: flex;
            background: #f9fafb;
            border-bottom: 1px solid #e5e7eb;
        }
        .tab-btn {
            padding: 12px 24px;
            border: none;
            background: transparent;
            cursor: pointer;
            font-size: 14px;
            font-weight: 500;
            color: #6b7280;
            border-bottom: 2px solid transparent;
            transition: all 0.2s;
        }
        .tab-btn:hover {
            color: #111827;
            background: #f3f4f6;
        }
        .tab-btn.active {
            color: #3b82f6;
            border-bottom-color: #3b82f6;
            background: white;
        }
        .view-container {
            flex: 1;
            display: flex;
            flex-direction: column;
            overflow: hidden;
        }
        .view-panel {
            display: none;
            flex: 1;
            overflow: hidden;
        }
        .view-panel.active {
            display: flex;
            flex-direction: column;
        }
        
        /* JSON syntax highlighting */
        .json-key {
            color: #0066cc;
            font-weight: 600;
        }
        .json-string {
            color: #008000;
        }
        .json-number {
            color: #ff6600;
        }
        .json-boolean {
            color: #cc0066;
            font-weight: 600;
        }
        .json-null {
            color: #999999;
            font-style: italic;
        }
    </style>
</head>
<body>
    <div class="
    ++ Str.dq ++ "header"
    ++ Str.dq ++ ">
        <h1>__OTLP_TITLE_REPLACEMENT__</h1>
        <div class="
    ++ Str.dq ++ "metrics-bar"
    ++ Str.dq ++ ">
            <div class="
    ++ Str.dq ++ "metric"
    ++ Str.dq ++ ">
                <span>Total Cost:</span>
                <span class="
    ++ Str.dq ++ "metric-value"
    ++ Str.dq ++ " id="
    ++ Str.dq ++ "total-cost"
    ++ Str.dq ++ ">$0.00</span>
            </div>
            <div class="
    ++ Str.dq ++ "metric"
    ++ Str.dq ++ ">
                <span>Input Tokens:</span>
                <span class="
    ++ Str.dq ++ "metric-value"
    ++ Str.dq ++ " id="
    ++ Str.dq ++ "total-input-tokens"
    ++ Str.dq ++ ">0</span>
            </div>
            <div class="
    ++ Str.dq ++ "metric"
    ++ Str.dq ++ ">
                <span>Output Tokens:</span>
                <span class="
    ++ Str.dq ++ "metric-value"
    ++ Str.dq ++ " id="
    ++ Str.dq ++ "total-output-tokens"
    ++ Str.dq ++ ">0</span>
            </div>
            <div class="
    ++ Str.dq ++ "metric"
    ++ Str.dq ++ ">
                <span>Duration:</span>
                <span class="
    ++ Str.dq ++ "metric-value"
    ++ Str.dq ++ " id="
    ++ Str.dq ++ "total-duration"
    ++ Str.dq ++ ">0ms</span>
            </div>
            <div class="
    ++ Str.dq ++ "metric"
    ++ Str.dq ++ ">
                <span>API Calls:</span>
                <span class="
    ++ Str.dq ++ "metric-value"
    ++ Str.dq ++ " id="
    ++ Str.dq ++ "api-call-count"
    ++ Str.dq ++ ">0</span>
            </div>
            <div class="
    ++ Str.dq ++ "metric"
    ++ Str.dq ++ ">
                <span>Tool Calls:</span>
                <span class="
    ++ Str.dq ++ "metric-value"
    ++ Str.dq ++ " id="
    ++ Str.dq ++ "tool-call-count"
    ++ Str.dq ++ ">0</span>
            </div>
            <div class="
    ++ Str.dq ++ "metric"
    ++ Str.dq ++ ">
                <span>Hook Calls:</span>
                <span class="
    ++ Str.dq ++ "metric-value"
    ++ Str.dq ++ " id="
    ++ Str.dq ++ "hook-call-count"
    ++ Str.dq ++ ">0</span>
            </div>
            <div class="
    ++ Str.dq ++ "metric error-metric"
    ++ Str.dq ++ ">
                <span>Errors:</span>
                <span class="
    ++ Str.dq ++ "error-badge"
    ++ Str.dq ++ " id="
    ++ Str.dq ++ "error-count"
    ++ Str.dq ++ ">0</span>
            </div>
        </div>
    </div>
    
    <div class="
    ++ Str.dq ++ "main-container"
    ++ Str.dq ++ ">
        <div class="
    ++ Str.dq ++ "timeline-panel"
    ++ Str.dq ++ ">
            <div class="
    ++ Str.dq ++ "view-tabs"
    ++ Str.dq ++ ">
                <button class="
    ++ Str.dq ++ "tab-btn active"
    ++ Str.dq ++ " data-view="
    ++ Str.dq ++ "timeline"
    ++ Str.dq ++ ">Timeline</button>
                <button class="
    ++ Str.dq ++ "tab-btn"
    ++ Str.dq ++ " data-view="
    ++ Str.dq ++ "flamegraph"
    ++ Str.dq ++ ">Flamegraph</button>
            </div>
            <div class="
    ++ Str.dq ++ "view-container"
    ++ Str.dq ++ ">
                <div id="
    ++ Str.dq ++ "timeline-view"
    ++ Str.dq ++ " class="
    ++ Str.dq ++ "view-panel active"
    ++ Str.dq ++ ">
                    <div class="
    ++ Str.dq ++ "legend"
    ++ Str.dq ++ ">
                        <div class="
    ++ Str.dq ++ "legend-item"
    ++ Str.dq ++ ">
                            <div class="
    ++ Str.dq ++ "legend-color"
    ++ Str.dq ++ " style="
    ++ Str.dq ++ "background: #3b82f6;"
    ++ Str.dq ++ "></div>
                            <span>API</span>
                        </div>
                        <div class="
    ++ Str.dq ++ "legend-item"
    ++ Str.dq ++ ">
                            <div class="
    ++ Str.dq ++ "legend-color"
    ++ Str.dq ++ " style="
    ++ Str.dq ++ "background: #10b981;"
    ++ Str.dq ++ "></div>
                            <span>Tool</span>
                        </div>
                        <div class="
    ++ Str.dq ++ "legend-item"
    ++ Str.dq ++ ">
                            <div class="
    ++ Str.dq ++ "legend-color"
    ++ Str.dq ++ " style="
    ++ Str.dq ++ "background: #8b5cf6;"
    ++ Str.dq ++ "></div>
                            <span>Hook</span>
                        </div>
                        <div class="
    ++ Str.dq ++ "legend-item"
    ++ Str.dq ++ ">
                            <div class="
    ++ Str.dq ++ "legend-color"
    ++ Str.dq ++ " style="
    ++ Str.dq ++ "background: #dc2626;"
    ++ Str.dq ++ "></div>
                            <span>Error</span>
                        </div>
                    </div>
                    <div id="
    ++ Str.dq ++ "trace-viewer"
    ++ Str.dq ++ "></div>
                </div>
                <div id="
    ++ Str.dq ++ "flamegraph-view"
    ++ Str.dq ++ " class="
    ++ Str.dq ++ "view-panel"
    ++ Str.dq ++ ">
                    <div id="
    ++ Str.dq ++ "flame-viewer"
    ++ Str.dq ++ "></div>
                </div>
            </div>
        </div>
        
        <div class="
    ++ Str.dq ++ "details-panel"
    ++ Str.dq ++ ">
            <div class="
    ++ Str.dq ++ "panel-header"
    ++ Str.dq ++ ">Span Details</div>
            <div id="
    ++ Str.dq ++ "span-details"
    ++ Str.dq ++ ">
                <div class="
    ++ Str.dq ++ "no-selection"
    ++ Str.dq ++ ">
                    Click on a span in the timeline to view details
                </div>
            </div>
        </div>
    </div>
    
    <script>
        window.otlpData = __OTLP_DATA_REPLACEMENT__;
    </script>
    
    <script>
__OTLP_BUNDLE_REPLACEMENT__
    </script>
</body>
</html>")%string.

(** [loadTemplateFiles] *)
Definition loadTemplateFiles (g : Generator) (fs : Fs.FS) : result (string * string) :=
  (built <- ensureFrontendBuilt g fs ;;
   htmlTemplate <-
     (if Fs.existsSync fs (templatePath g) then
        templateContent <- Fs.readFileSync fs (templatePath g) ;;
        Ok (if Str.includes templateContent bundle_marker
               && Str.includes templateContent data_marker
            then templateContent
            else getDefaultOTLPTemplate)
      else Ok getDefaultOTLPTemplate) ;;
   jsBundle <- Fs.readFileSync fs (bundlePath g) ;;
   Ok (htmlTemplate, jsBundle))%js.

Definition line_separator : string :=
  String (JSON.byte 226) (String (JSON.byte 128) (String (JSON.byte 168) EmptyString)).
Definition paragraph_separator : string :=
  String (JSON.byte 226) (String (JSON.byte 128) (String (JSON.byte 169) EmptyString)).

(** [prepareDataForInjection] *)
Definition prepareDataForInjection (data : value) : string :=
  let dataJson := JSON.stringify_text data in
  Str.replace_all
    (Str.replace_all
       (Str.replace_all
          (Str.replace_all
             (Str.replace_all dataJson "<" (Str.bslash ++ "u003c"))
             ">" (Str.bslash ++ "u003e"))
          "&" (Str.bslash ++ "u0026"))
       line_separator (Str.bslash ++ "u2028"))
    paragraph_separator (Str.bslash ++ "u2029").

(** [escapeHtml] *)
Definition escapeHtml (text : string) : string :=
  Str.replace_all
    (Str.replace_all
       (Str.replace_all
          (Str.replace_all
             (Str.replace_all text "&" "&amp;")
             "<" "&lt;")
          ">" "&gt;")
       Str.dq "&quot;")
    "'" "&#39;".

(** The non-blank lines of a JSONL text *)
Definition jsonl_lines (otlpContent : string) : list string :=
  filter (fun line => negb (Str.is_empty (Str.trim line)))
         (Str.split (Str.trim otlpContent) Str.nl).

(** The body of the loop on one line: the resource spans that the line
    adds, or the exception that the loop catches. *)
Definition read_line (line : string) : result (list value) :=
  match JSON.parse line with
  | None => Throw "SyntaxError"
  | Some lineData =>
      (resourceSpans <- get lineData "resourceSpans" ;;
       if truthy resourceSpans then iterate resourceSpans else Ok [])%js
  end.

(** The loop over the lines of a JSONL file *)
Fixpoint read_lines (lines : list string) (allResourceSpans : list value)
  : Comp Env (list value) :=
  match lines with
  | [] => ret allResourceSpans
  | line :: rest =>
      match read_line line with
      | Ok l => read_lines rest (allResourceSpans ++ l)%list
      | Throw e =>
          console_warn ("Skipping invalid JSONL line: " ++ e) ;;;
          read_lines rest allResourceSpans
      end
  end.

Definition endsWith (s suffix : string) : bool :=
  String.eqb (Str.drop (String.length s - String.length suffix) s) suffix
  && (String.length suffix <=? String.length s)%nat.

Definition empty_trace : value := VObj [("resourceSpans", VArr [])].

(** The trace data that [generateHTML] reads from the OTLP file *)
Definition read_trace (otlpFile : string) : Comp Env value :=
  e <- get_state ;;
  if negb (Fs.existsSync (fs e) otlpFile) then ret empty_trace
  else
    otlpContent <- of_result (Fs.readFileSync (fs e) otlpFile) ;;
    if Str.is_empty (Str.trim otlpContent) then ret empty_trace
    else if endsWith otlpFile ".jsonl" then
           allResourceSpans <- read_lines (jsonl_lines otlpContent) [] ;;
           ret (VObj [("resourceSpans", VArr allResourceSpans)])
         else
           of_result (match JSON.parse otlpContent with
                      | Some v => Ok v
                      | None => Throw "SyntaxError"
                      end).

(** The timestamp of a report: the ISO text of the clock with its [T]
    replaced by a space and its last five characters removed. *)
Definition timestamp_of (iso_now : string) : string :=
  Str.slice_drop_last 5 (Str.replace_first iso_now "T" " ").

(** The page: the bundle, the data and the title put into the template *)
Definition fill_template (htmlTemplate jsBundle dataJsonEscaped title : string)
  : result string :=
  match Str.split htmlTemplate bundle_marker with
  | [before; after] =>
      Ok (Str.replace_all
            (Str.replace_first (before ++ jsBundle ++ after) data_marker dataJsonEscaped)
            title_marker (escapeHtml title))
  | _ => Throw "Template bundle replacement marker not found or found multiple times"
  end.

(** [generateHTML]; [title] is [options.title], [iso_now] the reading of
    the clock. *)
Definition generateHTML (g : Generator) (otlpFile outputFile : string)
           (title : value) (iso_now : string) : Comp Env unit :=
  traceData <- read_trace otlpFile ;;
  let runId := Fs.basename (Fs.dirname otlpFile) in
  e <- get_state ;;
  loaded <- of_result (loadTemplateFiles g (fs e)) ;;
  let htmlData :=
    VObj (set_all []
            [("traceData", traceData);
             ("parsedSpans", VNull);
             ("timestamp", VStr (timestamp_of iso_now));
             ("runId", VStr runId)]) in
  let dataJsonEscaped := prepareDataForInjection htmlData in
  htmlContent <- of_result
                   (fill_template (fst loaded) (snd loaded) dataJsonEscaped
                      (ToString (or_else title (VStr ("Trace " ++ runId))))) ;;
  let outputDir := Fs.dirname outputFile in
  (if negb (Fs.dir_exists (fs e) outputDir)
   then on_fs (Fs.mkdirSync outputDir) else ret tt) ;;;
  on_fs (Fs.writeFileSync outputFile htmlContent).

End Report.

(* ================================================================== *)
(** * The hook orchestrator ([hooks/orchestrator.cjs]) *)
(* ================================================================== *)

Module Orchestrator.
Import JS Eff.
Local Open Scope eff_scope.

(** What [execSync] does with a command: its standard output when it
    exits with status 0, otherwise the error thrown, with its status. *)
Inductive ExecResult :=
| Exited0 (output : string)
| ExecError (status : value) (message : string).

(** What the discovery of the hook commands in the settings files gives:
    the commands, in the order of the files; a settings file that cannot
    be read as JSON, with the path of the file, a colon, a space and the
    message of the error; or an exception outside the reading of the
    files. *)
Inductive Discovery :=
| Found (hooks : list string)
| InvalidSettings (message : string)
| DiscoveryFailed (message : string).

(** The surroundings of one orchestrator process.  [run] is the effect
    of [execSync]: it may depend on the commands run before; [elapsed] is
    the time a command takes. *)
Record Platform := mkPlatform {
  run : list string -> string -> string -> ExecResult;
  elapsed : string -> Z;
  env_RUN_ID : value;
  env_SESSION_ID : value;
  randomUUID : string;
  tracer_loads : bool;
  logs_dir : string;
  cwd : string;
  discovery : Discovery
}.

(** The process: its tracer, what it printed, and the commands it ran,
    in order. *)
Record Proc := mkProc {
  tracer : Otel.State;
  stdout : list string;
  stderr : list string;
  executed : list string
}.

Definition on_tracer {A} (m : Otel.M A) : Comp Proc A :=
  zoom tracer (fun p t => mkProc t (stdout p) (stderr p) (executed p)) m.

(** [console.log] and [console.error] *)
Definition console_log (line : string) : Comp Proc unit :=
  modify (fun p => mkProc (tracer p) (stdout p ++ [line])%list (stderr p) (executed p)).
Definition console_error (line : string) : Comp Proc unit :=
  modify (fun p => mkProc (tracer p) (stdout p) (stderr p ++ [line])%list (executed p)).

(** How the process goes on: to the next statement, or out through
    [process.exit(1)]. *)
Inductive step (A : Type) : Type :=
| Go (a : A)
| Exit1.
Arguments Go {A} a.
Arguments Exit1 {A}.

Definition fatal {A} (msg : string) : Comp Proc (step A) :=
  console_error msg ;;; ret Exit1.

(** [execSync(hookCmd, { input, ... })] *)
Definition execSync (pf : Platform) (hookCmd input : string) : Comp Proc ExecResult :=
  p <- get_state ;;
  modify (fun p => mkProc (tracer p) (stdout p) (stderr p)
                     (executed p ++ [hookCmd])%list) ;;;
  ret (run pf (executed p) hookCmd input).

(** [getOtelTracer], called with a run identifier in the environment *)
Definition getOtelTracer (pf : Platform) : Comp Proc (step unit) :=
  if negb (tracer_loads pf)
  then fatal "[CC-PROFILE] FATAL: Could not load OTEL tracer"
  else
    try_catch
      (try_catch
         (on_tracer Otel.getTracer)
         (fun _ =>
            on_tracer
              (Otel.initializeTracer
                 (Otel.mkConfig (ToString (env_RUN_ID pf))
                    (ToString (or_else (env_SESSION_ID pf) (VStr (randomUUID pf))))
                    (logs_dir pf) None None None))) ;;;
       ret (Go tt))
      (fun _ => fatal "[CC-PROFILE] FATAL: Could not load OTEL tracer").

(** The span of the hook event *)
Definition start_event_span (pf : Platform) (event : value) : Comp Proc (step Otel.Span) :=
  try_catch
    (name <- of_result (get event "hook_event_name") ;;
     tool <- of_result (get event "tool_name") ;;
     span <- on_tracer (Otel.startHookEventSpan name tool) ;;
     let prompt := get_opt event "prompt" in
     promptAttr <-
       (if truthy prompt then
          match prompt with
          | VStr t => ret (VObj [("hook.prompt", VStr (Str.substring_to 100 t ++ "..."))])
          | _ => throw "TypeError: event.prompt.substring is not a function"
          end
        else ret prompt) ;;
     ret (Go (Otel.setAttributes span
                (spread
                   (set_all []
                      [("session.id", or_else (get_opt event "session_id") (VStr "unknown"));
                       ("hook.cwd", or_else (get_opt event "cwd") (VStr (cwd pf)))])
                   promptAttr))))
    (fun _ => fatal "[CC-PROFILE] FATAL: Failed to create hook span").

(** [[...new Set(hooks)]]: each command once, at its first place *)
Fixpoint dedupe (seen : list string) (hooks : list string) : list string :=
  match hooks with
  | [] => []
  | h :: rest =>
      if existsb (String.eqb h) seen then dedupe seen rest
      else h :: dedupe (h :: seen) rest
  end.

(** One entry of [hookOutputs] *)
Record HookOutput := mkOutput {
  command : string;
  output : string
}.

(** The body of the loop for one command *)
Definition run_hook (pf : Platform) (event : value) (hookEventSpan : Otel.Span)
           (hookCmd : string) (hookOutputs : list HookOutput)
  : Comp Proc (step (list HookOutput)) :=
  if Str.includes hookCmd "orchestrator" then ret (Go hookOutputs)
  else
    started <- try_catch
                 (sp <- on_tracer (Otel.startHookExecutionSpan hookCmd hookEventSpan false) ;;
                  ret (Go sp))
                 (fun _ => fatal "[CC-PROFILE] FATAL: Failed to create hook execution span") ;;
    match started with
    | Exit1 => ret Exit1
    | Go execSpan =>
        r <- execSync pf hookCmd (JSON.stringify_text event) ;;
        match r with
        | Exited0 result =>
            on_tracer
              (Otel.end_span
                 (Otel.setStatus
                    (Otel.setAttributes execSpan
                       [("hook.exit_code", num 0);
                        ("hook.duration_ms", num (elapsed pf hookCmd));
                        ("hook.stdout_length", num (Z.of_nat (String.length result)))])
                    (Otel.status_of_code 0) VUndef)) ;;;
            ret (Go (hookOutputs ++ [mkOutput hookCmd (Str.trim result)])%list)
        | ExecError status message =>
            on_tracer
              (Otel.end_span
                 (Otel.setStatus
                    (Otel.setAttributes (Otel.recordException execSpan message)
                       [("hook.exit_code", or_else status (num 1));
                        ("hook.duration_ms", num (elapsed pf hookCmd));
                        ("hook.error", VStr message)])
                    (Otel.status_of_code 2) (VStr message))) ;;;
            ret (Go hookOutputs)
        end
    end.

(** The loop over the commands *)
Fixpoint run_hooks (pf : Platform) (event : value) (hookEventSpan : Otel.Span)
         (allHooks : list string) (hookOutputs : list HookOutput)
  : Comp Proc (step (list HookOutput)) :=
  match allHooks with
  | [] => ret (Go hookOutputs)
  | hookCmd :: rest =>
      s <- run_hook pf event hookEventSpan hookCmd hookOutputs ;;
      match s with
      | Exit1 => ret Exit1
      | Go hookOutputs' => run_hooks pf event hookEventSpan rest hookOutputs'
      end
  end.

(** An entry of [parsedOutputs]: the JSON value of an output, if it is
    JSON *)
Definition parsed_json (o : HookOutput) : option value := JSON.parse (output o).

(** The merge of one output that holds JSON into the response *)
Definition merge_fields (finalResponse : props) (json : value) : props :=
  let r1 :=
    if truthy (get_opt json "stopReason") && negb (truthy (prop_of finalResponse "stopReason"))
    then obj_set finalResponse "stopReason" (get_opt json "stopReason")
    else finalResponse in
  let r2 :=
    if truthy (get_opt json "decision") && negb (truthy (prop_of r1 "decision"))
    then obj_set (obj_set r1 "decision" (get_opt json "decision"))
           "reason" (get_opt json "reason")
    else r1 in
  if negb (strict_eq (get_opt json "suppressOutput") VUndef)
     && strict_eq (prop_of r2 "suppressOutput") VUndef
  then obj_set r2 "suppressOutput" (get_opt json "suppressOutput")
  else r2.

(** The first-wins loop: the line that the orchestrator prints *)
Fixpoint merge (parsedOutputs : list (option value)) (finalResponse : props) : string :=
  match parsedOutputs with
  | [] => JSON.stringify_text (VObj finalResponse)
  | None :: rest => merge rest finalResponse
  | Some json :: rest =>
      if truthy json then
        if strict_eq (get_opt json "continue") (VBool false)
        then JSON.stringify_text json
        else merge rest (merge_fields finalResponse json)
      else merge rest finalResponse
  end.

(** The handler of the end of the standard input *)
Definition main (pf : Platform) (input : string) : Comp Proc (step unit) :=
  try_catch
    (event <- of_result (match JSON.parse input with
                         | Some v => Ok v
                         | None => Throw "Unexpected token"
                         end) ;;
     if negb (truthy (env_RUN_ID pf))
     then fatal "[CC-PROFILE] FATAL: CC_PROFILE_RUN_ID environment variable not set"
     else
       t <- getOtelTracer pf ;;
       match t with
       | Exit1 => ret Exit1
       | Go _ =>
           s <- start_event_span pf event ;;
           match s with
           | Exit1 => ret Exit1
           | Go hookEventSpan =>
               match discovery pf with
               | InvalidSettings m =>
                   fatal ("[CC-PROFILE] FATAL: Invalid JSON in settings file " ++ m)
               | DiscoveryFailed m => throw m
               | Found hooks =>
                   let allHooks := dedupe [] hooks in
                   l <- run_hooks pf event hookEventSpan allHooks [] ;;
                   match l with
                   | Exit1 => ret Exit1
                   | Go hookOutputs =>
                       on_tracer
                         (Otel.end_span
                            (Otel.setStatus hookEventSpan (Otel.status_of_code 0) VUndef)) ;;;
                       console_log (merge (map parsed_json hookOutputs)
                                      [("continue", VBool true)]) ;;;
                       ret (Go tt)
                   end
               end
           end
       end)
    (fun e =>
       console_error ("[CC-PROFILE] Orchestrator error: " ++ e) ;;;
       console_log (JSON.stringify_text
                      (VObj [("success", VBool false); ("error", VStr e)])) ;;;
       ret (Go tt)).

End Orchestrator.
(* ================================================================== *)
(** * Vocabulary of the statements *)
(* ================================================================== *)

Module FetchSpec.
Import JS Eff Preload.

(** Computations that leave the tracer alone *)
Definition keeps_otel {A} (m : Comp World A) : Prop :=
  forall w, otel (snd (m w)) = otel w.

End FetchSpec.

Module SpecDefs.
Import JS Preload.

(** The sum over the four kinds of tokens of count times rate over 10^6 *)
Definition token_cost (r : Rates) (i o cr cw : Q) : Q :=
  (i * rate_input r / 1000000 + o * rate_output r / 1000000
   + cr * rate_cacheRead r / 1000000 + cw * rate_cacheWrite r / 1000000)%Q.

(** The number that a count of tokens stands for: zero when it is missing *)
Definition count (v : value) : Q :=
  match v with VNum q => q | _ => 0%Q end.

(** A count of tokens that is a number, or is missing (absent or null) *)
Definition count_ok (usage : value) (k : string) : Prop :=
  match get_opt usage k with
  | VNum _ | VNull | VUndef => True
  | _ => False
  end.

Definition usage_ok (usage : value) : Prop :=
  count_ok usage "input_tokens" /\ count_ok usage "output_tokens"
  /\ count_ok usage "cache_read_input_tokens"
  /\ count_ok usage "cache_creation_input_tokens".

(** The usage of the second end-to-end scenario *)
Definition usage_100_50 : value :=
  VObj [("input_tokens", num 100); ("output_tokens", num 50);
        ("cache_read_input_tokens", num 0);
        ("cache_creation_input_tokens", num 0)].

End SpecDefs.

Module CorrelatorSpec.
Import JS Preload.

(** A line of the log that the search accepts *)
Definition is_match (toolName toolInput : value) (line : string) : Prop :=
  exists id, try_line toolName toolInput line = Ok (Some id).

End CorrelatorSpec.

Module OrchestratorSpec.
Import JS Orchestrator.

(** The commands that the loop runs: the discovered commands, each once,
    without those that name the orchestrator *)
Definition user_hooks (hooks : list string) : list string :=
  filter (fun c => negb (Str.includes c "orchestrator")) (dedupe [] hooks).

(** The outputs that the loop keeps: those of the commands that exit with
    status 0, in the order of the commands.  [history] lists the commands
    run before. *)
Fixpoint hook_outputs (pf : Platform) (input : string) (history : list string)
         (allHooks : list string) : list HookOutput :=
  match allHooks with
  | [] => []
  | c :: rest =>
      if Str.includes c "orchestrator" then hook_outputs pf input history rest
      else
        match run pf history c input with
        | Exited0 out =>
            mkOutput c (Str.trim out) :: hook_outputs pf input (history ++ [c]) rest
        | ExecError _ _ => hook_outputs pf input (history ++ [c]) rest
        end
  end.

(** An output that blocks: JSON whose [continue] is [false] *)
Definition blocking (o : option value) : bool :=
  match o with
  | Some json => truthy json && strict_eq (get_opt json "continue") (VBool false)
  | None => false
  end.

(** The outputs that take part in the merge: those that are JSON and
    truthy, in the order of the commands *)
Definition merged (outputs : list (option value)) : list value :=
  flat_map (fun o => match o with
                     | Some json => if truthy json then [json] else []
                     | None => []
                     end) outputs.

(** A value that is not [undefined] *)
Definition defined (v : value) : bool := negb (strict_eq v VUndef).

(** First wins: the [field] of the first of [jsons] in which [holds] is
    true of it, and undefined when there is none *)
Definition first_where (holds : value -> bool) (field : string) (jsons : list value)
  : value :=
  match find (fun json => holds (get_opt json field)) jsons with
  | Some json => get_opt json field
  | None => VUndef
  end.

Definition response_keys : list string :=
  ["continue"; "stopReason"; "decision"; "reason"; "suppressOutput"].

(** The merged response, field by field: [continue] is true; the stop
    reason and the decision are the first truthy ones, the reason is that
    of the output that gave the decision, [suppressOutput] is the first one
    that is defined; there is no other field. *)
Definition first_wins (outputs : list (option value)) (response : props) : Prop :=
  prop_of response "continue" = VBool true
  /\ prop_of response "stopReason" = first_where truthy "stopReason" (merged outputs)
  /\ prop_of response "decision" = first_where truthy "decision" (merged outputs)
  /\ prop_of response "reason"
     = match find (fun json => truthy (get_opt json "decision")) (merged outputs) with
       | Some json => get_opt json "reason"
       | None => VUndef
       end
  /\ prop_of response "suppressOutput"
     = first_where defined "suppressOutput" (merged outputs)
  /\ forall k, ~ In k response_keys -> lookup response k = None.

(** In [hooks], [c] is met for the first time before [d] is. *)
Definition first_before (hooks : list string) (c d : string) : Prop :=
  exists h1 h2, hooks = (h1 ++ c :: h2)%list /\ ~ In d h1.

(** The prompt of an event is a text, or is missing *)
Definition prompt_ok (event : value) : Prop :=
  match get_opt event "prompt" with
  | VStr _ => True
  | v => truthy v = false
  end.

End OrchestratorSpec.

(* ================================================================== *)
(** * Concrete runs *)
(* ================================================================== *)

Module Examples.
Import JS.

(** A key or a text between double quotes *)
Definition k (s : string) : string := Str.dq ++ s ++ Str.dq.

(** Random numbers of two processes *)
Definition rand_a (n : nat) : Z := 100 + Z.of_nat n.
Definition rand_b (n : nat) : Z := 500 + Z.of_nat n.

(** ** The orchestrator with two commands, the first of which blocks *)

Definition blocking_text : string :=
  "{" ++ k "continue" ++ ":false," ++ k "stopReason" ++ ":" ++ k "policy" ++ "}".

Definition two_hooks : Orchestrator.Platform :=
  Orchestrator.mkPlatform
    (fun _ cmd _ =>
       if String.eqb cmd "hook-one" then Orchestrator.Exited0 (blocking_text ++ Str.nl)
       else Orchestrator.Exited0 "")
    (fun _ => 5) (VStr "run-1") VUndef "uuid-1" true "/logs/run-1" "/proj"
    (Orchestrator.Found ["hook-one"; "hook-two"]).

Definition stop_event_fields : props :=
  [("hook_event_name", VStr "Stop"); ("session_id", VStr "s1")].

Definition stop_event : string :=
  "{" ++ k "hook_event_name" ++ ":" ++ k "Stop" ++ ","
      ++ k "session_id" ++ ":" ++ k "s1" ++ "}".

Definition new_orchestrator : Orchestrator.Proc :=
  Orchestrator.mkProc (Otel.fresh_process rand_a (fun _ => true)) [] [] [].

End Examples.

(* ================================================================== *)
(** * Vocabulary of the further statements *)
(* ================================================================== *)

Module FrameSpec.
Import JS Eff.

(** Computations of the orchestrator that run no command *)
Definition keeps_executed {A} (m : Comp Orchestrator.Proc A) : Prop :=
  forall p, Orchestrator.executed (snd (m p)) = Orchestrator.executed p.

End FrameSpec.

Module HookSpec.
Import JS Orchestrator.

(** The status that the orchestrator gives to the span of a command: the
    tracer module exports no status codes, so that the code of a command
    that exits with status 0 is [undefined || 0]. *)
Definition exit_status (r : ExecResult) : Otel.SpanStatusCode :=
  match r with
  | Exited0 _ => Otel.UNSET
  | ExecError _ _ => Otel.ERROR
  end.

(** What the commands of the loop do, in the order of the loop.
    [history] lists the commands run before. *)
Fixpoint hook_results (pf : Platform) (input : string) (history : list string)
         (allHooks : list string) : list ExecResult :=
  match allHooks with
  | [] => []
  | c :: rest =>
      if Str.includes c "orchestrator" then hook_results pf input history rest
      else run pf history c input :: hook_results pf input (history ++ [c]) rest
  end.

(** The span of one command under the span of the event *)
Definition execution_span_of (ev : Otel.Span) (r : ExecResult) (sp : Otel.Span) : Prop :=
  Otel.parentSpanId sp = Some (Otel.spanId ev)
  /\ Otel.traceId sp = Otel.traceId ev
  /\ Otel.ended sp = true
  /\ Otel.status sp = exit_status r.

End HookSpec.

Module CorrelatorSpec2.
Import JS Preload.

(** A line of the log that records the request of a tool use with the
    given name and input, and the identifier that it carries.  The inputs
    are compared through their JSON texts. *)
Definition request_line (toolName toolInput : value) (line : string) (id : value)
  : Prop :=
  exists o,
    JSON.parse line = Some (VObj o)
    /\ strict_eq (prop_of o "eventType") (VStr "tool_use_request") = true
    /\ strict_eq (prop_of o "toolName") toolName = true
    /\ JSON.same_text (prop_of o "toolInput") toolInput = true
    /\ id = prop_of o "toolUseId".

End CorrelatorSpec2.

Module FetchSpec2.
Import JS Eff Preload.

(** Computations that leave the permissions of the disk and the output
    directory as they are *)
Definition keeps_disk {A} (m : Comp World A) : Prop :=
  forall w, Fs.can_write (fs (snd (m w))) = Fs.can_write (fs w)
            /\ outputDir (snd (m w)) = outputDir w.

End FetchSpec2.

Module PageSpec.
Import JS.

(** The characters of a text *)
Definition chars (s : string) : list ascii := Str.to_list s.

(** A replacement text without a dollar sign, which [replace] inserts as
    it is *)
Definition plain (repl : string) : bool :=
  forallb (fun c => negb (Str.eqb_ascii c "$"%char)) (chars repl).

(** The resource spans that a line of a JSONL file adds to the trace;
    none when the line is malformed *)
Definition spans_of_line (line : string) : list value :=
  match Report.read_line line with
  | Ok l => l
  | Throw _ => []
  end.

(** The warning that a line causes: one when it is malformed *)
Definition warning_of_line (line : string) : list string :=
  match Report.read_line line with
  | Ok _ => []
  | Throw e => [("Skipping invalid JSONL line: " ++ e)%string]
  end.

(** The lines that are skipped *)
Definition malformed (line : string) : bool :=
  match Report.read_line line with
  | Ok _ => false
  | Throw _ => true
  end.

(** What a line of a JSONL trace adds to the trace, read off the JSON
    value of the line; nothing of the kind when the line is skipped with a
    warning.  A line is skipped when it is not JSON, when it is the JSON
    [null], and when its [resourceSpans] is truthy and cannot be spread: a
    number other than zero, [true] or an object.  A line adds the elements
    of its [resourceSpans] when this is an array, its characters when it
    is a text, and nothing when it is falsy or the line is no object. *)
Definition contribution (line : string) : option (list value) :=
  match JSON.parse line with
  | None | Some VNull | Some VUndef => None
  | Some (VObj o) =>
      match prop_of o "resourceSpans" with
      | VArr spans => Some spans
      | VStr text => Some (chars_of text)
      | VUndef | VNull | VBool false | VNaN => Some []
      | VNum q => if Qeq_bool q 0 then Some [] else None
      | VBool true | VObj _ => None
      end
  | Some _ => Some []
  end.

Definition kept (line : string) : list value :=
  match contribution line with
  | Some spans => spans
  | None => []
  end.

Definition skipped (line : string) : bool :=
  match contribution line with
  | Some _ => false
  | None => true
  end.

End PageSpec.

Module ReportSpec.
Import JS Report.
Local Open Scope js_scope.

(** The page that [generateHTML] writes for a trace: the template and
    the bundle of the installation, filled with the data, the title and
    the time of the report. *)
Definition page (g : Generator) (fs : Fs.FS) (traceData : value)
           (otlpFile : string) (title : value) (iso_now : string) : result string :=
  let runId := Fs.basename (Fs.dirname otlpFile) in
  loaded <- loadTemplateFiles g fs ;;
  fill_template (fst loaded) (snd loaded)
    (prepareDataForInjection
       (VObj (set_all []
                [("traceData", traceData);
                 ("parsedSpans", VNull);
                 ("timestamp", VStr (timestamp_of iso_now));
                 ("runId", VStr runId)])))
    (ToString (or_else title (VStr ("Trace " ++ runId)))).

(** Two disks that hold the same readable text, or both nothing, at a
    path *)
Definition same_at (fs1 fs2 : Fs.FS) (p : string) : Prop :=
  Fs.find (Fs.files fs1) p = Fs.find (Fs.files fs2) p
  /\ Fs.can_read fs1 p = Fs.can_read fs2 p.

End ReportSpec.

Module SpawnSpec.
Import JS Preload.

(** A child as the platform knows it: without the capture that the
    interceptor keeps on it *)
Definition forget (c : Child) : Child := set_capture c None.

(** The children of a host, as the platform knows them *)
Definition platform_children (h : Host) : list Child := map forget (children h).

End SpawnSpec.

(* ================================================================== *)
(** * Further concrete runs *)
(* ================================================================== *)

Module Examples2.
Import JS Examples.

(** ** The orchestrator *)

(** A command discovered twice, the orchestrator among the commands, one
    command that prints nothing and one that fails *)
Definition mixed_hooks : Orchestrator.Platform :=
  Orchestrator.mkPlatform
    (fun _ cmd _ =>
       if String.eqb cmd "hook-one" then Orchestrator.Exited0 ""
       else Orchestrator.ExecError (num 2) "Command failed: hook-two")
    (fun _ => 5) (VStr "run-1") VUndef "uuid-1" true "/logs/run-1" "/proj"
    (Orchestrator.Found
       ["hook-one"; "node orchestrator.cjs"; "hook-one"; "hook-two"]).

(** ** The correlator *)

Definition request (id file : string) : string :=
  "{" ++ k "eventType" ++ ":" ++ k "tool_use_request" ++ ","
      ++ k "toolUseId" ++ ":" ++ k id ++ ","
      ++ k "toolName" ++ ":" ++ k "Read" ++ ","
      ++ k "toolInput" ++ ":{" ++ k "file" ++ ":" ++ k file ++ "}}".

Definition api_record : string :=
  "{" ++ k "eventType" ++ ":" ++ k "api" ++ "," ++ k "status" ++ ":200}".

(** Two requests of the same tool use, then a request for another file *)
Definition log_two_requests : string :=
  request "toolu_1" "a.txt" ++ Str.nl ++ api_record ++ Str.nl
  ++ request "toolu_2" "a.txt" ++ Str.nl ++ request "toolu_3" "b.txt" ++ Str.nl.

Fixpoint filler (n : nat) : string :=
  match n with
  | O => EmptyString
  | S n' => "{}" ++ Str.nl ++ filler n'
  end.

(** A request followed by fifty other lines *)
Definition log_old_request : string :=
  request "toolu_1" "a.txt" ++ Str.nl ++ filler 50.

Definition disk (content : string) : Fs.FS :=
  Fs.mkFS [("/out/events.jsonl", content)] ["/out"] (fun _ => true) (fun _ => true).

Definition read_a : value := VObj [("file", VStr "a.txt")].

(** The event that a PostToolUse hook is given *)
Definition post_tool_use : props :=
  [("session_id", VStr "s1"); ("hook_event_name", VStr "PostToolUse");
   ("tool_name", VStr "Read"); ("tool_input", read_a);
   ("tool_response", VStr "done")].

Definition finished_hook_data : props :=
  [("command", VStr "sh"); ("startTime", num 1000); ("endTime", num 1020);
   ("duration", num 20); ("hookEventData", VObj post_tool_use)].

(** ** The host process *)

Definition host_config : Otel.CCProfileConfig :=
  Otel.mkConfig "run-1" "s1" "/out" (Some "claude-code") (Some "1.0.0") None.

(** The tracer of the host after its initialisation *)
Definition host_tracer : Otel.State :=
  snd (Otel.initializeTracer host_config (Otel.fresh_process rand_a (fun _ => true))).

Definition host (content : string) (tracing : bool) : Preload.World :=
  Preload.mkWorld (disk content)
    (if tracing then host_tracer else Otel.fresh_process rand_a (fun _ => true))
    tracing [] [("CC_PROFILE_RUN_ID", VStr "run-1")] "/out"
    (Ok "api.anthropic.com").

Definition read_execution (id : value) : Preload.ToolExecutionEvent :=
  Preload.mkToolExecution "2024-01-01T00:00:00.000Z" id (VStr "Read") read_a
    (VStr "done") (VStr "s1") 10 30 20 None.

(** The same process on a disk that cannot be written *)
Definition read_only_host : Preload.World :=
  Preload.mkWorld
    (Fs.mkFS [] ["/out"] (fun _ => true) (fun _ => false))
    host_tracer true [] [("CC_PROFILE_RUN_ID", VStr "run-1")] "/out"
    (Ok "api.anthropic.com").

(** ** Requests *)

Definition messages_url : string := "https://api.anthropic.com/v1/messages".

Definition request_body : string :=
  "{" ++ k "model" ++ ":" ++ k "claude-3-5-haiku-20241022" ++ ","
      ++ k "messages" ++ ":[]}".

Definition plain_body : string :=
  "{" ++ k "model" ++ ":" ++ k "claude-3-5-haiku-20241022" ++ ","
      ++ k "content" ++ ":[{" ++ k "type" ++ ":" ++ k "text" ++ ","
      ++ k "text" ++ ":" ++ k "hello" ++ "}],"
      ++ k "usage" ++ ":{" ++ k "input_tokens" ++ ":100,"
      ++ k "output_tokens" ++ ":50}}".

Definition ok_response : Preload.Response := Preload.mkResponse 200 (Ok plain_body).
Definition overloaded_response : Preload.Response :=
  Preload.mkResponse 529 (Ok "overloaded").

(** The second argument of the host's call *)
Definition request_init : value :=
  VObj [("method", VStr "POST"); ("body", VStr request_body)].

(** The run of one request by the host *)
Definition request_run (response : Preload.Response) (w : Preload.World)
  : JS.result Preload.Response * Preload.World :=
  Preload.intercepted_fetch messages_url request_init
    (Ok response) 1000 1250 "2024-01-01T00:00:01.250Z" w.

(** The same call with [null] as its second argument *)
Definition null_init_run (response : Preload.Response) (w : Preload.World)
  : JS.result Preload.Response * Preload.World :=
  Preload.intercepted_fetch messages_url VNull
    (Ok response) 1000 1250 "2024-01-01T00:00:01.250Z" w.

(** ** An event stream *)

Definition sse_start : string :=
  "data: {" ++ k "type" ++ ":" ++ k "message_start" ++ ","
  ++ k "usage" ++ ":{" ++ k "input_tokens" ++ ":200,"
  ++ k "output_tokens" ++ ":1}}".

Definition sse_delta : string :=
  "data: {" ++ k "type" ++ ":" ++ k "message_delta" ++ ","
  ++ k "usage" ++ ":{" ++ k "input_tokens" ++ ":7,"
  ++ k "output_tokens" ++ ":50}}".

Definition sse_delta_data : value :=
  VObj [("type", VStr "message_delta");
        ("usage", VObj [("input_tokens", num 7); ("output_tokens", num 50)])].

(** ** The report *)

Definition install : Report.Install :=
  Report.mkInstall "/pkg/frontend/dist/otlp.global.js" "/pkg/frontend/template.html"
    "/pkg/dist/otlp-template.html".

Definition small_template : string :=
  "<html><title>__OTLP_TITLE_REPLACEMENT__</title>"
  ++ "<script>window.otlpData = __OTLP_DATA_REPLACEMENT__;</script>"
  ++ "<script>__OTLP_BUNDLE_REPLACEMENT__</script></html>".

Definition batch_line : string :=
  "{" ++ k "resourceSpans" ++ ":[{" ++ k "scopeSpans" ++ ":[]}]}".

(** A run directory whose trace has a malformed line between two batches *)
Definition installed_disk : Fs.FS :=
  Fs.mkFS
    [("/pkg/frontend/dist/otlp.global.js", "console.log(1)");
     ("/pkg/frontend/template.html", small_template);
     ("/logs/run-1/trace.otlp.jsonl",
      batch_line ++ Str.nl ++ "{oops" ++ Str.nl ++ batch_line ++ Str.nl)]
    ["/logs/run-1"] (fun _ => true) (fun _ => true).

(** The same without the bundle *)
Definition disk_without_bundle : Fs.FS :=
  Fs.mkFS [("/pkg/frontend/template.html", small_template)]
    ["/logs/run-1"] (fun _ => true) (fun _ => true).

Definition generator : Report.Generator := Report.new_generator install installed_disk.

Definition first_report : JS.result unit * Report.Env :=
  Report.generateHTML generator "/logs/run-1/trace.otlp.jsonl"
    "/logs/run-1/report.html" (VStr "Session <s1>") "2024-01-01T00:00:00.123Z"
    (Report.mkEnv installed_disk []).

(** ** Spawning *)

Definition spawning_host : Preload.Host :=
  Preload.mkHost (host "" true) [] (fun _ _ _ => (true, true, true)) (fun _ _ => true).

Definition hook_options : value :=
  VObj [("shell", VBool true);
        ("env", VObj [("CLAUDE_PROJECT_DIR", VStr "/proj")])].

Definition hook_spawn : JS.result nat * Preload.Host :=
  Preload.interceptedSpawn (VStr "sh") (VArr [VStr "-c"; VStr "node hook.js"])
    hook_options 1000 "2024-01-01T00:00:01.000Z" spawning_host.

(** A host that watches the child of a hook, with two requests in its
    log *)
Definition watching_host : Preload.Host :=
  snd (Preload.interceptedSpawn (VStr "sh") (VArr [VStr "-c"; VStr "node hook.js"])
         hook_options 1000 "2024-01-01T00:00:01.000Z"
         (Preload.mkHost (host log_two_requests true) []
            (fun _ _ _ => (true, true, true)) (fun _ _ => true))).

(** The write of the event on the input of the child *)
Definition post_tool_use_write : Preload.WriteCall :=
  Preload.mkWrite (VStr (JSON.stringify_text (VObj post_tool_use) ++ Str.nl))
    VUndef None.

End Examples2.

(* ================================================================== *)
(** * hooks/orchestrator.cjs: the discovery of the hook commands *)
(* ================================================================== *)

Module Discovery.
Import JS.
Local Open Scope js_scope.

(** What the loop over the settings files ends with: the commands found,
    in order, or [process.exit(1)] at the file whose reading threw. *)
Inductive Discovered :=
| Found (hooks : list value)
| InvalidSettings (file : string) (message : string).

(** [event.hook_event_name === "PreToolUse" ||
     event.hook_event_name === "PostToolUse"] *)
Definition is_tool_event (eventName : value) : bool :=
  strict_eq eventName (VStr "PreToolUse") || strict_eq eventName (VStr "PostToolUse").

(** The loop over [hookEntry.hooks], pushing on [commands] *)
Fixpoint hook_commands (hooks : list value) (commands : list value)
  : result (list value) :=
  match hooks with
  | [] => Ok commands
  | hook :: rest =>
      type <- get hook "type" ;;
      if strict_eq type (VStr "command") then
        command <- get hook "command" ;;
        hook_commands rest
          (if truthy command then commands ++ [command] else commands)%list
      else hook_commands rest commands
  end.

Section WithRegExp.

(** [new RegExp(source)]: the test of the pattern on a text, or the
    SyntaxError of a source that is no pattern. *)
Variable RegExp : string -> result (string -> bool).

(** Whether the entry passes the check of its matcher *)
Definition matcher_passes (eventName toolName hookEntry : value) : result bool :=
  if is_tool_event eventName then
    matcher <- get hookEntry "matcher" ;;
    if negb (strict_eq matcher VUndef) && negb (strict_eq matcher (VStr "")) then
      regex <- RegExp ("^(" ++ ToString matcher ++ ")$") ;;
      Ok (regex (ToString toolName))
    else Ok true
  else Ok true.

(** The loop over [hookArray], pushing on [commands] *)
Fixpoint entry_commands (eventName toolName : value) (hookArray : list value)
    (commands : list value) : result (list value) :=
  match hookArray with
  | [] => Ok commands
  | hookEntry :: rest =>
      match hookEntry with
      | VObj _ | VArr _ =>
          passes <- matcher_passes eventName toolName hookEntry ;;
          if passes then
            hooks <- get hookEntry "hooks" ;;
            if truthy hooks && isArray hooks then
              l <- iterate hooks ;;
              commands' <- hook_commands l commands ;;
              entry_commands eventName toolName rest commands'
            else entry_commands eventName toolName rest commands
          else entry_commands eventName toolName rest commands
      | _ => entry_commands eventName toolName rest commands
      end
  end.

(** [extractHookCommands(hookDef, toolName)], for the event name of the
    event read *)
Definition extractHookCommands (eventName hookDef toolName : value)
  : result (list value) :=
  match hookDef with
  | VStr _ => Ok [hookDef]
  | _ =>
      let hookArray := match hookDef with VArr l => l | _ => [hookDef] end in
      entry_commands eventName toolName hookArray []
  end.

(** The body of the [try] for one settings file *)
Definition read_settings (fs : Fs.FS) (eventName toolName : value) (file : string)
  : result (list value) :=
  content <- Fs.readFileSync fs file ;;
  match JSON.parse content with
  | None => Throw "SyntaxError"
  | Some settings =>
      hooks <- get settings "hooks" ;;
      if truthy hooks then
        hookDef <- get hooks (ToString eventName) ;;
        if truthy hookDef then extractHookCommands eventName hookDef toolName
        else Ok []
      else Ok []
  end.

(** The loop over [settingsFiles], pushing on [hooks].  A path that
    exists is a file or a directory; reading a directory throws. *)
Fixpoint discover (fs : Fs.FS) (eventName toolName : value)
    (settingsFiles : list string) (hooks : list value) : Discovered :=
  match settingsFiles with
  | [] => Found hooks
  | file :: rest =>
      if Fs.existsSync fs file || Fs.dir_exists fs file then
        match read_settings fs eventName toolName file with
        | Ok commands => discover fs eventName toolName rest (hooks ++ commands)
        | Throw e => InvalidSettings file e
        end
      else discover fs eventName toolName rest hooks
  end.

End WithRegExp.

End Discovery.

(* ================================================================== *)
(** * hooks/orchestrator.cjs: the handler on the settings of a disk *)
(* ================================================================== *)

Module OrchestratorSettings.
Import JS Orchestrator.

(** The commands as texts; none when one of them is not a text *)
Fixpoint texts (hooks : list value) : option (list string) :=
  match hooks with
  | [] => Some []
  | VStr c :: rest => option_map (cons c) (texts rest)
  | _ :: _ => None
  end.

(** What the loop over the settings files hands to the rest of the
    handler.  The loop over the commands is modelled for commands that are
    texts: there is no outcome when a command is not one. *)
Definition outcome (d : Discovery.Discovered) : option Discovery :=
  match d with
  | Discovery.Found hooks => option_map Found (texts hooks)
  | Discovery.InvalidSettings file message =>
      Some (InvalidSettings (file ++ ": " ++ message))
  end.

Definition with_discovery (pf : Platform) (d : Discovery) : Platform :=
  mkPlatform (run pf) (elapsed pf) (env_RUN_ID pf) (env_SESSION_ID pf)
    (randomUUID pf) (tracer_loads pf) (logs_dir pf) (cwd pf) d.

(** The surroundings [pf] of an orchestrator process with the disk [fs]:
    for the event read from the standard input, the discovery is that of
    the loop over [settingsFiles], with [event.hook_event_name] and
    [event.tool_name || ""]. *)
Definition on_disk (RegExp : string -> result (string -> bool)) (fs : Fs.FS)
           (settingsFiles : list string) (pf : Platform) (event : value)
  : option Platform :=
  option_map (with_discovery pf)
    (outcome
       (Discovery.discover RegExp fs (get_opt event "hook_event_name")
          (or_else (get_opt event "tool_name") (VStr "")) settingsFiles [])).

End OrchestratorSettings.

(* ================================================================== *)
(** * Concrete settings files *)
(* ================================================================== *)

Module Examples3.
Import JS Examples.

(** The Stop hooks of the user: one entry with a matcher, one command
    hook and one hook of another type *)
Definition stop_hooks : value :=
  VArr [VObj [("matcher", VStr "Bash");
              ("hooks",
               VArr [VObj [("type", VStr "command"); ("command", VStr "notify")];
                     VObj [("type", VStr "prompt"); ("command", VStr "ask")]])]].

Definition user_settings : string :=
  "{" ++ k "hooks" ++ ":{" ++ k "Stop" ++ ":[{" ++ k "matcher" ++ ":" ++ k "Bash"
      ++ "," ++ k "hooks" ++ ":[{" ++ k "type" ++ ":" ++ k "command" ++ ","
      ++ k "command" ++ ":" ++ k "notify" ++ "},{" ++ k "type" ++ ":" ++ k "prompt"
      ++ "," ++ k "command" ++ ":" ++ k "ask" ++ "}]}]}}".

(** The project gives its Stop hook as a text. *)
Definition project_settings : string :=
  "{" ++ k "hooks" ++ ":{" ++ k "Stop" ++ ":" ++ k "say done" ++ "}}".

Definition settingsFiles : list string :=
  ["/home/u/.claude/settings.json"; "/proj/.claude/settings.json";
   "/proj/.claude/settings.local.json"].

Definition settings_disk : Fs.FS :=
  Fs.mkFS [("/home/u/.claude/settings.json", user_settings);
           ("/proj/.claude/settings.json", project_settings)]
    ["/home/u/.claude"; "/proj/.claude"] (fun _ => true) (fun _ => true).

(** The same disk after an edit that left the settings of the project
    cut short *)
Definition broken_settings_disk : Fs.FS :=
  Fs.mkFS [("/home/u/.claude/settings.json", user_settings);
           ("/proj/.claude/settings.json", "{" ++ k "hooks" ++ ":{")]
    ["/home/u/.claude"; "/proj/.claude"] (fun _ => true) (fun _ => true).

(** A runtime in which no source is a pattern *)
Definition no_patterns (source : string) : result (string -> bool) :=
  Throw "SyntaxError: Invalid regular expression".

End Examples3.

(* ================================================================== *)
(** * Concrete runs for the claims *)
(* ================================================================== *)

Module Examples4.
Import JS Examples Examples2.

(** ** An event stream whose later usage has other input tokens *)

Definition sse_response : Preload.Response :=
  Preload.mkResponse 200 (Ok (sse_start ++ Str.nl ++ sse_delta)).

Definition sse_run : JS.result Preload.Response * Preload.World :=
  Preload.intercepted_fetch messages_url request_init (Ok sse_response)
    1000 1250 "2024-01-01T00:00:01.250Z" (host "" true).

(** ** The report, generated again seven seconds later *)

Definition later_report : JS.result unit * Report.Env :=
  Report.generateHTML generator "/logs/run-1/trace.otlp.jsonl"
    "/logs/run-1/report.html" (VStr "Session <s1>") "2024-01-01T00:00:07.123Z"
    (snd first_report).

(** ** Batches for the exporter *)

Definition exporter_config : Exporter.Config :=
  Exporter.mkConfig "/logs/run-1" "run-1" "s1" None.

Definition plain_span (id : Z) (name : string) : Otel.Span :=
  Otel.mkSpan 101 id None name Otel.INTERNAL [] Otel.OK VUndef [] true.

(** A serializer that cannot serialize the span called [cyclic] *)
Definition picky_serializer (spans : list Otel.Span) : result string :=
  if existsb (fun sp => String.eqb (Otel.name sp) "cyclic") spans
  then Throw "Converting circular structure to JSON"
  else Ok batch_line.

(** A run directory that cannot be written, and one that can *)
Definition locked_run : Exporter.Env :=
  Exporter.mkEnv (Fs.mkFS [] ["/logs/run-1"] (fun _ => true) (fun _ => false)) [].

Definition open_run : Exporter.Env :=
  Exporter.mkEnv (Fs.mkFS [] ["/logs/run-1"] (fun _ => true) (fun _ => true)) [].

(** ** A request whose input has two keys *)

Definition two_key_request : string :=
  "{" ++ k "eventType" ++ ":" ++ k "tool_use_request" ++ ","
      ++ k "toolUseId" ++ ":" ++ k "toolu_7" ++ ","
      ++ k "toolName" ++ ":" ++ k "Read" ++ ","
      ++ k "toolInput" ++ ":{" ++ k "file" ++ ":" ++ k "a.txt" ++ ","
      ++ k "line" ++ ":3}}".

Definition two_key_log : string := two_key_request ++ Str.nl.

(** The input of the request, and the same input with its keys in the
    other order *)
Definition input_file_line : value := VObj [("file", VStr "a.txt"); ("line", num 3)].
Definition input_line_file : value := VObj [("line", num 3); ("file", VStr "a.txt")].

Definition post_tool_use_for (toolInput : value) : props :=
  [("session_id", VStr "s1"); ("hook_event_name", VStr "PostToolUse");
   ("tool_name", VStr "Read"); ("tool_input", toolInput);
   ("tool_response", VStr "done")].

(** A host that watches the child of a hook, with the given log *)
Definition watching (log : string) : Preload.Host :=
  snd (Preload.interceptedSpawn (VStr "sh") (VArr [VStr "-c"; VStr "node hook.js"])
         hook_options 1000 "2024-01-01T00:00:01.000Z"
         (Preload.mkHost (host log true) []
            (fun _ _ _ => (true, true, true)) (fun _ _ => true))).

(** The child is given the event and closes *)
Definition hook_closes (log : string) (toolInput : value)
  : JS.result (option Otel.Span) * Preload.Host :=
  Preload.on_close 0%nat (num 0) 1020 "2024-01-01T00:00:01.020Z"
    (snd (Preload.stdin_write 0%nat
            (Preload.mkWrite
               (VStr (JSON.stringify_text (VObj (post_tool_use_for toolInput))
                      ++ Str.nl))
               VUndef None)
            (watching log))).

(** ** A second process of the same run *)

(** The orchestrator of the run of the host, with one command *)
Definition run_hooks : Orchestrator.Platform :=
  Orchestrator.mkPlatform
    (fun _ _ _ => Orchestrator.Exited0 "")
    (fun _ => 5) (VStr "run-1") VUndef "uuid-1" true "/out" "/proj"
    (Orchestrator.Found ["hook-one"]).

(** Its process draws other random numbers than the host *)
Definition second_process : Orchestrator.Proc :=
  Orchestrator.mkProc (Otel.fresh_process rand_b (fun _ => true)) [] [] [].

(** ** A run directory without a trace *)

(** The bundle and the template are installed, the run has no trace *)
Definition disk_without_trace : Fs.FS :=
  Fs.mkFS
    [("/pkg/frontend/dist/otlp.global.js", "console.log(1)");
     ("/pkg/frontend/template.html", small_template)]
    ["/logs/run-2"] (fun _ => true) (fun _ => true).

(** Neither the bundle nor a trace *)
Definition bare_disk : Fs.FS :=
  Fs.mkFS [("/pkg/frontend/template.html", small_template)]
    ["/logs/run-2"] (fun _ => true) (fun _ => true).

Definition report_without_trace (disk : Fs.FS) : JS.result unit * Report.Env :=
  Report.generateHTML generator "/logs/run-2/trace.otlp.jsonl"
    "/logs/run-2/report.html" VUndef "2024-01-01T00:00:00.123Z"
    (Report.mkEnv disk []).

End Examples4.

(* ================================================================== *)
(** * Theorems *)
(* ================================================================== *)

(** * Equations of the monad *)

Module EffFacts.
Import JS Eff.

Lemma mbind_ok {S A B} (m : Comp S A) (k : A -> Comp S B) (s s' : S) (a : A) :
  m s = (Ok a, s') -> mbind m k s = k a s'.
Proof. intros E. unfold mbind. now rewrite E. Qed.

Lemma mbind_throw {S A B} (m : Comp S A) (k : A -> Comp S B) (s s' : S) (e : string) :
  m s = (Throw e, s') -> mbind m k s = (Throw e, s').
Proof. intros E. unfold mbind. now rewrite E. Qed.

Lemma try_catch_ok {S A} (m : Comp S A) (h : string -> Comp S A) (s s' : S) (a : A) :
  m s = (Ok a, s') -> try_catch m h s = (Ok a, s').
Proof. intros E. unfold try_catch. now rewrite E. Qed.

Lemma try_catch_throw {S A} (m : Comp S A) (h : string -> Comp S A) (s s' : S) (e : string) :
  m s = (Throw e, s') -> try_catch m h s = h e s'.
Proof. intros E. unfold try_catch. now rewrite E. Qed.

Lemma zoom_run {S T A} (proj : S -> T) (inj : S -> T -> S) (m : Comp T A)
      (s : S) (r : result A) (t' : T) :
  m (proj s) = (r, t') -> zoom proj inj m s = (r, inj s t').
Proof. intros E. unfold zoom. now rewrite E. Qed.

End EffFacts.

(* ================================================================== *)
(** * Facts about objects *)
(* ================================================================== *)

Module JSFacts.
Import JS.

Lemma lookup_update (o : props) (k k' : string) (v : value) :
  lookup (update o k v) k' =
  match lookup o k' with
  | Some x => if String.eqb k k' then Some v else Some x
  | None => None
  end.
Proof.
  induction o as [|[k1 v1] o IH]; simpl; [reflexivity|].
  destruct (String.eqb k1 k) eqn:E1; simpl.
  - apply String.eqb_eq in E1; subst k1.
    destruct (String.eqb k k'); [reflexivity|].
    destruct (lookup o k'); reflexivity.
  - destruct (String.eqb k1 k') eqn:E2.
    + apply String.eqb_eq in E2; subst k1.
      rewrite String.eqb_sym in E1. rewrite E1. reflexivity.
    + exact IH.
Qed.

Lemma lookup_insert_index (o : props) (n : Z) (k k' : string) (v : value) :
  lookup o k = None ->
  lookup (insert_index o n k v) k' =
  if String.eqb k k' then Some v else lookup o k'.
Proof.
  induction o as [|[k1 v1] o IH]; simpl; intros Hk.
  - reflexivity.
  - destruct (String.eqb k1 k) eqn:E1; [discriminate|].
    assert (Hfront : lookup ((k, v) :: (k1, v1) :: o) k' =
                     if String.eqb k k' then Some v
                     else if String.eqb k1 k' then Some v1 else lookup o k')
      by reflexivity.
    destruct (array_index k1) as [m|]; [destruct (m <? n)|]; try exact Hfront.
    simpl. rewrite (IH Hk).
    destruct (String.eqb k1 k') eqn:E2; [|reflexivity].
    apply String.eqb_eq in E2; subst k1.
    rewrite String.eqb_sym in E1. rewrite E1. reflexivity.
Qed.

Lemma lookup_app_one (o : props) (k k' : string) (v : value) :
  lookup (o ++ [(k, v)])%list k' =
  match lookup o k' with
  | Some x => Some x
  | None => if String.eqb k k' then Some v else None
  end.
Proof.
  induction o as [|[k1 v1] o IH]; simpl; [reflexivity|].
  destruct (String.eqb k1 k'); [reflexivity | exact IH].
Qed.

(** Reading a property after setting one *)
Lemma lookup_obj_set (o : props) (k k' : string) (v : value) :
  lookup (obj_set o k v) k' = if String.eqb k k' then Some v else lookup o k'.
Proof.
  unfold obj_set. destruct (lookup o k) as [x|] eqn:Hk.
  - rewrite lookup_update. destruct (String.eqb k k') eqn:E.
    + apply String.eqb_eq in E; subst k'. rewrite Hk. reflexivity.
    + destruct (lookup o k'); reflexivity.
  - destruct (array_index k) as [n|].
    + apply lookup_insert_index; exact Hk.
    + rewrite lookup_app_one. destruct (String.eqb k k') eqn:E.
      * apply String.eqb_eq in E; subst k'. rewrite Hk. reflexivity.
      * destruct (lookup o k'); reflexivity.
Qed.

Lemma lookup_obj_set_same (o : props) (k : string) (v : value) :
  lookup (obj_set o k v) k = Some v.
Proof. rewrite lookup_obj_set, String.eqb_refl. reflexivity. Qed.

Lemma lookup_obj_set_other (o : props) (k k' : string) (v : value) :
  String.eqb k k' = false -> lookup (obj_set o k v) k' = lookup o k'.
Proof. intros E. rewrite lookup_obj_set, E. reflexivity. Qed.

(** A key that none of the assignments names keeps its value. *)
Lemma lookup_set_all_other (kvs o : props) (k' : string) :
  forallb (fun kv => negb (String.eqb (fst kv) k')) kvs = true ->
  lookup (set_all o kvs) k' = lookup o k'.
Proof.
  unfold set_all. revert o.
  induction kvs as [|[k v] kvs IH]; simpl; intros o H; [reflexivity|].
  apply andb_true_iff in H as [H1 H2].
  rewrite (IH _ H2). apply lookup_obj_set_other.
  now apply negb_true_iff.
Qed.

(** A truthy value is neither null nor undefined *)
Lemma truthy_not_nullish (v : value) : truthy v = true -> nullish v = false.
Proof. destruct v; simpl; congruence. Qed.

End JSFacts.

(* ================================================================== *)
(** * Facts about the tracer *)
(* ================================================================== *)

Module OtelFacts.
Import JS Otel.

(** Setting attributes changes the attributes only. *)
Lemma setAttribute_frame (sp : Span) (k : string) (v : value) :
  traceId (setAttribute sp k v) = traceId sp
  /\ spanId (setAttribute sp k v) = spanId sp
  /\ parentSpanId (setAttribute sp k v) = parentSpanId sp
  /\ status (setAttribute sp k v) = status sp
  /\ ended (setAttribute sp k v) = ended sp.
Proof.
  unfold setAttribute.
  destruct (ended sp || nullish v || Str.is_empty k || negb (isAttributeValue v));
    simpl; auto.
Qed.

Lemma setAttributes_frame (kvs : props) (sp : Span) :
  traceId (setAttributes sp kvs) = traceId sp
  /\ spanId (setAttributes sp kvs) = spanId sp
  /\ parentSpanId (setAttributes sp kvs) = parentSpanId sp
  /\ status (setAttributes sp kvs) = status sp
  /\ ended (setAttributes sp kvs) = ended sp.
Proof.
  unfold setAttributes. revert sp.
  induction kvs as [|[k v] kvs IH]; intros sp; simpl; [auto|].
  destruct (IH (setAttribute sp k v)) as (a & b & c & d & e).
  destruct (setAttribute_frame sp k v) as (a' & b' & c' & d' & e').
  simpl in *. repeat split; congruence.
Qed.

(** An attribute that is set on an open span is read back, unless a later
    assignment of the same list names the key again. *)
Lemma setAttribute_lookup (sp : Span) (k k' : string) (v : value) :
  lookup (attributes (setAttribute sp k v)) k' =
  if ended sp || nullish v || Str.is_empty k || negb (isAttributeValue v)
  then lookup (attributes sp) k'
  else if String.eqb k k' then Some v else lookup (attributes sp) k'.
Proof.
  unfold setAttribute.
  destruct (ended sp || nullish v || Str.is_empty k || negb (isAttributeValue v));
    simpl; [reflexivity|].
  apply JSFacts.lookup_obj_set.
Qed.

Lemma setAttribute_lookup_other (sp : Span) (k k' : string) (v : value) :
  String.eqb k k' = false ->
  lookup (attributes (setAttribute sp k v)) k' = lookup (attributes sp) k'.
Proof.
  intros E. rewrite setAttribute_lookup, E.
  destruct (ended sp || nullish v || Str.is_empty k || negb (isAttributeValue v));
    reflexivity.
Qed.

Lemma setAttributes_lookup_other (kvs : props) (sp : Span) (k' : string) :
  forallb (fun kv => negb (String.eqb (fst kv) k')) kvs = true ->
  lookup (attributes (setAttributes sp kvs)) k' = lookup (attributes sp) k'.
Proof.
  unfold setAttributes. revert sp.
  induction kvs as [|[k v] kvs IH]; simpl; intros sp H; [reflexivity|].
  apply andb_true_iff in H as [H1 H2].
  rewrite (IH _ H2). apply setAttribute_lookup_other.
  now apply negb_true_iff.
Qed.

(** What the SDK returns for a new span, and what it leaves alone. *)
Lemma sdk_startSpan_spec (nm : string) (k : SpanKind) (attrs : props)
      (ctx : option (option Span)) (st : State) :
  exists sp st',
    sdk_startSpan nm k attrs ctx st = (Ok sp, st')
    /\ ended sp = false
    /\ status sp = UNSET
    /\ spanId sp = rand st (drawn st)
    /\ match (match ctx with Some c => c | None => context_active end) with
       | Some p => traceId sp = traceId p /\ parentSpanId sp = Some (spanId p)
       | None => traceId sp = rand st (S (drawn st)) /\ parentSpanId sp = None
       end
    /\ rootSpan st' = rootSpan st
    /\ tracerInstance st' = tracerInstance st
    /\ exported st' = exported st
    /\ rand st' = rand st.
Proof.
  unfold sdk_startSpan.
  destruct (match ctx with Some c => c | None => context_active end) as [p|];
    eexists; eexists; (split; [reflexivity|]);
    match goal with
    | |- context [setAttributes ?s attrs] =>
        destruct (setAttributes_frame attrs s) as (a & b & c & d & e)
    end; simpl in *; repeat split; assumption.
Qed.

(** A new span holds no attribute beyond those it is started with. *)
Lemma sdk_startSpan_attributes (nm : string) (k : SpanKind) (attrs : props)
      (ctx : option (option Span)) (st st' : State) (sp : Span) (key : string) :
  sdk_startSpan nm k attrs ctx st = (Ok sp, st') ->
  forallb (fun kv => negb (String.eqb (fst kv) key)) attrs = true ->
  lookup (attributes sp) key = None.
Proof.
  unfold sdk_startSpan. intros E H.
  destruct (match ctx with Some c => c | None => context_active end) as [p|];
    inversion E; subst; rewrite (setAttributes_lookup_other _ _ _ H); reflexivity.
Qed.

(** Whatever the state of the tracer, [startSpan] exports nothing, and a
    span that it returns is open, unset, and holds only the attributes it
    was started with. *)
Lemma startSpan_result (nm : string) (k : SpanKind) (attrs : props)
      (st st' : State) (r : result Span) :
  startSpan nm k attrs st = (r, st') ->
  exported st' = exported st
  /\ forall sp, r = Ok sp ->
       ended sp = false /\ status sp = UNSET
       /\ forall key,
            forallb (fun kv => negb (String.eqb (fst kv) key)) attrs = true ->
            lookup (attributes sp) key = None.
Proof.
  unfold startSpan, getTracer, getRootSpan, Eff.mbind.
  destruct (tracerInstance st);
    [|intros E; inversion E; subst; split; [reflexivity | intros sp H; discriminate]].
  destruct (rootSpan st) as [root|];
    [|intros E; inversion E; subst; split; [reflexivity | intros sp H; discriminate]].
  destruct (sdk_startSpan_spec nm k attrs (Some (setSpan context_active root)) st)
    as (sp & st1 & E & He & Hs & Hid & Hp & Hr & Ht & Hx & Hrand).
  rewrite E. intros E'; inversion E'; subst. split; [exact Hx|].
  intros sp' H; inversion H; subst sp'. repeat split; try assumption.
  intros key Hkey. exact (sdk_startSpan_attributes _ _ _ _ _ _ _ _ E Hkey).
Qed.

(** The creation of the root span *)
Lemma initializeTracer_spec (config : CCProfileConfig) (st : State) :
  dir_ok st (outputDir config) = true ->
  exists root st',
    initializeTracer config st = (Ok tt, st')
    /\ rootSpan st' = Some root
    /\ tracerInstance st' = true
    /\ traceId root = rand st (S (drawn st))
    /\ spanId root = rand st (drawn st)
    /\ parentSpanId root = None
    /\ exported st' = exported st
    /\ rand st' = rand st.
Proof.
  intros Hdir. unfold initializeTracer. rewrite Hdir. simpl negb. cbv iota.
  match goal with
  | |- context [sdk_startSpan ?n ?k ?a ?c ?s] =>
      destruct (sdk_startSpan_spec n k a c s)
        as (sp & st' & E & He & Hs & Hid & Hp & Hr & Ht & Hx & Hrand)
  end.
  simpl in Hp. destruct Hp as [Htid Hpar].
  rewrite E. exists sp, (with_root st' (Some sp)).
  simpl in *. repeat split; assumption.
Qed.

(** Initialising the tracer exports nothing, whether it succeeds or not. *)
Lemma initializeTracer_exported (config : CCProfileConfig) (st : State) :
  exported (snd (initializeTracer config st)) = exported st.
Proof.
  destruct (dir_ok st (outputDir config)) eqn:Hdir.
  - destruct (initializeTracer_spec config st Hdir)
      as (root & st' & E & _ & _ & _ & _ & _ & Hx & _).
    rewrite E. exact Hx.
  - unfold initializeTracer. rewrite Hdir. reflexivity.
Qed.

Section OneProcess.

Variable st : State.
Variable root : Span.
Hypothesis initialised : tracerInstance st = true.
Hypothesis has_root : rootSpan st = Some root.

(** A span started through [startSpan] is a child of the root span and
    belongs to its trace; the root span stays the same. *)
Lemma startSpan_child_of_root (nm : string) (k : SpanKind) (attrs : props) :
  exists sp st',
    startSpan nm k attrs st = (Ok sp, st')
    /\ traceId sp = traceId root
    /\ parentSpanId sp = Some (spanId root)
    /\ ended sp = false
    /\ status sp = UNSET
    /\ rootSpan st' = Some root
    /\ tracerInstance st' = true
    /\ exported st' = exported st.
Proof.
  unfold startSpan, getTracer, getRootSpan, Eff.mbind.
  rewrite initialised, has_root.
  destruct (sdk_startSpan_spec nm k attrs (Some (setSpan context_active root)) st)
    as (sp & st' & E & He & Hs & Hid & Hp & Hr & Ht & Hx & Hrand).
  simpl in Hp. destruct Hp as [Htid Hpar].
  exists sp, st'. rewrite E.
  repeat split; try assumption; congruence.
Qed.

(** A span started under an explicit parent belongs to the trace of that
    parent. *)
Lemma startHookExecutionSpan_child (command : string) (parent : Span) (excl : bool) :
  exists sp st',
    startHookExecutionSpan command parent excl st = (Ok sp, st')
    /\ traceId sp = traceId parent
    /\ parentSpanId sp = Some (spanId parent)
    /\ ended sp = false
    /\ rootSpan st' = Some root
    /\ tracerInstance st' = true
    /\ exported st' = exported st.
Proof.
  unfold startHookExecutionSpan, getTracer, Eff.mbind.
  rewrite initialised.
  match goal with
  | |- context [sdk_startSpan ?n ?k ?a ?c st] =>
      destruct (sdk_startSpan_spec n k a c st)
        as (sp & st' & E & He & Hs & Hid & Hp & Hr & Ht & Hx & Hrand)
  end.
  simpl in Hp. destruct Hp as [Htid Hpar].
  exists sp, st'. rewrite E.
  repeat split; try assumption; congruence.
Qed.

End OneProcess.

End OtelFacts.

(* ================================================================== *)
(** * Facts about the fetch interceptor *)
(* ================================================================== *)

Module FetchFacts.
Import JS Eff Preload FetchSpec.

Lemma keeps_ret {A} (a : A) : keeps_otel (ret a).
Proof. intros w; reflexivity. Qed.

Lemma keeps_throw {A} (e : string) : keeps_otel (@throw World A e).
Proof. intros w; reflexivity. Qed.

Lemma keeps_of_result {A} (r : result A) : keeps_otel (of_result r).
Proof. intros w; reflexivity. Qed.

Lemma keeps_get_state : keeps_otel (@get_state World).
Proof. intros w; reflexivity. Qed.

Lemma keeps_bind {A B} (m : Comp World A) (k : A -> Comp World B) :
  keeps_otel m -> (forall a, keeps_otel (k a)) -> keeps_otel (mbind m k).
Proof.
  intros Hm Hk w. unfold mbind. specialize (Hm w).
  destruct (m w) as [[a|e] w1]; simpl in *.
  - rewrite (Hk a w1). exact Hm.
  - exact Hm.
Qed.

Lemma keeps_try_catch {A} (m : Comp World A) (h : string -> Comp World A) :
  keeps_otel m -> (forall e, keeps_otel (h e)) -> keeps_otel (try_catch m h).
Proof.
  intros Hm Hh w. unfold try_catch. specialize (Hm w).
  destruct (m w) as [[a|e] w1]; simpl in *.
  - exact Hm.
  - rewrite (Hh e w1). exact Hm.
Qed.

Lemma keeps_on_fs {A} (m : Comp Fs.FS A) : keeps_otel (on_fs m).
Proof.
  intros w. unfold on_fs, zoom. destruct (m (fs w)); reflexivity.
Qed.

Lemma keeps_console_error (msg : string) : keeps_otel (console_error msg).
Proof. intros w; reflexivity. Qed.

Lemma keeps_append_log (line : string) : keeps_otel (append_log line).
Proof.
  unfold append_log. apply keeps_bind; [apply keeps_get_state|].
  intros a. apply keeps_on_fs.
Qed.

Lemma keeps_record_tool_uses (iso : string) (blocks : list value) :
  keeps_otel (record_tool_uses iso blocks).
Proof.
  induction blocks as [|b rest IH]; simpl; [apply keeps_ret|].
  apply keeps_bind; [apply keeps_of_result|]. intros ty.
  apply keeps_bind; [|intros _; exact IH].
  destruct (strict_eq ty (VStr "tool_use")); [apply keeps_append_log | apply keeps_ret].
Qed.

Lemma keeps_read_response (rc : value) (resp : Response) (iso : string) (d : Z) :
  keeps_otel (read_response rc resp iso d).
Proof.
  unfold read_response.
  apply keeps_bind; [apply keeps_of_result|]. intros responseBody.
  apply keeps_bind.
  { destruct (is_sse responseBody); [apply keeps_ret | apply keeps_of_result]. }
  intros parsed.
  apply keeps_bind.
  { destruct (truthy (fst parsed)); [|apply keeps_ret].
    apply keeps_bind; [apply keeps_of_result|]. intros content.
    destruct content; try apply keeps_ret. apply keeps_record_tool_uses. }
  intros _.
  destruct (truthy (fst parsed) && truthy (get_opt (fst parsed) "usage"));
    apply keeps_ret.
Qed.

(** The enhanced data are always obtained: a failure of the reading is
    caught and leaves them empty. *)
Lemma enhanced_data_total (rc : value) (resp : Response) (iso : string) (d : Z)
      (w : World) :
  exists ed w',
    read_enhanced rc resp iso d w = (Ok ed, w')
    /\ otel w' = otel w.
Proof.
  unfold read_enhanced, try_catch.
  pose proof (keeps_read_response rc resp iso d w) as Hk.
  destruct (read_response rc resp iso d w) as [[ed|e] w1]; simpl in Hk.
  - exists ed, w1. split; [reflexivity | exact Hk].
  - eexists; eexists. split; [reflexivity|]. simpl. exact Hk.
Qed.

Lemma initializeOTELTracer_spec (w : World) :
  exists w',
    initializeOTELTracer w = (Ok tt, w')
    /\ Otel.exported (otel w') = Otel.exported (otel w).
Proof.
  unfold initializeOTELTracer, mbind, get_state.
  destruct (otelInitialized w); [exists w; split; reflexivity|].
  unfold try_catch, mbind, on_otel, zoom.
  match goal with
  | |- context [Otel.initializeTracer ?c (otel w)] =>
      pose proof (OtelFacts.initializeTracer_exported c (otel w)) as Hx;
      destruct (Otel.initializeTracer c (otel w)) as [[u|e] st1]
  end; simpl in Hx; eexists; (split; [reflexivity|]); simpl; exact Hx.
Qed.

(** The span opened for a request: nothing is exported yet, and the span,
    if there is one, is open, unset and without a status code. *)
Lemma open_api_span_spec (url : string) (method : value) (w : World) :
  exists o w1,
    open_api_span url method w = (Ok o, w1)
    /\ Otel.exported (otel w1) = Otel.exported (otel w)
    /\ forall sp, o = Some sp ->
         Otel.ended sp = false /\ Otel.status sp = Otel.UNSET
         /\ lookup (Otel.attributes sp) "http.status_code" = None.
Proof.
  unfold open_api_span, try_catch, mbind.
  destruct (initializeOTELTracer_spec w) as (w0 & E0 & Hx0). rewrite E0.
  unfold on_otel, zoom, Otel.startApiCallSpan.
  match goal with
  | |- context [Otel.startSpan ?n ?k ?a (otel w0)] =>
      pose proof (OtelFacts.startSpan_result n k a (otel w0)) as Hs;
      destruct (Otel.startSpan n k a (otel w0)) as [[sp|e] st1]
  end; destruct (Hs _ _ eq_refl) as [Hx Hsp]; clear Hs.
  - eexists; eexists. split; [reflexivity|]. split; [simpl; congruence|].
    intros sp' H.
    match type of H with
    | Some ?t = Some _ => assert (Hsp' : sp' = t) by congruence
    end.
    subst sp'. clear H.
    destruct (Hsp sp eq_refl) as (He & Hst & Hattr).
    match goal with
    | |- context [Otel.setAttributes sp ?kvs] =>
        destruct (OtelFacts.setAttributes_frame kvs sp) as (_ & _ & _ & Hs' & He');
        rewrite (OtelFacts.setAttributes_lookup_other kvs sp "http.status_code" eq_refl)
    end.
    repeat split; [congruence | congruence |].
    apply Hattr. destruct method; reflexivity.
  - eexists; eexists. split; [reflexivity|]. simpl. split; [congruence|].
    intros sp H; discriminate.
Qed.

(** The span of a request that is completed with a response *)
Lemma complete_span_spec (sp : Otel.Span) (resp : Response) (ed : props) (d : Z)
      (st : Otel.State) :
  Otel.ended sp = false ->
  exists sp',
    complete_span sp resp ed d st
    = (Ok sp', Otel.with_exported st (Otel.exported st ++ [sp'])%list)
    /\ Otel.status sp' = (if ok resp then Otel.OK else Otel.ERROR)
    /\ lookup (Otel.attributes sp') "http.status_code" = Some (num (status resp)).
Proof.
  intros Hopen. unfold complete_span.
  set (span1 := Otel.setAttributes sp _).
  assert (H1 : Otel.ended span1 = false
               /\ lookup (Otel.attributes span1) "http.status_code"
                  = Some (num (status resp))).
  { subst span1. split.
    - match goal with
      | |- context [Otel.setAttributes sp ?kvs] =>
          destruct (OtelFacts.setAttributes_frame kvs sp) as (_ & _ & _ & _ & He)
      end. congruence.
    - unfold Otel.setAttributes. simpl fold_left.
      rewrite OtelFacts.setAttribute_lookup_other by reflexivity.
      rewrite OtelFacts.setAttribute_lookup, Hopen. reflexivity. }
  destruct H1 as [Hopen1 Hcode1].
  set (span2 := if truthy (prop ed "model") then _ else span1).
  assert (H2 : Otel.ended span2 = false
               /\ lookup (Otel.attributes span2) "http.status_code"
                  = Some (num (status resp))).
  { subst span2. destruct (truthy (prop ed "model")); [|split; assumption].
    set (s1 := Otel.setAttributes span1 _).
    assert (Hs1 : Otel.ended s1 = false
                  /\ lookup (Otel.attributes s1) "http.status_code"
                     = Some (num (status resp))).
    { subst s1. split.
      - match goal with
        | |- context [Otel.setAttributes span1 ?kvs] =>
            destruct (OtelFacts.setAttributes_frame kvs span1) as (_ & _ & _ & _ & He)
        end. congruence.
      - rewrite OtelFacts.setAttributes_lookup_other by reflexivity. exact Hcode1. }
    destruct Hs1 as [Ho1 Hc1].
    set (s2 := if truthy (prop ed "promptText") then _ else s1).
    assert (Hs2 : Otel.ended s2 = false
                  /\ lookup (Otel.attributes s2) "http.status_code"
                     = Some (num (status resp))).
    { subst s2. destruct (truthy (prop ed "promptText")); [|split; assumption]. split.
      - match goal with
        | |- context [Otel.setAttributes s1 ?kvs] =>
            destruct (OtelFacts.setAttributes_frame kvs s1) as (_ & _ & _ & _ & He)
        end. congruence.
      - rewrite OtelFacts.setAttributes_lookup_other by reflexivity. exact Hc1. }
    destruct Hs2 as [Ho2 Hc2].
    destruct (truthy (prop ed "responseText")); [|split; assumption]. split.
    - match goal with
      | |- context [Otel.setAttributes s2 ?kvs] =>
          destruct (OtelFacts.setAttributes_frame kvs s2) as (_ & _ & _ & _ & He)
      end. congruence.
    - rewrite OtelFacts.setAttributes_lookup_other by reflexivity. exact Hc2. }
  destruct H2 as [Hopen2 Hcode2].
  unfold Otel.end_span, Otel.setStatus. rewrite Hopen2. simpl Otel.ended.
  cbv iota. eexists. split; [reflexivity|]. simpl. split; [|exact Hcode2].
  destruct (ok resp); reflexivity.
Qed.

(** The span of a request that fails *)
Lemma fail_request_spec (o : option Otel.Span) (e : string) (w : World) :
  (forall sp, o = Some sp ->
     Otel.ended sp = false
     /\ lookup (Otel.attributes sp) "http.status_code" = None) ->
  exists new w',
    fail_request o e w = (Throw e, w')
    /\ Otel.exported (otel w') = (Otel.exported (otel w) ++ new)%list
    /\ forall sp, In sp new ->
         Otel.status sp = Otel.ERROR
         /\ lookup (Otel.attributes sp) "http.status_code" = None.
Proof.
  intros Ho. unfold fail_request. destruct o as [sp|].
  - destruct (Ho sp eq_refl) as [Hopen Hnone].
    unfold mbind, on_otel, zoom, Otel.end_span, Otel.setStatus, Otel.recordException.
    rewrite Hopen. simpl.
    eexists; eexists. split; [reflexivity|]. split; [reflexivity|].
    intros sp' [H|[]]; subst sp'. simpl. split; [reflexivity | exact Hnone].
  - exists [], w. split; [reflexivity|]. split; [now rewrite app_nil_r|].
    intros sp [].
Qed.

Lemma ok_iff (resp : Response) : ok resp = true <-> 200 <= status resp < 300.
Proof. unfold ok. rewrite andb_true_iff, !Z.leb_le. lia. Qed.

End FetchFacts.

Module FetchStatus.
Import JS Eff Preload FetchSpec.

(** The status of the spans of a request: OK with a status code from 200
    to 299, ERROR otherwise; the span of a call that throws is ERROR and
    has no status code. *)
Lemma api_span_status
        (url : string) (init : value) (network : result Response)
        (requestTimestamp responseTimestamp : Z) (iso_now : string)
        (w w' : World) (r : result Response) :
  intercepted_fetch url init network requestTimestamp
    responseTimestamp iso_now w = (r, w') ->
  exists new,
    Otel.exported (otel w') = (Otel.exported (otel w) ++ new)%list
    /\ forall sp, In sp new ->
         (Otel.status sp = Otel.OK \/ Otel.status sp = Otel.ERROR)
         /\ (Otel.status sp = Otel.OK <->
             exists c, lookup (Otel.attributes sp) "http.status_code" = Some (num c)
                       /\ 200 <= c < 300)
         /\ (forall response, r = Ok response ->
               lookup (Otel.attributes sp) "http.status_code"
               = Some (num (status response)))
         /\ (forall e, r = Throw e ->
               Otel.status sp = Otel.ERROR
               /\ lookup (Otel.attributes sp) "http.status_code" = None).
Proof.
  assert (Hnone : forall sp,
             Otel.status sp = Otel.ERROR ->
             lookup (Otel.attributes sp) "http.status_code" = None ->
             (Otel.status sp = Otel.OK \/ Otel.status sp = Otel.ERROR)
             /\ (Otel.status sp = Otel.OK <->
                 exists c, lookup (Otel.attributes sp) "http.status_code" = Some (num c)
                           /\ 200 <= c < 300)).
  { intros sp Hs Hl. split; [right; exact Hs|]. split.
    - intros H; congruence.
    - intros (c & Hc & _); congruence. }
  assert (Hempty : forall st, Otel.exported st = (Otel.exported st ++ [])%list)
    by (intros; now rewrite app_nil_r).
  unfold intercepted_fetch, mbind, isAnthropicAPI, mbind, get_state, of_result, ret.
  cbv zeta.
  destruct (apiHost w) as [h|e0].
  2:{ intros [= <- <-]. exists []. split; [apply Hempty | intros sp []]. }
  destruct (Str.includes url h); cbv beta iota delta [negb].
  2:{ intros [= <- <-]. exists []. split; [apply Hempty | intros sp []]. }
  destruct (FetchFacts.open_api_span_spec url
              (or_else (get_opt (init_or_default init) "method") (VStr "GET")) w)
    as (o & w1 & E1 & Hx1 & Ho).
  rewrite E1. unfold try_catch, respond, mbind, of_result.
  destruct network as [resp|e].
  - set (rc := request_content _ _).
    set (d := responseTimestamp - requestTimestamp).
    destruct (FetchFacts.enhanced_data_total rc resp iso_now d w1)
      as (ed & w2 & E2 & Hx2).
    rewrite E2.
    destruct (get (init_or_default init) "method") as [init_method|e1].
    2:{ destruct (FetchFacts.fail_request_spec o e1 w2) as (new & w4 & E4 & Hx4 & Hnew).
        { intros sp Hsp. destruct (Ho sp Hsp) as (a & _ & c). split; assumption. }
        rewrite E4. intros [= <- <-]. exists new. split; [congruence|].
        intros sp Hin. destruct (Hnew sp Hin) as [Hs Hl].
        destruct (Hnone sp Hs Hl) as [H1 H2]. split; [exact H1|]. split; [exact H2|].
        split; [intros response H; discriminate|]. intros e' _. split; assumption. }
    match goal with
    | |- context [append_log ?l w2] =>
        pose proof (FetchFacts.keeps_append_log l w2) as Hx3;
        destruct (append_log l w2) as [[u|e] w3]
    end; simpl in Hx3.
    + destruct o as [sp|].
      * destruct (Ho sp eq_refl) as (Hopen & Hunset & Hcode).
        destruct (FetchFacts.complete_span_spec sp resp ed d (otel w3) Hopen)
          as (sp' & E4 & Hst & Hattr).
        unfold on_otel, zoom. rewrite E4. unfold ret.
        intros [= <- <-]. exists [sp']. split.
        { simpl. congruence. }
        intros sp0 [<-|[]]. split; [|split; [|split]].
        -- rewrite Hst. destruct (ok resp); auto.
        -- rewrite Hst, Hattr. split.
           ++ intros Hok. exists (status resp). split; [reflexivity|].
              apply FetchFacts.ok_iff. destruct (ok resp); [reflexivity | discriminate].
           ++ intros (c & Hc & Hrange).
              assert (c = status resp).
              { unfold num, inject_Z in Hc. injection Hc as Hc. congruence. }
              subst c. apply FetchFacts.ok_iff in Hrange. rewrite Hrange. reflexivity.
        -- intros response [= <-]. exact Hattr.
        -- intros e H; discriminate H.
      * unfold ret. intros [= <- <-]. exists []. split.
        { rewrite app_nil_r. congruence. }
        intros sp [].
    + destruct (FetchFacts.fail_request_spec o e w3) as (new & w4 & E4 & Hx4 & Hnew).
      { intros sp Hsp. destruct (Ho sp Hsp) as (a & _ & c). split; assumption. }
      rewrite E4. intros [= <- <-]. exists new. split; [congruence|].
      intros sp Hin. destruct (Hnew sp Hin) as [Hs Hl].
      destruct (Hnone sp Hs Hl) as [H1 H2]. split; [exact H1|]. split; [exact H2|].
      split; [intros response H; discriminate|]. intros e' _. split; assumption.
  - destruct (FetchFacts.fail_request_spec o e w1) as (new & w4 & E4 & Hx4 & Hnew).
    { intros sp Hsp. destruct (Ho sp Hsp) as (a & _ & c). split; assumption. }
    rewrite E4. intros [= <- <-]. exists new. split; [congruence|].
    intros sp Hin. destruct (Hnew sp Hin) as [Hs Hl].
    destruct (Hnone sp Hs Hl) as [H1 H2]. split; [exact H1|]. split; [exact H2|].
    split; [intros response H; discriminate|]. intros e' _. split; assumption.
Qed.

(** C6.  Every span that a call of the intercepted [fetch] hands to the
    exporter has status OK or ERROR; it has status OK if and only if it
    carries an attribute [http.status_code] whose value lies in [200, 300);
    and whenever the call returns a response to the host, that attribute is
    the status of this response.  So the span of a request that got a
    response is OK exactly for the statuses 200 to 299, and the span of a
    request that failed is ERROR. *)
Theorem api_span_status_ok_iff_http_2xx
        (url : string) (init : value) (network : result Response)
        (requestTimestamp responseTimestamp : Z) (iso_now : string)
        (w w' : World) (r : result Response) :
  intercepted_fetch url init network requestTimestamp
    responseTimestamp iso_now w = (r, w') ->
  exists new,
    Otel.exported (otel w') = (Otel.exported (otel w) ++ new)%list
    /\ forall sp, In sp new ->
         (Otel.status sp = Otel.OK \/ Otel.status sp = Otel.ERROR)
         /\ (Otel.status sp = Otel.OK <->
             exists c, lookup (Otel.attributes sp) "http.status_code" = Some (num c)
                       /\ 200 <= c < 300)
         /\ (forall response, r = Ok response ->
               lookup (Otel.attributes sp) "http.status_code"
               = Some (num (status response))).
Proof.
  intros Hrun.
  destruct (api_span_status url init network requestTimestamp responseTimestamp
              iso_now w w' r Hrun) as (new & Hexp & Hall).
  exists new. split; [exact Hexp|].
  intros sp Hsp. destruct (Hall sp Hsp) as (H1 & H2 & H3 & _).
  split; [exact H1|]. split; [exact H2 | exact H3].
Qed.

End FetchStatus.

Module UsageMerge.
Import JS Eff Preload.

Lemma get_opt_object (o : props) (k : string) :
  get_opt (VObj o) k = prop_of o k.
Proof. reflexivity. Qed.

(** A property set by a spread is read back when the source is an object
    with distinct keys. *)
Lemma lookup_fold_obj_set (n : props) (o : props) (k : string) (v : value) :
  NoDup (map fst n) ->
  lookup n k = Some v ->
  lookup (fold_left (fun o kv => obj_set o (fst kv) (snd kv)) n o) k = Some v.
Proof.
  revert o. induction n as [|[k1 v1] n IH]; simpl; intros o Hnd Hl; [discriminate|].
  inversion Hnd as [|? ? Hnotin Hnd']; subst.
  destruct (String.eqb k1 k) eqn:E.
  - apply String.eqb_eq in E; subst k1. injection Hl as ->.
    clear IH. revert o.
    assert (Hk : forallb (fun kv => negb (String.eqb (fst kv) k)) n = true).
    { clear -Hnotin. induction n as [|[k2 v2] n IH]; simpl; [reflexivity|].
      simpl in Hnotin. apply andb_true_iff. split.
      - apply negb_true_iff. destruct (String.eqb k2 k) eqn:E; [|reflexivity].
        apply String.eqb_eq in E. exfalso; apply Hnotin; left; exact E.
      - apply IH. intros H; apply Hnotin; right; exact H. }
    intros o.
    change (lookup (set_all (obj_set o k v) n) k = Some v).
    rewrite (JSFacts.lookup_set_all_other n _ k Hk).
    apply JSFacts.lookup_obj_set_same.
  - apply IH; assumption.
Qed.

(** The merge of two usages, field by field: a later value that is not
    null overrides the earlier one, for [input_tokens] as for any other
    field; a later usage without [input_tokens] keeps the earlier value. *)
Lemma merge_usage_later_wins (currentUsage : value) (n : props) (k : string) (v : value) :
  NoDup (map fst n) ->
  lookup n k = Some v ->
  nullish v = false ->
  get_opt (merge_usage currentUsage (VObj n)) k = v.
Proof.
  intros Hnd Hl Hv. unfold merge_usage. rewrite get_opt_object. unfold prop_of.
  unfold set_all. simpl fold_left.
  rewrite !JSFacts.lookup_obj_set.
  assert (Hget : get_opt (VObj n) k = v) by (rewrite get_opt_object; unfold prop_of; now rewrite Hl).
  destruct (String.eqb "cache_read_input_tokens" k) eqn:E1.
  { apply String.eqb_eq in E1; subst k. rewrite Hget. unfold coalesce. now rewrite Hv. }
  destruct (String.eqb "cache_creation_input_tokens" k) eqn:E2.
  { apply String.eqb_eq in E2; subst k. rewrite Hget. unfold coalesce. now rewrite Hv. }
  destruct (String.eqb "input_tokens" k) eqn:E3.
  { apply String.eqb_eq in E3; subst k. rewrite Hget. unfold coalesce. now rewrite Hv. }
  unfold spread at 1. simpl own_props.
  now rewrite (lookup_fold_obj_set n _ k v Hnd Hl).
Qed.

Lemma merge_usage_input_tokens (currentUsage newUsage : value) :
  get_opt (merge_usage currentUsage newUsage) "input_tokens"
  = coalesce (get_opt newUsage "input_tokens") (get_opt currentUsage "input_tokens").
Proof.
  unfold merge_usage. rewrite get_opt_object. unfold prop_of, set_all. simpl fold_left.
  rewrite !JSFacts.lookup_obj_set. reflexivity.
Qed.

(** One more line of an event stream whose data carry a usage *)
Lemma sse_line_usage (acc : value * string) (line : string) (data : value) :
  String.eqb (Str.substring_from 6 line) "[DONE]" = false ->
  JSON.parse (Str.substring_from 6 line) = Some data ->
  truthy (get_opt data "usage") = true ->
  get_opt (fst (sse_line acc line)) "usage" =
  if negb (truthy (fst acc)) || negb (truthy (get_opt (fst acc) "usage"))
  then get_opt data "usage"
  else merge_usage (get_opt (fst acc) "usage") (get_opt data "usage").
Proof.
  intros Hdone Hparse Husage. destruct acc as [responseData fullContent].
  unfold sse_line. rewrite Hdone, Hparse.
  assert (Hget : exists ty, get data "type" = Ok ty).
  { destruct data; simpl in Husage; try discriminate; eexists; reflexivity. }
  destruct Hget as [ty Hty]. rewrite Hty. cbv zeta. rewrite Husage. simpl fst.
  destruct (negb (truthy responseData) || negb (truthy (get_opt responseData "usage")));
    simpl fst; [reflexivity|].
  rewrite get_opt_object. unfold prop_of, set_all. simpl fold_left.
  now rewrite JSFacts.lookup_obj_set_same.
Qed.

Lemma usage_after_a_later_line
        (lines : list string) (line : string) (data : value) :
  String.eqb (Str.substring_from 6 line) "[DONE]" = false ->
  JSON.parse (Str.substring_from 6 line) = Some data ->
  truthy (get_opt data "usage") = true ->
  let before := fst (fold_left sse_line lines (VNull, EmptyString)) in
  let after := fst (fold_left sse_line (lines ++ [line]) (VNull, EmptyString)) in
  (forall v, get_opt (get_opt data "usage") "input_tokens" = v ->
             nullish v = false ->
             get_opt (get_opt after "usage") "input_tokens" = v)
  /\ (nullish (get_opt (get_opt data "usage") "input_tokens") = true ->
      truthy before = true ->
      truthy (get_opt before "usage") = true ->
      get_opt (get_opt after "usage") "input_tokens"
      = get_opt (get_opt before "usage") "input_tokens")
  /\ (forall n k v, get_opt data "usage" = VObj n ->
                    NoDup (map fst n) ->
                    lookup n k = Some v ->
                    nullish v = false ->
                    get_opt (get_opt after "usage") k = v).
Proof.
  intros Hdone Hparse Husage before after.
  assert (Hafter : get_opt after "usage" =
                   if negb (truthy before) || negb (truthy (get_opt before "usage"))
                   then get_opt data "usage"
                   else merge_usage (get_opt before "usage") (get_opt data "usage")).
  { subst after before. rewrite fold_left_app. simpl fold_left.
    apply sse_line_usage; assumption. }
  rewrite Hafter. split; [|split].
  - intros v Hv Hnn.
    destruct (negb (truthy before) || negb (truthy (get_opt before "usage")));
      [exact Hv|].
    rewrite merge_usage_input_tokens, Hv. unfold coalesce. now rewrite Hnn.
  - intros Hnull Hb Hbu. rewrite Hb, Hbu. simpl.
    rewrite merge_usage_input_tokens. unfold coalesce. now rewrite Hnull.
  - intros n k v Hobj Hnd Hl Hnn.
    destruct (negb (truthy before) || negb (truthy (get_opt before "usage"))).
    + rewrite Hobj, get_opt_object. unfold prop_of. now rewrite Hl.
    + rewrite Hobj. apply merge_usage_later_wins; assumption.
Qed.

(** C3, as the code has it.  In an event stream, when a further [data: ]
    line carries a usage: (1) if that usage has an [input_tokens] that is
    neither null nor undefined, it becomes the [input_tokens] of the
    accumulated usage, whatever was observed before; (2) if it has none and
    a usage was already held, the [input_tokens] observed before is kept;
    (3) every other field of the later usage that is not null overrides the
    earlier value as well. *)
Theorem sse_usage_later_non_null_wins
        (lines : list string) (line : string) (data : value) :
  String.eqb (Str.substring_from 6 line) "[DONE]" = false ->
  JSON.parse (Str.substring_from 6 line) = Some data ->
  truthy (get_opt data "usage") = true ->
  let before := fst (fold_left sse_line lines (VNull, EmptyString)) in
  let after := fst (fold_left sse_line (lines ++ [line]) (VNull, EmptyString)) in
  (forall v, get_opt (get_opt data "usage") "input_tokens" = v ->
             nullish v = false ->
             get_opt (get_opt after "usage") "input_tokens" = v)
  /\ (nullish (get_opt (get_opt data "usage") "input_tokens") = true ->
      truthy before = true ->
      truthy (get_opt before "usage") = true ->
      get_opt (get_opt after "usage") "input_tokens"
      = get_opt (get_opt before "usage") "input_tokens")
  /\ (forall n k v, get_opt data "usage" = VObj n ->
                    NoDup (map fst n) ->
                    lookup n k = Some v ->
                    nullish v = false ->
                    get_opt (get_opt after "usage") k = v).
Proof. exact (usage_after_a_later_line lines line data). Qed.

End UsageMerge.


Module CostFacts.
Import JS Eff Preload SpecDefs.
Local Open Scope Q_scope.

(** Rounding to six decimals moves a number by half a millionth at most,
    and gives a whole number of millionths unless the number is huge. *)
Lemma round6_close (q : Q) : Qabs (Arith.round6 q - q) <= 1 # 2000000.
Proof.
  unfold Arith.round6.
  destruct (Qle_bool (1000000000000000000000 # 1) (Qabs q)).
  { setoid_replace (q - q) with 0 by ring. discriminate. }
  rewrite Qred_correct.
  set (m := Qfloor (Qabs q * 1000000 + (1 # 2))).
  assert (Hlo : Qabs q * 1000000 - (1 # 2) <= inject_Z m).
  { pose proof (Qlt_floor (Qabs q * 1000000 + (1 # 2))) as H. fold m in H.
    rewrite inject_Z_plus in H. change (inject_Z 1) with 1 in H. lra. }
  assert (Hhi : inject_Z m <= Qabs q * 1000000 + (1 # 2)).
  { apply Qfloor_le. }
  apply Qabs_Qle_condition.
  destruct (Qle_bool 0 q) eqn:Hs.
  - apply Qle_bool_iff in Hs. rewrite (Qabs_pos q Hs) in Hlo, Hhi.
    setoid_replace (m # 1000000) with (inject_Z m * (1 # 1000000))
      by (unfold Qeq, inject_Z, Qmult; simpl; lia).
    clearbody m. revert Hlo Hhi. generalize (inject_Z m). intros z Hlo Hhi.
    split; lra.
  - assert (Hneg : q <= 0).
    { apply Qnot_lt_le. intros Hlt.
      assert (Qle_bool 0 q = true) by (apply Qle_bool_iff; lra). congruence. }
    rewrite (Qabs_neg q Hneg) in Hlo, Hhi.
    setoid_replace (- m # 1000000) with (- inject_Z m * (1 # 1000000))
      by (unfold Qeq, inject_Z, Qmult, Qopp; simpl; lia).
    clearbody m. revert Hlo Hhi. generalize (inject_Z m). intros z Hlo Hhi.
    split; lra.
Qed.

Local Close Scope Q_scope.

Lemma lookup_none_forallb (kvs : props) (k : string) :
  lookup kvs k = None ->
  forallb (fun kv => negb (String.eqb (fst kv) k)) kvs = true.
Proof.
  induction kvs as [|[k1 v1] kvs IH]; simpl; [reflexivity|].
  destruct (String.eqb k1 k); [discriminate|]. exact IH.
Qed.

(** Reading an object literal with distinct keys *)
Lemma lookup_set_all (kvs o : props) (k : string) :
  NoDup (map fst kvs) ->
  lookup (set_all o kvs) k =
  match lookup kvs k with
  | Some v => Some v
  | None => lookup o k
  end.
Proof.
  intros Hnd. destruct (lookup kvs k) as [v|] eqn:Hl.
  - apply UsageMerge.lookup_fold_obj_set; assumption.
  - apply JSFacts.lookup_set_all_other. now apply lookup_none_forallb.
Qed.

Ltac distinct_keys :=
  repeat (apply NoDup_cons; [simpl; intuition discriminate|]); apply NoDup_nil.

Lemma or_zero_number (v : value) :
  match v with VNum _ | VNull | VUndef => True | _ => False end ->
  exists q, or_else v (num 0) = VNum q /\ (q == count v)%Q.
Proof.
  destruct v; intros H; try contradiction H; unfold or_else; simpl.
  - exists 0%Q. split; reflexivity.
  - exists 0%Q. split; reflexivity.
  - destruct (Qeq_bool q 0) eqn:E; simpl.
    + exists 0%Q. split; [reflexivity|]. apply Qeq_bool_eq in E. now rewrite E.
    + exists q. split; reflexivity.
Qed.

Lemma estimateTokenCount_number (text : string) :
  exists q, estimateTokenCount text = VNum q.
Proof.
  unfold estimateTokenCount, Arith.ceil_max, num.
  destruct (Str.is_empty text); eexists; reflexivity.
Qed.

(** The fields of the enhanced data *)
Lemma enhanced_data_fields (rc rd rcont : value) (d : Z) :
  let usage := get_opt rd "usage" in
  let model := or_else (get_opt rd "model") (VStr default_model) in
  let inputTokens0 := get_opt usage "input_tokens" in
  let inputTokens :=
    if negb (truthy inputTokens0) && truthy rc
    then estimateTokenCount (JSON.stringify_text rc) else inputTokens0 in
  let final := or_else inputTokens (num 0) in
  let ed := enhanced_data rc rd rcont d in
  prop ed "model" = model
  /\ prop ed "tokensInput" = final
  /\ prop ed "tokensOutput" = or_else (get_opt usage "output_tokens") (num 0)
  /\ prop ed "tokensCacheRead" = or_else (get_opt usage "cache_read_input_tokens") (num 0)
  /\ prop ed "tokensCacheCreation"
     = or_else (get_opt usage "cache_creation_input_tokens") (num 0)
  /\ prop ed "costUsd" = Arith.toFixed6_parsed (calculateModelCost model usage final).
Proof.
  cbv zeta. unfold enhanced_data, prop, prop_of. cbv zeta.
  rewrite !lookup_set_all by distinct_keys.
  repeat split.
Qed.

Lemma truthy_model (rd : value) :
  truthy (or_else (get_opt rd "model") (VStr default_model)) = true.
Proof.
  unfold or_else. destruct (truthy (get_opt rd "model")) eqn:E; [exact E | reflexivity].
Qed.

Lemma mul_numbers (a b : Q) : Arith.mul (VNum a) (VNum b) = VNum (Qred (a * b)).
Proof. reflexivity. Qed.

Lemma div_number (a d : Q) : Arith.div_const (VNum a) d = VNum (Qred (a / d)).
Proof. reflexivity. Qed.

Lemma add_numbers (a b : Q) : Arith.add (VNum a) (VNum b) = VNum (Qred (a + b)).
Proof. reflexivity. Qed.

(** The cost computed from a usage whose counts are numbers *)
Lemma calculateModelCost_number (model usage : value) (i : Q) :
  usage_ok usage ->
  or_else (get_opt usage "input_tokens") (VNum i) = VNum i ->
  exists o cr cw c,
    or_else (get_opt usage "output_tokens") (num 0) = VNum o
    /\ or_else (get_opt usage "cache_read_input_tokens") (num 0) = VNum cr
    /\ or_else (get_opt usage "cache_creation_input_tokens") (num 0) = VNum cw
    /\ calculateModelCost model usage (VNum i) = VNum c
    /\ (c == token_cost (pricing_for model) i o cr cw)%Q.
Proof.
  intros (Hi & Ho & Hcr & Hcw) Hin.
  destruct (or_zero_number _ Ho) as (o & Eo & _).
  destruct (or_zero_number _ Hcr) as (cr & Ecr & _).
  destruct (or_zero_number _ Hcw) as (cw & Ecw & _).
  exists o, cr, cw. unfold calculateModelCost. cbv zeta.
  rewrite Hin, Eo, Ecr, Ecw.
  rewrite !mul_numbers, !div_number, !add_numbers.
  eexists. split; [reflexivity|]. split; [reflexivity|]. split; [reflexivity|].
  split; [reflexivity|].
  unfold token_cost. rewrite !Qred_correct. reflexivity.
Qed.

(** Reading the attributes of an open span after an assignment of
    attributes with distinct keys *)
Lemma setAttributes_lookup (kvs : props) (sp : Otel.Span) (k : string) :
  Otel.ended sp = false ->
  NoDup (map fst kvs) ->
  lookup (Otel.attributes (Otel.setAttributes sp kvs)) k =
  match lookup kvs k with
  | Some v =>
      if nullish v || Str.is_empty k || negb (Otel.isAttributeValue v)
      then lookup (Otel.attributes sp) k
      else Some v
  | None => lookup (Otel.attributes sp) k
  end.
Proof.
  unfold Otel.setAttributes. revert sp.
  induction kvs as [|[k1 v1] kvs IH]; intros sp Hopen Hnd; simpl; [reflexivity|].
  inversion Hnd as [|? ? Hnotin Hnd']; subst.
  assert (Hopen' : Otel.ended (Otel.setAttribute sp k1 v1) = false).
  { destruct (OtelFacts.setAttribute_frame sp k1 v1) as (_ & _ & _ & _ & He). congruence. }
  rewrite (IH _ Hopen' Hnd').
  destruct (String.eqb k1 k) eqn:E.
  - apply String.eqb_eq in E; subst k1.
    assert (Hrest : lookup kvs k = None).
    { destruct (lookup kvs k) eqn:Hl; [|reflexivity]. exfalso. apply Hnotin.
      clear -Hl. induction kvs as [|[k2 v2] kvs IH]; simpl in *; [discriminate|].
      destruct (String.eqb k2 k) eqn:E; [left; now apply String.eqb_eq | right; auto]. }
    rewrite Hrest, OtelFacts.setAttribute_lookup, Hopen, String.eqb_refl. simpl orb.
    destruct (nullish v1 || Str.is_empty k || negb (Otel.isAttributeValue v1));
      reflexivity.
  - rewrite (OtelFacts.setAttribute_lookup_other sp k1 k v1 E). reflexivity.
Qed.

Lemma pricing_lookup_in (t : list (string * Rates)) (k : string) (r : Rates) :
  pricing_lookup t k = Some r -> In r (map snd t).
Proof.
  induction t as [|[k' r'] t IH]; simpl; [discriminate|].
  destruct (String.eqb k' k); [intros [= <-]; now left | right; auto].
Qed.

(** The rates of a model are those of one of the entries of the table. *)
Lemma pricing_for_cases (model : value) :
  pricing_for model = mkRates 3 15 (3 # 10) (375 # 100)
  \/ pricing_for model = mkRates 1 5 (1 # 10) (125 # 100)
  \/ pricing_for model = mkRates 15 75 (15 # 10) (1875 # 100).
Proof.
  unfold pricing_for.
  destruct (pricing_lookup modelPricing (ToString model)) as [r|] eqn:E.
  - apply pricing_lookup_in in E. simpl in E.
    destruct E as [<-|[<-|[<-|[<-|[]]]]]; auto.
  - left. reflexivity.
Qed.

End CostFacts.

Module Cost.
Import JS Eff Preload SpecDefs.

(** The cost of a request, in exact arithmetic.  The code computes the
    cost in double precision; here the numbers are rationals, so that this
    is the cost up to the rounding of the doubles.  When a response
    carries a usage whose token
    counts are numbers (or are missing), the span that is completed with
    it carries the four counts and an attribute [ai.cost.usd] that is the
    sum over the four kinds of tokens of count times rate over 10^6, with
    the rates of the table for the model (those of the default model when
    the model is not in the table), rounded to six decimals: it differs
    from that sum by half a millionth at most.  For 100 input tokens, 50
    output tokens and no cache tokens the rounding changes nothing: the
    cost is 100 * rate_in / 10^6 + 50 * rate_out / 10^6. *)
Theorem cost_attribute_is_rounded_token_cost
        (requestContent responseData responseContent : value) (sp : Otel.Span)
        (response : Response) (duration : Z) (st : Otel.State) :
  usage_ok (get_opt responseData "usage") ->
  Otel.ended sp = false ->
  let rates := pricing_for (or_else (get_opt responseData "model") (VStr default_model)) in
  (exists sp' st' i o cr cw cost c,
      complete_span sp response
        (enhanced_data requestContent responseData responseContent duration)
        duration st = (Ok sp', st')
      /\ lookup (Otel.attributes sp') "ai.tokens.input" = Some (VNum i)
      /\ lookup (Otel.attributes sp') "ai.tokens.output" = Some (VNum o)
      /\ lookup (Otel.attributes sp') "ai.cache.read" = Some (VNum cr)
      /\ lookup (Otel.attributes sp') "ai.cache.write" = Some (VNum cw)
      /\ lookup (Otel.attributes sp') "ai.cost.usd" = Some (VNum cost)
      /\ (c == token_cost rates i o cr cw)%Q
      /\ (cost == Arith.round6 c)%Q
      /\ (Qabs (cost - token_cost rates i o cr cw) <= 1 # 2000000)%Q)
  /\ (forall model estimated,
        exists cost,
          Arith.toFixed6_parsed (calculateModelCost model usage_100_50 estimated)
          = VNum cost
          /\ (cost == 100 * rate_input (pricing_for model) / 1000000
                      + 50 * rate_output (pricing_for model) / 1000000)%Q).
Proof.
  intros Husage Hopen rates. split.
  - destruct (CostFacts.enhanced_data_fields requestContent responseData
                responseContent duration)
      as (Hmodel & Hin & Hout & Hcr & Hcw & Hcost).
    set (ed := enhanced_data requestContent responseData responseContent duration) in *.
    set (usage := get_opt responseData "usage") in *.
    set (model := or_else (get_opt responseData "model") (VStr default_model)) in *.
    (* the final count of input tokens is a number *)
    assert (Hfinal : exists i0, prop ed "tokensInput" = VNum i0
                                /\ or_else (get_opt usage "input_tokens") (VNum i0) = VNum i0).
    { rewrite Hin. destruct Husage as (Hi & _). unfold count_ok in Hi.
      destruct (truthy (get_opt usage "input_tokens")) eqn:Ht.
      - simpl andb. cbv iota.
        destruct (get_opt usage "input_tokens") eqn:Ei; try contradiction Hi;
          try discriminate Ht.
        exists q. unfold or_else. rewrite Ht. split; reflexivity.
      - simpl negb. simpl andb.
        destruct (truthy requestContent).
        + destruct (CostFacts.estimateTokenCount_number
                      (JSON.stringify_text requestContent)) as [e He].
          rewrite He.
          destruct (CostFacts.or_zero_number (VNum e) I) as (i0 & E0 & _).
          rewrite E0. exists i0. split; [reflexivity|].
          unfold or_else at 1. rewrite Ht. reflexivity.
        + destruct (CostFacts.or_zero_number (get_opt usage "input_tokens") Hi)
            as (i0 & E0 & _).
          rewrite E0. exists i0. split; [reflexivity|].
          unfold or_else at 1. rewrite Ht. reflexivity. }
    destruct Hfinal as (i0 & Hi0 & Hcalc).
    destruct (CostFacts.calculateModelCost_number model usage i0 Husage Hcalc)
      as (o0 & cr0 & cw0 & c & Eo & Ecr & Ecw & Ec & Hc).
    rewrite Hin in Hi0. rewrite Hi0, Ec in Hcost. rewrite Eo in Hout.
    rewrite Ecr in Hcr. rewrite Ecw in Hcw. simpl in Hcost.
    (* the numbers that the attributes hold *)
    destruct (CostFacts.or_zero_number (VNum i0) I) as (i & Ei & Hi').
    destruct (CostFacts.or_zero_number (VNum o0) I) as (o & Eo' & Ho').
    destruct (CostFacts.or_zero_number (VNum cr0) I) as (cr & Ecr' & Hcr').
    destruct (CostFacts.or_zero_number (VNum cw0) I) as (cw & Ecw' & Hcw').
    destruct (CostFacts.or_zero_number (VNum (Arith.round6 c)) I)
      as (cost & Ecost & Hcost').
    simpl count in *.
    (* the completed span *)
    unfold complete_span.
    assert (Htm : truthy model = true) by apply CostFacts.truthy_model.
    rewrite Hmodel, Htm.
    set (span1 := Otel.setAttributes sp _).
    assert (Hopen1 : Otel.ended span1 = false).
    { subst span1.
      match goal with
      | |- context [Otel.setAttributes sp ?kvs] =>
          destruct (OtelFacts.setAttributes_frame kvs sp) as (_ & _ & _ & _ & He)
      end. congruence. }
    set (s1 := Otel.setAttributes span1 _).
    assert (Hopen_s1 : Otel.ended s1 = false).
    { subst s1.
      match goal with
      | |- context [Otel.setAttributes span1 ?kvs] =>
          destruct (OtelFacts.setAttributes_frame kvs span1) as (_ & _ & _ & _ & He)
      end. congruence. }
    assert (Hs1 : lookup (Otel.attributes s1) "ai.tokens.input" = Some (VNum i)
                  /\ lookup (Otel.attributes s1) "ai.tokens.output" = Some (VNum o)
                  /\ lookup (Otel.attributes s1) "ai.cache.read" = Some (VNum cr)
                  /\ lookup (Otel.attributes s1) "ai.cache.write" = Some (VNum cw)
                  /\ lookup (Otel.attributes s1) "ai.cost.usd" = Some (VNum cost)).
    { subst s1. rewrite !(CostFacts.setAttributes_lookup _ span1 _ Hopen1)
        by CostFacts.distinct_keys.
      simpl lookup. fold ed. rewrite Hin, Hi0, Hout, Hcr, Hcw, Hcost.
      rewrite Ei, Eo', Ecr', Ecw', Ecost. repeat split. }
    set (s2 := if truthy (prop ed "promptText") then _ else s1).
    assert (H2 : Otel.ended s2 = false
                 /\ forall k, String.eqb "ai.prompt" k = false ->
                              lookup (Otel.attributes s2) k
                              = lookup (Otel.attributes s1) k).
    { subst s2. destruct (truthy (prop ed "promptText")); [|split; auto]. split.
      - match goal with
        | |- context [Otel.setAttributes s1 ?kvs] =>
            destruct (OtelFacts.setAttributes_frame kvs s1) as (_ & _ & _ & _ & He)
        end. congruence.
      - intros k Hk. apply OtelFacts.setAttributes_lookup_other.
        cbv [forallb fst]. rewrite Hk. reflexivity. }
    destruct H2 as [Hopen2 Hsame2].
    set (s3 := if truthy (prop ed "responseText") then _ else s2).
    assert (H3 : Otel.ended s3 = false
                 /\ forall k, String.eqb "ai.response" k = false ->
                              lookup (Otel.attributes s3) k
                              = lookup (Otel.attributes s2) k).
    { subst s3. destruct (truthy (prop ed "responseText")); [|split; auto]. split.
      - match goal with
        | |- context [Otel.setAttributes s2 ?kvs] =>
            destruct (OtelFacts.setAttributes_frame kvs s2) as (_ & _ & _ & _ & He)
        end. congruence.
      - intros k Hk. apply OtelFacts.setAttributes_lookup_other.
        cbv [forallb fst]. rewrite Hk. reflexivity. }
    destruct H3 as [Hopen3 Hsame3]. clearbody s3 s2 s1.
    unfold Otel.end_span, Otel.setStatus. rewrite Hopen3.
    cbn [Otel.ended]. cbv iota.
    destruct Hs1 as (A1 & A2 & A3 & A4 & A5).
    eexists; eexists. exists i, o, cr, cw, cost, c.
    split; [reflexivity|]. cbn [Otel.attributes Otel.mark_ended].
    rewrite !Hsame3, !Hsame2 by reflexivity.
    repeat (split; [assumption|]).
    assert (HT : (c == token_cost rates i o cr cw)%Q).
    { rewrite Hc. unfold token_cost. subst rates. fold model.
      rewrite Hi', Ho', Hcr', Hcw'. reflexivity. }
    split; [exact HT|]. split; [exact Hcost'|].
    rewrite Hcost', <- HT. apply CostFacts.round6_close.
  - intros model estimated. unfold calculateModelCost. cbv zeta.
    destruct (CostFacts.pricing_for_cases model) as [-> | [-> | ->]];
      eexists; (split; [cbv; reflexivity | cbv; reflexivity]).
Qed.

End Cost.

Module CorrelatorFacts.
Import JS Eff Preload CorrelatorSpec.

(** The type of an event that is not an object *)
Lemma eventType_of_non_object (event : value) :
  (forall o, event <> VObj o) ->
  (exists e, get event "eventType" = Throw e) \/ get event "eventType" = Ok VUndef.
Proof.
  intros Hno.
  destruct event; try (left; eexists; reflexivity); try (right; reflexivity).
  now destruct (Hno o).
Qed.

(** What makes a line of the log the request looked for *)
Lemma try_line_match (toolName toolInput : value) (line : string) (id : value) :
  try_line toolName toolInput line = Ok (Some id) <->
  exists o,
    JSON.parse line = Some (VObj o)
    /\ strict_eq (prop_of o "eventType") (VStr "tool_use_request") = true
    /\ strict_eq (prop_of o "toolName") toolName = true
    /\ JSON.same_text (prop_of o "toolInput") toolInput = true
    /\ id = prop_of o "toolUseId".
Proof.
  unfold try_line, bind. split.
  - destruct (JSON.parse line) as [event|]; [|discriminate].
    assert (Hobj : (exists o, event = VObj o) \/ forall o, event <> VObj o).
    { destruct event; try (right; intros o; discriminate). left. now eexists. }
    destruct Hobj as [(o & ->) | Hno].
    2: { destruct (eventType_of_non_object event Hno) as [(e & E) | E];
         rewrite E; cbn; discriminate. }
    simpl get. cbv beta iota.
    fold (prop_of o "eventType") (prop_of o "toolName") (prop_of o "toolInput")
         (prop_of o "toolUseId").
    destruct (strict_eq (prop_of o "eventType") (VStr "tool_use_request")) eqn:E1;
      [|discriminate].
    destruct (strict_eq (prop_of o "toolName") toolName) eqn:E2; [|discriminate].
    destruct (JSON.same_text (prop_of o "toolInput") toolInput) eqn:E3; [|discriminate].
    intros [= <-]. exists o. repeat split; assumption.
  - intros (o & -> & E1 & E2 & E3 & ->). simpl get. cbv beta iota.
    fold (prop_of o "eventType") (prop_of o "toolName") (prop_of o "toolInput")
         (prop_of o "toolUseId").
    rewrite E1, E2, E3. reflexivity.
Qed.

Section Search.

Variables toolName toolInput : value.

(** The search returns the identifier of the last line that matches. *)
Lemma search_back_last_match (older newer : list string) (line : string) (id : value) :
  try_line toolName toolInput line = Ok (Some id) ->
  (forall l, In l newer -> ~ is_match toolName toolInput l) ->
  search_back toolName toolInput (rev (older ++ line :: newer)) = id.
Proof.
  intros Hline Hnewer.
  rewrite rev_app_distr. simpl rev. rewrite <- app_assoc. simpl app.
  assert (Hrev : forall l, In l (rev newer) -> ~ is_match toolName toolInput l).
  { intros l Hl. apply Hnewer. now apply in_rev. }
  clear Hnewer. induction (rev newer) as [|l ls IH]; simpl.
  - now rewrite Hline.
  - destruct (try_line toolName toolInput l) as [[id'|]|e] eqn:El.
    + exfalso. apply (Hrev l); [now left | now exists id'].
    + apply IH. intros l' Hl'. apply Hrev. now right.
    + apply IH. intros l' Hl'. apply Hrev. now right.
Qed.

Lemma search_back_no_match (lines : list string) :
  (forall l, In l lines -> ~ is_match toolName toolInput l) ->
  search_back toolName toolInput lines = VNull.
Proof.
  induction lines as [|l ls IH]; simpl; intros H; [reflexivity|].
  destruct (try_line toolName toolInput l) as [[id'|]|e] eqn:El.
  - exfalso. apply (H l); [now left | now exists id'].
  - apply IH. intros l' Hl'. apply H. now right.
  - apply IH. intros l' Hl'. apply H. now right.
Qed.

End Search.

(** The span of a tool execution: it is exported whenever the tracer is
    initialised, it starts a trace of its own, and it carries [tool.use_id]
    exactly when an identifier was found that is an attribute value. *)
Lemma createToolExecutionSpan_spec (e : ToolExecutionEvent) (w : World) :
  Otel.tracerInstance (otel w) = true ->
  exists sp w',
    createToolExecutionSpan e w = (Ok (Some sp), w')
    /\ Otel.exported (otel w') = (Otel.exported (otel w) ++ [sp])%list
    /\ lookup (Otel.attributes sp) "tool.use_id"
       = if truthy (te_toolUseId e) && Otel.isAttributeValue (te_toolUseId e)
         then Some (te_toolUseId e) else None.
Proof.
  intros Hinit.
  unfold createToolExecutionSpan, try_catch, on_otel, zoom, mbind,
    Otel.startEnhancedToolSpan, Otel.getTracer, mbind.
  rewrite Hinit.
  match goal with
  | |- context [Otel.sdk_startSpan ?n ?k ?a ?c (otel w)] =>
      destruct (OtelFacts.sdk_startSpan_spec n k a c (otel w))
        as (sp & st' & E & He & Hs & Hid & Hp & Hr & Ht & Hx & Hrand);
      pose proof (OtelFacts.sdk_startSpan_attributes n k a c (otel w) st' sp
                    "tool.use_id" E) as Hattr
  end.
  rewrite E.
  assert (Hnone : lookup (Otel.attributes sp) "tool.use_id" = None).
  { apply Hattr. destruct (truthy (te_toolInput e)); reflexivity. }
  clear Hattr.
  set (span1 := Otel.setAttributes sp _).
  assert (H1 : Otel.ended span1 = false
               /\ lookup (Otel.attributes span1) "tool.use_id" = None).
  { subst span1. split.
    - match goal with
      | |- context [Otel.setAttributes sp ?kvs] =>
          destruct (OtelFacts.setAttributes_frame kvs sp) as (_ & _ & _ & _ & He')
      end. congruence.
    - rewrite OtelFacts.setAttributes_lookup_other by reflexivity. exact Hnone. }
  destruct H1 as [Hopen1 Hnone1].
  set (span2 := if truthy (te_toolUseId e) then _ else span1).
  assert (H2 : Otel.ended span2 = false
               /\ lookup (Otel.attributes span2) "tool.use_id"
                  = if truthy (te_toolUseId e) && Otel.isAttributeValue (te_toolUseId e)
                    then Some (te_toolUseId e) else None).
  { subst span2. destruct (truthy (te_toolUseId e)) eqn:Ht'; [|split; assumption].
    split.
    - match goal with
      | |- context [Otel.setAttributes span1 ?kvs] =>
          destruct (OtelFacts.setAttributes_frame kvs span1) as (_ & _ & _ & _ & He')
      end. congruence.
    - unfold Otel.setAttributes. simpl fold_left.
      rewrite OtelFacts.setAttribute_lookup, Hopen1, Hnone1.
      assert (Hnn : nullish (te_toolUseId e) = false)
        by (apply JSFacts.truthy_not_nullish; exact Ht').
      rewrite Hnn. simpl.
      destruct (Otel.isAttributeValue (te_toolUseId e)); reflexivity. }
  destruct H2 as [Hopen2 Hid2].
  set (span3 := match te_error e with Some _ => _ | None => _ end).
  assert (H3 : Otel.ended span3 = false
               /\ Otel.attributes span3 = Otel.attributes span2).
  { subst span3. unfold Otel.setStatus, Otel.recordException.
    destruct (te_error e) as [m|]; [destruct (Str.is_empty m)|];
      rewrite ?Hopen2; simpl; rewrite ?Hopen2; simpl; auto. }
  destruct H3 as [Hopen3 Hattrs3].
  unfold Otel.end_span. rewrite Hopen3. unfold ret.
  eexists; eexists. split; [reflexivity|]. simpl. split; [congruence|].
  rewrite Hattrs3. exact Hid2.
Qed.

End CorrelatorFacts.


Module OrchestratorFacts.
Import JS Eff Orchestrator OrchestratorSpec.

Lemma startHookExecutionSpan_total (command : string) (parent : Otel.Span)
      (st : Otel.State) :
  Otel.tracerInstance st = true ->
  exists sp st',
    Otel.startHookExecutionSpan command parent false st = (Ok sp, st')
    /\ Otel.tracerInstance st' = true
    /\ Otel.ended sp = false.
Proof.
  intros Hinit. unfold Otel.startHookExecutionSpan, Otel.getTracer, mbind.
  rewrite Hinit.
  match goal with
  | |- context [Otel.sdk_startSpan ?n ?k ?a ?c st] =>
      destruct (OtelFacts.sdk_startSpan_spec n k a c st)
        as (sp & st' & E & He & Hs & Hid & Hp & Hr & Ht & Hx & Hrand)
  end.
  exists sp, st'. rewrite E. repeat split; congruence.
Qed.

Lemma end_span_keeps_tracer (sp : Otel.Span) (st : Otel.State) :
  exists sp',
    Otel.end_span sp st = (Ok sp', snd (Otel.end_span sp st))
    /\ Otel.tracerInstance (snd (Otel.end_span sp st)) = Otel.tracerInstance st.
Proof.
  unfold Otel.end_span. destruct (Otel.ended sp); eexists; split; reflexivity.
Qed.

(** One command of the loop *)
Lemma run_hook_spec (pf : Platform) (event : value) (span : Otel.Span)
      (hookCmd : string) (outs : list HookOutput) (p : Proc) :
  Otel.tracerInstance (tracer p) = true ->
  exists p',
    run_hook pf event span hookCmd outs p
    = (Ok (Go (outs ++ hook_outputs pf (JSON.stringify_text event) (executed p)
                         [hookCmd])%list), p')
    /\ executed p'
       = (executed p ++ filter (fun c => negb (Str.includes c "orchestrator"))
                          [hookCmd])%list
    /\ Otel.tracerInstance (tracer p') = true
    /\ stdout p' = stdout p
    /\ stderr p' = stderr p.
Proof.
  intros Hinit. unfold run_hook. simpl hook_outputs. simpl filter.
  destruct (Str.includes hookCmd "orchestrator"); simpl negb; cbv iota.
  { exists p. rewrite !app_nil_r. repeat split; auto. }
  unfold mbind at 1. unfold try_catch, mbind at 1, on_tracer, zoom.
  destruct (startHookExecutionSpan_total hookCmd span (tracer p) Hinit)
    as (sp & st' & E & Hinit' & Hopen).
  rewrite E.
  cbv beta iota delta [ret mbind execSync get_state modify on_tracer zoom].
  cbn [tracer stdout stderr executed].
  destruct (run pf (executed p) hookCmd (JSON.stringify_text event)) as [out|status msg];
    cbv beta iota; cbn [tracer stdout stderr executed];
    match goal with
    | |- context [Otel.end_span ?s st'] =>
        destruct (end_span_keeps_tracer s st') as (sp' & E' & Hk); rewrite E'
    end;
    cbv beta iota; eexists; (split; [rewrite ?app_nil_r; reflexivity|]);
    cbn [tracer stdout stderr executed]; repeat split; congruence.
Qed.

Lemma hook_outputs_cons (pf : Platform) (input : string) (history : list string)
      (c : string) (rest : list string) :
  hook_outputs pf input history (c :: rest)
  = (hook_outputs pf input history [c]
     ++ hook_outputs pf input
          (history ++ filter (fun c => negb (Str.includes c "orchestrator")) [c])
          rest)%list.
Proof.
  simpl. destruct (Str.includes c "orchestrator"); simpl.
  - now rewrite app_nil_r.
  - destruct (run pf history c input); reflexivity.
Qed.

(** The loop runs every command, whatever the commands print. *)
Lemma run_hooks_spec (pf : Platform) (event : value) (span : Otel.Span)
      (allHooks : list string) :
  forall (outs : list HookOutput) (p : Proc),
    Otel.tracerInstance (tracer p) = true ->
    exists p',
      run_hooks pf event span allHooks outs p
      = (Ok (Go (outs ++ hook_outputs pf (JSON.stringify_text event) (executed p)
                           allHooks)%list), p')
      /\ executed p'
         = (executed p ++ filter (fun c => negb (Str.includes c "orchestrator"))
                            allHooks)%list
      /\ Otel.tracerInstance (tracer p') = true
      /\ stdout p' = stdout p
      /\ stderr p' = stderr p.
Proof.
  induction allHooks as [|c rest IH]; intros outs p Hinit.
  - exists p. simpl. rewrite !app_nil_r. repeat split; auto.
  - simpl run_hooks. unfold mbind.
    destruct (run_hook_spec pf event span c outs p Hinit)
      as (p1 & E1 & Hx1 & Hi1 & Ho1 & He1).
    rewrite E1.
    destruct (IH (outs ++ hook_outputs pf (JSON.stringify_text event) (executed p) [c])%list
                 p1 Hi1) as (p2 & E2 & Hx2 & Hi2 & Ho2 & He2).
    rewrite E2. exists p2. split.
    + rewrite (hook_outputs_cons pf _ (executed p) c rest), <- Hx1, app_assoc.
      reflexivity.
    + rewrite Hx2, Hx1. simpl filter.
      destruct (negb (Str.includes c "orchestrator")); simpl;
        rewrite <- ?app_assoc; simpl; repeat split; congruence.
Qed.

(** The first output that blocks decides the line that is printed. *)
Lemma merge_first_blocking (before : list (option value)) (json : value)
      (after : list (option value)) :
  forall finalResponse,
    (forall x, In x before -> blocking x = false) ->
    blocking (Some json) = true ->
    merge (before ++ Some json :: after) finalResponse = JSON.stringify_text json.
Proof.
  induction before as [|x before IH]; intros fr Hbefore Hblock; simpl.
  - simpl in Hblock. apply andb_true_iff in Hblock as [Ht Hc]. now rewrite Ht, Hc.
  - assert (Hx : blocking x = false) by (apply Hbefore; now left).
    assert (Hrest : forall y, In y before -> blocking y = false)
      by (intros y Hy; apply Hbefore; now right).
    destruct x as [j|]; [|now apply IH].
    simpl in Hx. destruct (truthy j); [|now apply IH].
    simpl in Hx. rewrite Hx. now apply IH.
Qed.

(** The tracer of a new orchestrator process *)
Lemma getOtelTracer_spec (pf : Platform) (p : Proc) :
  tracer_loads pf = true ->
  Otel.tracerInstance (tracer p) = false ->
  Otel.dir_ok (tracer p) (logs_dir pf) = true ->
  exists p' root,
    getOtelTracer pf p = (Ok (Go tt), p')
    /\ Otel.tracerInstance (tracer p') = true
    /\ Otel.rootSpan (tracer p') = Some root
    /\ stdout p' = stdout p /\ stderr p' = stderr p /\ executed p' = executed p.
Proof.
  intros Hload Hfresh Hdir. unfold getOtelTracer. rewrite Hload. simpl negb. cbv iota.
  cbv beta iota delta [negb try_catch mbind on_tracer zoom Otel.getTracer ret].
  rewrite Hfresh. cbn [tracer].
  match goal with
  | |- context [Otel.initializeTracer ?c (tracer p)] =>
      destruct (OtelFacts.initializeTracer_spec c (tracer p) Hdir)
        as (root & st' & E & Hroot & Hinit & _)
  end.
  rewrite E. eexists; exists root. split; [reflexivity|]. simpl. auto.
Qed.

(** The span of the event *)
Lemma start_event_span_spec (pf : Platform) (o : props) (p : Proc) (root : Otel.Span) :
  Otel.tracerInstance (tracer p) = true ->
  Otel.rootSpan (tracer p) = Some root ->
  prompt_ok (VObj o) ->
  exists span p',
    start_event_span pf (VObj o) p = (Ok (Go span), p')
    /\ Otel.tracerInstance (tracer p') = true
    /\ stdout p' = stdout p /\ stderr p' = stderr p /\ executed p' = executed p.
Proof.
  intros Hinit Hroot Hprompt.
  unfold start_event_span, try_catch, mbind, of_result. simpl get.
  unfold on_tracer, zoom, Otel.startHookEventSpan.
  match goal with
  | |- context [Otel.startSpan ?n ?k ?a (tracer p)] =>
      destruct (OtelFacts.startSpan_child_of_root (tracer p) root Hinit Hroot n k a)
        as (sp & st' & E & _ & _ & _ & _ & _ & Hinit' & _)
  end.
  rewrite E. unfold prompt_ok in Hprompt.
  assert (Hcases : (exists t, get_opt (VObj o) "prompt" = VStr t)
                   \/ truthy (get_opt (VObj o) "prompt") = false).
  { destruct (get_opt (VObj o) "prompt"); eauto. }
  destruct Hcases as [(t & Et) | Hfalse].
  - rewrite Et. destruct (truthy (VStr t)); unfold ret;
      eexists; eexists; (split; [reflexivity|]); simpl; auto.
  - rewrite Hfalse. unfold ret.
    eexists; eexists; (split; [reflexivity|]); simpl; auto.
Qed.

End OrchestratorFacts.

Module OrchestratorOutcome.
Import JS Eff Orchestrator OrchestratorSpec HookSpec.

(** [[...new Set(hooks)]] keeps the members and drops the repetitions *)
Lemma dedupe_In (hooks : list string) :
  forall seen c,
    In c (dedupe seen hooks) <-> In c hooks /\ existsb (String.eqb c) seen = false.
Proof.
  induction hooks as [|h rest IH]; intros seen c; simpl; [tauto|].
  destruct (existsb (String.eqb h) seen) eqn:Eh.
  - rewrite IH. split; [tauto|]. intros [[<-|Hin] Hc]; [|tauto]. congruence.
  - simpl. rewrite IH. simpl. destruct (String.eqb c h) eqn:Ech.
    + apply String.eqb_eq in Ech. subst c. simpl. split; [|tauto].
      intros [_|[_ H]]; [|discriminate H]. tauto.
    + simpl. split.
      * intros [->|[Hin Hc]]; [|tauto]. rewrite String.eqb_refl in Ech. discriminate.
      * intros [[->|Hin] Hc]; [|tauto].
        rewrite String.eqb_refl in Ech. discriminate.
Qed.

Lemma dedupe_NoDup (hooks : list string) :
  forall seen, NoDup (dedupe seen hooks).
Proof.
  induction hooks as [|h rest IH]; intros seen; simpl; [constructor|].
  destruct (existsb (String.eqb h) seen); [apply IH|].
  constructor; [|apply IH].
  rewrite dedupe_In. simpl. rewrite String.eqb_refl. simpl. intros [_ H]. discriminate H.
Qed.

Lemma filter_NoDup {A} (f : A -> bool) (l : list A) : NoDup l -> NoDup (filter f l).
Proof.
  induction 1 as [|x l Hx Hl IH]; simpl; [constructor|].
  destruct (f x); [|exact IH]. constructor; [|exact IH].
  rewrite filter_In. tauto.
Qed.

(** The fields that the merge writes leave [continue] alone *)
Lemma merge_fields_continue (fr : props) (json : value) :
  lookup (merge_fields fr json) "continue" = lookup fr "continue".
Proof.
  unfold merge_fields.
  repeat match goal with
         | |- context [if ?b then _ else _] => destruct b
         end;
    rewrite ?JSFacts.lookup_obj_set_other by reflexivity; reflexivity.
Qed.

(** Without an output that blocks, the line printed is the merged
    response, in which [continue] is as it was at the start. *)
Lemma merge_non_blocking (outs : list (option value)) :
  forall fr,
    (forall x, In x outs -> blocking x = false) ->
    exists fr', merge outs fr = JSON.stringify_text (VObj fr')
                /\ lookup fr' "continue" = lookup fr "continue".
Proof.
  induction outs as [|x outs IH]; intros fr Hnone; simpl.
  - exists fr. split; reflexivity.
  - assert (Hrest : forall y, In y outs -> blocking y = false)
      by (intros y Hy; apply Hnone; now right).
    assert (Hx : blocking x = false) by (apply Hnone; now left).
    destruct x as [json|]; [|now apply IH].
    simpl in Hx. destruct (truthy json); [|now apply IH].
    simpl in Hx. rewrite Hx.
    destruct (IH (merge_fields fr json) Hrest) as (fr' & E & Hc).
    exists fr'. split; [exact E|]. rewrite Hc. apply merge_fields_continue.
Qed.

(** Outputs that are not JSON leave the response as it is *)
Lemma merge_no_json (outs : list (option value)) (fr : props) :
  (forall x, In x outs -> x = None) ->
  merge outs fr = JSON.stringify_text (VObj fr).
Proof.
  induction outs as [|x outs IH]; intros Hnone; simpl; [reflexivity|].
  rewrite (Hnone x) by now left. apply IH. intros y Hy. apply Hnone. now right.
Qed.

(** A run of the orchestrator that reaches the merge *)
Lemma main_outcome (pf : Platform) (input : string) (o : props) (hooks : list string)
      (p : Proc) :
  JSON.parse input = Some (VObj o) ->
  truthy (env_RUN_ID pf) = true ->
  tracer_loads pf = true ->
  Otel.tracerInstance (tracer p) = false ->
  Otel.dir_ok (tracer p) (logs_dir pf) = true ->
  prompt_ok (VObj o) ->
  discovery pf = Found hooks ->
  exists p',
    main pf input p = (Ok (Go tt), p')
    /\ executed p' = (executed p ++ user_hooks hooks)%list
    /\ stdout p'
       = (stdout p
          ++ [merge (map parsed_json
                       (hook_outputs pf (JSON.stringify_text (VObj o)) (executed p)
                          (dedupe [] hooks)))
                [("continue", VBool true)]])%list
    /\ stderr p' = stderr p.
Proof.
  intros Hparse Hrun Hload Hfresh Hdir Hprompt Hfound.
  destruct (OrchestratorFacts.getOtelTracer_spec pf p Hload Hfresh Hdir)
    as (p1 & root & E1 & Hi1 & Hr1 & Ho1 & He1 & Hx1).
  destruct (OrchestratorFacts.start_event_span_spec pf o p1 root Hi1 Hr1 Hprompt)
    as (span & p2 & E2 & Hi2 & Ho2 & He2 & Hx2).
  destruct (OrchestratorFacts.run_hooks_spec pf (VObj o) span (dedupe [] hooks) [] p2 Hi2)
    as (p3 & E3 & Hx3 & Hi3 & Ho3 & He3).
  simpl app in E3.
  set (closed := Otel.setStatus span (Otel.status_of_code 0) VUndef).
  destruct (OrchestratorFacts.end_span_keeps_tracer closed (tracer p3)) as (sp4 & E4 & _).
  set (t4 := snd (Otel.end_span closed (tracer p3))) in *.
  set (p4 := mkProc t4 (stdout p3) (stderr p3) (executed p3)).
  assert (Hexec : executed p2 = executed p) by congruence.
  rewrite Hexec in E3, Hx3.
  eexists. split; [|split; [|split]].
  - unfold main. rewrite Hparse, Hrun. simpl negb. cbv iota.
    apply EffFacts.try_catch_ok.
    rewrite (EffFacts.mbind_ok _ _ p p (VObj o)) by reflexivity.
    rewrite (EffFacts.mbind_ok _ _ _ _ _ E1).
    rewrite (EffFacts.mbind_ok _ _ _ _ _ E2).
    rewrite Hfound. cbv zeta.
    rewrite (EffFacts.mbind_ok _ _ _ _ _ E3).
    rewrite (EffFacts.mbind_ok _ _ p3 p4 sp4).
    + reflexivity.
    + exact (EffFacts.zoom_run tracer
               (fun p t => mkProc t (stdout p) (stderr p) (executed p))
               (Otel.end_span closed) p3 (Ok sp4) t4 E4).
  - simpl. rewrite Hx3. reflexivity.
  - simpl. congruence.
  - simpl. congruence.
Qed.

End OrchestratorOutcome.

Module MergeFacts.
Import JS Eff Orchestrator OrchestratorSpec.

Lemma prop_of_obj_set (o : props) (k k' : string) (v : value) :
  prop_of (obj_set o k v) k' = if String.eqb k k' then v else prop_of o k'.
Proof.
  unfold prop_of. rewrite JSFacts.lookup_obj_set.
  destruct (String.eqb k k'); reflexivity.
Qed.

(** What one output does to each field of the response *)
Lemma merge_fields_stopReason (fr : props) (json : value) :
  prop_of (merge_fields fr json) "stopReason"
  = if truthy (get_opt json "stopReason") && negb (truthy (prop_of fr "stopReason"))
    then get_opt json "stopReason" else prop_of fr "stopReason".
Proof.
  unfold merge_fields.
  repeat match goal with
         | |- context [if ?b then _ else _] => destruct b
         end;
    rewrite ?prop_of_obj_set; reflexivity.
Qed.

Lemma merge_fields_r1_decision (fr : props) (json : value) (b : bool) :
  prop_of (if b then obj_set fr "stopReason" (get_opt json "stopReason") else fr)
    "decision"
  = prop_of fr "decision".
Proof. destruct b; rewrite ?prop_of_obj_set; reflexivity. Qed.

Lemma merge_fields_decision (fr : props) (json : value) :
  prop_of (merge_fields fr json) "decision"
  = if truthy (get_opt json "decision") && negb (truthy (prop_of fr "decision"))
    then get_opt json "decision" else prop_of fr "decision".
Proof.
  unfold merge_fields. cbv zeta. rewrite merge_fields_r1_decision.
  repeat match goal with
         | |- context [if ?b then _ else _] => destruct b
         end;
    rewrite ?prop_of_obj_set; reflexivity.
Qed.

Lemma merge_fields_reason (fr : props) (json : value) :
  prop_of (merge_fields fr json) "reason"
  = if truthy (get_opt json "decision") && negb (truthy (prop_of fr "decision"))
    then get_opt json "reason" else prop_of fr "reason".
Proof.
  unfold merge_fields. cbv zeta. rewrite merge_fields_r1_decision.
  repeat match goal with
         | |- context [if ?b then _ else _] => destruct b
         end;
    rewrite ?prop_of_obj_set; reflexivity.
Qed.

Lemma merge_fields_r2_suppressOutput (fr : props) (json : value) (b1 b2 : bool) :
  prop_of
    (let r1 := if b1 then obj_set fr "stopReason" (get_opt json "stopReason") else fr in
     if b2 then obj_set (obj_set r1 "decision" (get_opt json "decision"))
                  "reason" (get_opt json "reason")
     else r1)
    "suppressOutput"
  = prop_of fr "suppressOutput".
Proof. destruct b1, b2; cbv zeta; rewrite ?prop_of_obj_set; reflexivity. Qed.

Lemma merge_fields_suppressOutput (fr : props) (json : value) :
  prop_of (merge_fields fr json) "suppressOutput"
  = if defined (get_opt json "suppressOutput")
       && strict_eq (prop_of fr "suppressOutput") VUndef
    then get_opt json "suppressOutput" else prop_of fr "suppressOutput".
Proof.
  unfold merge_fields, defined.
  match goal with
  | |- context [strict_eq (prop_of ?r2 "suppressOutput") VUndef] =>
      replace (prop_of r2 "suppressOutput") with (prop_of fr "suppressOutput")
        by (symmetry; apply merge_fields_r2_suppressOutput)
  end.
  destruct (negb (strict_eq (get_opt json "suppressOutput") VUndef)
            && strict_eq (prop_of fr "suppressOutput") VUndef).
  - rewrite prop_of_obj_set. reflexivity.
  - apply merge_fields_r2_suppressOutput.
Qed.

(** The fields that the merge writes are four. *)
Lemma merge_fields_other (fr : props) (json : value) (k : string) :
  ~ In k ["stopReason"; "decision"; "reason"; "suppressOutput"] ->
  lookup (merge_fields fr json) k = lookup fr k.
Proof.
  intros Hk.
  assert (H1 : String.eqb "stopReason" k = false)
    by (apply String.eqb_neq; intros <-; apply Hk; simpl; auto).
  assert (H2 : String.eqb "decision" k = false)
    by (apply String.eqb_neq; intros <-; apply Hk; simpl; auto).
  assert (H3 : String.eqb "reason" k = false)
    by (apply String.eqb_neq; intros <-; apply Hk; simpl; auto).
  assert (H4 : String.eqb "suppressOutput" k = false)
    by (apply String.eqb_neq; intros <-; apply Hk; simpl; auto).
  unfold merge_fields.
  repeat match goal with
         | |- context [if ?b then _ else _] => destruct b
         end;
    rewrite ?JSFacts.lookup_obj_set, ?H1, ?H2, ?H3, ?H4; reflexivity.
Qed.

Section FirstWins.

(** A field [f] of the response that a step writes from [cand], when the
    step finds [ok] in the guarding candidate and the guarding field [g]
    still [free] *)
Variables (f g : props -> value) (cand candg : value -> value).
Variables (ok free : value -> bool).
Variable step : props -> value -> props.

Hypothesis step_g :
  forall fr json,
    g (step fr json) = if ok (candg json) && free (g fr) then candg json else g fr.
Hypothesis step_f :
  forall fr json,
    f (step fr json) = if ok (candg json) && free (g fr) then cand json else f fr.
Hypothesis taken : forall v, ok v = true -> free v = false.

Lemma fold_taken (jsons : list value) :
  forall fr, free (g fr) = false -> f (fold_left step jsons fr) = f fr.
Proof.
  induction jsons as [|json rest IH]; intros fr Hfr; simpl; [reflexivity|].
  rewrite IH.
  - rewrite step_f, Hfr, andb_false_r. reflexivity.
  - rewrite step_g, Hfr, andb_false_r. exact Hfr.
Qed.

Lemma fold_first (jsons : list value) :
  forall fr,
    free (g fr) = true ->
    f (fold_left step jsons fr)
    = match find (fun json => ok (candg json)) jsons with
      | Some json => cand json
      | None => f fr
      end.
Proof.
  induction jsons as [|json rest IH]; intros fr Hfr; simpl; [reflexivity|].
  destruct (ok (candg json)) eqn:Hok.
  - rewrite fold_taken.
    + rewrite step_f, Hok, Hfr. reflexivity.
    + rewrite step_g, Hok, Hfr. simpl. apply taken. exact Hok.
  - rewrite IH.
    + rewrite step_f, Hok. reflexivity.
    + rewrite step_g, Hok. exact Hfr.
Qed.

End FirstWins.

Lemma fold_other (jsons : list value) (k : string) :
  ~ In k ["stopReason"; "decision"; "reason"; "suppressOutput"] ->
  forall fr, lookup (fold_left merge_fields jsons fr) k = lookup fr k.
Proof.
  intros Hk. induction jsons as [|json rest IH]; intros fr; simpl; [reflexivity|].
  rewrite IH. apply merge_fields_other. exact Hk.
Qed.

(** Without an output that blocks, the line printed is the response that
    the truthy JSON outputs were merged into, one after the other. *)
Lemma merge_is_fold (outs : list (option value)) :
  forall fr,
    (forall x, In x outs -> blocking x = false) ->
    merge outs fr
    = JSON.stringify_text (VObj (fold_left merge_fields (merged outs) fr)).
Proof.
  induction outs as [|x outs IH]; intros fr Hnone; [reflexivity|].
  assert (Hrest : forall y, In y outs -> blocking y = false)
    by (intros y Hy; apply Hnone; now right).
  assert (Hx : blocking x = false) by (apply Hnone; now left).
  destruct x as [json|]; [|exact (IH fr Hrest)].
  unfold merged. cbn [merge flat_map]. fold (merged outs).
  simpl in Hx. destruct (truthy json); [|exact (IH fr Hrest)].
  simpl in Hx. rewrite Hx. cbn [app fold_left]. exact (IH _ Hrest).
Qed.

(** The merged response is the first-wins response. *)
Lemma merge_first_wins (outs : list (option value)) :
  (forall x, In x outs -> blocking x = false) ->
  exists response,
    merge outs [("continue", VBool true)] = JSON.stringify_text (VObj response)
    /\ first_wins outs response.
Proof.
  intros Hnone. set (fr := [("continue", VBool true)]).
  exists (fold_left merge_fields (merged outs) fr).
  split; [exact (merge_is_fold outs fr Hnone)|].
  unfold first_wins, first_where.
  split; [|split; [|split; [|split; [|split]]]].
  - unfold prop_of. rewrite fold_other; [reflexivity|].
    simpl. intros [H|[H|[H|[H|[]]]]]; discriminate H.
  - apply (fold_first (fun r => prop_of r "stopReason") (fun r => prop_of r "stopReason")
             (fun j => get_opt j "stopReason") (fun j => get_opt j "stopReason")
             truthy (fun v => negb (truthy v)) merge_fields).
    + apply merge_fields_stopReason.
    + apply merge_fields_stopReason.
    + intros v Hv. rewrite Hv. reflexivity.
    + reflexivity.
  - apply (fold_first (fun r => prop_of r "decision") (fun r => prop_of r "decision")
             (fun j => get_opt j "decision") (fun j => get_opt j "decision")
             truthy (fun v => negb (truthy v)) merge_fields).
    + apply merge_fields_decision.
    + apply merge_fields_decision.
    + intros v Hv. rewrite Hv. reflexivity.
    + reflexivity.
  - apply (fold_first (fun r => prop_of r "reason") (fun r => prop_of r "decision")
             (fun j => get_opt j "reason") (fun j => get_opt j "decision")
             truthy (fun v => negb (truthy v)) merge_fields).
    + apply merge_fields_decision.
    + apply merge_fields_reason.
    + intros v Hv. rewrite Hv. reflexivity.
    + reflexivity.
  - apply (fold_first (fun r => prop_of r "suppressOutput")
             (fun r => prop_of r "suppressOutput")
             (fun j => get_opt j "suppressOutput") (fun j => get_opt j "suppressOutput")
             defined (fun v => strict_eq v VUndef) merge_fields).
    + apply merge_fields_suppressOutput.
    + apply merge_fields_suppressOutput.
    + unfold defined. intros v Hv. apply negb_true_iff. exact Hv.
    + reflexivity.
  - intros k Hk. rewrite fold_other.
    + change (lookup fr k)
        with (if String.eqb "continue" k then Some (VBool true) else None).
      destruct (String.eqb "continue" k) eqn:E; [|reflexivity].
      apply String.eqb_eq in E. subst k. exfalso. apply Hk. simpl. auto.
    + intros Hin. apply Hk. simpl in *. tauto.
Qed.

(** The commands run are met in [hooks] in the order in which they are
    run. *)
Lemma dedupe_order (hooks : list string) :
  forall seen r1 c r2 d,
    dedupe seen hooks = (r1 ++ c :: r2)%list ->
    In d r2 ->
    first_before hooks c d.
Proof.
  induction hooks as [|h rest IH]; intros seen r1 c r2 d Hsplit Hd; simpl in Hsplit.
  - destruct r1; discriminate Hsplit.
  - destruct (existsb (String.eqb h) seen) eqn:Hseen.
    + destruct (IH seen r1 c r2 d Hsplit Hd) as (h1 & h2 & -> & Hnot).
      exists (h :: h1), h2. split; [reflexivity|].
      intros [<-|Hin]; [|exact (Hnot Hin)].
      assert (Hin : In h (dedupe seen (h1 ++ c :: h2)))
        by (rewrite Hsplit; apply in_or_app; right; right; exact Hd).
      apply OrchestratorOutcome.dedupe_In in Hin. destruct Hin as [_ Hin]. congruence.
    + destruct r1 as [|x r1].
      * injection Hsplit as <- _. exists [], rest. split; [reflexivity|]. intros [].
      * injection Hsplit as <- Hsplit.
        destruct (IH (h :: seen) r1 c r2 d Hsplit Hd) as (h1 & h2 & -> & Hnot).
        exists (h :: h1), h2. split; [reflexivity|].
        intros [<-|Hin]; [|exact (Hnot Hin)].
        assert (Hin : In h (dedupe (h :: seen) (h1 ++ c :: h2)))
          by (rewrite Hsplit; apply in_or_app; right; right; exact Hd).
        apply OrchestratorOutcome.dedupe_In in Hin. destruct Hin as [_ Hin].
        simpl in Hin. rewrite String.eqb_refl in Hin. discriminate Hin.
Qed.

Lemma filter_split {A} (keep : A -> bool) (l : list A) :
  forall r1 c r2,
    filter keep l = (r1 ++ c :: r2)%list ->
    exists l1 l2, l = (l1 ++ c :: l2)%list /\ r2 = filter keep l2.
Proof.
  induction l as [|x l IH]; intros r1 c r2 H; simpl in H.
  - destruct r1; discriminate H.
  - destruct (keep x) eqn:Hx.
    + destruct r1 as [|y r1].
      * injection H as <- <-. exists [], l. split; reflexivity.
      * injection H as <- H. destruct (IH r1 c r2 H) as (l1 & l2 & -> & ->).
        exists (x :: l1), l2. split; reflexivity.
    + destruct (IH r1 c r2 H) as (l1 & l2 & -> & ->).
      exists (x :: l1), l2. split; reflexivity.
Qed.

Lemma user_hooks_order (hooks : list string) (r1 r2 : list string) (c d : string) :
  user_hooks hooks = (r1 ++ c :: r2)%list ->
  In d r2 ->
  first_before hooks c d.
Proof.
  unfold user_hooks. intros H Hd.
  destruct (filter_split _ _ _ _ _ H) as (l1 & l2 & Hl & ->).
  apply filter_In in Hd. destruct Hd as [Hd _].
  exact (dedupe_order hooks [] l1 c l2 d Hl Hd).
Qed.

(** The outputs kept are those of the commands run. *)
Lemma hook_outputs_user_hooks (pf : Platform) (input : string) (allHooks : list string) :
  forall history,
    hook_outputs pf input history allHooks
    = hook_outputs pf input history
        (filter (fun c => negb (Str.includes c "orchestrator")) allHooks).
Proof.
  induction allHooks as [|c rest IH]; intros history; simpl; [reflexivity|].
  destruct (Str.includes c "orchestrator") eqn:Hc; simpl; [apply IH|].
  rewrite Hc. destruct (run pf history c input); rewrite <- IH; reflexivity.
Qed.

End MergeFacts.

Module OrchestratorRun.
Import JS Eff Orchestrator OrchestratorSpec.

(** C1, as the code has it.  Take a new orchestrator process whose
    standard input is the JSON text of an event object, the prompt of
    which, if there is one, is a text; a run identifier is in its
    environment, the tracer loads and can make its directory, and the
    settings are read and give [hooks].  The process runs the commands
    [user_hooks hooks], whatever they print: these are the discovered
    commands that do not name the orchestrator, each once, in the order
    in which they are first met in [hooks].  Only then does it print one
    line.  When some command exited with status 0 and printed JSON whose
    [continue] is [false], the line is the JSON text of the first such
    output.  Otherwise it is the JSON text of the first-wins response:
    [continue] is true, the stop reason and the decision are the first
    truthy ones of the outputs, the reason is that of the output that
    gave the decision, [suppressOutput] is the first defined one, and
    there is no other field. *)
Theorem orchestrator_runs_every_hook_then_merges
        (pf : Platform) (input : string) (o : props) (hooks : list string) (p : Proc) :
  JSON.parse input = Some (VObj o) ->
  truthy (env_RUN_ID pf) = true ->
  tracer_loads pf = true ->
  Otel.tracerInstance (tracer p) = false ->
  Otel.dir_ok (tracer p) (logs_dir pf) = true ->
  prompt_ok (VObj o) ->
  discovery pf = Found hooks ->
  let ran := user_hooks hooks in
  let outputs :=
    map parsed_json
        (hook_outputs pf (JSON.stringify_text (VObj o)) (executed p) ran) in
  exists p',
    main pf input p = (Ok (Go tt), p')
    /\ executed p' = (executed p ++ ran)%list
    /\ NoDup ran
    /\ (forall c, In c ran <-> In c hooks /\ Str.includes c "orchestrator" = false)
    /\ (forall r1 c r2 d,
          ran = (r1 ++ c :: r2)%list -> In d r2 -> first_before hooks c d)
    /\ (forall before json after,
          outputs = (before ++ Some json :: after)%list ->
          (forall x, In x before -> blocking x = false) ->
          blocking (Some json) = true ->
          stdout p' = (stdout p ++ [JSON.stringify_text json])%list)
    /\ ((forall x, In x outputs -> blocking x = false) ->
        exists response,
          stdout p' = (stdout p ++ [JSON.stringify_text (VObj response)])%list
          /\ first_wins outputs response).
Proof.
  intros Hparse Hrun Hload Hfresh Hdir Hprompt Hfound ran outputs.
  destruct (OrchestratorOutcome.main_outcome pf input o hooks p
              Hparse Hrun Hload Hfresh Hdir Hprompt Hfound)
    as (p' & Hmain & Hexec & Hout & _).
  rewrite (MergeFacts.hook_outputs_user_hooks pf _ (dedupe [] hooks)) in Hout.
  fold (user_hooks hooks) in Hout. fold ran in Hout. fold outputs in Hout.
  exists p'. split; [exact Hmain|]. split; [exact Hexec|].
  split; [|split; [|split; [|split]]].
  - apply OrchestratorOutcome.filter_NoDup, OrchestratorOutcome.dedupe_NoDup.
  - intros c. unfold ran, user_hooks.
    rewrite filter_In, OrchestratorOutcome.dedupe_In, negb_true_iff. simpl. tauto.
  - intros r1 c r2 d Hsplit Hd.
    exact (MergeFacts.user_hooks_order hooks r1 r2 c d Hsplit Hd).
  - intros before json after Hsplit Hbefore Hblock.
    rewrite Hout, Hsplit.
    rewrite (OrchestratorFacts.merge_first_blocking before json after _ Hbefore Hblock).
    reflexivity.
  - intros Hnone.
    destruct (MergeFacts.merge_first_wins outputs Hnone) as (response & E & Hfirst).
    exists response. split; [|exact Hfirst]. rewrite Hout, E. reflexivity.
Qed.

End OrchestratorRun.

Module OrchestratorExamples.
Import JS Eff Orchestrator OrchestratorSpec Examples.

Lemma orchestrator_runs_every_hook_witness :
  exists p',
    main two_hooks stop_event new_orchestrator = (Ok (Go tt), p')
    /\ executed p' = ["hook-one"; "hook-two"]
    /\ stdout p' = [blocking_text].
Proof.
  destruct (OrchestratorRun.orchestrator_runs_every_hook_then_merges
              two_hooks stop_event stop_event_fields ["hook-one"; "hook-two"]
              new_orchestrator)
    as (p' & Hrun & Hexec & _ & _ & _ & Hblock & _);
    [ reflexivity | reflexivity | reflexivity | reflexivity | reflexivity
    | reflexivity | reflexivity | ].
  exists p'. split; [exact Hrun|]. split; [exact Hexec|].
  apply (Hblock []
           (VObj [("continue", VBool false); ("stopReason", VStr "policy")])
           [None]).
  - vm_compute. reflexivity.
  - intros x [].
  - reflexivity.
Defined.

(** C1 as stated fails: the first of two commands prints
    [{"continue":false,"stopReason":"policy"}], the orchestrator prints
    that object and returns, and the second command has been executed all
    the same. *)
Lemma orchestrator_runs_hook_after_blocking_one :
  let r := main two_hooks stop_event new_orchestrator in
  map parsed_json
      (hook_outputs two_hooks stop_event [] ["hook-one"; "hook-two"])
  = [Some (VObj [("continue", VBool false); ("stopReason", VStr "policy")]); None]
  /\ fst r = Ok (Go tt)
  /\ stdout (snd r) = [blocking_text]
  /\ executed (snd r) = ["hook-one"; "hook-two"]
  /\ ~ (forall c, In c (executed (snd r)) -> c = "hook-one").
Proof.
  repeat split; try (vm_compute; reflexivity).
  intros H. specialize (H "hook-two"). 
  assert (E : "hook-two" = "hook-one") by (apply H; vm_compute; auto).
  discriminate E.
Qed.

End OrchestratorExamples.

(* ================================================================== *)
(** * Files: further facts *)
(* ================================================================== *)

Module FsFacts.
Import JS.

Lemma find_store_same (l : list (string * string)) (p c : string) :
  Fs.find (Fs.store l p c) p = Some c.
Proof.
  induction l as [|[p' c'] l IH]; simpl.
  - now rewrite String.eqb_refl.
  - destruct (String.eqb p' p) eqn:E; simpl; rewrite E; auto.
Qed.

Lemma find_store_other (l : list (string * string)) (p q c : string) :
  p <> q -> Fs.find (Fs.store l p c) q = Fs.find l q.
Proof.
  intros Hpq. induction l as [|[p' c'] l IH]; simpl.
  - destruct (String.eqb p q) eqn:E; [|reflexivity].
    apply String.eqb_eq in E. contradiction.
  - destruct (String.eqb p' p) eqn:E; simpl.
    + apply String.eqb_eq in E. subst p'.
      destruct (String.eqb p q) eqn:E'; [|reflexivity].
      apply String.eqb_eq in E'. contradiction.
    + destruct (String.eqb p' q); [reflexivity | exact IH].
Qed.

End FsFacts.

(* ================================================================== *)
(** * The orchestrator: further properties *)
(* ================================================================== *)

Module OrchestratorFrames.
Import JS Eff Orchestrator OrchestratorSpec FrameSpec.

Lemma runs_none_ret {A} (a : A) : keeps_executed (ret a).
Proof. intros p; reflexivity. Qed.

Lemma runs_none_throw {A} (e : string) : keeps_executed (@throw Proc A e).
Proof. intros p; reflexivity. Qed.

Lemma runs_none_of_result {A} (r : result A) : keeps_executed (of_result r).
Proof. intros p; reflexivity. Qed.

Lemma runs_none_bind {A B} (m : Comp Proc A) (k : A -> Comp Proc B) :
  keeps_executed m -> (forall a, keeps_executed (k a)) -> keeps_executed (mbind m k).
Proof.
  intros Hm Hk p. unfold mbind. specialize (Hm p).
  destruct (m p) as [[a|e] p1]; simpl in *.
  - rewrite (Hk a p1). exact Hm.
  - exact Hm.
Qed.

Lemma runs_none_try_catch {A} (m : Comp Proc A) (h : string -> Comp Proc A) :
  keeps_executed m -> (forall e, keeps_executed (h e)) -> keeps_executed (try_catch m h).
Proof.
  intros Hm Hh p. unfold try_catch. specialize (Hm p).
  destruct (m p) as [[a|e] p1]; simpl in *.
  - exact Hm.
  - rewrite (Hh e p1). exact Hm.
Qed.

Lemma runs_none_on_tracer {A} (m : Otel.M A) : keeps_executed (on_tracer m).
Proof. intros p. unfold on_tracer, zoom. destruct (m (tracer p)); reflexivity. Qed.

Lemma runs_none_console_log (line : string) : keeps_executed (console_log line).
Proof. intros p; reflexivity. Qed.

Lemma runs_none_console_error (line : string) : keeps_executed (console_error line).
Proof. intros p; reflexivity. Qed.

Lemma runs_none_fatal {A} (msg : string) : keeps_executed (@fatal A msg).
Proof.
  unfold fatal. apply runs_none_bind; [apply runs_none_console_error|].
  intros _. apply runs_none_ret.
Qed.

Lemma runs_none_getOtelTracer (pf : Platform) : keeps_executed (getOtelTracer pf).
Proof.
  unfold getOtelTracer. destruct (negb (tracer_loads pf)); [apply runs_none_fatal|].
  apply runs_none_try_catch; [|intros e; apply runs_none_fatal].
  apply runs_none_bind; [|intros _; apply runs_none_ret].
  apply runs_none_try_catch; [apply runs_none_on_tracer|].
  intros _. apply runs_none_on_tracer.
Qed.

Lemma runs_none_start_event_span (pf : Platform) (event : value) :
  keeps_executed (start_event_span pf event).
Proof.
  unfold start_event_span.
  apply runs_none_try_catch; [|intros e; apply runs_none_fatal].
  apply runs_none_bind; [apply runs_none_of_result|]. intros name.
  apply runs_none_bind; [apply runs_none_of_result|]. intros tool.
  apply runs_none_bind; [apply runs_none_on_tracer|]. intros span.
  apply runs_none_bind; [|intros a; apply runs_none_ret].
  destruct (truthy (get_opt event "prompt")); [|apply runs_none_ret].
  destruct (get_opt event "prompt");
    first [apply runs_none_ret | apply runs_none_throw].
Qed.

(** Sequencing, when only the values that the first part can return
    matter *)
Lemma runs_none_bind_on {A B} (m : Comp Proc A) (k : A -> Comp Proc B) :
  keeps_executed m ->
  (forall p a p1, m p = (Ok a, p1) -> executed (snd (k a p1)) = executed p1) ->
  keeps_executed (mbind m k).
Proof.
  intros Hm Hk p. unfold mbind. specialize (Hm p). specialize (Hk p).
  destruct (m p) as [[a|e] p1]; simpl in *.
  - rewrite (Hk a p1 eq_refl). exact Hm.
  - exact Hm.
Qed.

(** A tracer that fails to load stops the process *)
Lemma getOtelTracer_not_loaded (pf : Platform) (p : Proc) :
  tracer_loads pf = false -> fst (getOtelTracer pf p) = Ok Exit1.
Proof. intros H. unfold getOtelTracer. rewrite H. reflexivity. Qed.

End OrchestratorFrames.

Module OrchestratorSetup.
Import JS Eff Orchestrator OrchestratorSpec FrameSpec.

(** X1.  No command is run on a failure path.  When the standard input is not
    JSON, or the run identifier is missing from the environment, or the
    tracer module cannot be loaded, or the settings cannot be read, the
    orchestrator ends without having executed any command, whatever the
    state of its tracer. *)
Theorem no_command_without_event_run_id_tracer_settings
        (pf : Platform) (input : string) (p : Proc) :
  JSON.parse input = None
  \/ truthy (env_RUN_ID pf) = false
  \/ tracer_loads pf = false
  \/ (forall hooks, discovery pf <> Found hooks) ->
  executed (snd (main pf input p)) = executed p.
Proof.
  intros Hfail. revert p. change (keeps_executed (main pf input)).
  unfold main.
  apply OrchestratorFrames.runs_none_try_catch.
  2: { intros e. apply OrchestratorFrames.runs_none_bind;
         [apply OrchestratorFrames.runs_none_console_error|].
       intros _. apply OrchestratorFrames.runs_none_bind;
         [apply OrchestratorFrames.runs_none_console_log|].
       intros _. apply OrchestratorFrames.runs_none_ret. }
  apply OrchestratorFrames.runs_none_bind_on;
    [apply OrchestratorFrames.runs_none_of_result|].
  intros p event p1 Hev. unfold of_result in Hev.
  destruct (JSON.parse input) as [ev|] eqn:Eparse; [|discriminate Hev].
  destruct (truthy (env_RUN_ID pf)) eqn:Erun; simpl negb; cbv iota;
    [|apply OrchestratorFrames.runs_none_fatal].
  revert p1 Hev. intros p1 _. revert p1.
  apply OrchestratorFrames.runs_none_bind_on;
    [apply OrchestratorFrames.runs_none_getOtelTracer|].
  intros q t q1 Ht.
  destruct t as [u|]; [|reflexivity].
  destruct (tracer_loads pf) eqn:Eload.
  2: { pose proof (OrchestratorFrames.getOtelTracer_not_loaded pf q Eload) as Hx.
       rewrite Ht in Hx. discriminate Hx. }
  revert q1 Ht. intros q1 _. revert q1.
  apply OrchestratorFrames.runs_none_bind_on;
    [apply OrchestratorFrames.runs_none_start_event_span|].
  intros q2 s q3 _. destruct s as [span|]; [|reflexivity].
  destruct (discovery pf) as [hooks|m|m] eqn:Edisc.
  - exfalso. destruct Hfail as [H|[H|[H|H]]]; try discriminate H.
    now apply (H hooks).
  - apply OrchestratorFrames.runs_none_fatal.
  - apply OrchestratorFrames.runs_none_throw.
Qed.

End OrchestratorSetup.

Module HookSpans.
Import JS Eff Orchestrator OrchestratorSpec HookSpec.

Lemma startHookExecutionSpan_run (command : string) (parent : Otel.Span)
      (st : Otel.State) :
  Otel.tracerInstance st = true ->
  exists sp st',
    Otel.startHookExecutionSpan command parent false st = (Ok sp, st')
    /\ Otel.traceId sp = Otel.traceId parent
    /\ Otel.parentSpanId sp = Some (Otel.spanId parent)
    /\ Otel.ended sp = false
    /\ Otel.rootSpan st' = Otel.rootSpan st
    /\ Otel.tracerInstance st' = true
    /\ Otel.exported st' = Otel.exported st.
Proof.
  intros Hinit. unfold Otel.startHookExecutionSpan, Otel.getTracer, mbind.
  rewrite Hinit.
  match goal with
  | |- context [Otel.sdk_startSpan ?n ?k ?a ?c st] =>
      destruct (OtelFacts.sdk_startSpan_spec n k a c st)
        as (sp & st' & E & He & Hs & Hid & Hp & Hr & Ht & Hx & Hrand)
  end.
  simpl in Hp. destruct Hp as [Htid Hpar].
  exists sp, st'. rewrite E. repeat split; congruence.
Qed.

(** The span that ends a command: status and attributes are set on the
    open span, which is then handed to the exporter. *)
Lemma close_execution_span (sp : Otel.Span) (kvs : props) (code : Otel.SpanStatusCode)
      (msg : value) (st : Otel.State) :
  Otel.ended sp = false ->
  exists sp',
    Otel.end_span (Otel.setStatus (Otel.setAttributes sp kvs) code msg) st
    = (Ok sp', Otel.with_exported st (Otel.exported st ++ [sp'])%list)
    /\ Otel.traceId sp' = Otel.traceId sp
    /\ Otel.spanId sp' = Otel.spanId sp
    /\ Otel.parentSpanId sp' = Otel.parentSpanId sp
    /\ Otel.ended sp' = true
    /\ Otel.status sp' = code.
Proof.
  intros Hopen.
  destruct (OtelFacts.setAttributes_frame kvs sp) as (Ht & Hs & Hp & _ & He).
  unfold Otel.end_span, Otel.setStatus. rewrite He, Hopen. cbn [Otel.ended].
  eexists. split; [reflexivity|].
  cbn. repeat split; congruence.
Qed.

Lemma recordException_frame (sp : Otel.Span) (m : string) :
  Otel.traceId (Otel.recordException sp m) = Otel.traceId sp
  /\ Otel.spanId (Otel.recordException sp m) = Otel.spanId sp
  /\ Otel.parentSpanId (Otel.recordException sp m) = Otel.parentSpanId sp
  /\ Otel.ended (Otel.recordException sp m) = Otel.ended sp.
Proof. unfold Otel.recordException. destruct (Otel.ended sp) eqn:E; cbn; auto. Qed.

(** The span of one command of the loop *)
Lemma run_hook_span (pf : Platform) (event : value) (span : Otel.Span)
      (hookCmd : string) (outs : list HookOutput) (p : Proc) :
  Otel.tracerInstance (tracer p) = true ->
  Str.includes hookCmd "orchestrator" = false ->
  exists outs' sp p',
    run_hook pf event span hookCmd outs p = (Ok (Go outs'), p')
    /\ Otel.exported (tracer p') = (Otel.exported (tracer p) ++ [sp])%list
    /\ execution_span_of span
         (run pf (executed p) hookCmd (JSON.stringify_text event)) sp
    /\ executed p' = (executed p ++ [hookCmd])%list
    /\ Otel.tracerInstance (tracer p') = true
    /\ Otel.rootSpan (tracer p') = Otel.rootSpan (tracer p).
Proof.
  intros Hinit Hother. unfold run_hook. rewrite Hother.
  unfold mbind at 1. unfold try_catch, mbind at 1, on_tracer, zoom.
  destruct (startHookExecutionSpan_run hookCmd span (tracer p) Hinit)
    as (sp & st' & E & Htid & Hpar & Hopen & Hroot & Hinit' & Hexp).
  rewrite E.
  cbv beta iota delta [ret mbind execSync get_state modify on_tracer zoom].
  cbn [tracer stdout stderr executed].
  unfold execution_span_of.
  destruct (run pf (executed p) hookCmd (JSON.stringify_text event)) as [out|status msg];
    cbv beta iota; cbn [tracer stdout stderr executed].
  - match goal with
    | |- context [Otel.end_span (Otel.setStatus (Otel.setAttributes sp ?kvs) ?c ?m) st'] =>
        destruct (close_execution_span sp kvs c m st' Hopen)
          as (sp' & E' & Ht' & Hs' & Hp' & He' & Hst')
    end.
    rewrite E'. cbv beta iota. eexists; exists sp'; eexists.
    split; [reflexivity|]. cbn. rewrite Hexp.
    repeat split; try congruence; exact Hst'.
  - destruct (recordException_frame sp msg) as (Rt & Rs & Rp & Re).
    assert (Hopen' : Otel.ended (Otel.recordException sp msg) = false) by congruence.
    match goal with
    | |- context [Otel.end_span (Otel.setStatus (Otel.setAttributes ?s ?kvs) ?c ?m) st'] =>
        destruct (close_execution_span s kvs c m st' Hopen')
          as (sp' & E' & Ht' & Hs' & Hp' & He' & Hst')
    end.
    rewrite E'. cbv beta iota. eexists; exists sp'; eexists.
    split; [reflexivity|]. cbn. rewrite Hexp.
    repeat split; try congruence; exact Hst'.
Qed.

(** The spans of the loop *)
Lemma run_hooks_spans (pf : Platform) (event : value) (span : Otel.Span)
      (allHooks : list string) :
  forall (outs : list HookOutput) (p : Proc),
    Otel.tracerInstance (tracer p) = true ->
    exists outs' execs p',
      run_hooks pf event span allHooks outs p = (Ok (Go outs'), p')
      /\ Otel.exported (tracer p') = (Otel.exported (tracer p) ++ execs)%list
      /\ Forall2 (execution_span_of span)
           (hook_results pf (JSON.stringify_text event) (executed p) allHooks) execs
      /\ Otel.tracerInstance (tracer p') = true
      /\ Otel.rootSpan (tracer p') = Otel.rootSpan (tracer p).
Proof.
  induction allHooks as [|c rest IH]; intros outs p Hinit.
  - exists outs, [], p. simpl. rewrite app_nil_r. repeat split; auto.
  - simpl run_hooks. simpl hook_results.
    destruct (Str.includes c "orchestrator") eqn:Eo.
    + assert (E1 : run_hook pf event span c outs p = (Ok (Go outs), p))
        by (unfold run_hook; rewrite Eo; reflexivity).
      rewrite (EffFacts.mbind_ok _ _ _ _ _ E1). apply IH. exact Hinit.
    + destruct (run_hook_span pf event span c outs p Hinit Eo)
        as (outs1 & sp & p1 & E1 & Hx1 & Hs1 & He1 & Hi1 & Hr1).
      rewrite (EffFacts.mbind_ok _ _ _ _ _ E1).
      destruct (IH outs1 p1 Hi1) as (outs2 & execs & p2 & E2 & Hx2 & Hs2 & Hi2 & Hr2).
      exists outs2, (sp :: execs), p2. rewrite E2, Hx2, Hx1, <- app_assoc.
      rewrite He1 in Hs2.
      repeat split; try congruence. constructor; assumption.
Qed.

End HookSpans.


Module OrchestratorRuns.
Import JS Eff Orchestrator OrchestratorSpec HookSpec.

(** X2.  Each discovered command is run once, and the orchestrator never runs
    itself.  In a run that reaches the loop, the commands executed are
    exactly the discovered commands that do not contain the text
    [orchestrator], whatever they exit with, and none is executed twice,
    also when it is discovered in several settings files. *)
Theorem each_command_once_never_the_orchestrator
        (pf : Platform) (input : string) (o : props) (hooks : list string) (p : Proc) :
  JSON.parse input = Some (VObj o) ->
  truthy (env_RUN_ID pf) = true ->
  tracer_loads pf = true ->
  Otel.tracerInstance (tracer p) = false ->
  Otel.dir_ok (tracer p) (logs_dir pf) = true ->
  prompt_ok (VObj o) ->
  discovery pf = Found hooks ->
  exists p' ran,
    main pf input p = (Ok (Go tt), p')
    /\ executed p' = (executed p ++ ran)%list
    /\ NoDup ran
    /\ forall c, In c ran <-> In c hooks /\ Str.includes c "orchestrator" = false.
Proof.
  intros Hparse Hrun Hload Hfresh Hdir Hprompt Hfound.
  destruct (OrchestratorOutcome.main_outcome pf input o hooks p
              Hparse Hrun Hload Hfresh Hdir Hprompt Hfound)
    as (p' & E & Hx & _).
  exists p', (user_hooks hooks). split; [exact E|]. split; [exact Hx|].
  unfold user_hooks. split.
  - apply OrchestratorOutcome.filter_NoDup, OrchestratorOutcome.dedupe_NoDup.
  - intros c. rewrite filter_In, OrchestratorOutcome.dedupe_In. simpl.
    rewrite negb_true_iff. tauto.
Qed.

(** X3.  The orchestrator blocks only when a command does.  In a run that
    reaches the merge, when no command that exited with status 0 printed
    JSON whose [continue] is [false], the single line printed is a JSON
    object whose [continue] is [true]; when no such command printed JSON
    at all (so also when every command failed), the line is exactly
    [{"continue":true}]. *)
Theorem continue_unless_a_command_blocks
        (pf : Platform) (input : string) (o : props) (hooks : list string) (p : Proc) :
  JSON.parse input = Some (VObj o) ->
  truthy (env_RUN_ID pf) = true ->
  tracer_loads pf = true ->
  Otel.tracerInstance (tracer p) = false ->
  Otel.dir_ok (tracer p) (logs_dir pf) = true ->
  prompt_ok (VObj o) ->
  discovery pf = Found hooks ->
  let outputs :=
    map parsed_json
        (hook_outputs pf (JSON.stringify_text (VObj o)) (executed p) (dedupe [] hooks)) in
  exists p',
    main pf input p = (Ok (Go tt), p')
    /\ ((forall x, In x outputs -> blocking x = false) ->
        exists response,
          stdout p' = (stdout p ++ [JSON.stringify_text (VObj response)])%list
          /\ lookup response "continue" = Some (VBool true))
    /\ ((forall x, In x outputs -> x = None) ->
        stdout p'
        = (stdout p ++ [JSON.stringify_text (VObj [("continue", VBool true)])])%list).
Proof.
  intros Hparse Hrun Hload Hfresh Hdir Hprompt Hfound outputs.
  destruct (OrchestratorOutcome.main_outcome pf input o hooks p
              Hparse Hrun Hload Hfresh Hdir Hprompt Hfound)
    as (p' & E & _ & Hout & _).
  fold outputs in Hout.
  exists p'. split; [exact E|]. split.
  - intros Hnone.
    destruct (OrchestratorOutcome.merge_non_blocking outputs
                [("continue", VBool true)] Hnone) as (fr & Em & Hc).
    exists fr. rewrite Hout, Em. split; [reflexivity | exact Hc].
  - intros Hnone. rewrite Hout.
    now rewrite (OrchestratorOutcome.merge_no_json outputs _ Hnone).
Qed.

End OrchestratorRuns.

Module HookTrace.
Import JS Eff Orchestrator OrchestratorSpec HookSpec.

(** The root span of a new tracer is open and has no parent *)
Lemma initializeTracer_root (config : Otel.CCProfileConfig) (st : Otel.State) :
  Otel.dir_ok st (Otel.outputDir config) = true ->
  exists root st',
    Otel.initializeTracer config st = (Ok tt, st')
    /\ Otel.rootSpan st' = Some root
    /\ Otel.tracerInstance st' = true
    /\ Otel.ended root = false
    /\ Otel.parentSpanId root = None
    /\ Otel.exported st' = Otel.exported st.
Proof.
  intros Hdir. unfold Otel.initializeTracer. rewrite Hdir. simpl negb. cbv iota.
  match goal with
  | |- context [Otel.sdk_startSpan ?n ?k ?a ?c ?s] =>
      destruct (OtelFacts.sdk_startSpan_spec n k a c s)
        as (sp & st' & E & He & Hs & Hid & Hp & Hr & Ht & Hx & Hrand)
  end.
  simpl in Hp. destruct Hp as [Htid Hpar].
  rewrite E. exists sp, (Otel.with_root st' (Some sp)).
  simpl in *. repeat split; assumption.
Qed.

Lemma getOtelTracer_root (pf : Platform) (p : Proc) :
  tracer_loads pf = true ->
  Otel.tracerInstance (tracer p) = false ->
  Otel.dir_ok (tracer p) (logs_dir pf) = true ->
  exists p' root,
    getOtelTracer pf p = (Ok (Go tt), p')
    /\ Otel.tracerInstance (tracer p') = true
    /\ Otel.rootSpan (tracer p') = Some root
    /\ Otel.ended root = false
    /\ Otel.parentSpanId root = None
    /\ Otel.exported (tracer p') = Otel.exported (tracer p)
    /\ executed p' = executed p.
Proof.
  intros Hload Hfresh Hdir. unfold getOtelTracer. rewrite Hload.
  cbv beta iota delta [negb try_catch mbind on_tracer zoom Otel.getTracer ret].
  rewrite Hfresh. cbn [tracer].
  match goal with
  | |- context [Otel.initializeTracer ?c (tracer p)] =>
      destruct (initializeTracer_root c (tracer p) Hdir)
        as (root & st' & E & Hroot & Hinit & Hopen & Hpar & Hexp)
  end.
  rewrite E. eexists; exists root. split; [reflexivity|]. simpl. auto 10.
Qed.

Lemma start_event_span_child (pf : Platform) (o : props) (p : Proc) (root : Otel.Span) :
  Otel.tracerInstance (tracer p) = true ->
  Otel.rootSpan (tracer p) = Some root ->
  prompt_ok (VObj o) ->
  exists span p',
    start_event_span pf (VObj o) p = (Ok (Go span), p')
    /\ Otel.traceId span = Otel.traceId root
    /\ Otel.parentSpanId span = Some (Otel.spanId root)
    /\ Otel.ended span = false
    /\ Otel.tracerInstance (tracer p') = true
    /\ Otel.rootSpan (tracer p') = Some root
    /\ Otel.exported (tracer p') = Otel.exported (tracer p)
    /\ executed p' = executed p.
Proof.
  intros Hinit Hroot Hprompt.
  unfold start_event_span, try_catch, mbind, of_result. simpl get.
  unfold on_tracer, zoom, Otel.startHookEventSpan.
  match goal with
  | |- context [Otel.startSpan ?n ?k ?a (tracer p)] =>
      destruct (OtelFacts.startSpan_child_of_root (tracer p) root Hinit Hroot n k a)
        as (sp & st' & E & Htid & Hpar & Hopen & _ & Hroot' & Hinit' & Hexp)
  end.
  rewrite E. unfold prompt_ok in Hprompt.
  assert (Hframe : forall kvs,
             Otel.traceId (Otel.setAttributes sp kvs) = Otel.traceId root
             /\ Otel.parentSpanId (Otel.setAttributes sp kvs) = Some (Otel.spanId root)
             /\ Otel.ended (Otel.setAttributes sp kvs) = false).
  { intros kvs. destruct (OtelFacts.setAttributes_frame kvs sp) as (a & _ & c & _ & e).
    repeat split; congruence. }
  assert (Hcases : (exists t, get_opt (VObj o) "prompt" = VStr t)
                   \/ truthy (get_opt (VObj o) "prompt") = false).
  { destruct (get_opt (VObj o) "prompt"); eauto. }
  destruct Hcases as [(t & Et) | Hfalse].
  - rewrite Et. destruct (truthy (VStr t)); unfold ret;
      eexists; eexists; (split; [reflexivity|]);
      (split; [apply Hframe|]); (split; [apply Hframe|]); (split; [apply Hframe|]);
      simpl; auto.
  - rewrite Hfalse. unfold ret.
    eexists; eexists; (split; [reflexivity|]);
      (split; [apply Hframe|]); (split; [apply Hframe|]); (split; [apply Hframe|]);
      simpl; auto.
Qed.

(** X4.  The spans of one run of the orchestrator.  A run that reaches the
    loop hands to the exporter one span per executed command, in the order
    of execution, and then the span of the hook event.  The span of the
    event is a child of the root span of the process, in its trace; the
    span of each command is a child of the span of the event, in the same
    trace; the status of the span of a command is UNSET when the command
    exits with status 0 and ERROR when it fails, and the status of the span
    of the event is UNSET: no span gets the status OK.  The root span itself
    is left open, so that it is not handed to the exporter. *)
Theorem spans_of_a_run
        (pf : Platform) (input : string) (o : props) (hooks : list string) (p : Proc) :
  JSON.parse input = Some (VObj o) ->
  truthy (env_RUN_ID pf) = true ->
  tracer_loads pf = true ->
  Otel.tracerInstance (tracer p) = false ->
  Otel.dir_ok (tracer p) (logs_dir pf) = true ->
  prompt_ok (VObj o) ->
  discovery pf = Found hooks ->
  exists p' root ev execs,
    main pf input p = (Ok (Go tt), p')
    /\ Otel.rootSpan (tracer p') = Some root
    /\ Otel.ended root = false
    /\ Otel.exported (tracer p') = (Otel.exported (tracer p) ++ execs ++ [ev])%list
    /\ Otel.parentSpanId ev = Some (Otel.spanId root)
    /\ Otel.traceId ev = Otel.traceId root
    /\ Otel.ended ev = true
    /\ Otel.status ev = Otel.UNSET
    /\ Forall2 (execution_span_of ev)
         (hook_results pf (JSON.stringify_text (VObj o)) (executed p) (dedupe [] hooks))
         execs.
Proof.
  intros Hparse Hrun Hload Hfresh Hdir Hprompt Hfound.
  destruct (getOtelTracer_root pf p Hload Hfresh Hdir)
    as (p1 & root & E1 & Hi1 & Hr1 & Hopen & Hnopar & Hexp1 & Hx1).
  destruct (start_event_span_child pf o p1 root Hi1 Hr1 Hprompt)
    as (span & p2 & E2 & Htid & Hpar & Hsopen & Hi2 & Hr2 & Hexp2 & Hx2).
  destruct (HookSpans.run_hooks_spans pf (VObj o) span (dedupe [] hooks) [] p2 Hi2)
    as (outs & execs & p3 & E3 & Hexp3 & Hall & Hi3 & Hr3).
  destruct (HookSpans.close_execution_span span [] (Otel.status_of_code 0) VUndef
              (tracer p3) Hsopen)
    as (ev & E4 & Ht4 & Hs4 & Hp4 & He4 & Hst4).
  change (Otel.setAttributes span []) with span in E4.
  set (t4 := Otel.with_exported (tracer p3) (Otel.exported (tracer p3) ++ [ev])%list) in *.
  set (p4 := mkProc t4 (stdout p3) (stderr p3) (executed p3)).
  eexists; exists root, ev, execs. split.
  - unfold main. rewrite Hparse, Hrun. simpl negb. cbv iota.
    apply EffFacts.try_catch_ok.
    rewrite (EffFacts.mbind_ok _ _ p p (VObj o)) by reflexivity.
    rewrite (EffFacts.mbind_ok _ _ _ _ _ E1).
    rewrite (EffFacts.mbind_ok _ _ _ _ _ E2).
    rewrite Hfound. cbv zeta.
    rewrite (EffFacts.mbind_ok _ _ _ _ _ E3).
    rewrite (EffFacts.mbind_ok _ _ p3 p4 ev).
    + reflexivity.
    + exact (EffFacts.zoom_run tracer
               (fun p t => mkProc t (stdout p) (stderr p) (executed p))
               (Otel.end_span (Otel.setStatus span (Otel.status_of_code 0) VUndef))
               p3 (Ok ev) t4 E4).
  - cbn. rewrite Hexp3, Hexp2, Hexp1, <- app_assoc.
    assert (Hx : executed p2 = executed p) by congruence. rewrite Hx in Hall.
    repeat split; try congruence; try exact Hst4.
    eapply Forall2_impl; [|exact Hall].
    intros r sp (Ha & Hb & Hc & Hd). unfold execution_span_of.
    repeat split; congruence.
Qed.

End HookTrace.

Module OrchestratorRunExamples.
Import JS Eff Orchestrator OrchestratorSpec HookSpec Examples Examples2.

Lemma no_command_without_event_witness :
  executed (snd (main two_hooks "not json" new_orchestrator))
  = executed new_orchestrator.
Proof.
  apply (OrchestratorSetup.no_command_without_event_run_id_tracer_settings
           two_hooks "not json" new_orchestrator).
  left. reflexivity.
Defined.

Lemma each_command_once_witness :
  exists p' ran,
    main mixed_hooks stop_event new_orchestrator = (Ok (Go tt), p')
    /\ executed p' = (executed new_orchestrator ++ ran)%list
    /\ NoDup ran
    /\ forall c, In c ran <->
                 In c ["hook-one"; "node orchestrator.cjs"; "hook-one"; "hook-two"]
                 /\ Str.includes c "orchestrator" = false.
Proof.
  exact (OrchestratorRuns.each_command_once_never_the_orchestrator
           mixed_hooks stop_event stop_event_fields
           ["hook-one"; "node orchestrator.cjs"; "hook-one"; "hook-two"]
           new_orchestrator
           eq_refl eq_refl eq_refl eq_refl eq_refl eq_refl eq_refl).
Defined.

Lemma continue_unless_a_command_blocks_witness :
  exists p',
    main mixed_hooks stop_event new_orchestrator = (Ok (Go tt), p')
    /\ stdout p' = ["{" ++ k "continue" ++ ":true}"].
Proof.
  destruct (OrchestratorRuns.continue_unless_a_command_blocks
              mixed_hooks stop_event stop_event_fields
              ["hook-one"; "node orchestrator.cjs"; "hook-one"; "hook-two"]
              new_orchestrator
              eq_refl eq_refl eq_refl eq_refl eq_refl eq_refl eq_refl)
    as (p' & E & _ & Hnone).
  exists p'. split; [exact E|]. apply Hnone.
  intros x [<-|[]]. reflexivity.
Defined.

Lemma spans_of_a_run_witness :
  exists p' root ev execs,
    main mixed_hooks stop_event new_orchestrator = (Ok (Go tt), p')
    /\ Otel.rootSpan (tracer p') = Some root
    /\ Otel.ended root = false
    /\ Otel.exported (tracer p') = (execs ++ [ev])%list
    /\ Otel.parentSpanId ev = Some (Otel.spanId root)
    /\ Otel.traceId ev = Otel.traceId root
    /\ Otel.ended ev = true
    /\ Otel.status ev = Otel.UNSET
    /\ Forall2 (execution_span_of ev)
         [Exited0 ""; ExecError (num 2) "Command failed: hook-two"] execs.
Proof.
  exact (HookTrace.spans_of_a_run
           mixed_hooks stop_event stop_event_fields
           ["hook-one"; "node orchestrator.cjs"; "hook-one"; "hook-two"]
           new_orchestrator
           eq_refl eq_refl eq_refl eq_refl eq_refl eq_refl eq_refl).
Defined.

End OrchestratorRunExamples.

(* ================================================================== *)
(** * The correlator and the spans of tools: further properties *)
(* ================================================================== *)

Module Correlator.
Import JS Eff Preload CorrelatorSpec CorrelatorSpec2.

Lemma request_line_match (toolName toolInput : value) (line : string) :
  is_match toolName toolInput line <->
  exists id, request_line toolName toolInput line id.
Proof.
  unfold is_match, request_line.
  split; intros (id & H); exists id; now apply CorrelatorFacts.try_line_match.
Qed.

Lemma most_recent_request_found
        (toolName toolInput : value) (logFile : string) (fs : Fs.FS)
        (content : string) (older newer : list string) (line : string) (id : value) :
  Fs.find (Fs.files fs) logFile = Some content ->
  Fs.can_read fs logFile = true ->
  last_n 50 (log_lines content) = (older ++ line :: newer)%list ->
  request_line toolName toolInput line id ->
  (forall l id', In l newer -> ~ request_line toolName toolInput l id') ->
  findRecentToolUseId toolName toolInput logFile fs = id.
Proof.
  intros Hfind Hread Hlines Hline Hnewer.
  unfold findRecentToolUseId, Fs.existsSync, Fs.readFileSync.
  rewrite Hfind, Hread. simpl negb. cbv iota zeta. rewrite Hlines.
  apply CorrelatorFacts.search_back_last_match.
  - now apply CorrelatorFacts.try_line_match.
  - intros l Hl Hm. apply request_line_match in Hm as (id' & Hm).
    exact (Hnewer l id' Hl Hm).
Qed.

(** X5.  The most recent request wins.  When the log can be read and, among
    its last 50 non-blank lines, [line] records a request of the tool with
    the same name and with an input of the same JSON text, and no later
    line does, the correlator returns the identifier of [line]. *)
Theorem most_recent_request_wins
        (toolName toolInput : value) (logFile : string) (fs : Fs.FS)
        (content : string) (older newer : list string) (line : string) (id : value) :
  Fs.find (Fs.files fs) logFile = Some content ->
  Fs.can_read fs logFile = true ->
  last_n 50 (log_lines content) = (older ++ line :: newer)%list ->
  request_line toolName toolInput line id ->
  (forall l id', In l newer -> ~ request_line toolName toolInput l id') ->
  findRecentToolUseId toolName toolInput logFile fs = id.
Proof. exact (most_recent_request_found toolName toolInput logFile fs content older newer line id). Qed.

Lemma null_when_no_recent_request
        (toolName toolInput : value) (logFile : string) (fs : Fs.FS) :
  Fs.find (Fs.files fs) logFile = None
  \/ Fs.can_read fs logFile = false
  \/ (exists content,
         Fs.find (Fs.files fs) logFile = Some content
         /\ forall l id, In l (last_n 50 (log_lines content)) ->
                         ~ request_line toolName toolInput l id) ->
  findRecentToolUseId toolName toolInput logFile fs = VNull.
Proof.
  unfold findRecentToolUseId, Fs.existsSync, Fs.readFileSync.
  intros [Hnone | [Hread | (content & Hfind & Hno)]].
  - now rewrite Hnone.
  - rewrite Hread. destruct (Fs.find (Fs.files fs) logFile); reflexivity.
  - rewrite Hfind. simpl negb. cbv iota.
    destruct (Fs.can_read fs logFile); [|reflexivity]. cbv zeta.
    apply CorrelatorFacts.search_back_no_match.
    intros l Hl Hm. apply request_line_match in Hm as (id & Hm).
    apply in_rev in Hl. exact (Hno l id Hl Hm).
Qed.

(** X6.  No identifier without a recent request.  The correlator returns
    [null], and never throws, when the log is missing, when it cannot be
    read, and when none of its last 50 non-blank lines records a request
    of the tool with the same name and an input of the same JSON text:
    older requests are not looked at. *)
Theorem null_without_recent_request
        (toolName toolInput : value) (logFile : string) (fs : Fs.FS) :
  Fs.find (Fs.files fs) logFile = None
  \/ Fs.can_read fs logFile = false
  \/ (exists content,
         Fs.find (Fs.files fs) logFile = Some content
         /\ forall l id, In l (last_n 50 (log_lines content)) ->
                         ~ request_line toolName toolInput l id) ->
  findRecentToolUseId toolName toolInput logFile fs = VNull.
Proof. exact (null_when_no_recent_request toolName toolInput logFile fs). Qed.

End Correlator.

Module ToolSpans.
Import JS Eff Preload.

(** X7.  The identifier on the span of a tool execution.  Once the tracer of
    the process is initialised, every finished tool execution hands one
    span to the exporter; the span carries the attribute [tool.use_id]
    exactly when the execution has an identifier (one that is truthy and
    of an attribute type), and then the attribute is that identifier. *)
Theorem tool_span_carries_known_identifier (e : ToolExecutionEvent) (w : World) :
  Otel.tracerInstance (otel w) = true ->
  exists sp w',
    createToolExecutionSpan e w = (Ok (Some sp), w')
    /\ Otel.exported (otel w') = (Otel.exported (otel w) ++ [sp])%list
    /\ (truthy (te_toolUseId e) && Otel.isAttributeValue (te_toolUseId e) = true ->
        lookup (Otel.attributes sp) "tool.use_id" = Some (te_toolUseId e))
    /\ (truthy (te_toolUseId e) && Otel.isAttributeValue (te_toolUseId e) = false ->
        lookup (Otel.attributes sp) "tool.use_id" = None).
Proof.
  intros Hinit.
  destruct (CorrelatorFacts.createToolExecutionSpan_spec e w Hinit)
    as (sp & w' & E & Hexp & Hid).
  exists sp, w'. split; [exact E|]. split; [exact Hexp|].
  split; intros H; now rewrite H in Hid.
Qed.

(** X8.  Spans before the tracer exists are lost silently.  The tracer of the
    host process is initialised by the first intercepted API request.  A
    tool execution or a hook that finishes before that yields no span: the
    failure is swallowed, nothing reaches the exporter, nothing is printed
    and no file is touched. *)
Theorem no_span_before_the_tracer (e : ToolExecutionEvent) (hookData : props)
        (w : World) :
  Otel.tracerInstance (otel w) = false ->
  createToolExecutionSpan e w = (Ok None, w)
  /\ createHookSpan hookData w = (Ok None, w).
Proof.
  intros Hinit. destruct w as [f o i s en od ah]. simpl in Hinit.
  split.
  - unfold createToolExecutionSpan, try_catch, on_otel, zoom, mbind,
      Otel.startEnhancedToolSpan, Otel.getTracer, mbind.
    cbn [otel]. rewrite Hinit. reflexivity.
  - unfold createHookSpan, try_catch, on_otel, zoom, mbind,
      Otel.startHookEventSpan, Otel.startSpan, Otel.getTracer, mbind.
    cbn [otel]. rewrite Hinit. reflexivity.
Qed.

End ToolSpans.

Module CorrelatorExamples.
Import JS Eff Preload CorrelatorSpec2 Examples Examples2.

Lemma most_recent_request_wins_witness :
  findRecentToolUseId (VStr "Read") read_a "/out/events.jsonl" (disk log_two_requests)
  = VStr "toolu_2".
Proof.
  apply (Correlator.most_recent_request_wins
           (VStr "Read") read_a "/out/events.jsonl" (disk log_two_requests)
           log_two_requests
           [request "toolu_1" "a.txt"; api_record] [request "toolu_3" "b.txt"]
           (request "toolu_2" "a.txt") (VStr "toolu_2")).
  - reflexivity.
  - reflexivity.
  - reflexivity.
  - eexists. split; [vm_compute; reflexivity|]. repeat split.
  - intros l id' [<-|[]] (o & Hp & _ & _ & Hin & _).
    vm_compute in Hp. injection Hp as <-. discriminate Hin.
Defined.

Lemma null_without_recent_request_witness :
  findRecentToolUseId (VStr "Read") read_a "/out/events.jsonl" (disk log_old_request)
  = VNull.
Proof.
  apply (Correlator.null_without_recent_request
           (VStr "Read") read_a "/out/events.jsonl" (disk log_old_request)).
  right. right. exists log_old_request. split; [reflexivity|].
  assert (Hlast : last_n 50 (log_lines log_old_request) = repeat "{}" 50)
    by (vm_compute; reflexivity).
  rewrite Hlast. intros l id Hl (o & Hp & Hty & _).
  apply repeat_spec in Hl. subst l.
  vm_compute in Hp. injection Hp as <-. discriminate Hty.
Defined.

Lemma tool_span_carries_known_identifier_witness :
  exists sp w',
    createToolExecutionSpan (read_execution (VStr "toolu_2")) (host "" true)
    = (Ok (Some sp), w')
    /\ lookup (Otel.attributes sp) "tool.use_id" = Some (VStr "toolu_2").
Proof.
  destruct (ToolSpans.tool_span_carries_known_identifier
              (read_execution (VStr "toolu_2")) (host "" true) eq_refl)
    as (sp & w' & E & _ & Hid & _).
  exists sp, w'. split; [exact E|]. apply Hid. reflexivity.
Defined.

Lemma no_span_before_the_tracer_witness :
  createToolExecutionSpan (read_execution VNull) (host "" false)
  = (Ok None, host "" false).
Proof.
  apply (ToolSpans.no_span_before_the_tracer (read_execution VNull) [] (host "" false)).
  reflexivity.
Defined.

End CorrelatorExamples.

Module ToolWorld.
Import JS Eff Preload.

(** Making the span of a tool execution touches no file *)
Lemma createToolExecutionSpan_keeps_fs (e : ToolExecutionEvent) (w : World) :
  fs (snd (createToolExecutionSpan e w)) = fs w.
Proof.
  unfold createToolExecutionSpan, try_catch, on_otel, zoom.
  match goal with
  | |- context [(let (r, t') := ?m (otel w) in _)] => destruct (m (otel w)) as [[a|x] t]
  end; reflexivity.
Qed.

End ToolWorld.

Module HookCompletion.
Import JS Eff Preload.

(** Appending a line to a log that can be written *)
Lemma append_log_run (line : string) (w : World) :
  Fs.can_write (fs w) (logFile w) = true ->
  exists w',
    append_log line w = (Ok tt, w')
    /\ otel w' = otel w
    /\ Fs.find (Fs.files (fs w')) (logFile w)
       = Some ((match Fs.find (Fs.files (fs w)) (logFile w) with
                | Some old => old
                | None => EmptyString
                end) ++ line ++ Str.nl)%string.
Proof.
  intros Hw. unfold append_log, mbind, get_state, on_fs, zoom, Fs.appendFileSync.
  rewrite Hw. eexists. split; [reflexivity|]. split; [reflexivity|].
  cbn. apply FsFacts.find_store_same.
Qed.

(** What the listeners do with a [hookData] that holds a PostToolUse
    event *)
Lemma finish_hook_post_tool_use
      (hookData ev : props) (error : option string) (iso_now : string) (w : World) :
  prop hookData "hookEventData" = VObj ev ->
  strict_eq (prop_of ev "hook_event_name") (VStr "PostToolUse") = true ->
  Fs.can_write (fs w) (logFile w) = true ->
  Otel.tracerInstance (otel w) = true ->
  let id := findRecentToolUseId (prop_of ev "tool_name") (prop_of ev "tool_input")
              (logFile w) (fs w) in
  exists execution sp w',
    finish_hook hookData error iso_now w = (Ok (Some sp), w')
    /\ te_toolUseId execution = id
    /\ te_toolName execution = prop_of ev "tool_name"
    /\ te_toolInput execution = prop_of ev "tool_input"
    /\ Fs.find (Fs.files (fs w')) (logFile w)
       = Some ((match Fs.find (Fs.files (fs w)) (logFile w) with
                | Some old => old
                | None => EmptyString
                end)
               ++ JSON.stringify_text (tool_execution_json execution) ++ Str.nl)%string
    /\ Otel.exported (otel w') = (Otel.exported (otel w) ++ [sp])%list
    /\ (truthy id && Otel.isAttributeValue id = true ->
        lookup (Otel.attributes sp) "tool.use_id" = Some id)
    /\ (truthy id && Otel.isAttributeValue id = false ->
        lookup (Otel.attributes sp) "tool.use_id" = None).
Proof.
  intros Hev Hpost Hw Hinit id.
  unfold finish_hook. rewrite (EffFacts.mbind_ok _ _ w w w) by reflexivity.
  rewrite Hev. cbv zeta.
  change (get_opt (VObj ev) "hook_event_name") with (prop_of ev "hook_event_name").
  change (get_opt (VObj ev) "tool_name") with (prop_of ev "tool_name").
  change (get_opt (VObj ev) "tool_input") with (prop_of ev "tool_input").
  rewrite Hpost. cbn [truthy andb]. fold id.
  set (execution := mkToolExecution iso_now id (prop_of ev "tool_name")
                      (prop_of ev "tool_input") (get_opt (VObj ev) "tool_response")
                      (get_opt (VObj ev) "session_id")
                      (int_prop hookData "startTime") (int_prop hookData "endTime")
                      (int_prop hookData "duration") error).
  destruct (append_log_run (JSON.stringify_text (tool_execution_json execution)) w Hw)
    as (w1 & E1 & Hotel & Hfile).
  rewrite (EffFacts.mbind_ok _ _ _ _ _ E1).
  assert (Hinit1 : Otel.tracerInstance (otel w1) = true) by congruence.
  destruct (CorrelatorFacts.createToolExecutionSpan_spec execution w1 Hinit1)
    as (sp & w2 & E2 & Hexp & Hid).
  exists execution, sp, w2. rewrite E2.
  assert (Hfs : fs w2 = fs w1).
  { pose proof (ToolWorld.createToolExecutionSpan_keeps_fs execution w1) as H.
    rewrite E2 in H. exact H. }
  rewrite Hfs, Hexp, Hotel. cbn [te_toolUseId te_toolName te_toolInput execution] in *.
  repeat split; try assumption; intros H; now rewrite H in Hid.
Qed.

Lemma createHookSpan_run (hookData : props) (w : World) :
  exists r w', createHookSpan hookData w = (Ok r, w') /\ fs w' = fs w.
Proof.
  unfold createHookSpan, try_catch, on_otel, zoom.
  match goal with
  | |- context [(let (r, t') := ?m (otel w) in _)] => destruct (m (otel w)) as [[a|x] t]
  end; eexists; eexists; split; reflexivity.
Qed.

(** What the listeners do with a [hookData] that holds no event *)
Lemma finish_hook_plain
      (hookData : props) (error : option string) (iso_now : string) (w : World) :
  truthy (prop hookData "hookEventData") = false ->
  Fs.can_write (fs w) (logFile w) = true ->
  exists r w',
    finish_hook hookData error iso_now w = (Ok r, w')
    /\ Fs.find (Fs.files (fs w')) (logFile w)
       = Some ((match Fs.find (Fs.files (fs w)) (logFile w) with
                | Some old => old
                | None => EmptyString
                end)
               ++ JSON.stringify_text
                    (VObj (set_all (spread [] (VObj hookData))
                             [("eventType", VStr "hook")]))
               ++ Str.nl)%string.
Proof.
  intros Hnone Hw.
  unfold finish_hook. rewrite (EffFacts.mbind_ok _ _ w w w) by reflexivity.
  cbv zeta. rewrite Hnone. cbn [andb].
  match goal with
  | |- context [append_log ?line] =>
      destruct (append_log_run line w Hw) as (w1 & E1 & _ & Hfile)
  end.
  rewrite (EffFacts.mbind_ok _ _ _ _ _ E1).
  destruct (createHookSpan_run hookData w1) as (r & w2 & E2 & Hfs).
  exists r, w2. split; [exact E2|]. rewrite Hfs. exact Hfile.
Qed.

Lemma find_child_pid (l : list Child) (id : nat) (c : Child) :
  find_child l id = Some c -> pid c = id.
Proof.
  unfold find_child. intros H. apply find_some in H. destruct H as [_ H].
  now apply Nat.eqb_eq.
Qed.

Lemma find_update (l : list Child) (id : nat) (f : Child -> Child) (c : Child) :
  (forall x, pid (f x) = pid x) ->
  find_child l id = Some c ->
  find_child (update_child l id f) id = Some (f c).
Proof.
  intros Hpid. unfold find_child, update_child.
  induction l as [|x l IH]; simpl; [discriminate|].
  destruct (Nat.eqb (pid x) id) eqn:E.
  - intros [= <-]. simpl. rewrite Hpid, E. reflexivity.
  - intros H. simpl. rewrite E. exact (IH H).
Qed.

(** The state of the host after a write on the input of a watched child *)
Lemma stdin_write_run (h : Host) (id : nat) (wc : WriteCall) (c : Child) (k : Capture) :
  find_child (children h) id = Some c ->
  capture c = Some k ->
  world (snd (stdin_write id wc h)) = world h
  /\ exists c1,
       find_child (children (snd (stdin_write id wc h))) id = Some c1
       /\ capture c1 = Some (capture_chunk k (chunk wc)).
Proof.
  intros Hfind Hcap. split; [reflexivity|].
  exists (receive (set_capture c (Some (capture_chunk k (chunk wc)))) wc).
  split; [|reflexivity].
  unfold stdin_write, originalWrite, mbind, modify, get_state, ret.
  cbn [snd children set_children].
  set (keep := fun c0 : Child =>
                 match capture c0 with
                 | Some k0 => set_capture c0 (Some (capture_chunk k0 (chunk wc)))
                 | None => c0
                 end).
  assert (H1 : find_child (update_child (children h) id keep) id = Some (keep c)).
  { apply find_update; [|exact Hfind].
    intros x. unfold keep. destruct (capture x); reflexivity. }
  unfold keep in H1 at 2. rewrite Hcap in H1.
  exact (find_update _ id (fun c0 => receive c0 wc) _ (fun x => eq_refl) H1).
Qed.

(** A chunk that completes the JSON of an event is stored when the event
    has a session identifier and a name. *)
Lemma capture_chunk_event (k : Capture) (c : value) (ev : props) :
  truthy c = true ->
  JSON.parse (Str.trim (cap_stdinData k ++ ToString c)) = Some (VObj ev) ->
  truthy (prop_of ev "hook_event_name") = true ->
  cap_hookData (capture_chunk k c)
  = if truthy (prop_of ev "session_id")
    then obj_set (cap_hookData k) "hookEventData" (VObj ev)
    else cap_hookData k.
Proof.
  intros Hc Hparse Hname. unfold capture_chunk. rewrite Hc. cbn [cap_hookData].
  destruct (Str.trim (cap_stdinData k ++ ToString c)) as [|a s] eqn:Et.
  - cbv in Hparse. discriminate Hparse.
  - cbn [Str.is_empty]. rewrite Hparse.
    change (get (VObj ev) "session_id") with (Ok (prop_of ev "session_id")).
    change (get (VObj ev) "hook_event_name") with (Ok (prop_of ev "hook_event_name")).
    cbv beta iota. rewrite Hname, andb_true_r. reflexivity.
Qed.

(** The listeners hand the [hookData] that they completed to the common
    ending. *)
Lemma on_close_run (h : Host) (id : nat) (c : Child) (k : Capture)
      (code : value) (now : Z) (iso_now : string) :
  find_child (children h) id = Some c ->
  capture c = Some k ->
  exists hookData,
    prop hookData "hookEventData" = prop (cap_hookData k) "hookEventData"
    /\ fst (on_close id code now iso_now h)
       = fst (finish_hook hookData None iso_now (world h))
    /\ world (snd (on_close id code now iso_now h))
       = snd (finish_hook hookData None iso_now (world h)).
Proof.
  intros Hfind Hcap.
  exists (set_all (cap_hookData k)
            [("endTime", num now);
             ("duration", num (now - int_prop (cap_hookData k) "startTime"));
             ("exitCode", or_else code (num 0));
             ("stdout", VStr (cap_stdout k));
             ("stderr", VStr (cap_stderr k));
             ("stdinData", VStr (cap_stdinData k))]).
  assert (Hrun : on_close id code now iso_now h
                 = (fst (finish_hook (set_all (cap_hookData k)
            [("endTime", num now);
             ("duration", num (now - int_prop (cap_hookData k) "startTime"));
             ("exitCode", or_else code (num 0));
             ("stdout", VStr (cap_stdout k));
             ("stderr", VStr (cap_stderr k));
             ("stdinData", VStr (cap_stdinData k))]) None iso_now (world h)),
                    set_world
                      (set_children h
                         (update_child (children h) id
                            (fun c0 => set_capture c0
                               (Some (mkCapture (cap_stdout k) (cap_stderr k)
                                        (cap_stdinData k) (set_all (cap_hookData k)
            [("endTime", num now);
             ("duration", num (now - int_prop (cap_hookData k) "startTime"));
             ("exitCode", or_else code (num 0));
             ("stdout", VStr (cap_stdout k));
             ("stderr", VStr (cap_stderr k));
             ("stdinData", VStr (cap_stdinData k))]))))))
                      (snd (finish_hook (set_all (cap_hookData k)
            [("endTime", num now);
             ("duration", num (now - int_prop (cap_hookData k) "startTime"));
             ("exitCode", or_else code (num 0));
             ("stdout", VStr (cap_stdout k));
             ("stderr", VStr (cap_stderr k));
             ("stdinData", VStr (cap_stdinData k))]) None iso_now (world h))))).
  { unfold on_close. unfold mbind at 1. unfold get_state at 1.
    rewrite Hfind, Hcap. unfold mbind, modify, on_world, zoom.
    cbn [world set_children].
    match goal with
    | |- context [finish_hook ?hd None iso_now (world h)] =>
        destruct (finish_hook hd None iso_now (world h)) as [r w']
    end.
    reflexivity. }
  split; [|split].
  - unfold prop, prop_of. rewrite JSFacts.lookup_set_all_other by reflexivity.
    reflexivity.
  - rewrite Hrun. reflexivity.
  - rewrite Hrun. reflexivity.
Qed.

Lemma on_error_run (h : Host) (id : nat) (c : Child) (k : Capture)
      (message : string) (now : Z) (iso_now : string) :
  find_child (children h) id = Some c ->
  capture c = Some k ->
  exists hookData,
    prop hookData "hookEventData" = prop (cap_hookData k) "hookEventData"
    /\ fst (on_error id message now iso_now h)
       = fst (finish_hook hookData (Some message) iso_now (world h))
    /\ world (snd (on_error id message now iso_now h))
       = snd (finish_hook hookData (Some message) iso_now (world h)).
Proof.
  intros Hfind Hcap.
  exists (set_all (cap_hookData k)
            [("error", VStr message);
             ("endTime", num now);
             ("duration", num (now - int_prop (cap_hookData k) "startTime"))]).
  assert (Hrun : on_error id message now iso_now h
                 = (fst (finish_hook (set_all (cap_hookData k)
            [("error", VStr message);
             ("endTime", num now);
             ("duration", num (now - int_prop (cap_hookData k) "startTime"))]) (Some message) iso_now (world h)),
                    set_world
                      (set_children h
                         (update_child (children h) id
                            (fun c0 => set_capture c0
                               (Some (mkCapture (cap_stdout k) (cap_stderr k)
                                        (cap_stdinData k) (set_all (cap_hookData k)
            [("error", VStr message);
             ("endTime", num now);
             ("duration", num (now - int_prop (cap_hookData k) "startTime"))]))))))
                      (snd (finish_hook (set_all (cap_hookData k)
            [("error", VStr message);
             ("endTime", num now);
             ("duration", num (now - int_prop (cap_hookData k) "startTime"))]) (Some message) iso_now (world h))))).
  { unfold on_error. unfold mbind at 1. unfold get_state at 1.
    rewrite Hfind, Hcap. unfold mbind, modify, on_world, zoom.
    cbn [world set_children].
    match goal with
    | |- context [finish_hook ?hd (Some message) iso_now (world h)] =>
        destruct (finish_hook hd (Some message) iso_now (world h)) as [r w']
    end.
    reflexivity. }
  split; [|split].
  - unfold prop, prop_of. rewrite JSFacts.lookup_set_all_other by reflexivity.
    reflexivity.
  - rewrite Hrun. reflexivity.
  - rewrite Hrun. reflexivity.
Qed.

Lemma stdin_event_outcome
        (h : Host) (id : nat) (c : Child) (k : Capture) (wc : WriteCall) (ev : props)
        (code : value) (message : string) (now : Z) (iso_now : string)
        (listener : Comp Host (option Otel.Span)) :
  find_child (children h) id = Some c ->
  capture c = Some k ->
  truthy (chunk wc) = true ->
  JSON.parse (Str.trim (cap_stdinData k ++ ToString (chunk wc))) = Some (VObj ev) ->
  strict_eq (prop_of ev "hook_event_name") (VStr "PostToolUse") = true ->
  Fs.can_write (fs (world h)) (logFile (world h)) = true ->
  Otel.tracerInstance (otel (world h)) = true ->
  listener = on_close id code now iso_now
  \/ listener = on_error id message now iso_now ->
  let w := world h in
  let old := match Fs.find (Fs.files (fs w)) (logFile w) with
             | Some text => text
             | None => EmptyString
             end in
  let found := findRecentToolUseId (prop_of ev "tool_name") (prop_of ev "tool_input")
                 (logFile w) (fs w) in
  let ended := listener (snd (stdin_write id wc h)) in
  (truthy (prop_of ev "session_id") = true ->
   exists execution sp,
     fst ended = Ok (Some sp)
     /\ te_toolUseId execution = found
     /\ te_toolName execution = prop_of ev "tool_name"
     /\ te_toolInput execution = prop_of ev "tool_input"
     /\ Fs.find (Fs.files (fs (world (snd ended)))) (logFile w)
        = Some (old ++ JSON.stringify_text (tool_execution_json execution)
                    ++ Str.nl)%string
     /\ Otel.exported (otel (world (snd ended)))
        = (Otel.exported (otel w) ++ [sp])%list
     /\ (truthy found && Otel.isAttributeValue found = true ->
         lookup (Otel.attributes sp) "tool.use_id" = Some found)
     /\ (truthy found && Otel.isAttributeValue found = false ->
         lookup (Otel.attributes sp) "tool.use_id" = None))
  /\ (truthy (prop_of ev "session_id") = false ->
      truthy (prop (cap_hookData k) "hookEventData") = false ->
      exists record r,
        fst ended = Ok r
        /\ prop_of record "eventType" = VStr "hook"
        /\ Fs.find (Fs.files (fs (world (snd ended)))) (logFile w)
           = Some (old ++ JSON.stringify_text (VObj record) ++ Str.nl)%string).
Proof.
  intros Hfind Hcap Hchunk Hparse Hpost Hw Hinit Hlistener w old found ended.
  destruct (stdin_write_run h id wc c k Hfind Hcap) as (Hworld & c1 & Hfind1 & Hcap1).
  assert (Hname : truthy (prop_of ev "hook_event_name") = true).
  { destruct (prop_of ev "hook_event_name") as [| | | | |s| |]; try discriminate Hpost.
    simpl in Hpost. apply String.eqb_eq in Hpost. subst s. reflexivity. }
  pose proof (capture_chunk_event k (chunk wc) ev Hchunk Hparse Hname) as Hdata.
  set (h1 := snd (stdin_write id wc h)) in *.
  set (k1 := capture_chunk k (chunk wc)) in *.
  assert (Hrun : exists hookData error,
             prop hookData "hookEventData" = prop (cap_hookData k1) "hookEventData"
             /\ fst ended = fst (finish_hook hookData error iso_now w)
             /\ world (snd ended) = snd (finish_hook hookData error iso_now w)).
  { unfold ended, w. rewrite <- Hworld. destruct Hlistener as [-> | ->].
    - destruct (on_close_run h1 id c1 k1 code now iso_now Hfind1 Hcap1)
        as (hd & H1 & H2 & H3).
      exists hd, None. auto.
    - destruct (on_error_run h1 id c1 k1 message now iso_now Hfind1 Hcap1)
        as (hd & H1 & H2 & H3).
      exists hd, (Some message). auto. }
  destruct Hrun as (hookData & error & Hhd & Hfst & Hsnd).
  split.
  - intros Hsid. rewrite Hsid in Hdata.
    assert (Hev : prop hookData "hookEventData" = VObj ev).
    { rewrite Hhd, Hdata. unfold prop, prop_of.
      rewrite JSFacts.lookup_obj_set_same. reflexivity. }
    destruct (finish_hook_post_tool_use hookData ev error iso_now w Hev Hpost Hw Hinit)
      as (execution & sp & w' & E & H1 & H2 & H3 & H4 & H5 & H6 & H7).
    rewrite E in Hfst, Hsnd. simpl in Hfst, Hsnd.
    exists execution, sp. rewrite Hsnd.
    repeat split; assumption.
  - intros Hsid Hbefore. rewrite Hsid in Hdata.
    assert (Hnone : truthy (prop hookData "hookEventData") = false)
      by (rewrite Hhd, Hdata; exact Hbefore).
    destruct (finish_hook_plain hookData error iso_now w Hnone Hw)
      as (r & w' & E & Hfile).
    rewrite E in Hfst, Hsnd. simpl in Hfst, Hsnd.
    exists (set_all (spread [] (VObj hookData)) [("eventType", VStr "hook")]), r.
    rewrite Hsnd. split; [exact Hfst|]. split; [|exact Hfile].
    unfold prop_of, set_all. cbn [fold_left fst snd].
    rewrite JSFacts.lookup_obj_set_same. reflexivity.
Qed.

(** X27.  A PostToolUse event written to a hook becomes a correlated tool
    execution, if it names its session.  The host writes to the standard
    input of a child that the interceptor watches a chunk that completes
    the JSON text of an object whose [hook_event_name] is PostToolUse; then
    the child ends, through the [close] or the [error] listener; the
    events log can be appended to and the tracer is initialised.  When
    the event has a truthy [session_id], the listener appends one line to
    the log, the record of a completed tool execution whose [toolUseId] is
    what the correlator finds for the name and the input of the tool in
    the log as it was, and exports one span, which carries that identifier
    as [tool.use_id] when the correlator found one and no [tool.use_id]
    otherwise.  When the event has no truthy [session_id], the write does
    not store it: unless an event was stored before, the line that the
    listener appends is the record of a plain hook. *)
Theorem post_tool_use_on_stdin_is_correlated
        (h : Host) (id : nat) (c : Child) (k : Capture) (wc : WriteCall) (ev : props)
        (code : value) (message : string) (now : Z) (iso_now : string)
        (listener : Comp Host (option Otel.Span)) :
  find_child (children h) id = Some c ->
  capture c = Some k ->
  truthy (chunk wc) = true ->
  JSON.parse (Str.trim (cap_stdinData k ++ ToString (chunk wc))) = Some (VObj ev) ->
  strict_eq (prop_of ev "hook_event_name") (VStr "PostToolUse") = true ->
  Fs.can_write (fs (world h)) (logFile (world h)) = true ->
  Otel.tracerInstance (otel (world h)) = true ->
  listener = on_close id code now iso_now
  \/ listener = on_error id message now iso_now ->
  let w := world h in
  let old := match Fs.find (Fs.files (fs w)) (logFile w) with
             | Some text => text
             | None => EmptyString
             end in
  let found := findRecentToolUseId (prop_of ev "tool_name") (prop_of ev "tool_input")
                 (logFile w) (fs w) in
  let ended := listener (snd (stdin_write id wc h)) in
  (truthy (prop_of ev "session_id") = true ->
   exists execution sp,
     fst ended = Ok (Some sp)
     /\ te_toolUseId execution = found
     /\ te_toolName execution = prop_of ev "tool_name"
     /\ te_toolInput execution = prop_of ev "tool_input"
     /\ Fs.find (Fs.files (fs (world (snd ended)))) (logFile w)
        = Some (old ++ JSON.stringify_text (tool_execution_json execution)
                    ++ Str.nl)%string
     /\ Otel.exported (otel (world (snd ended)))
        = (Otel.exported (otel w) ++ [sp])%list
     /\ (truthy found && Otel.isAttributeValue found = true ->
         lookup (Otel.attributes sp) "tool.use_id" = Some found)
     /\ (truthy found && Otel.isAttributeValue found = false ->
         lookup (Otel.attributes sp) "tool.use_id" = None))
  /\ (truthy (prop_of ev "session_id") = false ->
      truthy (prop (cap_hookData k) "hookEventData") = false ->
      exists record r,
        fst ended = Ok r
        /\ prop_of record "eventType" = VStr "hook"
        /\ Fs.find (Fs.files (fs (world (snd ended)))) (logFile w)
           = Some (old ++ JSON.stringify_text (VObj record) ++ Str.nl)%string).
Proof. exact (stdin_event_outcome h id c k wc ev code message now iso_now listener). Qed.

End HookCompletion.

Module HookCompletionExamples.
Import JS Eff Preload Examples Examples2.

Lemma post_tool_use_on_stdin_witness :
  exists c k sp,
    find_child (children watching_host) 0%nat = Some c
    /\ capture c = Some k
    /\ fst (on_close 0%nat (num 0) 1020 "2024-01-01T00:00:01.020Z"
              (snd (stdin_write 0%nat post_tool_use_write watching_host)))
       = Ok (Some sp)
    /\ lookup (Otel.attributes sp) "tool.use_id" = Some (VStr "toolu_2").
Proof.
  destruct (find_child (children watching_host) 0%nat) as [c|] eqn:Hfind;
    [|vm_compute in Hfind; discriminate Hfind].
  destruct (capture c) as [k|] eqn:Hcap.
  2:{ vm_compute in Hfind. injection Hfind as <-. discriminate Hcap. }
  assert (Hk : cap_stdinData k = EmptyString).
  { vm_compute in Hfind. injection Hfind as <-. injection Hcap as <-. reflexivity. }
  destruct (HookCompletion.post_tool_use_on_stdin_is_correlated
              watching_host 0%nat c k post_tool_use_write post_tool_use
              (num 0) EmptyString 1020 "2024-01-01T00:00:01.020Z"
              (on_close 0%nat (num 0) 1020 "2024-01-01T00:00:01.020Z")
              Hfind Hcap eq_refl)
    as [Hstored _].
  - rewrite Hk. vm_compute. reflexivity.
  - reflexivity.
  - reflexivity.
  - reflexivity.
  - left. reflexivity.
  - destruct (Hstored eq_refl) as (execution & sp & E & Hid & _ & _ & _ & _ & Hsome & _).
    exists c, k, sp. split; [reflexivity|]. split; [exact Hcap|].
    split; [exact E|].
    apply Hsome. vm_compute. reflexivity.
Defined.

End HookCompletionExamples.

(* ================================================================== *)
(** * The fetch interceptor: further properties *)
(* ================================================================== *)

Module FetchFrames.
Import JS Eff Preload FetchSpec2.

Lemma disk_ret {A} (a : A) : keeps_disk (ret a).
Proof. intros w; split; reflexivity. Qed.

Lemma disk_throw {A} (e : string) : keeps_disk (@throw World A e).
Proof. intros w; split; reflexivity. Qed.

Lemma disk_of_result {A} (r : result A) : keeps_disk (of_result r).
Proof. intros w; split; reflexivity. Qed.

Lemma disk_get_state : keeps_disk (@get_state World).
Proof. intros w; split; reflexivity. Qed.

Lemma disk_bind {A B} (m : Comp World A) (k : A -> Comp World B) :
  keeps_disk m -> (forall a, keeps_disk (k a)) -> keeps_disk (mbind m k).
Proof.
  intros Hm Hk w. unfold mbind. specialize (Hm w).
  destruct (m w) as [[a|e] w1]; simpl in *.
  - destruct (Hk a w1) as [H1 H2]. destruct Hm as [H3 H4]. split; congruence.
  - exact Hm.
Qed.

Lemma disk_try_catch {A} (m : Comp World A) (h : string -> Comp World A) :
  keeps_disk m -> (forall e, keeps_disk (h e)) -> keeps_disk (try_catch m h).
Proof.
  intros Hm Hh w. unfold try_catch. specialize (Hm w).
  destruct (m w) as [[a|e] w1]; simpl in *.
  - exact Hm.
  - destruct (Hh e w1) as [H1 H2]. destruct Hm as [H3 H4]. split; congruence.
Qed.

Lemma disk_on_otel {A} (m : Otel.M A) : keeps_disk (on_otel m).
Proof. intros w. unfold on_otel, zoom. destruct (m (otel w)); split; reflexivity. Qed.

Lemma disk_console_error (msg : string) : keeps_disk (console_error msg).
Proof. intros w; split; reflexivity. Qed.

Lemma disk_append_log (line : string) : keeps_disk (append_log line).
Proof.
  intros w. unfold append_log, mbind, get_state, on_fs, zoom, Fs.appendFileSync.
  destruct (Fs.can_write (fs w) (logFile w)); split; reflexivity.
Qed.

Lemma disk_record_tool_uses (iso : string) (blocks : list value) :
  keeps_disk (record_tool_uses iso blocks).
Proof.
  induction blocks as [|b rest IH]; simpl; [apply disk_ret|].
  apply disk_bind; [apply disk_of_result|]. intros ty.
  apply disk_bind; [|intros _; exact IH].
  destruct (strict_eq ty (VStr "tool_use")); [apply disk_append_log | apply disk_ret].
Qed.

Lemma disk_read_enhanced (rc : value) (resp : Response) (iso : string) (d : Z) :
  keeps_disk (read_enhanced rc resp iso d).
Proof.
  unfold read_enhanced. apply disk_try_catch.
  - unfold read_response.
    apply disk_bind; [apply disk_of_result|]. intros responseBody.
    apply disk_bind.
    { destruct (is_sse responseBody); [apply disk_ret | apply disk_of_result]. }
    intros parsed.
    apply disk_bind.
    { destruct (truthy (fst parsed)); [|apply disk_ret].
      apply disk_bind; [apply disk_of_result|]. intros content.
      destruct content; try apply disk_ret. apply disk_record_tool_uses. }
    intros _.
    match goal with |- context [if ?b then _ else _] => destruct b end; apply disk_ret.
  - intros e. apply disk_bind; [apply disk_console_error|].
    intros _. apply disk_ret.
Qed.

Lemma disk_open_api_span (url : string) (method : value) :
  keeps_disk (open_api_span url method).
Proof.
  unfold open_api_span. apply disk_try_catch; [|intros e; apply disk_ret].
  apply disk_bind.
  { unfold initializeOTELTracer. apply disk_bind; [apply disk_get_state|].
    intros w0. destruct (otelInitialized w0); [apply disk_ret|].
    apply disk_try_catch; [|intros e; apply disk_ret].
    apply disk_bind; [apply disk_on_otel|]. intros _.
    intros w; split; reflexivity. }
  intros _. apply disk_bind; [apply disk_on_otel|]. intros sp. apply disk_ret.
Qed.

(** The [catch] block passes the error on *)
Lemma fail_request_throws (o : option Otel.Span) (e : string) (w : World) :
  fst (fail_request o e w) = Throw e.
Proof.
  unfold fail_request. destruct o as [sp|]; [|reflexivity].
  unfold mbind, on_otel, zoom, Otel.end_span.
  match goal with |- context [if ?b then _ else _] => destruct b end; reflexivity.
Qed.

Lemma append_log_ok (line : string) (w : World) :
  Fs.can_write (fs w) (logFile w) = true ->
  exists w', append_log line w = (Ok tt, w').
Proof.
  intros H. unfold append_log, mbind, get_state, on_fs, zoom, Fs.appendFileSync.
  rewrite H. eexists. reflexivity.
Qed.

Lemma append_log_denied (line : string) (w : World) :
  Fs.can_write (fs w) (logFile w) = false ->
  exists e w', append_log line w = (Throw e, w').
Proof.
  intros H. unfold append_log, mbind, get_state, on_fs, zoom, Fs.appendFileSync.
  rewrite H. eexists; eexists. reflexivity.
Qed.

Lemma isAnthropicAPI_run (url h : string) (w : World) :
  apiHost w = Ok h -> isAnthropicAPI url w = (Ok (Str.includes url h), w).
Proof.
  intros Hhost. unfold isAnthropicAPI, mbind, get_state, of_result.
  rewrite Hhost. reflexivity.
Qed.

End FetchFrames.

Module FetchOutcome.
Import JS Eff Preload FetchSpec2.

(** X9.  Requests to other hosts are left alone.  A request whose URL does not
    contain the host name of the API is handed to the original [fetch];
    the host gets what the original returns, and the interceptor opens no
    span, writes no record and prints nothing. *)
Theorem other_hosts_pass_through
        (url : string) (init : value) (network : result Response)
        (requestTimestamp responseTimestamp : Z) (iso_now : string)
        (w : World) (h : string) :
  apiHost w = Ok h ->
  Str.includes url h = false ->
  intercepted_fetch url init network requestTimestamp
    responseTimestamp iso_now w = (network, w).
Proof.
  intros Hhost Hother. unfold intercepted_fetch. cbv zeta.
  rewrite (EffFacts.mbind_ok _ _ _ _ _ (FetchFrames.isAnthropicAPI_run url h w Hhost)).
  rewrite Hother. reflexivity.
Qed.

(** X10.  What the host gets from an intercepted request.  For a request to
    the API: when the original [fetch] fails, the host gets the same
    error.  When it returns a response, the host gets that response if the
    second argument of the call is not [null] and the events log can be
    appended to, whatever the body holds and whether or not tracing works.
    When the second argument is [null], reading [init.method] for the
    record throws after the response has arrived, and when the events log
    cannot be appended to, the writing throws: in both cases the host gets
    an error although the request succeeded. *)
Theorem host_gets_the_response_unless_recording_fails
        (url : string) (init : value) (network : result Response)
        (requestTimestamp responseTimestamp : Z) (iso_now : string)
        (w w' : World) (h : string) (r : result Response) :
  apiHost w = Ok h ->
  Str.includes url h = true ->
  intercepted_fetch url init network requestTimestamp
    responseTimestamp iso_now w = (r, w') ->
  match network with
  | Throw e => r = Throw e
  | Ok response =>
      match init with
      | VNull => exists e, r = Throw e
      | _ =>
          if Fs.can_write (fs w) (logFile w) then r = Ok response
          else exists e, r = Throw e
      end
  end.
Proof.
  intros Hhost Hapi.
  unfold intercepted_fetch. cbv zeta.
  rewrite (EffFacts.mbind_ok _ _ _ _ _ (FetchFrames.isAnthropicAPI_run url h w Hhost)).
  rewrite Hapi. change (negb true) with false. cbv iota.
  set (init' := init_or_default init).
  set (method := or_else (get_opt init' "method") (VStr "GET")).
  set (rc := request_content method (get_opt init' "body")).
  destruct (FetchFacts.open_api_span_spec url method w) as (o & w1 & E1 & _ & Ho).
  pose proof (FetchFrames.disk_open_api_span url method w) as Hk1.
  rewrite E1 in Hk1. simpl in Hk1. destruct Hk1 as [Hw1 Hd1].
  rewrite (EffFacts.mbind_ok _ _ _ _ _ E1).
  assert (Hfail : forall e w0 x, fail_request o e w0 = x -> fst x = Throw e).
  { intros e w0 x <-. apply FetchFrames.fail_request_throws. }
  destruct network as [response|e].
  - set (d := responseTimestamp - requestTimestamp).
    destruct (FetchFacts.enhanced_data_total rc response iso_now d w1)
      as (ed & w2 & E2 & _).
    pose proof (FetchFrames.disk_read_enhanced rc response iso_now d w1) as Hk2.
    rewrite E2 in Hk2. simpl in Hk2. destruct Hk2 as [Hw2 Hd2].
    assert (Hlog : logFile w2 = logFile w) by (unfold logFile; congruence).
    assert (Hperm : Fs.can_write (fs w2) (logFile w2) = Fs.can_write (fs w) (logFile w))
      by congruence.
    assert (Hnull : init = VNull ->
                    forall x, try_catch
                                (respond url init' rc o (Ok response) requestTimestamp
                                   responseTimestamp iso_now)
                                (fail_request o) w1 = x ->
                              exists e, fst x = Throw e).
    { intros Hinit x Hx.
      assert (Hres : exists e,
                 respond url init' rc o (Ok response) requestTimestamp
                   responseTimestamp iso_now w1 = (Throw e, w2)).
      { unfold respond. cbv zeta. fold d.
        rewrite (EffFacts.mbind_ok _ _ w1 w1 response) by reflexivity.
        rewrite (EffFacts.mbind_ok _ _ _ _ _ E2).
        unfold init'. rewrite Hinit. eexists.
        apply EffFacts.mbind_throw. reflexivity. }
      destruct Hres as (e & E4).
      rewrite (EffFacts.try_catch_throw _ _ _ _ _ E4) in Hx.
      exists e. exact (Hfail _ _ _ Hx). }
    assert (Hget : init <> VNull ->
                   get init' "method" = Ok (get_opt init' "method")).
    { intros Hinit. unfold init', get_opt.
      destruct init; try reflexivity; [congruence|..];
        cbn [init_or_default]; destruct (get _ "method"); reflexivity. }
    assert (Hother : init <> VNull ->
                     forall x, try_catch
                                 (respond url init' rc o (Ok response) requestTimestamp
                                    responseTimestamp iso_now)
                                 (fail_request o) w1 = x ->
                     if Fs.can_write (fs w) (logFile w) then fst x = Ok response
                     else exists e, fst x = Throw e).
    { intros Hinit x Hx. specialize (Hget Hinit).
      destruct (Fs.can_write (fs w) (logFile w)).
      + assert (Hres : exists w4,
                   respond url init' rc o (Ok response) requestTimestamp
                     responseTimestamp iso_now w1 = (Ok response, w4)).
        { unfold respond. cbv zeta. fold d.
          rewrite (EffFacts.mbind_ok _ _ w1 w1 response) by reflexivity.
          rewrite (EffFacts.mbind_ok _ _ _ _ _ E2).
          rewrite (EffFacts.mbind_ok _ _ w2 w2 (get_opt init' "method"))
            by (unfold of_result; rewrite Hget; reflexivity).
          match goal with
          | |- context [append_log ?line] =>
              destruct (FetchFrames.append_log_ok line w2 Hperm) as (w3 & E3)
          end.
          rewrite (EffFacts.mbind_ok _ _ _ _ _ E3).
          destruct o as [sp|].
          - destruct (Ho sp eq_refl) as (Hopen & _).
            destruct (FetchFacts.complete_span_spec sp response ed d (otel w3) Hopen)
              as (sp' & E4 & _).
            pose proof (EffFacts.zoom_run otel set_otel (complete_span sp response ed d)
                          w3 _ _ E4) as E5.
            fold (on_otel (complete_span sp response ed d)) in E5.
            assert (E6 : mbind (on_otel (complete_span sp response ed d))
                               (fun _ => ret tt) w3
                         = (Ok tt,
                            set_otel w3
                              (Otel.with_exported (otel w3)
                                 (Otel.exported (otel w3) ++ [sp'])%list)))
              by (rewrite (EffFacts.mbind_ok _ _ _ _ _ E5); reflexivity).
            eexists. rewrite (EffFacts.mbind_ok _ _ _ _ _ E6). reflexivity.
          - eexists. rewrite (EffFacts.mbind_ok _ _ w3 w3 tt) by reflexivity.
            reflexivity. }
        destruct Hres as (w4 & E4).
        rewrite (EffFacts.try_catch_ok _ _ _ _ _ E4) in Hx. subst x. reflexivity.
      + assert (Hres : exists e w4,
                   respond url init' rc o (Ok response) requestTimestamp
                     responseTimestamp iso_now w1 = (Throw e, w4)).
        { unfold respond. cbv zeta. fold d.
          rewrite (EffFacts.mbind_ok _ _ w1 w1 response) by reflexivity.
          rewrite (EffFacts.mbind_ok _ _ _ _ _ E2).
          rewrite (EffFacts.mbind_ok _ _ w2 w2 (get_opt init' "method"))
            by (unfold of_result; rewrite Hget; reflexivity).
          match goal with
          | |- context [append_log ?line] =>
              destruct (FetchFrames.append_log_denied line w2 Hperm) as (e & w3 & E3)
          end.
          rewrite (EffFacts.mbind_throw _ _ _ _ _ E3). eexists; eexists; reflexivity. }
        destruct Hres as (e & w4 & E4).
        rewrite (EffFacts.try_catch_throw _ _ _ _ _ E4) in Hx.
        exists e. exact (Hfail _ _ _ Hx). }
    intros H.
    destruct init;
      try (specialize (Hother ltac:(discriminate) _ H);
           destruct (Fs.can_write (fs w) (logFile w)); exact Hother).
    destruct (Hnull eq_refl _ H) as (e & He). exists e. exact He.
  - assert (Hres : respond url init' rc o (Throw e) requestTimestamp
                     responseTimestamp iso_now w1 = (Throw e, w1)).
    { unfold respond. now rewrite (EffFacts.mbind_throw _ _ w1 w1 e). }
    rewrite (EffFacts.try_catch_throw _ _ _ _ _ Hres). intros H.
    apply Hfail in H. exact H.
Qed.

End FetchOutcome.

Module FetchExamples.
Import JS Eff Preload Examples Examples2.

Lemma other_hosts_pass_through_witness :
  intercepted_fetch "https://example.com/feed" VUndef (Ok ok_response)
    1000 1250 "2024-01-01T00:00:01.250Z" (host "" true)
  = (Ok ok_response, host "" true).
Proof.
  apply (FetchOutcome.other_hosts_pass_through
           "https://example.com/feed" VUndef (Ok ok_response)
           1000 1250 "2024-01-01T00:00:01.250Z" (host "" true) "api.anthropic.com");
    reflexivity.
Defined.

Lemma host_gets_the_response_witness :
  fst (request_run ok_response (host "" true)) = Ok ok_response
  /\ (exists e, fst (request_run ok_response read_only_host) = Throw e)
  /\ (exists e, fst (null_init_run ok_response (host "" true)) = Throw e).
Proof.
  split; [|split].
  - exact (FetchOutcome.host_gets_the_response_unless_recording_fails
             messages_url request_init (Ok ok_response)
             1000 1250 "2024-01-01T00:00:01.250Z" (host "" true)
             (snd (request_run ok_response (host "" true))) "api.anthropic.com"
             (fst (request_run ok_response (host "" true)))
             eq_refl eq_refl (surjective_pairing _)).
  - exact (FetchOutcome.host_gets_the_response_unless_recording_fails
             messages_url request_init (Ok ok_response)
             1000 1250 "2024-01-01T00:00:01.250Z" read_only_host
             (snd (request_run ok_response read_only_host)) "api.anthropic.com"
             (fst (request_run ok_response read_only_host))
             eq_refl eq_refl (surjective_pairing _)).
  - exact (FetchOutcome.host_gets_the_response_unless_recording_fails
             messages_url VNull (Ok ok_response)
             1000 1250 "2024-01-01T00:00:01.250Z" (host "" true)
             (snd (null_init_run ok_response (host "" true))) "api.anthropic.com"
             (fst (null_init_run ok_response (host "" true)))
             eq_refl eq_refl (surjective_pairing _)).
Defined.

Lemma api_span_status_witness :
  exists new,
    Otel.exported (otel (snd (request_run overloaded_response (host "" true))))
    = (Otel.exported (otel (host "" true)) ++ new)%list
    /\ forall sp, In sp new -> Otel.status sp = Otel.OK \/ Otel.status sp = Otel.ERROR.
Proof.
  destruct (FetchStatus.api_span_status_ok_iff_http_2xx
              messages_url request_init (Ok overloaded_response)
              1000 1250 "2024-01-01T00:00:01.250Z" (host "" true)
              (snd (request_run overloaded_response (host "" true)))
              (fst (request_run overloaded_response (host "" true)))
              (surjective_pairing _))
    as (new & Hexp & Hall).
  exists new. split; [exact Hexp|]. intros sp Hsp. exact (proj1 (Hall sp Hsp)).
Defined.

Lemma sse_usage_witness :
  get_opt (get_opt (fst (fold_left sse_line [sse_start; sse_delta] (VNull, EmptyString)))
             "usage") "input_tokens"
  = num 7.
Proof.
  destruct (UsageMerge.sse_usage_later_non_null_wins [sse_start] sse_delta sse_delta_data
              eq_refl eq_refl eq_refl)
    as (Hin & _ & _).
  exact (Hin (num 7) eq_refl eq_refl).
Defined.

End FetchExamples.

Module Truncation.
Import JS Preload.

Lemma length_take (n : nat) (s : string) :
  String.length (Str.take n s) = Nat.min n (String.length s).
Proof.
  revert s. induction n as [|n IH]; intros [|c s]; simpl; auto.
Qed.

Lemma length_append (s t : string) :
  String.length (s ++ t) = (String.length s + String.length t)%nat.
Proof. induction s as [|c s IH]; simpl; auto. Qed.

Lemma take_append_take (n : nat) (s t : string) :
  Str.take n (Str.take n s ++ t) = Str.take n s \/ (String.length s < n)%nat.
Proof.
  revert s. induction n as [|n IH]; intros [|c s]; simpl; auto.
  - right. lia.
  - destruct (IH s) as [H|H]; [left; now rewrite H | right; lia].
Qed.

(** X13.  The limit on the texts kept in spans.  [truncateContent] gives [null]
    for an empty text; a text that fits is kept as it is; a longer one is
    cut to its first [maxLength] characters followed by a marker of 15
    characters, so that the result never exceeds [maxLength + 15]
    characters. *)
Theorem truncateContent_bounds (content : string) (maxLength : nat) :
  (content = EmptyString -> truncateContent content maxLength = VNull)
  /\ (content <> EmptyString ->
      exists t,
        truncateContent content maxLength = VStr t
        /\ (String.length t <= maxLength + 15)%nat
        /\ ((String.length content <= maxLength)%nat -> t = content)
        /\ ((maxLength < String.length content)%nat ->
            t = (Str.take maxLength content ++ "... [TRUNCATED]")%string
            /\ Str.take maxLength t = Str.take maxLength content)).
Proof.
  split; [intros ->; reflexivity|].
  intros Hne. unfold truncateContent.
  destruct content as [|c s]; [now destruct Hne|]. cbn [Str.is_empty].
  destruct (Nat.leb_spec (String.length (String c s)) maxLength) as [Hle|Hgt].
  - exists (String c s). repeat split; try lia.
  - eexists. split; [reflexivity|]. unfold Str.substring_to.
    rewrite length_append, length_take. simpl String.length at 2.
    split; [lia|]. split; [intros; lia|]. intros _. split; [reflexivity|].
    destruct (take_append_take maxLength (String c s) "... [TRUNCATED]") as [H|H];
      [exact H | lia].
Qed.

End Truncation.

(* ================================================================== *)
(** * The exporter: further properties *)
(* ================================================================== *)


Module ExporterFacts.
Import JS Eff Exporter.

Section AnySerializer.

Variable serializeRequest : list Otel.Span -> result string.

Lemma export_outcome
        (c : Config) (spans : list Otel.Span) (env : Env) :
  exists env',
    export serializeRequest c spans env = (Ok SUCCESS, env')
    /\ ((exists e, serializeRequest (map (stamp c) spans) = Throw e)
        \/ (exists text, serializeRequest (map (stamp c) spans) = Ok text
                         /\ JSON.parse text = None)
        \/ Fs.can_write (fs env) (outputPath c) = false ->
        fs env' = fs env /\ exists msg, stderr env' = (stderr env ++ [msg])%list)
    /\ (forall text json,
          serializeRequest (map (stamp c) spans) = Ok text ->
          JSON.parse text = Some json ->
          Fs.can_write (fs env) (outputPath c) = true ->
          stderr env' = stderr env
          /\ Fs.find (Fs.files (fs env')) (outputPath c)
             = Some ((match Fs.find (Fs.files (fs env)) (outputPath c) with
                      | Some old => old
                      | None => EmptyString
                      end) ++ JSON.stringify_text json ++ Str.nl)%string
          /\ forall p, p <> outputPath c ->
                       Fs.find (Fs.files (fs env')) p = Fs.find (Fs.files (fs env)) p).
Proof.
  unfold export, write_batch, try_catch, mbind, of_result, on_fs, zoom,
    Fs.appendFileSync, console_error, modify, ret.
  cbv zeta.
  destruct (serializeRequest (map (stamp c) spans)) as [text|e] eqn:Eser.
  - destruct (JSON.parse text) as [json|] eqn:Eparse.
    + destruct (Fs.can_write (fs env) (outputPath c)) eqn:Ew.
      * eexists. split; [reflexivity|]. split.
        -- intros [(e & He)|[(t & Ht & Hn)|Hf]]; try discriminate.
           assert (t = text) by congruence. subst t. congruence.
        -- intros t j Ht Hj _. assert (t = text) by congruence. subst t.
           assert (j = json) by congruence. subst j. cbn.
           split; [reflexivity|]. split.
           ++ apply FsFacts.find_store_same.
           ++ intros p Hp. apply FsFacts.find_store_other. congruence.
      * eexists. split; [reflexivity|]. split.
        -- intros _. cbn. split; [reflexivity|]. eexists. reflexivity.
        -- intros t j _ _ Hf. discriminate Hf.
    + eexists. split; [reflexivity|]. split.
      * intros _. cbn. split; [reflexivity|]. eexists. reflexivity.
      * intros t j Ht Hj _. assert (t = text) by congruence. subst t. congruence.
  - eexists. split; [reflexivity|]. split.
    + intros _. cbn. split; [reflexivity|]. eexists. reflexivity.
    + intros t j Ht. discriminate Ht.
Qed.

(** X14.  Export always reports success.  Whatever the serializer of the SDK
    does and whatever the state of the disk, [export] passes SUCCESS to
    its callback.  When the batch cannot be serialized, or its text is not
    JSON, or the trace file cannot be appended to, no file changes and one
    error is printed: the whole batch is lost.  Otherwise nothing is
    printed and exactly one line, the JSON text of the batch, is added at
    the end of the trace file, every other file staying as it was. *)
Theorem export_always_reports_success
        (c : Config) (spans : list Otel.Span) (env : Env) :
  exists env',
    export serializeRequest c spans env = (Ok SUCCESS, env')
    /\ ((exists e, serializeRequest (map (stamp c) spans) = Throw e)
        \/ (exists text, serializeRequest (map (stamp c) spans) = Ok text
                         /\ JSON.parse text = None)
        \/ Fs.can_write (fs env) (outputPath c) = false ->
        fs env' = fs env /\ exists msg, stderr env' = (stderr env ++ [msg])%list)
    /\ (forall text json,
          serializeRequest (map (stamp c) spans) = Ok text ->
          JSON.parse text = Some json ->
          Fs.can_write (fs env) (outputPath c) = true ->
          stderr env' = stderr env
          /\ Fs.find (Fs.files (fs env')) (outputPath c)
             = Some ((match Fs.find (Fs.files (fs env)) (outputPath c) with
                      | Some old => old
                      | None => EmptyString
                      end) ++ JSON.stringify_text json ++ Str.nl)%string
          /\ forall p, p <> outputPath c ->
                       Fs.find (Fs.files (fs env')) p = Fs.find (Fs.files (fs env)) p).
Proof. exact (export_outcome c spans env). Qed.

End AnySerializer.

(** X15.  The session of the exporter replaces that of the span.  Every span
    handed to the serializer carries as [session.id] the session of the
    exporter, whatever [session.id] the span was given when it was made,
    and as [parent.session.id] the parent session of the exporter when there
    is one; its other attributes are those of the span. *)
Theorem exporter_session_replaces_span_session (c : Config) (sp : Otel.Span) :
  lookup (Otel.attributes (stamp c sp)) "session.id" = Some (VStr (sessionId c))
  /\ (forall p, parentSessionId c = Some p -> Str.is_empty p = false ->
        lookup (Otel.attributes (stamp c sp)) "parent.session.id" = Some (VStr p))
  /\ (forall k, k <> "session.id" -> k <> "parent.session.id" ->
        lookup (Otel.attributes (stamp c sp)) k = lookup (Otel.attributes sp) k).
Proof.
  unfold stamp. cbn [Otel.attributes]. split; [|split].
  - destruct (parentSessionId c) as [p|]; [destruct (Str.is_empty p)|];
      rewrite ?JSFacts.lookup_obj_set_other by reflexivity;
      apply JSFacts.lookup_obj_set_same.
  - intros p -> ->. apply JSFacts.lookup_obj_set_same.
  - intros k H1 H2.
    assert (E1 : String.eqb "session.id" k = false)
      by (apply String.eqb_neq; congruence).
    assert (E2 : String.eqb "parent.session.id" k = false)
      by (apply String.eqb_neq; congruence).
    destruct (parentSessionId c) as [p|]; [destruct (Str.is_empty p)|];
      rewrite ?(JSFacts.lookup_obj_set_other _ _ _ _ E2);
      apply (JSFacts.lookup_obj_set_other _ _ _ _ E1).
Qed.

End ExporterFacts.

(* ================================================================== *)
(** * The report: further properties *)
(* ================================================================== *)

Module StrFacts.
Import JS PageSpec.

Lemma chars_app (s t : string) : chars (s ++ t) = (chars s ++ chars t)%list.
Proof. unfold chars, Str.to_list. induction s as [|c s IH]; simpl; congruence. Qed.

(** A plain replacement is inserted as it is *)
Lemma expand_plain (repl matched before after : string) :
  plain repl = true -> Str.expand repl matched before after = repl.
Proof.
  unfold plain, chars, Str.to_list.
  induction repl as [|c r IH]; simpl; [reflexivity|].
  rewrite andb_true_iff, negb_true_iff. intros [Hc Hr]. rewrite Hc, (IH Hr).
  reflexivity.
Qed.

Lemma chars_cons (a : ascii) (s : string) : chars (String a s) = a :: chars s.
Proof. reflexivity. Qed.

(** A global replacement by a plain text brings in no character that is
    neither in the text nor in the replacement. *)
Lemma replace_all_go_chars (p repl : string) :
  plain repl = true ->
  forall s skip before c,
    In c (chars (Str.replace_all_go p repl s skip before)) ->
    In c (chars s) \/ In c (chars repl).
Proof.
  intros Hplain. induction s as [|a s IH]; intros skip before c;
    cbn [Str.replace_all_go]; [tauto|].
  rewrite chars_cons. destruct skip as [|k].
  - destruct (String.prefix p (String a s)).
    + rewrite (expand_plain _ _ _ _ Hplain), chars_app, in_app_iff.
      intros [H|H]; [now right|]. apply IH in H. simpl. tauto.
    + rewrite chars_cons. intros [H|H]; [now left; left|].
      apply IH in H. simpl. tauto.
  - intros H. apply IH in H. simpl. tauto.
Qed.

Lemma prefix_single (a b : ascii) (s : string) :
  String.prefix (String a EmptyString) (String b s) = Ascii.eqb a b.
Proof.
  simpl. destruct (ascii_dec a b) as [->|Hne].
  - rewrite Ascii.eqb_refl. now destruct s.
  - symmetry. now apply Ascii.eqb_neq.
Qed.

(** A global replacement of one character by a plain text that does not
    contain it removes the character. *)
Lemma replace_all_removes (a : ascii) (repl : string) :
  plain repl = true ->
  ~ In a (chars repl) ->
  forall s before,
    ~ In a (chars (Str.replace_all_go (String a EmptyString) repl s 0 before)).
Proof.
  intros Hplain Hnot. induction s as [|b s IH]; intros before;
    cbn [Str.replace_all_go]; [intros []|].
  rewrite prefix_single. destruct (Ascii.eqb a b) eqn:E.
  - rewrite (expand_plain _ _ _ _ Hplain), chars_app, in_app_iff.
    cbn [String.length Nat.sub]. intros [H|H]; [exact (Hnot H) | exact (IH _ H)].
  - rewrite chars_cons. intros [H|H].
    + subst b. rewrite Ascii.eqb_refl in E. discriminate.
    + exact (IH _ H).
Qed.

Lemma replace_all_chars (s p repl : string) (c : ascii) :
  plain repl = true ->
  In c (chars (Str.replace_all s p repl)) -> In c (chars s) \/ In c (chars repl).
Proof. intros Hp. apply replace_all_go_chars. exact Hp. Qed.

Lemma replace_all_clean (s repl : string) (a : ascii) :
  plain repl = true -> ~ In a (chars repl) ->
  ~ In a (chars (Str.replace_all s (String a EmptyString) repl)).
Proof. intros Hp Hn. now apply replace_all_removes. Qed.

Lemma prefix_firstn (p : string) :
  forall s, String.prefix p s = true ->
            firstn (String.length p) (chars s) = chars p.
Proof.
  induction p as [|a p IH]; intros s H; [reflexivity|].
  destruct s as [|b s]; [discriminate H|].
  simpl in H. destruct (ascii_dec a b) as [<-|]; [|discriminate H].
  rewrite !chars_cons. cbn [String.length firstn]. rewrite (IH s H). reflexivity.
Qed.

(** A global replacement by a plain text keeps the characters that are
    not in the pattern. *)
Lemma replace_all_go_keeps (p repl : string) (c : ascii) :
  plain repl = true ->
  p <> EmptyString ->
  ~ In c (chars p) ->
  forall s skip before,
    incl (firstn skip (chars s)) (chars p) ->
    In c (chars s) ->
    In c (chars (Str.replace_all_go p repl s skip before)).
Proof.
  intros Hplain Hp Hc. induction s as [|a s IH]; intros skip before Hskip Hin;
    [destruct Hin|].
  cbn [Str.replace_all_go]. rewrite chars_cons in Hin, Hskip.
  destruct skip as [|n].
  - destruct (String.prefix p (String a s)) eqn:Hpre.
    + rewrite (expand_plain _ _ _ _ Hplain), chars_app, in_app_iff. right.
      apply prefix_firstn in Hpre. rewrite chars_cons in Hpre.
      destruct p as [|b p]; [congruence|].
      cbn [String.length firstn Nat.sub] in *. rewrite Nat.sub_0_r.
      rewrite chars_cons in Hpre. injection Hpre as Ha Hrest.
      apply IH.
      * rewrite Hrest. intros x Hx. rewrite chars_cons. now right.
      * destruct Hin as [Hin|Hin]; [|exact Hin].
        exfalso. apply Hc. rewrite chars_cons. left. congruence.
    + rewrite chars_cons. destruct Hin as [Hin|Hin]; [now left|right].
      apply IH; [intros x []|exact Hin].
  - cbn [firstn] in Hskip. apply IH.
    + intros x Hx. apply Hskip. now right.
    + destruct Hin as [Hin|Hin]; [|exact Hin].
      exfalso. apply Hc. apply Hskip. left. exact Hin.
Qed.

Lemma replace_all_keeps (s p repl : string) (c : ascii) :
  plain repl = true -> p <> EmptyString -> ~ In c (chars p) ->
  In c (chars s) -> In c (chars (Str.replace_all s p repl)).
Proof.
  intros Hplain Hp Hc Hin.
  apply replace_all_go_keeps; try assumption. intros x [].
Qed.

End StrFacts.

Module Escaping.
Import JS PageSpec Report.

Ltac not_in_text :=
  cbv; let H := fresh in
       intros H; repeat (destruct H as [H|H]; [discriminate H|]); exact H.

(** What a plain replacement cannot bring in stays out *)
Lemma stays_out (a : ascii) (s p repl : string) :
  plain repl = true -> ~ In a (chars repl) -> ~ In a (chars s) ->
  ~ In a (chars (Str.replace_all s p repl)).
Proof.
  intros Hp Hr Hs H. apply (StrFacts.replace_all_chars s p repl a Hp) in H.
  tauto.
Qed.

(** X16.  The title of the page is escaped.  The text that [escapeHtml] gives
    contains none of the characters [<], [>], double quote and single
    quote, whatever the title is. *)
Theorem escapeHtml_leaves_no_markup (text : string) (c : ascii) :
  In c (chars (escapeHtml text)) ->
  c <> "<"%char /\ c <> ">"%char /\ c <> "034"%char /\ c <> "'"%char.
Proof.
  unfold escapeHtml.
  set (s1 := Str.replace_all text "&" "&amp;").
  set (s2 := Str.replace_all s1 "<" "&lt;").
  set (s3 := Str.replace_all s2 ">" "&gt;").
  set (s4 := Str.replace_all s3 Str.dq "&quot;").
  assert (H2 : ~ In "<"%char (chars s2))
    by exact (StrFacts.replace_all_clean s1 "&lt;" "<"%char eq_refl
                ltac:(not_in_text)).
  assert (H3 : ~ In ">"%char (chars s3))
    by exact (StrFacts.replace_all_clean s2 "&gt;" ">"%char eq_refl
                ltac:(not_in_text)).
  assert (H4 : ~ In "034"%char (chars s4))
    by exact (StrFacts.replace_all_clean s3 "&quot;" "034"%char eq_refl
                ltac:(not_in_text)).
  assert (H5 : ~ In "'"%char (chars (Str.replace_all s4 "'" "&#39;")))
    by exact (StrFacts.replace_all_clean s4 "&#39;" "'"%char eq_refl
                ltac:(not_in_text)).
  assert (H3a : ~ In "<"%char (chars s3))
    by exact (stays_out "<" s2 ">" "&gt;" eq_refl ltac:(not_in_text) H2).
  assert (H4a : ~ In "<"%char (chars s4))
    by exact (stays_out "<" s3 Str.dq "&quot;" eq_refl ltac:(not_in_text) H3a).
  assert (H4b : ~ In ">"%char (chars s4))
    by exact (stays_out ">" s3 Str.dq "&quot;" eq_refl ltac:(not_in_text) H3).
  intros Hc. repeat split; intros ->; revert Hc.
  - exact (stays_out "<" s4 "'" "&#39;" eq_refl ltac:(not_in_text) H4a).
  - exact (stays_out ">" s4 "'" "&#39;" eq_refl ltac:(not_in_text) H4b).
  - exact (stays_out "034" s4 "'" "&#39;" eq_refl ltac:(not_in_text) H4).
  - exact H5.
Qed.

(** X17.  What [prepareDataForInjection] escapes and what it leaves.  The
    text that it gives contains none of the characters [<], [>] and [&],
    whatever the data are; and a dollar sign of the JSON text of the data
    is still in it: the text is not protected against the dollar patterns
    of the [replace] that puts it into the page. *)
Theorem injected_data_has_no_markup_but_keeps_dollars (data : value) :
  (forall c, In c (chars (prepareDataForInjection data)) ->
             c <> "<"%char /\ c <> ">"%char /\ c <> "&"%char)
  /\ (In "$"%char (chars (JSON.stringify_text data)) ->
      In "$"%char (chars (prepareDataForInjection data))).
Proof.
  unfold prepareDataForInjection. cbv zeta.
  set (s0 := JSON.stringify_text data).
  set (r1 := (Str.bslash ++ "u003c")%string).
  set (r2 := (Str.bslash ++ "u003e")%string).
  set (r3 := (Str.bslash ++ "u0026")%string).
  set (r4 := (Str.bslash ++ "u2028")%string).
  set (r5 := (Str.bslash ++ "u2029")%string).
  set (s1 := Str.replace_all s0 "<" r1).
  set (s2 := Str.replace_all s1 ">" r2).
  set (s3 := Str.replace_all s2 "&" r3).
  set (s4 := Str.replace_all s3 line_separator r4).
  split.
  - intros c.
    assert (H1 : ~ In "<"%char (chars s1))
      by exact (StrFacts.replace_all_clean s0 r1 "<"%char eq_refl ltac:(not_in_text)).
    assert (H2 : ~ In ">"%char (chars s2))
      by exact (StrFacts.replace_all_clean s1 r2 ">"%char eq_refl ltac:(not_in_text)).
    assert (H3 : ~ In "&"%char (chars s3))
      by exact (StrFacts.replace_all_clean s2 r3 "&"%char eq_refl ltac:(not_in_text)).
    assert (H2a : ~ In "<"%char (chars s2))
      by exact (stays_out "<" s1 ">" r2 eq_refl ltac:(not_in_text) H1).
    assert (H3a : ~ In "<"%char (chars s3))
      by exact (stays_out "<" s2 "&" r3 eq_refl ltac:(not_in_text) H2a).
    assert (H3b : ~ In ">"%char (chars s3))
      by exact (stays_out ">" s2 "&" r3 eq_refl ltac:(not_in_text) H2).
    intros Hc. repeat split; intros ->; revert Hc.
    + apply (stays_out "<" s4 paragraph_separator r5 eq_refl ltac:(not_in_text)).
      exact (stays_out "<" s3 line_separator r4 eq_refl ltac:(not_in_text) H3a).
    + apply (stays_out ">" s4 paragraph_separator r5 eq_refl ltac:(not_in_text)).
      exact (stays_out ">" s3 line_separator r4 eq_refl ltac:(not_in_text) H3b).
    + apply (stays_out "&" s4 paragraph_separator r5 eq_refl ltac:(not_in_text)).
      exact (stays_out "&" s3 line_separator r4 eq_refl ltac:(not_in_text) H3).
  - intros H0.
    assert (K1 : In "$"%char (chars s1))
      by exact (StrFacts.replace_all_keeps s0 "<" r1 "$"%char eq_refl
                  ltac:(discriminate) ltac:(not_in_text) H0).
    assert (K2 : In "$"%char (chars s2))
      by exact (StrFacts.replace_all_keeps s1 ">" r2 "$"%char eq_refl
                  ltac:(discriminate) ltac:(not_in_text) K1).
    assert (K3 : In "$"%char (chars s3))
      by exact (StrFacts.replace_all_keeps s2 "&" r3 "$"%char eq_refl
                  ltac:(discriminate) ltac:(not_in_text) K2).
    assert (K4 : In "$"%char (chars s4))
      by exact (StrFacts.replace_all_keeps s3 line_separator r4 "$"%char eq_refl
                  ltac:(discriminate) ltac:(not_in_text) K3).
    exact (StrFacts.replace_all_keeps s4 paragraph_separator r5 "$"%char eq_refl
             ltac:(discriminate) ltac:(not_in_text) K4).
Qed.

End Escaping.

Module ReportFacts.
Import JS Eff PageSpec ReportSpec Report.

Lemma env_eta (e : Env) : e = mkEnv (fs e) (warnings e ++ [])%list.
Proof. destruct e as [f w]. simpl. now rewrite app_nil_r. Qed.

Lemma read_lines_run (lines : list string) :
  forall (acc : list value) (env : Env),
    read_lines lines acc env
    = (Ok (acc ++ flat_map spans_of_line lines)%list,
       mkEnv (fs env) (warnings env ++ flat_map warning_of_line lines)%list).
Proof.
  induction lines as [|line rest IH]; intros acc env.
  - simpl. rewrite app_nil_r. unfold ret. f_equal. apply env_eta.
  - cbn [read_lines flat_map]. unfold spans_of_line at 1, warning_of_line at 1.
    destruct (read_line line) as [l|e].
    + rewrite IH, <- app_assoc. reflexivity.
    + unfold mbind, console_warn, modify. rewrite IH. cbn [fs warnings].
      rewrite <- app_assoc. reflexivity.
Qed.

Lemma warnings_count (lines : list string) :
  List.length (flat_map warning_of_line lines) = List.length (filter malformed lines).
Proof.
  induction lines as [|line rest IH]; simpl; [reflexivity|].
  unfold warning_of_line at 1, malformed at 1.
  destruct (read_line line); simpl; now rewrite IH.
Qed.

(** Reading the trace touches no file, and its result depends on the
    trace file only. *)
Lemma read_trace_run (otlpFile : string) (env env2 : Env) :
  same_at (fs env) (fs env2) otlpFile ->
  exists r new,
    read_trace otlpFile env = (r, mkEnv (fs env) (warnings env ++ new)%list)
    /\ read_trace otlpFile env2 = (r, mkEnv (fs env2) (warnings env2 ++ new)%list).
Proof.
  intros [H1 H2].
  unfold read_trace, mbind, get_state, of_result, ret, Fs.existsSync, Fs.readFileSync.
  rewrite <- H1, <- H2.
  destruct (Fs.find (Fs.files (fs env)) otlpFile) as [content|];
    cbv beta iota delta [negb].
  2: { exists (Ok empty_trace), []. split; f_equal; apply env_eta. }
  destruct (Fs.can_read (fs env) otlpFile); cbv beta iota.
  2: { eexists; exists []. split; f_equal; apply env_eta. }
  destruct (Str.is_empty (Str.trim content)); cbv beta iota.
  { exists (Ok empty_trace), []. split; f_equal; apply env_eta. }
  destruct (endsWith otlpFile ".jsonl"); cbv beta iota.
  - rewrite !read_lines_run. eexists; eexists. split; reflexivity.
  - eexists; exists []. split; f_equal; apply env_eta.
Qed.

End ReportFacts.

Module ReportInput.
Import JS Eff PageSpec Report.

(** The resource spans of a line, and whether the line is skipped, are
    what the JSON value of the line says. *)
Lemma read_line_contribution (line : string) :
  match contribution line with
  | Some spans => read_line line = Ok spans
  | None => exists e, read_line line = Throw e
  end.
Proof.
  unfold contribution, read_line.
  destruct (JSON.parse line) as [lineData|]; [|eexists; reflexivity].
  destruct lineData as [| |b|q| |s|l|o]; try reflexivity;
    try (eexists; reflexivity).
  change (get (VObj o) "resourceSpans") with (Ok (prop_of o "resourceSpans")).
  cbn [bind].
  destruct (prop_of o "resourceSpans") as [| |b|q| |s|l|o'];
    try reflexivity; try (eexists; reflexivity).
  - destruct b; [eexists|]; reflexivity.
  - cbn [truthy]. destruct (Qeq_bool q 0); [|eexists]; reflexivity.
  - cbn [truthy iterate]. destruct s; reflexivity.
Qed.

Lemma spans_of_line_kept (line : string) : spans_of_line line = kept line.
Proof.
  unfold spans_of_line, kept. pose proof (read_line_contribution line) as H.
  destruct (contribution line) as [spans|].
  - rewrite H. reflexivity.
  - destruct H as (e & ->). reflexivity.
Qed.

Lemma malformed_skipped (line : string) : malformed line = skipped line.
Proof.
  unfold malformed, skipped. pose proof (read_line_contribution line) as H.
  destruct (contribution line) as [spans|].
  - rewrite H. reflexivity.
  - destruct H as (e & ->). reflexivity.
Qed.

Lemma warnings_text (lines : list string) (w : string) :
  In w (flat_map warning_of_line lines) ->
  exists e, w = ("Skipping invalid JSONL line: " ++ e)%string.
Proof.
  induction lines as [|line rest IH]; simpl; [intros []|].
  rewrite in_app_iff. intros [H|H]; [|exact (IH H)].
  unfold warning_of_line in H. destruct (read_line line) as [l|e]; [destruct H|].
  destruct H as [<-|[]]. exists e. reflexivity.
Qed.

(** X18.  Which lines of a JSONL trace are kept and which are skipped.  The
    loop over the lines returns, after the resource spans it started with
    and in the order of the lines, what each line adds: the elements of
    its [resourceSpans] when the line is the JSON of an object in which
    this is an array (the characters, when it is a text), and nothing when
    the line is JSON without a truthy [resourceSpans].  A line that is not
    JSON, that is the JSON [null], or whose [resourceSpans] is a number
    other than zero, [true] or an object adds nothing and is skipped with
    one warning.  There is no other warning; the loop touches no file and
    never throws. *)
Theorem malformed_lines_are_skipped (lines : list string) :
  forall (acc : list value) (env : Env),
  exists new,
    read_lines lines acc env
    = (Ok (acc ++ flat_map kept lines)%list,
       mkEnv (fs env) (warnings env ++ new)%list)
    /\ List.length new = List.length (filter skipped lines)
    /\ forall w, In w new ->
         exists e, w = ("Skipping invalid JSONL line: " ++ e)%string.
Proof.
  intros acc env. exists (flat_map warning_of_line lines).
  split; [|split].
  - rewrite ReportFacts.read_lines_run.
    rewrite (flat_map_ext _ _ spans_of_line_kept). reflexivity.
  - rewrite ReportFacts.warnings_count.
    rewrite (filter_ext _ _ malformed_skipped). reflexivity.
  - apply warnings_text.
Qed.

Lemma blank_trace_read (otlpFile : string) (env : Env) :
  Fs.find (Fs.files (fs env)) otlpFile = None
  \/ (exists content,
         Fs.find (Fs.files (fs env)) otlpFile = Some content
         /\ Fs.can_read (fs env) otlpFile = true
         /\ Str.is_empty (Str.trim content) = true) ->
  read_trace otlpFile env = (Ok empty_trace, env).
Proof.
  unfold read_trace, mbind, get_state, of_result, ret, Fs.existsSync, Fs.readFileSync.
  intros [Hnone | (content & Hfind & Hread & Hblank)].
  - now rewrite Hnone.
  - rewrite Hfind, Hread. simpl negb. cbv iota. now rewrite Hblank.
Qed.


End ReportInput.

Module ReportRun.
Import JS Eff PageSpec ReportSpec Report.

(** The templates read depend on the template file and the bundle only *)
Lemma loadTemplateFiles_agree (g : Generator) (fs1 fs2 : Fs.FS) :
  same_at fs1 fs2 (templatePath g) ->
  same_at fs1 fs2 (bundlePath g) ->
  loadTemplateFiles g fs1 = loadTemplateFiles g fs2.
Proof.
  intros [T1 T2] [B1 B2].
  unfold loadTemplateFiles, ensureFrontendBuilt, Fs.existsSync, Fs.readFileSync.
  now rewrite <- T1, <- T2, <- B1, <- B2.
Qed.

Lemma page_agree (g : Generator) (fs1 fs2 : Fs.FS) (td : value) (otlpFile : string)
      (title : value) (iso1 iso2 : string) :
  same_at fs1 fs2 (templatePath g) ->
  same_at fs1 fs2 (bundlePath g) ->
  timestamp_of iso1 = timestamp_of iso2 ->
  page g fs1 td otlpFile title iso1 = page g fs2 td otlpFile title iso2.
Proof.
  intros HT HB Htime. unfold page.
  now rewrite (loadTemplateFiles_agree g fs1 fs2 HT HB), Htime.
Qed.

(** The steps of [generateHTML] after the trace has been read *)
Lemma generateHTML_run (g : Generator) (otlpFile outputFile : string) (title : value)
      (iso_now : string) (env : Env) (r : result value) (new : list string) :
  read_trace otlpFile env = (r, mkEnv (fs env) (warnings env ++ new)%list) ->
  generateHTML g otlpFile outputFile title iso_now env
  = match r with
    | Throw e => (Throw e, mkEnv (fs env) (warnings env ++ new)%list)
    | Ok td =>
        match page g (fs env) td otlpFile title iso_now with
        | Throw e => (Throw e, mkEnv (fs env) (warnings env ++ new)%list)
        | Ok html =>
            mbind (if negb (Fs.dir_exists (fs env) (Fs.dirname outputFile))
                   then on_fs (Fs.mkdirSync (Fs.dirname outputFile)) else ret tt)
                  (fun _ => on_fs (Fs.writeFileSync outputFile html))
                  (mkEnv (fs env) (warnings env ++ new)%list)
        end
    end.
Proof.
  intros Hread. unfold generateHTML.
  destruct r as [td|e].
  2: { now rewrite (EffFacts.mbind_throw _ _ _ _ _ Hread). }
  rewrite (EffFacts.mbind_ok _ _ _ _ _ Hread). cbv zeta.
  set (env1 := mkEnv (fs env) (warnings env ++ new)%list).
  rewrite (EffFacts.mbind_ok _ _ env1 env1 env1) by reflexivity.
  change (fs env1) with (fs env).
  unfold page. cbv zeta. unfold bind.
  destruct (loadTemplateFiles g (fs env)) as [loaded|e].
  2: { now rewrite (EffFacts.mbind_throw _ _ env1 env1 e). }
  rewrite (EffFacts.mbind_ok _ _ env1 env1 loaded) by reflexivity.
  match goal with
  | |- context [fill_template ?a ?b ?c ?d] => destruct (fill_template a b c d) as [html|e]
  end.
  2: { now rewrite (EffFacts.mbind_throw _ _ env1 env1 e). }
  rewrite (EffFacts.mbind_ok _ _ env1 env1 html) by reflexivity.
  reflexivity.
Qed.

(** What a successful run leaves on the disk *)
Lemma save_run (outputFile html : string) (env env' : Env) :
  mbind (if negb (Fs.dir_exists (fs env) (Fs.dirname outputFile))
         then on_fs (Fs.mkdirSync (Fs.dirname outputFile)) else ret tt)
        (fun _ => on_fs (Fs.writeFileSync outputFile html)) env = (Ok tt, env') ->
  Fs.files (fs env') = Fs.store (Fs.files (fs env)) outputFile html
  /\ Fs.can_read (fs env') = Fs.can_read (fs env)
  /\ Fs.can_write (fs env') = Fs.can_write (fs env)
  /\ Fs.can_write (fs env) outputFile = true
  /\ Fs.dir_exists (fs env') (Fs.dirname outputFile) = true
  /\ warnings env' = warnings env.
Proof.
  unfold mbind, on_fs, zoom, Fs.mkdirSync, Fs.writeFileSync, ret.
  destruct (Fs.dir_exists (fs env) (Fs.dirname outputFile)) eqn:Hdir;
    cbv beta iota delta [negb].
  - destruct (Fs.can_write (fs env) outputFile) eqn:Hw; [|discriminate].
    intros [= <-]. cbn [fs warnings Fs.files Fs.can_read Fs.can_write].
    repeat split; try reflexivity. exact Hdir.
  - rewrite Hdir. destruct (Fs.can_write (fs env) (Fs.dirname outputFile));
      [|discriminate]. cbn [fs warnings Fs.files Fs.can_read Fs.can_write].
    destruct (Fs.can_write (fs env) outputFile) eqn:Hw; [|discriminate].
    intros [= <-]. cbn [fs warnings Fs.files Fs.can_read Fs.can_write].
    repeat split; try reflexivity.
    unfold Fs.dir_exists. cbn [Fs.dirs existsb]. now rewrite String.eqb_refl.
Qed.

Lemma save_again (outputFile html : string) (env : Env) :
  Fs.can_write (fs env) outputFile = true ->
  Fs.dir_exists (fs env) (Fs.dirname outputFile) = true ->
  exists env',
    mbind (if negb (Fs.dir_exists (fs env) (Fs.dirname outputFile))
           then on_fs (Fs.mkdirSync (Fs.dirname outputFile)) else ret tt)
          (fun _ => on_fs (Fs.writeFileSync outputFile html)) env = (Ok tt, env')
    /\ Fs.find (Fs.files (fs env')) outputFile = Some html.
Proof.
  intros Hw Hdir. unfold mbind, on_fs, zoom, Fs.writeFileSync, ret.
  rewrite Hdir. cbv beta iota delta [negb]. rewrite Hw.
  eexists. split; [reflexivity|]. cbn. apply FsFacts.find_store_same.
Qed.

End ReportRun.

Module ReportOutcome.
Import JS Eff PageSpec ReportSpec Report.

(** X20.  No report without the bundle.  When the bundle of the viewer is not
    installed, [generateHTML] throws, whatever the trace holds, and leaves
    every file as it was: no page is written. *)
Theorem no_report_without_the_bundle
        (g : Generator) (otlpFile outputFile : string) (title : value)
        (iso_now : string) (env : Env) :
  Fs.existsSync (fs env) (bundlePath g) = false ->
  exists e env',
    generateHTML g otlpFile outputFile title iso_now env = (Throw e, env')
    /\ fs env' = fs env.
Proof.
  intros Hmissing.
  destruct (ReportFacts.read_trace_run otlpFile env env) as (r & new & Hread & _).
  { split; reflexivity. }
  rewrite (ReportRun.generateHTML_run g otlpFile outputFile title iso_now env r new Hread).
  destruct r as [td|e]; [|eexists; eexists; split; reflexivity].
  unfold page, loadTemplateFiles, ensureFrontendBuilt. rewrite Hmissing.
  eexists; eexists; split; reflexivity.
Qed.

Lemma second_run_writes_the_same_page
        (g : Generator) (otlpFile outputFile : string) (title : value)
        (iso1 iso2 : string) (env env1 : Env) :
  generateHTML g otlpFile outputFile title iso1 env = (Ok tt, env1) ->
  outputFile <> otlpFile ->
  outputFile <> templatePath g ->
  outputFile <> bundlePath g ->
  timestamp_of iso1 = timestamp_of iso2 ->
  exists env2 html,
    generateHTML g otlpFile outputFile title iso2 env1 = (Ok tt, env2)
    /\ Fs.find (Fs.files (fs env1)) outputFile = Some html
    /\ Fs.find (Fs.files (fs env2)) outputFile = Some html.
Proof.
  intros Hrun Hotlp Htpl Hbundle Htime.
  assert (Hsame0 : same_at (fs env) (fs env) otlpFile) by (split; reflexivity).
  destruct (ReportFacts.read_trace_run otlpFile env env Hsame0) as (r & new & Hread & _).
  rewrite (ReportRun.generateHTML_run g otlpFile outputFile title iso1 env r new Hread)
    in Hrun.
  destruct r as [td|e]; [|discriminate Hrun].
  destruct (page g (fs env) td otlpFile title iso1) as [html|e] eqn:Hpage;
    [|discriminate Hrun].
  apply (ReportRun.save_run outputFile html
           (mkEnv (fs env) (warnings env ++ new)%list) env1) in Hrun.
  cbn [fs warnings] in Hrun.
  destruct Hrun as (Hfiles & Hcr & Hcw & Hw & Hdir & _).
  assert (Hat : forall p, outputFile <> p -> same_at (fs env) (fs env1) p).
  { intros p Hp. split.
    - rewrite Hfiles. symmetry. now apply FsFacts.find_store_other.
    - now rewrite Hcr. }
  destruct (ReportFacts.read_trace_run otlpFile env env1 (Hat _ Hotlp))
    as (r' & new' & Hread0 & Hread1).
  assert (Hr : r' = Ok td /\ new' = new).
  { rewrite Hread in Hread0. injection Hread0 as Hr Hn.
    apply app_inv_head in Hn. split; congruence. }
  destruct Hr as [-> ->].
  rewrite (ReportRun.generateHTML_run g otlpFile outputFile title iso2 env1 (Ok td) new
             Hread1).
  rewrite <- (ReportRun.page_agree g (fs env) (fs env1) td otlpFile title iso1 iso2
                (Hat _ Htpl) (Hat _ Hbundle) Htime), Hpage.
  set (envB := mkEnv (fs env1) (warnings env1 ++ new)%list).
  destruct (ReportRun.save_again outputFile html envB) as (env2 & E & Hfind).
  { cbn. now rewrite Hcw. }
  { exact Hdir. }
  exists env2, html. split; [exact E|]. split; [|exact Hfind].
  rewrite Hfiles. apply FsFacts.find_store_same.
Qed.


End ReportOutcome.

Module ReportExamples.
Import JS Eff PageSpec ReportSpec Report Examples Examples2.

Lemma escapeHtml_witness :
  "&"%char <> "<"%char /\ "&"%char <> ">"%char
  /\ "&"%char <> "034"%char /\ "&"%char <> "'"%char.
Proof.
  apply (Escaping.escapeHtml_leaves_no_markup "<s1>" "&"%char).
  vm_compute. left. reflexivity.
Defined.

Lemma injected_data_witness :
  ("u"%char <> "<"%char /\ "u"%char <> ">"%char /\ "u"%char <> "&"%char)
  /\ In "$"%char (chars (prepareDataForInjection (VStr "</script>$'"))).
Proof.
  destruct (Escaping.injected_data_has_no_markup_but_keeps_dollars
              (VStr "</script>$'")) as [Hclean Hkept].
  split.
  - apply (Hclean "u"%char). vm_compute. right. right. left. reflexivity.
  - apply Hkept. vm_compute. do 10 right. left. reflexivity.
Defined.


Lemma no_report_without_the_bundle_witness :
  exists e env',
    generateHTML generator "/logs/run-1/trace.otlp.jsonl" "/logs/run-1/report.html"
      VUndef "2024-01-01T00:00:00.123Z" (mkEnv disk_without_bundle [])
    = (Throw e, env')
    /\ fs env' = disk_without_bundle.
Proof.
  exact (ReportOutcome.no_report_without_the_bundle generator
           "/logs/run-1/trace.otlp.jsonl" "/logs/run-1/report.html"
           VUndef "2024-01-01T00:00:00.123Z" (mkEnv disk_without_bundle []) eq_refl).
Defined.


End ReportExamples.

(* ================================================================== *)
(** * The spawn interceptor: further properties *)
(* ================================================================== *)

Module SpawnFacts.
Import JS Eff Preload SpawnSpec.

Lemma forget_update (l : list Child) (id : nat) (f g : Child -> Child) :
  (forall c, pid (f c) = pid c /\ forget (f c) = forget (g c)) ->
  map forget (update_child l id f) = map forget (update_child l id g).
Proof.
  intros H. unfold update_child. rewrite !map_map. apply map_ext. intros c.
  destruct (Nat.eqb (pid c) id); [apply H | reflexivity].
Qed.

Lemma forget_update_capture (l : list Child) (id : nat) (f : Child -> Child) :
  (forall c, forget (f c) = forget c) ->
  map forget (update_child l id f) = map forget l.
Proof.
  intros H. unfold update_child. rewrite map_map. apply map_ext. intros c.
  destruct (Nat.eqb (pid c) id); [apply H | reflexivity].
Qed.

Lemma update_update (l : list Child) (id : nat) (f g : Child -> Child) :
  (forall c, pid (f c) = pid c) ->
  update_child (update_child l id f) id g = update_child l id (fun c => g (f c)).
Proof.
  intros Hpid. unfold update_child. rewrite map_map. apply map_ext. intros c.
  destruct (Nat.eqb (pid c) id) eqn:E; [|now rewrite E].
  now rewrite Hpid, E.
Qed.

End SpawnFacts.

Module SpawnTransparency.
Import JS Eff Preload SpawnSpec.

(** X22.  Writes to the input of a child are forwarded unchanged.  The [write]
    that the interceptor puts on the standard input of a child hands the
    same chunk, encoding and callback to the original [write] and returns
    what the original returns; besides that it only updates what the
    interceptor itself keeps on the child. *)
Theorem stdin_write_forwards_the_call (id : nat) (wc : WriteCall) (h : Host) :
  fst (stdin_write id wc h) = fst (originalWrite id wc h)
  /\ platform_children (snd (stdin_write id wc h))
     = platform_children (snd (originalWrite id wc h))
  /\ world (snd (stdin_write id wc h)) = world h.
Proof.
  unfold stdin_write, originalWrite, mbind, modify, get_state, ret, platform_children.
  cbn [fst snd children world set_children write_returns].
  split; [reflexivity|]. split; [|reflexivity].
  rewrite SpawnFacts.update_update.
  - apply SpawnFacts.forget_update. intros c.
    destruct (capture c); split; reflexivity.
  - intros c. destruct (capture c); reflexivity.
Qed.

End SpawnTransparency.

Module SpawnCalls.
Import JS Eff Preload SpawnSpec.

Lemma get_truthy (v : value) (k : string) :
  truthy v = true -> exists x, get v k = Ok x.
Proof.
  destruct v; simpl; try discriminate; intros _; try (eexists; reflexivity).
  - destruct (String.eqb k "length"); eexists; reflexivity.
  - destruct (String.eqb k "length"); eexists; reflexivity.
Qed.

(** With an array of arguments the test for hooks gives an answer *)
Lemma isClaudeHook_array (command : value) (l : list value) (o : props) (w : World) :
  exists hook, isClaudeHook command (VArr l) (VObj o) w = Ok hook.
Proof.
  unfold isClaudeHook, bind. cbv zeta.
  assert (Henv : exists x,
             get (or_else (get_opt (VObj o) "env") (VObj (env w))) "CLAUDE_PROJECT_DIR"
             = Ok x).
  { unfold or_else. destruct (truthy (get_opt (VObj o) "env")) eqn:E.
    - now apply get_truthy.
    - eexists. reflexivity. }
  destruct Henv as (x & ->). cbn [iterate]. eexists. reflexivity.
Qed.

(** The options that the interceptor passes on are those it was given *)
Lemma originalSpawn_default (command : value) (l : list value) (options0 : value) :
  options0 = VUndef \/ is_object options0 = true ->
  originalSpawn command (VArr l)
    (match options0 with VUndef => VObj [] | o => o end)
  = originalSpawn command (VArr l) options0.
Proof.
  intros [-> | Hobj].
  - unfold originalSpawn, normalizeSpawnArguments.
    destruct command; try reflexivity.
  - destruct options0; try discriminate Hobj. reflexivity.
Qed.

End SpawnCalls.

Module SpawnResult.
Import JS Eff Preload SpawnSpec.

(** X23.  With an array of arguments the intercepted spawn is the spawn of the
    platform.  For a call with an array of arguments and an options object
    (or no options), the intercepted spawn gives what the original spawn
    gives for the same command, arguments and options: the same child or
    the same exception, the same children as the platform knows them, and
    the same state of the interceptor's own world.  It differs only by the
    capture that it installs on the child of a hook. *)
Theorem spawn_with_an_argument_array_is_the_original_spawn
        (command : value) (l : list value) (options0 : value) (now : Z)
        (iso_now : string) (h h' : Host) (r : result nat) :
  options0 = VUndef \/ is_object options0 = true ->
  interceptedSpawn command (VArr l) options0 now iso_now h = (r, h') ->
  exists h0,
    originalSpawn command (VArr l) options0 h = (r, h0)
    /\ platform_children h' = platform_children h0
    /\ world h' = world h0.
Proof.
  intros Hopt. rewrite <- (SpawnCalls.originalSpawn_default command l options0 Hopt).
  unfold interceptedSpawn. cbv zeta.
  set (options := match options0 with VUndef => VObj [] | o => o end).
  assert (Hobj : exists o, options = VObj o).
  { subst options. destruct Hopt as [-> | H]; [now exists []|].
    destruct options0; try discriminate H. now eexists. }
  destruct Hobj as (o & Ho). rewrite Ho.
  rewrite (EffFacts.mbind_ok _ _ h h h) by reflexivity.
  rewrite (EffFacts.mbind_ok _ _ h h (prop_of o "env")) by reflexivity.
  rewrite (EffFacts.mbind_ok _ _ h h
             (existsb (fun arg => match arg with
                                  | VStr a => Str.includes a "INTERCEPTOR TEST"
                                  | _ => false
                                  end) l)) by reflexivity.
  destruct (SpawnCalls.isClaudeHook_array command l o (world h)) as (hook & Hhook).
  rewrite (EffFacts.mbind_ok _ _ h h hook) by (unfold of_result; now rewrite Hhook).
  match goal with |- context [if ?b then _ else _] => destruct b end.
  - destruct (originalSpawn command (VArr l) (VObj o) h) as [[child|e] h0] eqn:Espawn.
    + rewrite (EffFacts.mbind_ok _ _ _ _ _ Espawn).
      unfold mbind, modify, ret. intros [= <- <-].
      exists h0. split; [reflexivity|]. split; [|reflexivity].
      unfold platform_children. cbn [children set_children].
      apply SpawnFacts.forget_update_capture. intros c. reflexivity.
    + rewrite (EffFacts.mbind_throw _ _ _ _ _ Espawn). intros [= <- <-].
      exists h0. repeat split; reflexivity.
  - intros H. exists h'. repeat split; auto.
Qed.

(** X24.  A call without an array of arguments is refused.  When the second
    argument of the intercepted spawn is given and is not an array (an
    options object, which the platform accepts in that place, or [null]),
    the call throws a [TypeError] before anything is spawned. *)
Theorem spawn_without_an_argument_array_throws
        (command args0 options0 : value) (now : Z) (iso_now : string) (h : Host) :
  isArray args0 = false ->
  args0 <> VUndef ->
  exists e, interceptedSpawn command args0 options0 now iso_now h = (Throw e, h).
Proof.
  intros Harr Hdef. unfold interceptedSpawn. cbv zeta.
  set (options := match options0 with VUndef => VObj [] | o => o end).
  rewrite (EffFacts.mbind_ok _ _ h h h) by reflexivity.
  destruct (get options "env") as [v|e] eqn:Eenv.
  2: { exists e. now rewrite (EffFacts.mbind_throw _ _ h h e) by reflexivity. }
  rewrite (EffFacts.mbind_ok _ _ h h v) by reflexivity.
  assert (Hsome : exists e,
             some_includes (match args0 with VUndef => VArr [] | a => a end)
               "INTERCEPTOR TEST" = Throw e).
  { destruct args0; try discriminate Harr; try (eexists; reflexivity).
    now destruct Hdef. }
  destruct Hsome as (e & He). exists e.
  now rewrite (EffFacts.mbind_throw _ _ h h e) by (unfold of_result; now rewrite He).
Qed.

End SpawnResult.

Module SpawnExamples.
Import JS Eff Preload SpawnSpec Examples Examples2.

Lemma spawn_with_an_argument_array_witness :
  exists h0,
    originalSpawn (VStr "sh") (VArr [VStr "-c"; VStr "node hook.js"]) hook_options
      spawning_host = (fst hook_spawn, h0)
    /\ platform_children (snd hook_spawn) = platform_children h0
    /\ world (snd hook_spawn) = world h0.
Proof.
  exact (SpawnResult.spawn_with_an_argument_array_is_the_original_spawn
           (VStr "sh") [VStr "-c"; VStr "node hook.js"] hook_options
           1000 "2024-01-01T00:00:01.000Z" spawning_host (snd hook_spawn)
           (fst hook_spawn) (or_intror eq_refl) (surjective_pairing _)).
Defined.

Lemma spawn_without_an_argument_array_witness :
  exists e,
    interceptedSpawn (VStr "ls") (VObj [("cwd", VStr "/tmp")]) VUndef
      1000 "2024-01-01T00:00:01.000Z" spawning_host
    = (Throw e, spawning_host).
Proof.
  apply (SpawnResult.spawn_without_an_argument_array_throws
           (VStr "ls") (VObj [("cwd", VStr "/tmp")]) VUndef
           1000 "2024-01-01T00:00:01.000Z" spawning_host).
  - reflexivity.
  - discriminate.
Defined.

End SpawnExamples.

(* ================================================================== *)
(** * The tracer: further properties *)
(* ================================================================== *)

Module TraceTree.
Import JS Eff Otel.

(** X25.  Spans started through [startSpan] hang under the root span.  In a
    process whose tracer is initialised, the span of an API request and the
    span of a hook event are children of the root span of the process and
    carry its trace identifier; starting them hands nothing to the exporter
    and leaves the root span as it is. *)
Theorem api_and_hook_event_spans_are_children_of_the_root
        (st : State) (root : Span) (url : string) (method eventName toolName : value) :
  tracerInstance st = true ->
  rootSpan st = Some root ->
  (exists sp st',
      startApiCallSpan url method st = (Ok sp, st')
      /\ traceId sp = traceId root /\ parentSpanId sp = Some (spanId root)
      /\ rootSpan st' = Some root /\ exported st' = exported st)
  /\ (exists sp st',
         startHookEventSpan eventName toolName st = (Ok sp, st')
         /\ traceId sp = traceId root /\ parentSpanId sp = Some (spanId root)
         /\ rootSpan st' = Some root /\ exported st' = exported st).
Proof.
  intros Hinit Hroot. split.
  - unfold startApiCallSpan.
    match goal with
    | |- context [startSpan ?n ?k ?a st] =>
        destruct (OtelFacts.startSpan_child_of_root st root Hinit Hroot n k a)
          as (sp & st' & E & Ht & Hp & _ & _ & Hr & _ & Hx)
    end.
    exists sp, st'. auto.
  - unfold startHookEventSpan.
    match goal with
    | |- context [startSpan ?n ?k ?a st] =>
        destruct (OtelFacts.startSpan_child_of_root st root Hinit Hroot n k a)
          as (sp & st' & E & Ht & Hp & _ & _ & Hr & _ & Hx)
    end.
    exists sp, st'. auto.
Qed.

End TraceTree.

Module ToolTrace.
Import JS Eff Preload.

Lemma tool_span_ids (e : ToolExecutionEvent) (w : World) :
  Otel.tracerInstance (otel w) = true ->
  exists sp w',
    createToolExecutionSpan e w = (Ok (Some sp), w')
    /\ Otel.parentSpanId sp = None
    /\ Otel.traceId sp = Otel.rand (otel w) (S (Otel.drawn (otel w)))
    /\ Otel.spanId sp = Otel.rand (otel w) (Otel.drawn (otel w))
    /\ Otel.status sp = match te_error e with
                        | Some m => if Str.is_empty m then Otel.OK else Otel.ERROR
                        | None => Otel.OK
                        end
    /\ Otel.rootSpan (otel w') = Otel.rootSpan (otel w).
Proof.
  intros Hinit.
  unfold createToolExecutionSpan, try_catch, on_otel, zoom, mbind,
    Otel.startEnhancedToolSpan, Otel.getTracer, mbind.
  rewrite Hinit.
  match goal with
  | |- context [Otel.sdk_startSpan ?n ?k ?a ?c (otel w)] =>
      destruct (OtelFacts.sdk_startSpan_spec n k a c (otel w))
        as (sp & st' & E & He & Hs & Hid & Hp & Hr & Ht & Hx & Hrand)
  end.
  rewrite E. simpl in Hp. destruct Hp as [Htid Hpar].
  set (span1 := Otel.setAttributes sp _).
  destruct (OtelFacts.setAttributes_frame
              [("tool.name", te_toolName e);
               ("tool.input", Otel.text_or_json (te_toolInput e));
               ("tool.output", Otel.text_or_json (te_toolResponse e));
               ("tool.duration.ms", num (te_duration e));
               ("session.id", te_sessionId e)] sp) as (A1 & A2 & A3 & A4 & A5).
  fold span1 in A1, A2, A3, A4, A5.
  set (span2 := if truthy (te_toolUseId e) then _ else span1).
  assert (H2 : Otel.traceId span2 = Otel.traceId sp
               /\ Otel.spanId span2 = Otel.spanId sp
               /\ Otel.parentSpanId span2 = Otel.parentSpanId sp
               /\ Otel.ended span2 = false).
  { subst span2. destruct (truthy (te_toolUseId e)); [|repeat split; congruence].
    destruct (OtelFacts.setAttributes_frame [("tool.use_id", te_toolUseId e)] span1)
      as (B1 & B2 & B3 & _ & B5).
    repeat split; congruence. }
  destruct H2 as (C1 & C2 & C3 & C5).
  set (span3 := match te_error e with Some _ => _ | None => _ end).
  assert (H3 : Otel.traceId span3 = Otel.traceId sp
               /\ Otel.spanId span3 = Otel.spanId sp
               /\ Otel.parentSpanId span3 = Otel.parentSpanId sp
               /\ Otel.ended span3 = false
               /\ Otel.status span3 = match te_error e with
                                      | Some m => if Str.is_empty m then Otel.OK
                                                  else Otel.ERROR
                                      | None => Otel.OK
                                      end).
  { subst span3. unfold Otel.setStatus, Otel.recordException.
    destruct (te_error e) as [m|]; [destruct (Str.is_empty m)|];
      rewrite ?C5; cbn; rewrite ?C5; cbn; repeat split; congruence. }
  destruct H3 as (D1 & D2 & D3 & D5 & D6).
  unfold Otel.end_span. rewrite D5. unfold ret.
  eexists; eexists. split; [reflexivity|]. cbn.
  repeat split; congruence.
Qed.

(** X26.  The span of a tool execution has no parent.  The host starts the span
    of a finished tool execution without a parent span and no context
    manager is registered, so the span is not a child of the root span of
    the process: it has no parent and carries a trace identifier drawn for
    it.  Its status is ERROR when the execution carries an error text and
    OK otherwise. *)
Theorem tool_execution_span_has_no_parent (e : ToolExecutionEvent) (w : World) :
  Otel.tracerInstance (otel w) = true ->
  exists sp w',
    createToolExecutionSpan e w = (Ok (Some sp), w')
    /\ Otel.parentSpanId sp = None
    /\ Otel.traceId sp = Otel.rand (otel w) (S (Otel.drawn (otel w)))
    /\ Otel.spanId sp = Otel.rand (otel w) (Otel.drawn (otel w))
    /\ Otel.status sp = match te_error e with
                        | Some m => if Str.is_empty m then Otel.OK else Otel.ERROR
                        | None => Otel.OK
                        end
    /\ Otel.rootSpan (otel w') = Otel.rootSpan (otel w).
Proof. exact (tool_span_ids e w). Qed.

End ToolTrace.

Module TraceExamples.
Import JS Eff Preload Examples Examples2.

Lemma children_of_the_root_witness :
  exists root sp st',
    Otel.rootSpan host_tracer = Some root
    /\ Otel.startApiCallSpan messages_url (VStr "POST") host_tracer = (Ok sp, st')
    /\ Otel.traceId sp = Otel.traceId root
    /\ Otel.parentSpanId sp = Some (Otel.spanId root).
Proof.
  destruct (Otel.rootSpan host_tracer) as [root|] eqn:Hroot; [|discriminate Hroot].
  destruct (TraceTree.api_and_hook_event_spans_are_children_of_the_root
              host_tracer root messages_url (VStr "POST") (VStr "Stop") VUndef
              eq_refl Hroot)
    as ((sp & st' & E & Ht & Hp & _) & _).
  exists root, sp, st'. auto.
Defined.

Lemma tool_execution_span_witness :
  exists sp w',
    createToolExecutionSpan (read_execution (VStr "toolu_2")) (host "" true)
    = (Ok (Some sp), w')
    /\ Otel.parentSpanId sp = None
    /\ Otel.traceId sp = 103
    /\ option_map Otel.traceId (Otel.rootSpan (otel (host "" true))) = Some 101.
Proof.
  destruct (ToolTrace.tool_execution_span_has_no_parent
              (read_execution (VStr "toolu_2")) (host "" true) eq_refl)
    as (sp & w' & E & Hp & Ht & _).
  exists sp, w'. split; [exact E|]. split; [exact Hp|]. split; [exact Ht|].
  reflexivity.
Defined.

End TraceExamples.

(* ------------------------------------------------------------------ *)
(** ** The discovery of the hook commands *)
(* ------------------------------------------------------------------ *)

Module DiscoveryFacts.
Import JS Discovery.

Lemma matcher_passes_other_event :
  forall RegExp eventName toolName hookEntry,
    is_tool_event eventName = false ->
    matcher_passes RegExp eventName toolName hookEntry = Ok true.
Proof.
  intros RegExp eventName toolName hookEntry H.
  unfold matcher_passes. rewrite H. reflexivity.
Qed.

Lemma entry_commands_other_event :
  forall RegExp1 RegExp2 eventName toolName1 toolName2,
    is_tool_event eventName = false ->
    forall hookArray commands,
      entry_commands RegExp1 eventName toolName1 hookArray commands
      = entry_commands RegExp2 eventName toolName2 hookArray commands.
Proof.
  intros R1 R2 eventName t1 t2 H hookArray.
  induction hookArray as [|hookEntry rest IH]; intros commands; [reflexivity|].
  cbn [entry_commands].
  rewrite (matcher_passes_other_event R1 eventName t1 hookEntry H).
  rewrite (matcher_passes_other_event R2 eventName t2 hookEntry H).
  destruct hookEntry as [| |b|q| |s|l|o]; try apply IH.
  cbn [bind]. destruct (get (VObj o) "hooks") as [hooks|e]; [|reflexivity].
  cbn [bind]. destruct (truthy hooks && isArray hooks); [|apply IH].
  destruct (iterate hooks) as [l'|e]; [|reflexivity].
  cbn [bind]. destruct (hook_commands l' commands) as [c'|e]; [|reflexivity].
  cbn [bind]. apply IH.
Qed.

Lemma read_settings_ok :
  forall RegExp fs eventName toolName file commands,
    read_settings RegExp fs eventName toolName file = Ok commands ->
    exists content settings,
      Fs.readFileSync fs file = Ok content /\ JSON.parse content = Some settings.
Proof.
  intros RegExp fs eventName toolName file commands H.
  unfold read_settings in H.
  destruct (Fs.readFileSync fs file) as [content|e]; [|discriminate H].
  cbn [bind] in H.
  destruct (JSON.parse content) as [settings|] eqn:Hparse; [|discriminate H].
  exists content, settings. split; [reflexivity|exact Hparse].
Qed.

(** A list of commands is found only when every settings file that
    exists was read and holds JSON. *)
Lemma found_when_every_file_parses :
  forall RegExp fs eventName toolName settingsFiles acc hooks,
    discover RegExp fs eventName toolName settingsFiles acc = Found hooks ->
    forall file,
      In file settingsFiles ->
      Fs.existsSync fs file = true ->
      exists content settings,
        Fs.readFileSync fs file = Ok content /\ JSON.parse content = Some settings.
Proof.
  intros RegExp fs eventName toolName settingsFiles.
  induction settingsFiles as [|file0 rest IH]; intros acc hooks H file Hin Hex.
  - destruct Hin.
  - cbn [discover] in H.
    destruct (Fs.existsSync fs file0 || Fs.dir_exists fs file0) eqn:Hthere.
    + destruct (read_settings RegExp fs eventName toolName file0)
        as [commands|e] eqn:Hread; [|discriminate H].
      destruct Hin as [->|Hin].
      * exact (read_settings_ok _ _ _ _ _ _ Hread).
      * exact (IH _ _ H file Hin Hex).
    + destruct Hin as [->|Hin].
      * rewrite Hex in Hthere. discriminate Hthere.
      * exact (IH _ _ H file Hin Hex).
Qed.

(** With a settings file that exists and cannot be read as JSON, the loop
    ends at a file whose reading threw. *)
Lemma discover_broken :
  forall RegExp fs eventName toolName settingsFiles file,
    In file settingsFiles ->
    Fs.existsSync fs file = true ->
    (forall content, Fs.readFileSync fs file = Ok content ->
                     JSON.parse content = None) ->
    exists f e,
      discover RegExp fs eventName toolName settingsFiles [] = InvalidSettings f e.
Proof.
  intros RegExp fs eventName toolName settingsFiles file Hin Hex Hbroken.
  destruct (discover RegExp fs eventName toolName settingsFiles [])
    as [hooks|f e] eqn:Hd.
  - destruct (found_when_every_file_parses _ _ _ _ _ _ _ Hd file Hin Hex)
      as (content & settings & Hread & Hjson).
    rewrite (Hbroken content Hread) in Hjson. discriminate Hjson.
  - exists f, e. reflexivity.
Qed.

Import Eff Orchestrator.

Lemma getOtelTracer_quiet (pf : Platform) (p : Proc) :
  exists s p1,
    getOtelTracer pf p = (Ok s, p1)
    /\ executed p1 = executed p /\ stdout p1 = stdout p.
Proof.
  unfold getOtelTracer.
  destruct (negb (tracer_loads pf)).
  { eexists; eexists. split; [reflexivity|]. split; reflexivity. }
  unfold try_catch, mbind, on_tracer, zoom.
  destruct (Otel.getTracer (tracer p)) as [[t|e] t1].
  { eexists; eexists. split; [reflexivity|]. split; reflexivity. }
  match goal with
  | |- context [Otel.initializeTracer ?c ?t] =>
      destruct (Otel.initializeTracer c t) as [[u|e'] t2]
  end; eexists; eexists; (split; [reflexivity|]); split; reflexivity.
Qed.

Lemma start_event_span_quiet (pf : Platform) (event : value) (p : Proc) :
  exists s p1,
    start_event_span pf event p = (Ok s, p1)
    /\ executed p1 = executed p /\ stdout p1 = stdout p.
Proof.
  unfold start_event_span, try_catch, mbind, of_result, on_tracer, zoom.
  destruct (get event "hook_event_name") as [name|e];
    [|eexists; eexists; split; [reflexivity|split; reflexivity]].
  destruct (get event "tool_name") as [tool|e];
    [|eexists; eexists; split; [reflexivity|split; reflexivity]].
  destruct (Otel.startHookEventSpan name tool (tracer p)) as [[sp|e] t1];
    [|eexists; eexists; split; [reflexivity|split; reflexivity]].
  destruct (truthy (get_opt event "prompt"));
    [|eexists; eexists; split; [reflexivity|split; reflexivity]].
  destruct (get_opt event "prompt");
    eexists; eexists; (split; [reflexivity|]); split; reflexivity.
Qed.

(** The handler with settings that cannot be read *)
Lemma main_invalid_settings (pf : Platform) (input : string) (event : value)
      (m : string) (p : Proc) :
  JSON.parse input = Some event ->
  discovery pf = Orchestrator.InvalidSettings m ->
  exists p',
    main pf input p = (Ok Exit1, p')
    /\ executed p' = executed p /\ stdout p' = stdout p.
Proof.
  intros Hparse Hd. unfold main. rewrite Hparse.
  destruct (truthy (env_RUN_ID pf)); cbv beta iota delta [negb].
  2:{ eexists. split; [reflexivity|]. split; reflexivity. }
  destruct (getOtelTracer_quiet pf p) as (s1 & p1 & E1 & Hx1 & Ho1).
  destruct s1 as [u|].
  2:{ exists p1. split; [|split; assumption].
      apply EffFacts.try_catch_ok.
      rewrite (EffFacts.mbind_ok _ _ p p event) by reflexivity.
      rewrite (EffFacts.mbind_ok _ _ _ _ _ E1). reflexivity. }
  destruct (start_event_span_quiet pf event p1) as (s2 & p2 & E2 & Hx2 & Ho2).
  destruct s2 as [span|].
  2:{ exists p2. split; [|split; congruence].
      apply EffFacts.try_catch_ok.
      rewrite (EffFacts.mbind_ok _ _ p p event) by reflexivity.
      rewrite (EffFacts.mbind_ok _ _ _ _ _ E1).
      rewrite (EffFacts.mbind_ok _ _ _ _ _ E2). reflexivity. }
  eexists. split; [|split].
  - apply EffFacts.try_catch_ok.
    rewrite (EffFacts.mbind_ok _ _ p p event) by reflexivity.
    rewrite (EffFacts.mbind_ok _ _ _ _ _ E1).
    rewrite (EffFacts.mbind_ok _ _ _ _ _ E2).
    rewrite Hd. reflexivity.
  - simpl. congruence.
  - simpl. congruence.
Qed.

End DiscoveryFacts.

Module DiscoveryOutcome.
Import JS Eff Orchestrator Discovery OrchestratorSettings.

(** X28.  One broken settings file stops the orchestrator.  When the
    standard input holds JSON and one of the settings files exists but
    cannot be read or does not hold JSON, the handler ends in
    [process.exit(1)]: no command is run and nothing is printed on the
    standard output, whatever the other settings files define, whatever
    the event is and whatever the state of the tracer. *)
Theorem broken_settings_file_stops_the_orchestrator :
  forall RegExp fs settingsFiles pf input event p file,
    JSON.parse input = Some event ->
    In file settingsFiles ->
    Fs.existsSync fs file = true ->
    (forall content, Fs.readFileSync fs file = Ok content ->
                     JSON.parse content = None) ->
    exists pf' p',
      on_disk RegExp fs settingsFiles pf event = Some pf'
      /\ main pf' input p = (Ok Exit1, p')
      /\ executed p' = executed p
      /\ stdout p' = stdout p.
Proof.
  intros RegExp fs settingsFiles pf input event p file Hparse Hin Hex Hbroken.
  destruct (DiscoveryFacts.discover_broken RegExp fs
              (get_opt event "hook_event_name")
              (or_else (get_opt event "tool_name") (VStr "")) settingsFiles file
              Hin Hex Hbroken) as (f & e & Hd).
  unfold on_disk. rewrite Hd. cbn [outcome option_map].
  eexists. 
  destruct (DiscoveryFacts.main_invalid_settings
              (with_discovery pf (Orchestrator.InvalidSettings (f ++ ": " ++ e)))
              input event
              (f ++ ": " ++ e) p Hparse eq_refl) as (p' & Hmain & Hx & Ho).
  exists p'. split; [reflexivity|]. split; [exact Hmain|]. split; assumption.
Qed.

(** X29.  For an event other than PreToolUse and PostToolUse the matcher
    of an entry is not looked at: the commands extracted from a hook
    definition are the same for every tool name and every meaning of the
    patterns. *)
Theorem matcher_is_for_tool_events_only :
  forall RegExp1 RegExp2 eventName toolName1 toolName2 hookDef,
    is_tool_event eventName = false ->
    extractHookCommands RegExp1 eventName hookDef toolName1
    = extractHookCommands RegExp2 eventName hookDef toolName2.
Proof.
  intros R1 R2 eventName t1 t2 hookDef H.
  unfold extractHookCommands.
  destruct hookDef; try reflexivity;
    apply (DiscoveryFacts.entry_commands_other_event R1 R2 eventName t1 t2 H).
Qed.

End DiscoveryOutcome.

Module DiscoveryExamples.
Import JS Eff Orchestrator Discovery OrchestratorSettings Examples Examples3.

Lemma broken_settings_file_witness :
  exists pf' p',
    on_disk no_patterns broken_settings_disk settingsFiles two_hooks
      (VObj stop_event_fields) = Some pf'
    /\ main pf' stop_event new_orchestrator = (Ok Exit1, p')
    /\ executed p' = []
    /\ stdout p' = [].
Proof.
  apply (DiscoveryOutcome.broken_settings_file_stops_the_orchestrator
           no_patterns broken_settings_disk settingsFiles two_hooks stop_event
           (VObj stop_event_fields) new_orchestrator "/proj/.claude/settings.json").
  - vm_compute. reflexivity.
  - right. left. reflexivity.
  - reflexivity.
  - intros content H. vm_compute in H. injection H as <-. vm_compute. reflexivity.
Defined.

Lemma matcher_is_for_tool_events_only_witness :
  extractHookCommands no_patterns (VStr "Stop") stop_hooks (VStr "Read")
  = extractHookCommands (fun _ => Ok (fun _ => false)) (VStr "Stop") stop_hooks
      (VStr "")
  /\ extractHookCommands no_patterns (VStr "Stop") stop_hooks (VStr "Read")
     = Ok [VStr "notify"].
Proof.
  split.
  - apply (DiscoveryOutcome.matcher_is_for_tool_events_only
             no_patterns (fun _ => Ok (fun _ => false)) (VStr "Stop")
             (VStr "Read") (VStr "") stop_hooks).
    reflexivity.
  - reflexivity.
Defined.

End DiscoveryExamples.

(* ================================================================== *)
(** * The claims on the interceptors, the tracer and the report *)
(* ================================================================== *)

Module UsageClaim.
Import JS Eff Preload.

(** C3, as the code has it.  In an event stream the usage is merged so
    that a later value that is not null overrides the earlier one, for
    [input_tokens] as for every other field.  When a further [data: ]
    line carries a usage: (1) if that usage has an [input_tokens] that is
    neither null nor undefined, it becomes the [input_tokens] of the
    accumulated usage, whatever was observed before; (2) only if it has
    none, and a usage was already held, is the [input_tokens] observed
    before kept; (3) every other field of the later usage that is not null
    overrides the earlier value as well. *)
Theorem sse_input_tokens_follow_the_later_usage
        (lines : list string) (line : string) (data : value) :
  String.eqb (Str.substring_from 6 line) "[DONE]" = false ->
  JSON.parse (Str.substring_from 6 line) = Some data ->
  truthy (get_opt data "usage") = true ->
  let before := fst (fold_left sse_line lines (VNull, EmptyString)) in
  let after := fst (fold_left sse_line (lines ++ [line]) (VNull, EmptyString)) in
  (forall v, get_opt (get_opt data "usage") "input_tokens" = v ->
             nullish v = false ->
             get_opt (get_opt after "usage") "input_tokens" = v)
  /\ (nullish (get_opt (get_opt data "usage") "input_tokens") = true ->
      truthy before = true ->
      truthy (get_opt before "usage") = true ->
      get_opt (get_opt after "usage") "input_tokens"
      = get_opt (get_opt before "usage") "input_tokens")
  /\ (forall n k v, get_opt data "usage" = VObj n ->
                    NoDup (map fst n) ->
                    lookup n k = Some v ->
                    nullish v = false ->
                    get_opt (get_opt after "usage") k = v).
Proof. exact (UsageMerge.usage_after_a_later_line lines line data). Qed.

End UsageClaim.

Module UsageClaimExamples.
Import JS Eff Preload Examples Examples2 Examples4.

Lemma sse_input_tokens_witness :
  get_opt (get_opt (fst (fold_left sse_line [sse_start; sse_delta] (VNull, EmptyString)))
             "usage") "input_tokens"
  = num 7
  /\ get_opt (get_opt (fst (fold_left sse_line [sse_start; sse_delta]
                              (VNull, EmptyString)))
                "usage") "output_tokens"
     = num 50.
Proof.
  destruct (UsageClaim.sse_input_tokens_follow_the_later_usage
              [sse_start] sse_delta sse_delta_data eq_refl eq_refl eq_refl)
    as (Hin & _ & Hother).
  split.
  - exact (Hin (num 7) eq_refl eq_refl).
  - apply (Hother [("input_tokens", num 7); ("output_tokens", num 50)]
             "output_tokens" (num 50) eq_refl).
    + repeat constructor; simpl; intuition discriminate.
    + reflexivity.
    + reflexivity.
Defined.

(** C3 as stated fails: in a stream whose first event carries
    [input_tokens] 200 and whose later event carries [input_tokens] 7, the
    span of the request is exported with [ai.tokens.input] 7, not 200. *)
Lemma sse_later_input_tokens_replace_the_first :
  exists sp,
    fst sse_run = Ok sse_response
    /\ Otel.exported (otel (snd sse_run)) = [sp]
    /\ lookup (Otel.attributes sp) "ai.tokens.input" = Some (num 7)
    /\ lookup (Otel.attributes sp) "ai.tokens.input" <> Some (num 200).
Proof.
  eexists. split; [vm_compute; reflexivity|].
  split; [vm_compute; reflexivity|].
  split; [vm_compute; reflexivity|].
  vm_compute. discriminate.
Qed.

End UsageClaimExamples.

Module StatusClaim.
Import JS Eff Preload.

(** C6, as the code has it.  Every span that a call of the intercepted
    [fetch] hands to the exporter has status OK or ERROR.  It is OK if and
    only if it carries an attribute [http.status_code] whose value lies in
    [200, 300).  When the host gets the response, the attribute is the
    status of that response, so that the span is OK exactly for the
    statuses 200 to 299 and ERROR for the others.  When the call throws,
    because the original [fetch] failed or because recording the response
    threw after it had arrived, the span is ERROR and carries no
    [http.status_code], whatever the status of the response was. *)
Theorem api_span_is_ok_iff_it_recorded_a_2xx_status
        (url : string) (init : value) (network : result Response)
        (requestTimestamp responseTimestamp : Z) (iso_now : string)
        (w w' : World) (r : result Response) :
  intercepted_fetch url init network requestTimestamp
    responseTimestamp iso_now w = (r, w') ->
  exists new,
    Otel.exported (otel w') = (Otel.exported (otel w) ++ new)%list
    /\ forall sp, In sp new ->
         (Otel.status sp = Otel.OK \/ Otel.status sp = Otel.ERROR)
         /\ (Otel.status sp = Otel.OK <->
             exists c, lookup (Otel.attributes sp) "http.status_code" = Some (num c)
                       /\ 200 <= c < 300)
         /\ (forall response, r = Ok response ->
               lookup (Otel.attributes sp) "http.status_code"
               = Some (num (status response))
               /\ (Otel.status sp = Otel.OK <-> 200 <= status response < 300))
         /\ (forall e, r = Throw e ->
               Otel.status sp = Otel.ERROR
               /\ lookup (Otel.attributes sp) "http.status_code" = None).
Proof.
  intros Hrun.
  destruct (FetchStatus.api_span_status url init network requestTimestamp
              responseTimestamp iso_now w w' r Hrun) as (new & Hexp & Hall).
  exists new. split; [exact Hexp|].
  intros sp Hsp. destruct (Hall sp Hsp) as (H1 & H2 & H3 & H4).
  split; [exact H1|]. split; [exact H2|]. split; [|exact H4].
  intros response Hr. split; [exact (H3 response Hr)|].
  rewrite H2, (H3 response Hr). split.
  - intros (c & Hc & Hrange).
    assert (c = status response).
    { unfold num, inject_Z in Hc. injection Hc as Hc. congruence. }
    subst c. exact Hrange.
  - intros Hrange. exists (status response). split; [reflexivity | exact Hrange].
Qed.

End StatusClaim.

Module StatusClaimExamples.
Import JS Eff Preload Examples Examples2.

Lemma api_span_is_ok_witness :
  exists new,
    Otel.exported (otel (snd (request_run ok_response (host "" true))))
    = (Otel.exported (otel (host "" true)) ++ new)%list
    /\ forall sp, In sp new -> Otel.status sp = Otel.OK.
Proof.
  destruct (StatusClaim.api_span_is_ok_iff_it_recorded_a_2xx_status
              messages_url request_init (Ok ok_response)
              1000 1250 "2024-01-01T00:00:01.250Z" (host "" true)
              (snd (request_run ok_response (host "" true)))
              (fst (request_run ok_response (host "" true)))
              (surjective_pairing _))
    as (new & Hexp & Hall).
  exists new. split; [exact Hexp|].
  intros sp Hsp. destruct (Hall sp Hsp) as (_ & _ & Hok & _).
  assert (Hr : fst (request_run ok_response (host "" true)) = Ok ok_response)
    by (vm_compute; reflexivity).
  destruct (Hok ok_response Hr) as [_ Hiff].
  apply Hiff. split; [discriminate | reflexivity].
Defined.

(** C6 as stated fails: a request gets a response with status 200, the
    events log cannot be appended to, and the span of the request is
    exported with status ERROR. *)
Lemma api_span_is_error_after_a_200_response :
  exists sp,
    status ok_response = 200
    /\ Otel.exported (otel (snd (request_run ok_response read_only_host)))
       = (Otel.exported (otel read_only_host) ++ [sp])%list
    /\ Otel.status sp = Otel.ERROR
    /\ Otel.status sp <> Otel.OK.
Proof.
  eexists. split; [reflexivity|].
  split; [vm_compute; reflexivity|].
  split; [vm_compute; reflexivity|].
  vm_compute. discriminate.
Qed.

End StatusClaimExamples.

Module ReportClaim.
Import JS Eff PageSpec ReportSpec Report.

(** C8, as the code has it.  The page embeds the time at which it is
    generated, to the second.  After a run that wrote the page, a second
    run on the same unchanged trace, with the same title and the same
    template and bundle, at a reading of the clock that has the same date
    and time to the second, succeeds and writes the same text, byte for
    byte, provided the page is not written over the trace, the template or
    the bundle. *)
Theorem report_is_the_same_within_the_same_second
        (g : Generator) (otlpFile outputFile : string) (title : value)
        (iso1 iso2 : string) (env env1 : Env) :
  generateHTML g otlpFile outputFile title iso1 env = (Ok tt, env1) ->
  outputFile <> otlpFile ->
  outputFile <> templatePath g ->
  outputFile <> bundlePath g ->
  timestamp_of iso1 = timestamp_of iso2 ->
  exists env2 html,
    generateHTML g otlpFile outputFile title iso2 env1 = (Ok tt, env2)
    /\ Fs.find (Fs.files (fs env1)) outputFile = Some html
    /\ Fs.find (Fs.files (fs env2)) outputFile = Some html.
Proof.
  exact (ReportOutcome.second_run_writes_the_same_page
           g otlpFile outputFile title iso1 iso2 env env1).
Qed.

End ReportClaim.

Module ReportClaimExamples.
Import JS Eff PageSpec ReportSpec Report Examples Examples2 Examples4.

Lemma report_is_the_same_witness :
  exists env2 html,
    generateHTML generator "/logs/run-1/trace.otlp.jsonl" "/logs/run-1/report.html"
      (VStr "Session <s1>") "2024-01-01T00:00:00.987Z" (snd first_report)
    = (Ok tt, env2)
    /\ Fs.find (Fs.files (fs (snd first_report))) "/logs/run-1/report.html" = Some html
    /\ Fs.find (Fs.files (fs env2)) "/logs/run-1/report.html" = Some html.
Proof.
  apply (ReportClaim.report_is_the_same_within_the_same_second generator
           "/logs/run-1/trace.otlp.jsonl" "/logs/run-1/report.html"
           (VStr "Session <s1>") "2024-01-01T00:00:00.123Z" "2024-01-01T00:00:00.987Z"
           (mkEnv installed_disk []) (snd first_report)).
  - vm_compute. reflexivity.
  - discriminate.
  - discriminate.
  - discriminate.
  - reflexivity.
Defined.

(** C8 as stated fails: the report is generated twice from the same
    unchanged trace, template and bundle, the second time seven seconds
    after the first, and the two pages differ. *)
Lemma report_differs_seven_seconds_later :
  exists html1 html2,
    fst first_report = Ok tt
    /\ fst later_report = Ok tt
    /\ Fs.find (Fs.files (fs (snd first_report))) "/logs/run-1/trace.otlp.jsonl"
       = Fs.find (Fs.files (fs (snd later_report))) "/logs/run-1/trace.otlp.jsonl"
    /\ Fs.find (Fs.files (fs (snd first_report))) "/logs/run-1/report.html"
       = Some html1
    /\ Fs.find (Fs.files (fs (snd later_report))) "/logs/run-1/report.html"
       = Some html2
    /\ html1 <> html2.
Proof.
  eexists. eexists.
  split; [vm_compute; reflexivity|].
  split; [vm_compute; reflexivity|].
  split; [vm_compute; reflexivity|].
  split; [vm_compute; reflexivity|].
  split; [vm_compute; reflexivity|].
  apply String.eqb_neq. vm_compute. reflexivity.
Qed.

End ReportClaimExamples.

Module ExportClaim.
Import JS Eff Exporter.

(** C7, as the code has it.  [export] never fails: whatever the serializer
    of the SDK does and whatever the state of the disk, it passes SUCCESS
    to its callback.  When the batch cannot be serialized, or its text is
    not JSON, or the trace file cannot be appended to, one error is
    printed and no file changes: the whole batch is lost, no span of it
    is written.  Otherwise nothing is printed and exactly one line, the
    JSON text of the batch, is added at the end of the trace file, every
    other file staying as it was. *)
Theorem export_reports_success_and_writes_all_or_nothing
        (serializeRequest : list Otel.Span -> result string)
        (c : Config) (spans : list Otel.Span) (env : Env) :
  exists env',
    export serializeRequest c spans env = (Ok SUCCESS, env')
    /\ ((exists e, serializeRequest (map (stamp c) spans) = Throw e)
        \/ (exists text, serializeRequest (map (stamp c) spans) = Ok text
                         /\ JSON.parse text = None)
        \/ Fs.can_write (fs env) (outputPath c) = false ->
        fs env' = fs env /\ exists msg, stderr env' = (stderr env ++ [msg])%list)
    /\ (forall text json,
          serializeRequest (map (stamp c) spans) = Ok text ->
          JSON.parse text = Some json ->
          Fs.can_write (fs env) (outputPath c) = true ->
          stderr env' = stderr env
          /\ Fs.find (Fs.files (fs env')) (outputPath c)
             = Some ((match Fs.find (Fs.files (fs env)) (outputPath c) with
                      | Some old => old
                      | None => EmptyString
                      end) ++ JSON.stringify_text json ++ Str.nl)%string
          /\ forall p, p <> outputPath c ->
                       Fs.find (Fs.files (fs env')) p = Fs.find (Fs.files (fs env)) p).
Proof. exact (ExporterFacts.export_outcome serializeRequest c spans env). Qed.

End ExportClaim.

Module ExportClaimExamples.
Import JS Eff Exporter Examples Examples2 Examples4.

(** C7 as stated fails twice.  With a run directory that cannot be
    written, [export] reports SUCCESS, and nothing is written.  With a
    batch of two spans one of which cannot be serialized, nothing is
    written either: the span that could be serialized is lost with the
    other. *)
Lemma export_succeeds_on_a_locked_directory_and_drops_the_batch :
  (exists env',
      export picky_serializer exporter_config [plain_span 1 "api.request"] locked_run
      = (Ok SUCCESS, env')
      /\ Fs.can_write (fs locked_run) (outputPath exporter_config) = false
      /\ fs env' = fs locked_run)
  /\ (exists env',
         export picky_serializer exporter_config
           [plain_span 1 "api.request"; plain_span 2 "cyclic"] open_run
         = (Ok SUCCESS, env')
         /\ picky_serializer [plain_span 1 "api.request"] = Ok batch_line
         /\ Fs.find (Fs.files (fs env')) (outputPath exporter_config) = None).
Proof.
  split; eexists; (split; [vm_compute; reflexivity|]); split; reflexivity.
Qed.

End ExportClaimExamples.

Module CorrelationClaim.
Import JS Eff Preload CorrelatorSpec2.

(** C2, as the code has it.  The host writes to the standard input of a
    child that the interceptor watches a chunk that completes the JSON
    text of an object whose [hook_event_name] is PostToolUse and whose
    [session_id] is truthy; then the child ends, through the [close] or
    the [error] listener; the events log can be appended to and the tracer
    is initialised.  Then one span of the tool execution is exported.  The
    correlator reads the last 50 non-blank lines of the events log, lines
    of any kind, from the last to the first.  A line matches when it is the
    JSON text of an object whose [eventType] is [tool_use_request], whose
    [toolName] is strictly equal to the [tool_name] of the event and whose
    [toolInput] has the same [JSON.stringify] text as the [tool_input] of
    the event, keys in the order in which they are held.  (1) When a line
    among these matches and no later line does, its [toolUseId] is the
    [tool.use_id] of the span if it is truthy and of an attribute type,
    and the span has no [tool.use_id] otherwise.  (2) When the log is
    missing or cannot be read, or none of these lines matches, the span
    has no [tool.use_id]. *)
Theorem post_tool_use_is_matched_against_the_recent_log
        (h : Host) (id : nat) (c : Child) (k : Capture) (wc : WriteCall) (ev : props)
        (code : value) (message : string) (now : Z) (iso_now : string)
        (listener : Comp Host (option Otel.Span)) :
  find_child (children h) id = Some c ->
  capture c = Some k ->
  truthy (chunk wc) = true ->
  JSON.parse (Str.trim (cap_stdinData k ++ ToString (chunk wc))) = Some (VObj ev) ->
  strict_eq (prop_of ev "hook_event_name") (VStr "PostToolUse") = true ->
  truthy (prop_of ev "session_id") = true ->
  Fs.can_write (fs (world h)) (logFile (world h)) = true ->
  Otel.tracerInstance (otel (world h)) = true ->
  listener = on_close id code now iso_now
  \/ listener = on_error id message now iso_now ->
  let w := world h in
  let toolName := prop_of ev "tool_name" in
  let toolInput := prop_of ev "tool_input" in
  let ended := listener (snd (stdin_write id wc h)) in
  exists sp,
    fst ended = Ok (Some sp)
    /\ Otel.exported (otel (world (snd ended)))
       = (Otel.exported (otel w) ++ [sp])%list
    /\ (forall content older newer line found,
          Fs.find (Fs.files (fs w)) (logFile w) = Some content ->
          Fs.can_read (fs w) (logFile w) = true ->
          last_n 50 (log_lines content) = (older ++ line :: newer)%list ->
          request_line toolName toolInput line found ->
          (forall l id', In l newer -> ~ request_line toolName toolInput l id') ->
          (truthy found && Otel.isAttributeValue found = true ->
           lookup (Otel.attributes sp) "tool.use_id" = Some found)
          /\ (truthy found && Otel.isAttributeValue found = false ->
              lookup (Otel.attributes sp) "tool.use_id" = None))
    /\ (Fs.find (Fs.files (fs w)) (logFile w) = None
        \/ Fs.can_read (fs w) (logFile w) = false
        \/ (exists content,
               Fs.find (Fs.files (fs w)) (logFile w) = Some content
               /\ forall l id', In l (last_n 50 (log_lines content)) ->
                                ~ request_line toolName toolInput l id') ->
        lookup (Otel.attributes sp) "tool.use_id" = None).
Proof.
  intros Hfind Hcap Hchunk Hparse Hpost Hsid Hw Hinit Hlistener w toolName toolInput ended.
  destruct (HookCompletion.stdin_event_outcome h id c k wc ev code message now iso_now
              listener Hfind Hcap Hchunk Hparse Hpost Hw Hinit Hlistener)
    as [Hstored _].
  destruct (Hstored Hsid) as (execution & sp & E & _ & _ & _ & _ & Hexp & Hsome & Hnone).
  exists sp. split; [exact E|]. split; [exact Hexp|]. split.
  - intros content older newer line found Hcontent Hread Hlines Hline Hnewer.
    pose proof (Correlator.most_recent_request_found toolName toolInput
                  (logFile w) (fs w) content older newer line found
                  Hcontent Hread Hlines Hline Hnewer) as Hid.
    fold w toolName toolInput in Hsome, Hnone. rewrite Hid in Hsome, Hnone.
    split; assumption.
  - intros Hcases.
    pose proof (Correlator.null_when_no_recent_request toolName toolInput
                  (logFile w) (fs w) Hcases) as Hid.
    fold w toolName toolInput in Hnone. rewrite Hid in Hnone.
    apply Hnone. reflexivity.
Qed.

End CorrelationClaim.

Module CorrelationClaimExamples.
Import JS Eff Preload CorrelatorSpec2 Examples Examples2 Examples4.

Lemma post_tool_use_is_matched_witness :
  exists sp,
    fst (hook_closes log_two_requests read_a) = Ok (Some sp)
    /\ lookup (Otel.attributes sp) "tool.use_id" = Some (VStr "toolu_2").
Proof.
  destruct (find_child (children (watching log_two_requests)) 0%nat) as [c|] eqn:Hfind;
    [|vm_compute in Hfind; discriminate Hfind].
  destruct (capture c) as [k|] eqn:Hcap.
  2:{ vm_compute in Hfind. injection Hfind as <-. discriminate Hcap. }
  assert (Hk : cap_stdinData k = EmptyString).
  { vm_compute in Hfind. injection Hfind as <-. injection Hcap as <-. reflexivity. }
  destruct (CorrelationClaim.post_tool_use_is_matched_against_the_recent_log
              (watching log_two_requests) 0%nat c k
              (mkWrite (VStr (JSON.stringify_text (VObj (post_tool_use_for read_a))
                              ++ Str.nl)) VUndef None)
              (post_tool_use_for read_a)
              (num 0) EmptyString 1020 "2024-01-01T00:00:01.020Z"
              (on_close 0%nat (num 0) 1020 "2024-01-01T00:00:01.020Z")
              Hfind Hcap eq_refl)
    as (sp & E & _ & Hfound & _).
  - rewrite Hk. vm_compute. reflexivity.
  - reflexivity.
  - reflexivity.
  - reflexivity.
  - reflexivity.
  - left. reflexivity.
  - exists sp. split; [exact E|].
    apply (Hfound log_two_requests
             [request "toolu_1" "a.txt"; api_record] [request "toolu_3" "b.txt"]
             (request "toolu_2" "a.txt") (VStr "toolu_2")).
    + reflexivity.
    + reflexivity.
    + reflexivity.
    + eexists. split; [vm_compute; reflexivity|]. repeat split.
    + intros l id' [<-|[]] (o & Hp & _ & _ & Hin & _).
      vm_compute in Hp. injection Hp as <-. discriminate Hin.
    + reflexivity.
Defined.

(** C2 as stated fails twice.  The log holds one request of the tool Read
    with the input [{file, line}].  A PostToolUse event of the same tool
    whose input has the same keys with the same values, in the order
    [{line, file}], ends with a span that has no [tool.use_id], although
    the same event with the keys in the order of the log would be given
    the identifier of the request.  And a log whose only request is
    followed by fifty lines that are no requests gives no identifier to
    the event of that request, although the request is the most recent of
    all. *)
Lemma reordered_keys_and_old_requests_are_not_matched :
  (forall key, get_opt input_file_line key = get_opt input_line_file key)
  /\ findRecentToolUseId (VStr "Read") input_file_line "/out/events.jsonl"
       (disk two_key_log) = VStr "toolu_7"
  /\ (exists sp,
         fst (hook_closes two_key_log input_line_file) = Ok (Some sp)
         /\ Otel.exported (otel (world (snd (hook_closes two_key_log input_line_file))))
            = (Otel.exported (otel (host two_key_log true)) ++ [sp])%list
         /\ lookup (Otel.attributes sp) "tool.use_id" = None)
  /\ (exists sp,
         fst (hook_closes log_old_request read_a) = Ok (Some sp)
         /\ log_lines log_old_request
            = (request "toolu_1" "a.txt" :: repeat "{}" 50)%list
         /\ request_line (VStr "Read") read_a (request "toolu_1" "a.txt") (VStr "toolu_1")
         /\ lookup (Otel.attributes sp) "tool.use_id" = None).
Proof.
  split.
  { intros key. cbv [get_opt get lookup input_file_line input_line_file].
    destruct (String.eqb "file" key) eqn:E1, (String.eqb "line" key) eqn:E2;
      try reflexivity.
    apply String.eqb_eq in E1, E2. congruence. }
  split; [vm_compute; reflexivity|].
  split.
  - eexists. split; [vm_compute; reflexivity|].
    split; vm_compute; reflexivity.
  - eexists. split; [vm_compute; reflexivity|].
    split; [vm_compute; reflexivity|].
    split; [|vm_compute; reflexivity].
    eexists. split; [vm_compute; reflexivity|]. repeat split.
Qed.

End CorrelationClaimExamples.

Module TraceClaim.
Import JS Eff Otel.

(** C4, as the code has it.  In one process whose tracer is initialised
    and has its root span: (1) every span started through [startSpan] is
    a child of the root span of the process and carries its trace
    identifier, and so are the span of an API request and the span of a
    hook event, which are started through it; (2) the span of the
    execution of a command is a child of the span of its hook event and
    carries the trace identifier of the root span; (3) the span of a
    finished tool execution is started outside [startSpan] and without a
    parent: it is handed to the exporter with no parent and with a trace
    identifier drawn for it; (4) every process that initialises a tracer
    with an output directory that exists or can be created starts a root
    span of its own, without a parent and with a trace identifier drawn
    by that process. *)
Theorem spans_started_through_startSpan_share_the_trace_of_their_process
        (w : Preload.World) (root : Span) :
  tracerInstance (Preload.otel w) = true ->
  rootSpan (Preload.otel w) = Some root ->
  let st := Preload.otel w in
  (forall nm k attrs, exists sp st',
      startSpan nm k attrs st = (Ok sp, st')
      /\ traceId sp = traceId root
      /\ parentSpanId sp = Some (spanId root)
      /\ rootSpan st' = Some root)
  /\ (forall url method, exists sp st',
         startApiCallSpan url method st = (Ok sp, st')
         /\ traceId sp = traceId root
         /\ parentSpanId sp = Some (spanId root))
  /\ (forall eventName toolName command, exists ev st1 ex st2,
         startHookEventSpan eventName toolName st = (Ok ev, st1)
         /\ traceId ev = traceId root
         /\ parentSpanId ev = Some (spanId root)
         /\ startHookExecutionSpan command ev false st1 = (Ok ex, st2)
         /\ traceId ex = traceId root
         /\ parentSpanId ex = Some (spanId ev))
  /\ (forall e, exists sp w',
         Preload.createToolExecutionSpan e w = (Ok (Some sp), w')
         /\ exported (Preload.otel w') = (exported st ++ [sp])%list
         /\ parentSpanId sp = None
         /\ traceId sp = rand st (S (drawn st)))
  /\ (forall config st0,
         dir_ok st0 (outputDir config) = true ->
         exists root0 st1,
           initializeTracer config st0 = (Ok tt, st1)
           /\ rootSpan st1 = Some root0
           /\ parentSpanId root0 = None
           /\ traceId root0 = rand st0 (S (drawn st0))).
Proof.
  intros Hinit Hroot st.
  split.
  { intros nm k attrs.
    destruct (OtelFacts.startSpan_child_of_root st root Hinit Hroot nm k attrs)
      as (sp & st' & E & Ht & Hp & _ & _ & Hr & _).
    exists sp, st'. auto. }
  split.
  { intros url method. unfold startApiCallSpan.
    match goal with
    | |- context [startSpan ?n ?k ?a st] =>
        destruct (OtelFacts.startSpan_child_of_root st root Hinit Hroot n k a)
          as (sp & st' & E & Ht & Hp & _)
    end.
    exists sp, st'. auto. }
  split.
  { intros eventName toolName command. unfold startHookEventSpan.
    match goal with
    | |- context [startSpan ?n ?k ?a st] =>
        destruct (OtelFacts.startSpan_child_of_root st root Hinit Hroot n k a)
          as (ev & st1 & E & Ht & Hp & _ & _ & _ & Hinit1 & _)
    end.
    destruct (HookSpans.startHookExecutionSpan_run command ev st1 Hinit1)
      as (ex & st2 & E2 & Ht2 & Hp2 & _).
    exists ev, st1, ex, st2. repeat split; try assumption. congruence. }
  split.
  { intros e.
    destruct (ToolTrace.tool_span_ids e w Hinit) as (sp & w' & E & Hp & Ht & _).
    destruct (CorrelatorFacts.createToolExecutionSpan_spec e w Hinit)
      as (sp2 & w2 & E2 & Hexp & _).
    rewrite E in E2. injection E2 as <- <-.
    exists sp, w'. auto. }
  intros config st0 Hdir.
  destruct (OtelFacts.initializeTracer_spec config st0 Hdir)
    as (root0 & st1 & E & Hr & _ & Ht & _ & Hp & _).
  exists root0, st1. auto.
Qed.

End TraceClaim.

Module TraceClaimExamples.
Import JS Eff Preload Examples Examples2 Examples4.

Lemma spans_share_the_trace_witness :
  exists sp st',
    Otel.startApiCallSpan messages_url (VStr "POST") (otel (host "" true)) = (Ok sp, st')
    /\ option_map Otel.traceId (Otel.rootSpan (otel (host "" true)))
       = Some (Otel.traceId sp).
Proof.
  destruct (Otel.rootSpan (otel (host "" true))) as [root|] eqn:Hroot;
    [|discriminate Hroot].
  destruct (TraceClaim.spans_started_through_startSpan_share_the_trace_of_their_process
              (host "" true) root eq_refl Hroot)
    as (_ & Hapi & _).
  destruct (Hapi messages_url (VStr "POST")) as (sp & st' & E & Ht & _).
  exists sp, st'. split; [exact E|]. simpl. now rewrite Ht.
Defined.

(** C4 as stated fails twice.  In the host, whose root span has the trace
    identifier 101, the span of a finished tool execution is exported
    with the trace identifier 103 and no parent.  And the orchestrator of
    the same run, a process of its own, exports its spans under a root
    span of its own, with the trace identifier 501. *)
Lemma tool_span_and_orchestrator_spans_have_other_traces :
  option_map Otel.traceId (Otel.rootSpan (otel (host "" true))) = Some 101
  /\ (exists sp w',
         createToolExecutionSpan (read_execution (VStr "toolu_2")) (host "" true)
         = (Ok (Some sp), w')
         /\ Otel.exported (otel w') = [sp]
         /\ Otel.traceId sp = 103
         /\ Otel.parentSpanId sp = None)
  /\ (exists p',
         Orchestrator.main run_hooks stop_event second_process
         = (Ok (Orchestrator.Go tt), p')
         /\ Otel.outputDir host_config = Orchestrator.logs_dir run_hooks
         /\ VStr (Otel.runId host_config) = Orchestrator.env_RUN_ID run_hooks
         /\ option_map Otel.traceId (Otel.rootSpan (Orchestrator.tracer p')) = Some 501
         /\ map Otel.traceId (Otel.exported (Orchestrator.tracer p')) = [501; 501]).
Proof.
  split; [reflexivity|].
  split.
  - eexists. eexists. split; [vm_compute; reflexivity|].
    repeat split.
  - eexists. split; [vm_compute; reflexivity|].
    repeat split.
Qed.

End TraceClaimExamples.

Module InputFacts.
Import JS Eff PageSpec ReportSpec Report.

(** Writing the page when the output can be written *)
Lemma save_ok (outputFile html : string) (env : Env) :
  Fs.can_write (fs env) outputFile = true ->
  Fs.dir_exists (fs env) (Fs.dirname outputFile) = true
  \/ Fs.can_write (fs env) (Fs.dirname outputFile) = true ->
  exists env',
    mbind (if negb (Fs.dir_exists (fs env) (Fs.dirname outputFile))
           then on_fs (Fs.mkdirSync (Fs.dirname outputFile)) else ret tt)
          (fun _ => on_fs (Fs.writeFileSync outputFile html)) env = (Ok tt, env')
    /\ Fs.find (Fs.files (fs env')) outputFile = Some html
    /\ warnings env' = warnings env.
Proof.
  intros Hw Hdir. unfold mbind, on_fs, zoom, Fs.mkdirSync, Fs.writeFileSync, ret.
  destruct (Fs.dir_exists (fs env) (Fs.dirname outputFile)) eqn:Hd;
    cbv beta iota delta [negb].
  - rewrite Hw. eexists. split; [reflexivity|]. split; [|reflexivity].
    cbn. apply FsFacts.find_store_same.
  - destruct Hdir as [Hdir|Hdir]; [discriminate Hdir|].
    rewrite Hd, Hdir. cbn [fs Fs.can_write]. rewrite Hw.
    eexists. split; [reflexivity|]. split; [|reflexivity].
    cbn. apply FsFacts.find_store_same.
Qed.

(** The trace read from a JSONL file that is not blank *)
Lemma read_trace_jsonl (otlpFile content : string) (env : Env) :
  Fs.find (Fs.files (fs env)) otlpFile = Some content ->
  Fs.can_read (fs env) otlpFile = true ->
  Str.is_empty (Str.trim content) = false ->
  endsWith otlpFile ".jsonl" = true ->
  read_trace otlpFile env
  = (Ok (VObj [("resourceSpans", VArr (flat_map kept (jsonl_lines content)))]),
     mkEnv (fs env)
       (warnings env ++ flat_map warning_of_line (jsonl_lines content))%list).
Proof.
  intros Hfind Hread Hblank Hext.
  unfold read_trace, mbind, get_state, of_result, ret, Fs.existsSync, Fs.readFileSync.
  rewrite Hfind, Hread. cbv beta iota delta [negb]. rewrite Hblank, Hext.
  rewrite ReportFacts.read_lines_run. cbn [app].
  rewrite (flat_map_ext _ _ ReportInput.spans_of_line_kept). reflexivity.
Qed.

End InputFacts.

Module InputClaim.
Import JS Eff PageSpec ReportSpec Report.

(** C9, as the code has it.  The template and the bundle of the viewer
    can be loaded, the template holds the marker of the bundle exactly
    once, and the page can be written, in a directory that exists or can
    be created.  (1) When the OTLP file is missing, or can be read and
    holds only white space, [generateHTML] does not throw: it prints no
    warning and writes the page of the trace [{ resourceSpans: [] }].
    The generator puts no message about an empty trace into the page:
    what the page shows for it is left to the bundle of the viewer.
    (2) When the OTLP file is a [.jsonl] file that can be read and is not
    blank, [generateHTML] does not throw either: it writes the page of the
    trace whose resource spans are, in the order of the non-blank lines,
    those of the lines that are kept, and it prints one warning for each
    line that is skipped, which starts with [Skipping invalid JSONL
    line: ], and no other.  A line is skipped when it is not JSON, when it
    is the JSON [null], and when its [resourceSpans] is a number other
    than zero, [true] or an object. *)
Theorem empty_trace_gives_a_report_and_malformed_lines_are_skipped
        (g : Generator) (otlpFile outputFile : string) (title : value)
        (iso_now : string) (env : Env) (htmlTemplate jsBundle before after : string) :
  loadTemplateFiles g (fs env) = Ok (htmlTemplate, jsBundle) ->
  Str.split htmlTemplate bundle_marker = [before; after] ->
  Fs.can_write (fs env) outputFile = true ->
  Fs.dir_exists (fs env) (Fs.dirname outputFile) = true
  \/ Fs.can_write (fs env) (Fs.dirname outputFile) = true ->
  let runId := Fs.basename (Fs.dirname otlpFile) in
  let report traceData :=
    Str.replace_all
      (Str.replace_first (before ++ jsBundle ++ after) data_marker
         (prepareDataForInjection
            (VObj [("traceData", traceData);
                   ("parsedSpans", VNull);
                   ("timestamp", VStr (timestamp_of iso_now));
                   ("runId", VStr runId)])))
      title_marker
      (escapeHtml (ToString (or_else title (VStr ("Trace " ++ runId))))) in
  (Fs.find (Fs.files (fs env)) otlpFile = None
   \/ (exists content,
          Fs.find (Fs.files (fs env)) otlpFile = Some content
          /\ Fs.can_read (fs env) otlpFile = true
          /\ Str.is_empty (Str.trim content) = true) ->
   exists env',
     generateHTML g otlpFile outputFile title iso_now env = (Ok tt, env')
     /\ warnings env' = warnings env
     /\ Fs.find (Fs.files (fs env')) outputFile
        = Some (report (VObj [("resourceSpans", VArr [])])))
  /\ (forall content,
        Fs.find (Fs.files (fs env)) otlpFile = Some content ->
        Fs.can_read (fs env) otlpFile = true ->
        Str.is_empty (Str.trim content) = false ->
        endsWith otlpFile ".jsonl" = true ->
        exists env' new,
          generateHTML g otlpFile outputFile title iso_now env = (Ok tt, env')
          /\ warnings env' = (warnings env ++ new)%list
          /\ List.length new = List.length (filter skipped (jsonl_lines content))
          /\ (forall w, In w new ->
                exists e, w = ("Skipping invalid JSONL line: " ++ e)%string)
          /\ Fs.find (Fs.files (fs env')) outputFile
             = Some (report
                       (VObj [("resourceSpans",
                               VArr (flat_map kept (jsonl_lines content)))]))).
Proof.
  intros Hload Hsplit Hw Hdir runId report.
  assert (Hpage : forall td, page g (fs env) td otlpFile title iso_now = Ok (report td)).
  { intros td. unfold page. cbv zeta. rewrite Hload. cbn [bind fst snd].
    unfold fill_template. rewrite Hsplit. reflexivity. }
  split.
  - intros Hblank.
    pose proof (ReportInput.blank_trace_read otlpFile env Hblank) as Hread.
    rewrite (ReportFacts.env_eta env) in Hread at 2.
    rewrite (ReportRun.generateHTML_run g otlpFile outputFile title iso_now env
               (Ok empty_trace) [] Hread).
    unfold empty_trace. rewrite Hpage.
    destruct (InputFacts.save_ok outputFile
                (report (VObj [("resourceSpans", VArr [])]))
                (mkEnv (fs env) (warnings env ++ [])%list) Hw Hdir)
      as (env' & E & Hfind & Hwarn).
    exists env'. split; [exact E|]. split; [|exact Hfind].
    rewrite Hwarn. cbn [warnings]. apply app_nil_r.
  - intros content Hfind Hread Hnonblank Hext.
    pose proof (InputFacts.read_trace_jsonl otlpFile content env Hfind Hread
                  Hnonblank Hext) as Htrace.
    rewrite (ReportRun.generateHTML_run g otlpFile outputFile title iso_now env
               _ _ Htrace).
    rewrite Hpage.
    destruct (InputFacts.save_ok outputFile
                (report (VObj [("resourceSpans",
                                VArr (flat_map kept (jsonl_lines content)))]))
                (mkEnv (fs env)
                   (warnings env
                    ++ flat_map warning_of_line (jsonl_lines content))%list) Hw Hdir)
      as (env' & E & Hfound & Hwarn).
    exists env', (flat_map warning_of_line (jsonl_lines content)).
    split; [exact E|]. split; [exact Hwarn|]. split; [|split; [|exact Hfound]].
    + rewrite ReportFacts.warnings_count.
      rewrite (filter_ext _ _ ReportInput.malformed_skipped). reflexivity.
    + apply ReportInput.warnings_text.
Qed.

End InputClaim.

Module InputClaimExamples.
Import JS Eff PageSpec ReportSpec Report Examples Examples2 Examples4.

Lemma empty_trace_gives_a_report_witness :
  exists env' html,
    report_without_trace disk_without_trace = (Ok tt, env')
    /\ warnings env' = []
    /\ Fs.find (Fs.files (fs env')) "/logs/run-2/report.html" = Some html.
Proof.
  destruct (InputClaim.empty_trace_gives_a_report_and_malformed_lines_are_skipped
              generator "/logs/run-2/trace.otlp.jsonl" "/logs/run-2/report.html"
              VUndef "2024-01-01T00:00:00.123Z" (mkEnv disk_without_trace [])
              small_template "console.log(1)"
              ("<html><title>__OTLP_TITLE_REPLACEMENT__</title>"
               ++ "<script>window.otlpData = __OTLP_DATA_REPLACEMENT__;</script>"
               ++ "<script>")
              "</script></html>")
    as [Hempty _].
  - vm_compute. reflexivity.
  - vm_compute. reflexivity.
  - reflexivity.
  - left. vm_compute. reflexivity.
  - destruct Hempty as (env' & E & Hwarn & Hfind).
    + left. reflexivity.
    + exists env'. eexists. split; [exact E|]. split; [exact Hwarn|]. exact Hfind.
Defined.

(** C9 as stated fails: with a missing OTLP file and without the bundle
    of the viewer, the generator throws and writes no page. *)
Lemma missing_trace_without_the_bundle_is_an_error :
  Fs.find (Fs.files bare_disk) "/logs/run-2/trace.otlp.jsonl" = None
  /\ exists e env',
       report_without_trace bare_disk = (Throw e, env')
       /\ Fs.find (Fs.files (fs env')) "/logs/run-2/report.html" = None.
Proof.
  split; [reflexivity|].
  eexists. eexists. split; vm_compute; reflexivity.
Qed.

End InputClaimExamples.

Module SpawnClaim.
Import JS Eff Preload Examples Examples2.

(** C10 on the code.  The host calls the intercepted spawn as
    [spawn("ls", { cwd: "/tmp" })], with the options in the place of the
    arguments, a form of call that the spawn of the platform accepts: the
    original spawn starts the child number 0 for this very call.  The
    intercepted spawn throws the TypeError of [args.some] instead, before
    it calls the original spawn: no child is started and the host is left
    as it was. *)
Theorem spawn_with_options_for_arguments_throws_before_the_original_spawn :
  fst (originalSpawn (VStr "ls") (VObj [("cwd", VStr "/tmp")]) VUndef spawning_host)
  = Ok 0%nat
  /\ interceptedSpawn (VStr "ls") (VObj [("cwd", VStr "/tmp")]) VUndef
       1000 "2024-01-01T00:00:01.000Z" spawning_host
     = (Throw "TypeError: args.some is not a function", spawning_host)
  /\ children spawning_host = [].
Proof.
  split; [vm_compute; reflexivity|].
  split; [|reflexivity].
  unfold interceptedSpawn. cbv zeta.
  rewrite (EffFacts.mbind_ok _ _ spawning_host spawning_host spawning_host)
    by reflexivity.
  rewrite (EffFacts.mbind_ok _ _ spawning_host spawning_host VUndef) by reflexivity.
  now rewrite (EffFacts.mbind_throw _ _ spawning_host spawning_host
                 "TypeError: args.some is not a function") by reflexivity.
Qed.

End SpawnClaim.
